(** * bim: the editing engine of apps/bim.c, embedded and verified

    The development follows the C source function by function.  C [int]
    values are integers of [Z]; the three bit-fields of a cell are stored
    with their wrap-around written out.  Every function that can touch
    memory outside an allocation, dereference a null line pointer, or loop
    for ever on a lexer that keeps returning 0 lives in the [option] monad:
    [None] is such a run.

    What is kept of the program state: the cells, the lines, the line
    vector with its capacity, the cursor, the mode, the journal, the
    modified flag, the search term and the lexer handle.  Terminal output,
    the viewport ([offset], [coffset], [width], [left]), [is_current]
    and the two overlay bits that the renderer-side
    passes repaint ([FLAG_SELECT], [FLAG_SEARCH]) are display state; every
    reader of [flags] outside the renderer masks with [0xF]. *)

From stdpp Require Import base option list numbers.

Local Open Scope Z_scope.

(** ** Cells: [char_t] *)

Record char_t := Char {
  display_width : Z;   (* uint32_t display_width:4 *)
  flags : Z;           (* uint32_t flags:7 *)
  codepoint : Z        (* uint32_t codepoint:21 *)
}.

(** Storing into a bit-field keeps the low bits. *)
Definition wrap4 (v : Z) : Z := Z.land v 15.
Definition wrap7 (v : Z) : Z := Z.land v 127.
Definition wrap21 (v : Z) : Z := Z.land v 2097151.

(** [char_t c = {w, f, cp}] *)
Definition mk_char (w f cp : Z) : char_t :=
  Char (wrap4 w) (wrap7 f) (wrap21 cp).

Definition set_display_width (c : char_t) (w : Z) : char_t :=
  Char (wrap4 w) (flags c) (codepoint c).

Definition set_flags (c : char_t) (f : Z) : char_t :=
  Char (display_width c) (wrap7 f) (codepoint c).

Definition FLAG_NONE : Z := 0.
Definition FLAG_KEYWORD : Z := 1.
Definition FLAG_TYPE : Z := 4.
Definition FLAG_DIFFPLUS : Z := 8.
Definition FLAG_DIFFMINUS : Z := 9.

(** ** Lines: [line_t]

    [text] holds the live cells, so [actual] is their number; the cells of
    the allocation past [actual] are dead storage. *)

Record line_t := Line {
  available : Z;
  istate : Z;
  rev_status : Z;
  text : list char_t
}.

Definition actual (l : line_t) : Z := Z.of_nat (length (text l)).

Definition set_available (l : line_t) (v : Z) : line_t :=
  Line v (istate l) (rev_status l) (text l).
Definition set_istate (l : line_t) (v : Z) : line_t :=
  Line (available l) v (rev_status l) (text l).
Definition set_rev_status (l : line_t) (v : Z) : line_t :=
  Line (available l) (istate l) v (text l).
Definition set_text (l : line_t) (t : list char_t) : line_t :=
  Line (available l) (istate l) (rev_status l) t.

(** [calloc(sizeof(line_t) + sizeof(char_t) * n, 1)] with [available = n] *)
Definition calloc_line (n : Z) : line_t := Line n 0 0 [].

(** The codepoints of a line: its text content. *)
Definition line_content (l : line_t) : list Z := codepoint <$> text l.

(** ** Arrays with an allocation size

    An array of [n] elements is a list of length [n]; an access outside
    it is a fault. *)

Definition load {A} (arr : list A) (i : Z) : option A :=
  if bool_decide (0 <= i) then arr !! Z.to_nat i else None.

Definition store {A} (arr : list A) (i : Z) (x : A) : option (list A) :=
  if bool_decide (0 <= i < Z.of_nat (length arr))
  then Some (<[Z.to_nat i := x]> arr) else None.

(** [memmove(&arr[dst], &arr[src], n * sizeof arr[0])]; a negative [n]
    converts to a huge [size_t]. *)
Definition memmove {A} (arr : list A) (dst src n : Z) : option (list A) :=
  if bool_decide (0 <= n /\ 0 <= src /\ 0 <= dst /\
                  src + n <= Z.of_nat (length arr) /\
                  dst + n <= Z.of_nat (length arr))
  then Some (take (Z.to_nat dst) arr
             ++ take (Z.to_nat n) (drop (Z.to_nat src) arr)
             ++ drop (Z.to_nat (dst + n)) arr)
  else None.

(** [free(arr[i])]: the slot keeps a pointer that can no longer be
    followed; like [NULL], it holds no line. *)
Definition free_slot {A} (arr : list (option A)) (i : Z)
  : option (list (option A)) :=
  store arr i None.

(** [realloc] of a pointer vector to [n] elements; the new slots hold no
    line. *)
Definition realloc {A} (arr : list (option A)) (n : Z) : list (option A) :=
  take (Z.to_nat n) arr ++ replicate (Z.to_nat n - length arr) None.

(** ** The journal: [history_t] *)

Inductive history_t :=
| HISTORY_SENTINEL
| HISTORY_INSERT (lineno offset cp : Z)
| HISTORY_DELETE (lineno offset old_cp : Z)
| HISTORY_REPLACE (lineno offset cp old_cp : Z)
| HISTORY_REMOVE_LINE (lineno : Z) (old_contents : line_t)
| HISTORY_ADD_LINE (lineno : Z)
| HISTORY_REPLACE_LINE (lineno : Z) (contents old_contents : line_t)
| HISTORY_MERGE_LINES (lineno split : Z)
| HISTORY_SPLIT_LINE (lineno split : Z)
| HISTORY_BREAK.

Definition is_break (h : history_t) : bool :=
  match h with HISTORY_BREAK => true | _ => false end.
Definition is_sentinel (h : history_t) : bool :=
  match h with HISTORY_SENTINEL => true | _ => false end.

(** ** Lexers: [struct syntax_state], [struct syntax_definition] *)

Record syntax_state := SyntaxState {
  ss_line : line_t;
  ss_line_no : Z;
  ss_state : Z;
  ss_i : Z
}.

(** [calculate] receives a pointer to the state: it returns its [int] and
    the state it leaves behind. *)
Record syntax_definition := SyntaxDef {
  calculate : syntax_state -> Z * syntax_state;
  prefers_spaces : bool
}.

(** ** Buffers: [buffer_t], and the global configuration *)

Definition MODE_NORMAL : Z := 0.
Definition MODE_INSERT : Z := 1.
Definition MODE_LINE_SELECTION : Z := 2.
Definition MODE_REPLACE : Z := 3.
Definition MODE_CHAR_SELECTION : Z := 4.
Definition MODE_COL_SELECTION : Z := 5.
Definition MODE_COL_INSERT : Z := 6.

(** The journal is the chain of records: [hist_past] starts at
    [env->history] and follows [previous] down to the sentinel,
    [hist_next] follows [env->history->next].  A record is paired with the
    address [malloc] gave it; [next_addr] is the next address handed out
    (addresses are not reused in the model). *)
Record buffer_t := Buffer {
  loading : bool;
  modified : bool;
  readonly : bool;
  mode : Z;
  tabstop : Z;
  line_no : Z;
  line_count : Z;
  line_avail : Z;
  col_no : Z;
  preferred_column : Z;
  search : option (list Z);
  syntax : option syntax_definition;
  lines : list (option line_t);
  hist_past : list (Z * history_t);
  hist_next : list (Z * history_t);
  last_save_history : Z;
  next_addr : Z
}.

Record global_config_t := GlobalConfig {
  history_enabled : bool;
  smart_case_opt : bool;
  can_unicode : bool
}.

Definition set_loading (e : buffer_t) (v : bool) : buffer_t :=
  Buffer v (modified e) (readonly e) (mode e) (tabstop e) (line_no e)
    (line_count e) (line_avail e) (col_no e) (preferred_column e) (search e)
    (syntax e) (lines e) (hist_past e) (hist_next e) (last_save_history e)
    (next_addr e).
Definition set_modified_flag (e : buffer_t) (v : bool) : buffer_t :=
  Buffer (loading e) v (readonly e) (mode e) (tabstop e) (line_no e)
    (line_count e) (line_avail e) (col_no e) (preferred_column e) (search e)
    (syntax e) (lines e) (hist_past e) (hist_next e) (last_save_history e)
    (next_addr e).
Definition set_mode (e : buffer_t) (v : Z) : buffer_t :=
  Buffer (loading e) (modified e) (readonly e) v (tabstop e) (line_no e)
    (line_count e) (line_avail e) (col_no e) (preferred_column e) (search e)
    (syntax e) (lines e) (hist_past e) (hist_next e) (last_save_history e)
    (next_addr e).
Definition set_line_no (e : buffer_t) (v : Z) : buffer_t :=
  Buffer (loading e) (modified e) (readonly e) (mode e) (tabstop e) v
    (line_count e) (line_avail e) (col_no e) (preferred_column e) (search e)
    (syntax e) (lines e) (hist_past e) (hist_next e) (last_save_history e)
    (next_addr e).
Definition set_line_count (e : buffer_t) (v : Z) : buffer_t :=
  Buffer (loading e) (modified e) (readonly e) (mode e) (tabstop e)
    (line_no e) v (line_avail e) (col_no e) (preferred_column e) (search e)
    (syntax e) (lines e) (hist_past e) (hist_next e) (last_save_history e)
    (next_addr e).
Definition set_line_avail (e : buffer_t) (v : Z) : buffer_t :=
  Buffer (loading e) (modified e) (readonly e) (mode e) (tabstop e)
    (line_no e) (line_count e) v (col_no e) (preferred_column e) (search e)
    (syntax e) (lines e) (hist_past e) (hist_next e) (last_save_history e)
    (next_addr e).
Definition set_col_no (e : buffer_t) (v : Z) : buffer_t :=
  Buffer (loading e) (modified e) (readonly e) (mode e) (tabstop e)
    (line_no e) (line_count e) (line_avail e) v (preferred_column e) (search e)
    (syntax e) (lines e) (hist_past e) (hist_next e) (last_save_history e)
    (next_addr e).
Definition set_preferred_column_field (e : buffer_t) (v : Z) : buffer_t :=
  Buffer (loading e) (modified e) (readonly e) (mode e) (tabstop e)
    (line_no e) (line_count e) (line_avail e) (col_no e) v (search e)
    (syntax e) (lines e) (hist_past e) (hist_next e) (last_save_history e)
    (next_addr e).
Definition set_lines (e : buffer_t) (v : list (option line_t)) : buffer_t :=
  Buffer (loading e) (modified e) (readonly e) (mode e) (tabstop e)
    (line_no e) (line_count e) (line_avail e) (col_no e) (preferred_column e)
    (search e) (syntax e) v (hist_past e) (hist_next e)
    (last_save_history e) (next_addr e).
Definition set_history (e : buffer_t) (p n : list (Z * history_t))
  : buffer_t :=
  Buffer (loading e) (modified e) (readonly e) (mode e) (tabstop e)
    (line_no e) (line_count e) (line_avail e) (col_no e) (preferred_column e)
    (search e) (syntax e) (lines e) p n (last_save_history e) (next_addr e).
Definition set_last_save_history (e : buffer_t) (v : Z) : buffer_t :=
  Buffer (loading e) (modified e) (readonly e) (mode e) (tabstop e)
    (line_no e) (line_count e) (line_avail e) (col_no e) (preferred_column e)
    (search e) (syntax e) (lines e) (hist_past e) (hist_next e) v
    (next_addr e).
Definition set_next_addr (e : buffer_t) (v : Z) : buffer_t :=
  Buffer (loading e) (modified e) (readonly e) (mode e) (tabstop e)
    (line_no e) (line_count e) (line_avail e) (col_no e) (preferred_column e)
    (search e) (syntax e) (lines e) (hist_past e) (hist_next e)
    (last_save_history e) v.

(** [env->lines[i]] dereferenced: the slot must be inside the vector and
    hold a line. *)
Definition line_at (e : buffer_t) (i : Z) : option line_t :=
  load (lines e) i ≫= id.

(** Write [l] back through the pointer [env->lines[i]]. *)
Definition put_line (e : buffer_t) (i : Z) (l : line_t) : option buffer_t :=
  set_lines e <$> store (lines e) i (Some l).

(** The address held by [env->history]. *)
Definition history_addr (e : buffer_t) : option Z :=
  fst <$> head (hist_past e).

(** The text of the buffer: the codepoints of its [line_count] lines. *)
Definition live_lines (e : buffer_t) : list (option line_t) :=
  take (Z.to_nat (line_count e)) (lines e).

Definition buffer_text (e : buffer_t) : list (option (list Z)) :=
  fmap (M:=list) (fmap (M:=option) line_content) (live_lines e).

(** ** What surrounds the buffer

    The global configuration (no function embedded here writes it), the
    two libc functions the engine calls, the number of times the model
    follows a lexer that returns 0 before it reports the loop of
    [recalculate_syntax] as endless, and the contents of the memory next
    to the live cells of a line. *)

Class Host := {
  global_config : global_config_t;
  wcwidth : Z -> Z;
  tolower : Z -> Z;
  lex_fuel : nat;
  (* what memory holds at [text[k]] of line [i] outside its live cells *)
  dead_cell : Z -> Z -> char_t
}.

(** ** [codepoint_width] *)

Definition codepoint_width `{Host} (cp : Z) : Z :=
  if bool_decide (cp = 9) then 1
  else if bool_decide (cp < 32) then 2
  else if bool_decide (cp = 127) then 2
  else if bool_decide (127 < cp /\ cp < 160) then 4
  else if bool_decide (cp = 160) then 1
  else if bool_decide (256 < cp) then
    if can_unicode global_config && bool_decide (1 <= wcwidth cp)
    then wcwidth cp
    else if bool_decide (cp < 65536) then 8 else 10
  else 1.

(** ** [recalculate_tabs]

    [j % env->tabstop] traps when [tabstop] is 0. *)

Fixpoint recalculate_tabs_loop (ts j : Z) (cells : list char_t)
  : option (list char_t) :=
  match cells with
  | [] => Some []
  | c :: rest =>
    c' ← (if bool_decide (codepoint c = 9)
          then if bool_decide (ts = 0) then None
               else Some (set_display_width c (ts - Z.rem j ts))
          else Some c);
    rest' ← recalculate_tabs_loop ts (j + display_width c') rest;
    Some (c' :: rest')
  end.

Definition recalculate_tabs (e : buffer_t) (l : line_t) : option line_t :=
  if loading e then Some l
  else set_text l <$> recalculate_tabs_loop (tabstop e) 0 (text l).

(** ** [recalculate_syntax]

    At every call site [line] is [lines[line_no]], so the function takes
    the line from its slot.  [depth] bounds the cascade by the number of
    lines below [line_no]. *)

Definition clear_flags (l : line_t) : line_t :=
  set_text l ((λ c, set_flags c 0) <$> text l).

Fixpoint syntax_loop (n : nat) (sd : syntax_definition) (st : syntax_state)
  : option syntax_state :=
  match n with
  | O => None
  | S n' =>
    let '(r, st1) := calculate sd st in
    let st2 := SyntaxState (ss_line st1) (ss_line_no st1) r (ss_i st1) in
    if bool_decide (r ≠ 0) then Some st2 else syntax_loop n' sd st2
  end.

Fixpoint recalculate_syntax_aux `{Host} (depth : nat) (e : buffer_t)
  (line_no : Z) : option buffer_t :=
  line ← line_at e line_no;
  let line := clear_flags line in
  match syntax e with
  | None => put_line e line_no line
  | Some sd =>
    st ← syntax_loop lex_fuel sd (SyntaxState line line_no (istate line) 0);
    e ← put_line e line_no (ss_line st);
    if bool_decide (line_no + 1 < line_count e) then
      next ← line_at e (line_no + 1);
      if bool_decide (istate next ≠ ss_state st) then
        e ← put_line e (line_no + 1) (set_istate next (ss_state st));
        if loading e then Some e
        else match depth with
             | O => None
             | S d => recalculate_syntax_aux d e (line_no + 1)
             end
      else Some e
    else Some e
  end.

Definition recalculate_syntax `{Host} (e : buffer_t) (line_no : Z)
  : option buffer_t :=
  recalculate_syntax_aux (Z.to_nat (line_count e - line_no)) e line_no.

(** ** Appending to the journal: [HIST_APPEND], [set_history_break] *)

Definition HIST_APPEND (e : buffer_t) (r : history_t) : buffer_t :=
  set_next_addr (set_history e ((next_addr e, r) :: hist_past e) [])
    (next_addr e + 1).

(** The guard every editing primitive puts before its [HIST_APPEND]:
    [if (!env->loading && global_config.history_enabled)]. *)
Definition hist_record `{Host} (e : buffer_t) (r : history_t) : buffer_t :=
  if negb (loading e) && history_enabled global_config
  then HIST_APPEND e r else e.

Definition set_history_break `{Host} (e : buffer_t) : option buffer_t :=
  if negb (history_enabled global_config) then Some e
  else
    '(_, h) ← head (hist_past e);
    if negb (is_break h) && negb (is_sentinel h)
    then Some (HIST_APPEND e HISTORY_BREAK) else Some e.

(** ** Editing a line: [line_insert], [line_delete], [line_replace]

    The line is [env->lines[lineno]]; the pointer the C function returns
    is stored back by every caller, and the model writes the slot.  An
    [offset] outside the live cells would make dead storage part of the
    line: the model reports it as a fault. *)

Definition grow_once (a : Z) : Z := if bool_decide (a = 0) then 8 else a * 2.

Definition line_insert `{Host} (e : buffer_t) (c : char_t) (offset lineno : Z)
  : option buffer_t :=
  line ← line_at e lineno;
  let e := hist_record e (HISTORY_INSERT lineno offset (codepoint c)) in
  let line := if bool_decide (actual line = available line)
              then set_available line (grow_once (available line))
              else line in
  guard (0 <= offset <= actual line);;
  let line := set_text line (take (Z.to_nat offset) (text line)
                             ++ c :: drop (Z.to_nat offset) (text line)) in
  if loading e then put_line e lineno line
  else
    line ← recalculate_tabs e (set_rev_status line 2);
    e ← put_line e lineno line;
    recalculate_syntax e lineno.

Definition line_delete `{Host} (e : buffer_t) (offset lineno : Z)
  : option buffer_t :=
  if bool_decide (offset = 0) then Some e
  else
    line ← line_at e lineno;
    guard (1 <= offset <= actual line);;
    old ← text line !! Z.to_nat (offset - 1);
    let e := hist_record e (HISTORY_DELETE lineno offset (codepoint old)) in
    let line := set_text line (take (Z.to_nat (offset - 1)) (text line)
                               ++ drop (Z.to_nat offset) (text line)) in
    line ← recalculate_tabs e (set_rev_status line 2);
    e ← put_line e lineno line;
    recalculate_syntax e lineno.

Definition line_replace `{Host} (e : buffer_t) (c : char_t) (offset lineno : Z)
  : option buffer_t :=
  line ← line_at e lineno;
  guard (0 <= offset < actual line);;
  old ← text line !! Z.to_nat offset;
  let e := hist_record e
             (HISTORY_REPLACE lineno offset (codepoint c) (codepoint old)) in
  let line := set_text line (<[Z.to_nat offset := c]> (text line)) in
  if loading e then put_line e lineno line
  else
    line ← recalculate_tabs e (set_rev_status line 2);
    e ← put_line e lineno line;
    recalculate_syntax e lineno.

(** ** Editing the line vector

    [lines] is [env->lines] at every call, and every caller stores the
    returned pointer back, so the functions work on the vector of [e]. *)

(** [while (l->actual > 0) line_delete(l, l->actual, lineno);] *)
Fixpoint clear_line `{Host} (n : nat) (e : buffer_t) (lineno : Z)
  : option buffer_t :=
  line ← line_at e lineno;
  if bool_decide (actual line > 0) then
    match n with
    | O => None
    | S n' => e ← line_delete e (actual line) lineno; clear_line n' e lineno
    end
  else Some e.

Definition remove_line `{Host} (e : buffer_t) (offset : Z) : option buffer_t :=
  if bool_decide (line_count e = 1) then
    line ← line_at e offset;
    clear_line (length (text line)) e offset
  else
    e ← (if negb (loading e) && history_enabled global_config
         then line ← line_at e offset;
              Some (HIST_APPEND e (HISTORY_REMOVE_LINE offset line))
         else Some e);
    ls ← free_slot (lines e) offset;
    ls ← (if bool_decide (offset < line_count e - 1) then
            ls ← memmove ls offset (offset + 1) (line_count e - (offset - 1));
            store ls (line_count e - 1) None
          else Some ls);
    Some (set_line_count (set_lines e ls) (line_count e - 1)).

(** The opening of [add_line] and of [split_line]: when [line_count]
    has reached [line_avail], [line_avail] doubles and the vector is
    reallocated to the new size. *)
Definition grow_lines (e : buffer_t) : buffer_t :=
  if bool_decide (line_count e = line_avail e)
  then set_lines (set_line_avail e (line_avail e * 2))
         (realloc (lines e) (line_avail e * 2))
  else e.

Definition add_line `{Host} (e : buffer_t) (offset : Z) : option buffer_t :=
  if bool_decide (offset > line_count e) then Some e
  else
    let e := grow_lines (hist_record e (HISTORY_ADD_LINE offset)) in
    ls ← (if bool_decide (offset < line_count e)
          then memmove (lines e) (offset + 1) offset (line_count e - offset)
          else Some (lines e));
    ls ← store ls offset (Some (calloc_line 32));
    let e := set_line_count (set_lines e ls) (line_count e + 1) in
    e ← (if loading e then Some e
         else l ← line_at e offset; put_line e offset (set_rev_status l 2));
    if bool_decide (offset > 0) && negb (loading e)
    then recalculate_syntax e (offset - 1)
    else Some e.

Definition replace_line `{Host} (e : buffer_t) (offset : Z)
  (replacement : line_t) : option buffer_t :=
  line ← line_at e offset;
  let e := hist_record e (HISTORY_REPLACE_LINE offset replacement line) in
  let line := if bool_decide (available line < actual replacement)
              then set_available line (available replacement) else line in
  let line := set_text line (text replacement) in
  if loading e then put_line e offset line
  else
    e ← put_line e offset (set_rev_status line 2);
    recalculate_syntax e offset.

(** [while (a->available < need) { grow }] *)
Fixpoint grow_available (n : nat) (avail need : Z) : option Z :=
  if bool_decide (avail < need) then
    match n with
    | O => None
    | S n' => grow_available n' (grow_once avail) need
    end
  else Some avail.

Definition merge_lines `{Host} (e : buffer_t) (lineb : Z) : option buffer_t :=
  let linea := lineb - 1 in
  la ← line_at e linea;
  lb ← line_at e lineb;
  let e := hist_record e (HISTORY_MERGE_LINES lineb (actual la)) in
  av ← grow_available (Z.to_nat (actual la + actual lb)) (available la)
         (actual la + actual lb);
  let la := set_text (set_available la av) (text la ++ text lb) in
  e ← (if loading e then put_line e linea la
       else la ← recalculate_tabs e (set_rev_status la 2);
            e ← put_line e linea la;
            recalculate_syntax e linea);
  ls ← free_slot (lines e) lineb;
  ls ← (if bool_decide (lineb < line_count e) then
          ls ← memmove ls lineb (lineb + 1) (line_count e - (lineb - 1));
          store ls (line_count e - 1) None
        else Some ls);
  Some (set_line_count (set_lines e ls) (line_count e - 1)).

(** The size [split_line] gives the new line: [remaining] rounded up to a
    power of two. *)
Definition round_up_pow2 (remaining : Z) : Z :=
  let v := remaining - 1 in
  let v := Z.lor v (Z.shiftr v 1) in
  let v := Z.lor v (Z.shiftr v 2) in
  let v := Z.lor v (Z.shiftr v 4) in
  let v := Z.lor v (Z.shiftr v 8) in
  let v := Z.lor v (Z.shiftr v 16) in
  v + 1.

(** When [split_line] has to grow the vector it works on the new block,
    but [env->lines] keeps naming the block [realloc] released until the
    caller stores the result: the cascade of [recalculate_syntax], which
    reads [env->lines[line_no+1]], then goes through a dangling pointer.
    The run is a fault from the start, and the model reports it before
    it moves the slots. *)
Definition split_line `{Host} (e : buffer_t) (line split : Z)
  : option buffer_t :=
  if bool_decide (split = 0) then add_line e line
  else
    l ← line_at e line;
    let e := hist_record e (HISTORY_SPLIT_LINE line split) in
    let grown := bool_decide (line_count e = line_avail e) in
    let e := grow_lines e in
    ls ← (if bool_decide (line < line_count e)
          then memmove (lines e) (line + 2) (line + 1) (line_count e - line)
          else Some (lines e));
    let remaining := actual l - split in
    guard (0 <= split /\ 0 <= remaining);;
    guard (loading e = true \/
           ¬ (grown = true /\ is_Some (syntax e) /\ line + 1 < line_count e));;
    let l2 := Line (round_up_pow2 remaining) 0 0
                (drop (Z.to_nat split) (text l)) in
    ls ← store ls (line + 1) (Some l2);
    let e := set_lines e ls in
    e ← put_line e line (set_text l (take (Z.to_nat split) (text l)));
    e ← (if loading e then Some e
         else
           l1 ← line_at e line;
           l1 ← recalculate_tabs e (set_rev_status l1 2);
           e ← put_line e line l1;
           l2 ← line_at e (line + 1);
           l2 ← recalculate_tabs e (set_rev_status l2 2);
           e ← put_line e (line + 1) l2;
           e ← recalculate_syntax e line;
           recalculate_syntax e (line + 1));
    Some (set_line_count e (line_count e + 1)).

(** ** Reading a cell: [line->text[k]]

    Inside the live cells this is the cell.  [text[-1]] is the last word
    of the line header, [rev_status], seen through the bit-fields of
    [char_t] ([text] is a flexible array member and a cell is one packed
    32-bit word: [display_width] in bits 0-3, [flags] in bits 4-10,
    [codepoint] in bits 11-31).  Anywhere else the read returns what
    memory holds there. *)

Definition header_cell (l : line_t) : char_t :=
  Char (Z.land (rev_status l) 15)
       (Z.land (Z.shiftr (rev_status l) 4) 127)
       (Z.land (Z.shiftr (rev_status l) 11) 2097151).

Definition text_at `{Host} (i : Z) (l : line_t) (k : Z) : char_t :=
  if bool_decide (0 <= k) then default (dead_cell i k) (text l !! Z.to_nat k)
  else if bool_decide (k = -1) then header_cell l
  else dead_cell i k.

(** ** Search: [search_matches], [smart_case], [find_match], [search_next]

    A search string is the list of the codepoints before its terminating
    0. *)

Definition search_matches `{Host} (a b mode : Z) : bool :=
  if bool_decide (mode = 0) then bool_decide (a = b)
  else if bool_decide (mode = 1) then bool_decide (tolower a = tolower b)
  else false.

Definition smart_case `{Host} (str : list Z) : Z :=
  if negb (smart_case_opt global_config) then 0
  else if forallb (λ s, bool_decide (tolower s = s)) str then 1 else 0.

(** The innermost loop of [find_match] at one starting cell [j]: whether
    the whole string was matched, and the indices [k] of the cells
    [line->text[k]] it read, in order. *)
Fixpoint match_at `{Host} (ignorecase i : Z) (line : line_t) (k : Z)
  (str : list Z) : bool * list Z :=
  if bool_decide (k < actual line + 1) then
    match str with
    | [] => (true, [])
    | m :: rest =>
      if search_matches m (codepoint (text_at i line k)) ignorecase
      then let '(r, t) := match_at ignorecase i line (k + 1) rest in
           (r, k :: t)
      else (false, [k])
    end
  else (false, []).

(** [while (j < line->actual + 1) { ... j++; }]: the column found, if any,
    and the reads. *)
Fixpoint scan_line `{Host} (n : nat) (ignorecase i : Z) (line : line_t)
  (j : Z) (str : list Z) : option Z * list Z :=
  match n with
  | O => (None, [])
  | S n' =>
    let '(r, t) := match_at ignorecase i line j str in
    if r then (Some (j + 1), t)
    else let '(r', t') := scan_line n' ignorecase i line (j + 1) str in
         (r', t ++ t')
  end.

(** [for (i = from_line; i <= env->line_count; ++i)], [n] lines to go. *)
Fixpoint find_match_lines `{Host} (n : nat) (e : buffer_t)
  (ignorecase i col : Z) (str : list Z)
  : option (option (Z * Z) * list (Z * Z)) :=
  match n with
  | O => Some (None, [])
  | S n' =>
    line ← line_at e (i - 1);
    let j := col - 1 in
    let '(r, t) := scan_line (Z.to_nat (actual line + 1 - j)) ignorecase i
                     line j str in
    let reads := (λ k, (i, k)) <$> t in
    match r with
    | Some c => Some (Some (i, c), reads)
    | None =>
      '(r', t') ← find_match_lines n' e ignorecase (i + 1) 0 str;
      Some (r', reads ++ t')
    end
  end.

(** [find_match] with the cells it reads: the result is the pair written
    to [*out_line], [*out_col], if any, and the list of (line number,
    index) of the reads of [line->text[k]]. *)
Definition find_match_traced `{Host} (e : buffer_t) (from_line from_col : Z)
  (str : list Z) : option (option (Z * Z) * list (Z * Z)) :=
  find_match_lines (Z.to_nat (line_count e + 1 - from_line)) e
    (smart_case str) from_line from_col str.

Definition find_match `{Host} (e : buffer_t) (from_line from_col : Z)
  (str : list Z) : option (option (Z * Z)) :=
  fst <$> find_match_traced e from_line from_col str.

Definition find_match_reads `{Host} (e : buffer_t) (from_line from_col : Z)
  (str : list Z) : option (list (Z * Z)) :=
  snd <$> find_match_traced e from_line from_col str.

(** ** Cursor placement: [place_cursor_actual], [set_preferred_column]

    Of [place_cursor_actual] the two repairs of an invalid position act
    on the kept state; the rest scrolls the viewport and repaints. *)

Definition place_cursor_actual (e : buffer_t) : buffer_t :=
  let e := if bool_decide (line_no e < 1) then set_line_no e 1 else e in
  if bool_decide (col_no e < 1) then set_col_no e 1 else e.

Definition sum_widths (cells : list char_t) : Z :=
  foldr (λ c acc, display_width c + acc) 0 cells.

Definition set_preferred_column (e : buffer_t) : option buffer_t :=
  line ← line_at e (line_no e - 1);
  Some (set_preferred_column_field e
          (sum_widths (take (Z.to_nat (col_no e - 1)) (text line)))).

(** [search_next]; [draw_search_match] repaints the [FLAG_SEARCH] overlay
    and calls [place_cursor_actual]. *)
Definition search_next `{Host} (e : buffer_t) : option buffer_t :=
  match search e with
  | None => Some e
  | Some str =>
    r ← find_match e (line_no e) (col_no e + 1) str;
    r ← (match r with
         | Some p => Some (Some p)
         | None => find_match e 1 1 str
         end);
    match r with
    | None => Some e
    | Some (line, col) =>
      e ← set_preferred_column (set_line_no (set_col_no e col) line);
      Some (place_cursor_actual e)
    end
  end.

(** ** The paren matcher: [paren_pairs], [is_paren], [find_matching_paren] *)

Definition paren_pairs : list Z := [40; 41; 91; 93; 123; 125; 60; 62].

Definition is_paren (c : Z) : bool := bool_decide (c ∈ paren_pairs).

(** The [for] loop over [paren_pairs]: the direction and the partner of
    [start], from the first position [i] that holds it. *)
Fixpoint paren_lookup (i : nat) (ps : list Z) (start : Z) : option (Z * Z) :=
  match ps with
  | [] => None
  | p :: rest =>
    if bool_decide (start = p) then
      if Nat.even i
      then Some (1, default 0 (paren_pairs !! (i + 1)%nat))
      else Some (-1, default 0 (paren_pairs !! (i - 1)%nat))
    else paren_lookup (S i) rest start
  end.

(** The inner [while] over the cells of one line: [inl col] when the
    counter reached zero at [col], [inr count] when the line is left. *)
Fixpoint paren_scan_line `{Host} (n : nat) (i : Z) (l : line_t)
  (start paren_match flagsv direction col count : Z) : option (Z + Z) :=
  if bool_decide (col > 0 /\ col < actual l + 1) then
    match n with
    | O => None
    | S n' =>
      let c := text_at i l (col - 1) in
      if bool_decide (Z.land (flags c) 15 = flagsv) then
        let count := if bool_decide (codepoint c = start)
                     then count + 1 else count in
        if bool_decide (codepoint c = paren_match) then
          if bool_decide (count - 1 = 0) then Some (inl col)
          else paren_scan_line n' i l start paren_match flagsv direction
                 (col + direction) (count - 1)
        else paren_scan_line n' i l start paren_match flagsv direction
               (col + direction) count
      else paren_scan_line n' i l start paren_match flagsv direction
             (col + direction) count
    end
  else Some (inr count).

(** The [do { ... } while (1)] over the lines. *)
Fixpoint paren_scan `{Host} (n : nat) (e : buffer_t)
  (start paren_match flagsv direction line col count : Z)
  : option (option (Z * Z)) :=
  match n with
  | O => None
  | S n' =>
    l ← line_at e (line - 1);
    r ← paren_scan_line (S (length (text l))) line l start paren_match
          flagsv direction col count;
    match r with
    | inl c => Some (Some (line, c))
    | inr count =>
      let line := line + direction in
      if bool_decide (line = 0 \/ line = line_count e + 1) then Some None
      else
        l' ← line_at e (line - 1);
        let col := if bool_decide (direction > 0) then 1 else actual l' in
        paren_scan n' e start paren_match flagsv direction line col count
    end
  end.

(** The result is what the function writes to [*out_line], [*out_col];
    [Some None] leaves them as the caller set them. *)
Definition find_matching_paren `{Host} (e : buffer_t) (in_col : Z)
  : option (option (Z * Z)) :=
  cur ← line_at e (line_no e - 1);
  if bool_decide (col_no e - in_col + 1 > actual cur) then Some None
  else
    let c := text_at (line_no e) cur (col_no e - in_col) in
    let start := codepoint c in
    let flagsv := Z.land (flags c) 15 in
    match paren_lookup 0 paren_pairs start with
    | None => Some None
    | Some (direction, paren_match) =>
      paren_scan (Z.to_nat (line_count e) + 1) e start paren_match flagsv
        direction (line_no e) (col_no e - in_col + 1) 0
    end.

(** ** Cursor motion *)

(** The [for] loop of [cursor_down] and [cursor_up] that looks for the
    preferred column: the final [_x] and [col_no]. *)
Fixpoint seek_column (pref : Z) (cells : list char_t) (i x col : Z) : Z * Z :=
  match cells with
  | [] => (x, col)
  | c :: rest =>
    let x := x + display_width c in
    if bool_decide (x > pref) then (x, i + 1)
    else seek_column pref rest (i + 1) x (i + 1)
  end.

Definition insert_bonus (e : buffer_t) : Z :=
  if bool_decide (mode e = MODE_INSERT) then 1 else 0.

(** The part shared by [cursor_down] and [cursor_up] once [line_no] has
    moved. *)
Definition settle_column (e : buffer_t) : option buffer_t :=
  line ← line_at e (line_no e - 1);
  let '(x, col) := seek_column (preferred_column e) (text line) 0 0
                     (col_no e) in
  let e := set_col_no e col in
  let e := if bool_decide (mode e = MODE_INSERT)
              && bool_decide (x <= preferred_column e)
           then set_col_no e (actual line + 1) else e in
  let e := if bool_decide (col_no e > actual line + insert_bonus e)
           then let e := set_col_no e (actual line + insert_bonus e) in
                if bool_decide (col_no e = 0) then set_col_no e 1 else e
           else e in
  Some (place_cursor_actual e).

Definition cursor_down (e : buffer_t) : option buffer_t :=
  if bool_decide (line_no e < line_count e)
  then settle_column (set_line_no e (line_no e + 1))
  else Some e.

Definition cursor_up (e : buffer_t) : option buffer_t :=
  if bool_decide (line_no e > 1)
  then settle_column (set_line_no e (line_no e - 1))
  else Some e.

Definition cursor_left (e : buffer_t) : option buffer_t :=
  let e := if bool_decide (col_no e > 1)
           then place_cursor_actual (set_col_no e (col_no e - 1)) else e in
  set_preferred_column e.

Definition cursor_right (e : buffer_t) : option buffer_t :=
  line ← line_at e (line_no e - 1);
  let e := if bool_decide (col_no e < actual line + insert_bonus e)
           then place_cursor_actual (set_col_no e (col_no e + 1)) else e in
  set_preferred_column e.

Definition cursor_home (e : buffer_t) : option buffer_t :=
  e ← set_preferred_column (set_col_no e 1);
  Some (place_cursor_actual e).

Definition cursor_end (e : buffer_t) : option buffer_t :=
  line ← line_at e (line_no e - 1);
  e ← set_preferred_column (set_col_no e (actual line + insert_bonus e));
  Some (place_cursor_actual e).

(** ** Leaving and entering modes, and the editing keys *)

Definition set_modified (e : buffer_t) : buffer_t :=
  if modified e then e else set_modified_flag e true.

Definition leave_insert `{Host} (e : buffer_t) : option buffer_t :=
  line ← line_at e (line_no e - 1);
  e ← (if bool_decide (col_no e > actual line) then
         let e := set_col_no e (actual line) in
         let e := if bool_decide (col_no e = 0) then set_col_no e 1 else e in
         set_preferred_column e
       else Some e);
  e ← set_history_break e;
  Some (set_mode e MODE_NORMAL).

Definition insert_char `{Host} (e : buffer_t) (c : Z) : option buffer_t :=
  if bool_decide (c = 0) then Some e
  else
    e ← line_insert e (mk_char (codepoint_width c) 0 c) (col_no e - 1)
          (line_no e - 1);
    Some (set_modified (set_col_no e (col_no e + 1))).

Definition replace_char `{Host} (e : buffer_t) (c : Z) : option buffer_t :=
  line ← line_at e (line_no e - 1);
  if bool_decide (col_no e < 1 \/ col_no e > actual line) then Some e
  else
    e ← line_replace e (mk_char (codepoint_width c) 0 c) (col_no e - 1)
          (line_no e - 1);
    Some (set_modified e).

Definition delete_at_cursor `{Host} (e : buffer_t) : option buffer_t :=
  if bool_decide (col_no e > 1) then
    e ← line_delete e (col_no e - 1) (line_no e - 1);
    let e := set_col_no e (col_no e - 1) in
    Some (place_cursor_actual (set_modified e))
  else if bool_decide (line_no e > 1) then
    prev ← line_at e (line_no e - 2);
    let tmp := actual prev in
    e ← merge_lines e (line_no e - 1);
    let e := set_col_no (set_line_no e (line_no e - 1)) (tmp + 1) in
    e ← set_preferred_column e;
    Some (place_cursor_actual (set_modified e))
  else Some e.

(** ** Undo and redo: [undo_history], [redo_history] *)

(** One [case] of the [switch] of [undo_history]. *)
Definition undo_record `{Host} (e : buffer_t) (h : history_t)
  : option buffer_t :=
  match h with
  | HISTORY_INSERT lineno offset _ =>
    e ← line_delete e (offset + 1) lineno;
    Some (set_col_no (set_line_no e (lineno + 1)) (offset + 1))
  | HISTORY_DELETE lineno offset old =>
    e ← line_insert e (mk_char (codepoint_width old) 0 old) (offset - 1)
          lineno;
    Some (set_col_no (set_line_no e (lineno + 1)) (offset + 2))
  | HISTORY_REPLACE lineno offset _ old =>
    e ← line_replace e (mk_char (codepoint_width old) 0 old) offset lineno;
    Some (set_col_no (set_line_no e (lineno + 1)) (offset + 1))
  | HISTORY_REMOVE_LINE lineno old_contents =>
    e ← add_line e lineno;
    e ← replace_line e lineno old_contents;
    Some (set_col_no (set_line_no e (lineno + 2)) 1)
  | HISTORY_ADD_LINE lineno =>
    e ← remove_line e lineno;
    Some (set_col_no (set_line_no e (lineno + 1)) 1)
  | HISTORY_REPLACE_LINE lineno _ old_contents =>
    e ← replace_line e lineno old_contents;
    Some (set_col_no (set_line_no e (lineno + 1)) 1)
  | HISTORY_SPLIT_LINE lineno _ =>
    e ← merge_lines e (lineno + 1);
    Some (set_col_no (set_line_no e (lineno + 2)) 1)
  | HISTORY_MERGE_LINES lineno split =>
    e ← split_line e (lineno - 1) split;
    Some (set_col_no (set_line_no e lineno) 1)
  | HISTORY_BREAK => Some e
  | HISTORY_SENTINEL => Some e
  end.

(** The [do { ... } while (e->type != HISTORY_BREAK)] of [undo_history];
    [past] is the chain from [e] down. *)
Fixpoint undo_loop `{Host} (past : list (Z * history_t)) (e : buffer_t)
  : option buffer_t :=
  match past with
  | [] => None
  | (a, h) :: prev =>
    if is_sentinel h then Some e
    else
      e ← undo_record e h;
      let e := set_history e prev ((a, h) :: hist_next e) in
      match prev with
      | [] => None
      | (_, h') :: _ => if is_break h' then Some e else undo_loop prev e
      end
  end.

(** One [case] of the [switch] of [redo_history]. *)
Definition redo_record `{Host} (e : buffer_t) (h : history_t)
  : option buffer_t :=
  match h with
  | HISTORY_INSERT lineno offset cp =>
    e ← line_insert e (mk_char (codepoint_width cp) 0 cp) offset lineno;
    Some (set_col_no (set_line_no e (lineno + 1)) (offset + 2))
  | HISTORY_DELETE lineno offset _ =>
    e ← line_delete e offset lineno;
    Some (set_col_no (set_line_no e (lineno + 1)) (offset + 1))
  | HISTORY_REPLACE lineno offset cp _ =>
    e ← line_replace e (mk_char (codepoint_width cp) 0 cp) offset lineno;
    Some (set_col_no (set_line_no e (lineno + 1)) (offset + 2))
  | HISTORY_ADD_LINE lineno =>
    e ← add_line e lineno;
    Some (set_col_no (set_line_no e (lineno + 2)) 1)
  | HISTORY_REMOVE_LINE lineno _ =>
    e ← remove_line e lineno;
    Some (set_col_no (set_line_no e (lineno + 1)) 1)
  | HISTORY_REPLACE_LINE lineno contents _ =>
    e ← replace_line e lineno contents;
    Some (set_col_no (set_line_no e (lineno + 2)) 1)
  | HISTORY_MERGE_LINES lineno _ =>
    e ← merge_lines e lineno;
    Some (set_col_no (set_line_no e (lineno + 1)) 1)
  | HISTORY_SPLIT_LINE lineno split =>
    e ← split_line e lineno split;
    Some (set_col_no (set_line_no e (lineno + 2)) 1)
  | HISTORY_BREAK => Some e
  | HISTORY_SENTINEL => Some e
  end.

(** The [while (e)] of [redo_history]; [next] is the chain from [e] up. *)
Fixpoint redo_loop `{Host} (next : list (Z * history_t)) (e : buffer_t)
  : option buffer_t :=
  match next with
  | [] => Some e
  | (a, h) :: rest =>
    if is_break h then Some (set_history e ((a, h) :: hist_past e) rest)
    else
      e ← redo_record e h;
      redo_loop rest (set_history e ((a, h) :: hist_past e) rest)
  end.

(** The address in [env->history]; 0 stands for [NULL]. *)
Definition history_ptr (e : buffer_t) : Z :=
  match hist_past e with
  | (a, _) :: _ => a
  | [] => 0
  end.

(** [for (i = 0; i < line_count; ++i) { lines[i]->istate = 0;
    recalculate_tabs(lines[i]); }] from line [i], [n] lines to go. *)
Fixpoint reset_istate_tabs (n : nat) (e : buffer_t) (i : Z)
  : option buffer_t :=
  match n with
  | O => Some e
  | S n' =>
    l ← line_at e i;
    l ← recalculate_tabs e (set_istate l 0);
    e ← put_line e i l;
    reset_istate_tabs n' e (i + 1)
  end.

(** [for (i = 0; i < line_count; ++i) recalculate_syntax(lines[i], i);] *)
Fixpoint recalculate_all `{Host} (n : nat) (e : buffer_t) (i : Z)
  : option buffer_t :=
  match n with
  | O => Some e
  | S n' => e ← recalculate_syntax e i; recalculate_all n' e (i + 1)
  end.

(** What [undo_history] and [redo_history] do after their loop. *)
Definition after_replay `{Host} (e : buffer_t) : option buffer_t :=
  let e := if bool_decide (line_no e > line_count e)
           then set_line_no e (line_count e) else e in
  cur ← line_at e (line_no e - 1);
  let e := if bool_decide (col_no e > actual cur)
           then set_col_no e (actual cur) else e in
  let e := set_modified_flag e
             (bool_decide (history_ptr e ≠ last_save_history e)) in
  let e := set_loading e false in
  e ← reset_istate_tabs (Z.to_nat (line_count e)) e 0;
  e ← recalculate_all (Z.to_nat (line_count e)) e 0;
  Some (place_cursor_actual e).

Definition undo_history `{Host} (e : buffer_t) : option buffer_t :=
  if negb (history_enabled global_config) then Some e
  else
    let e := set_loading e true in
    '(_, h) ← head (hist_past e);
    if is_sentinel h then Some (set_loading e false)
    else e ← undo_loop (hist_past e) e; after_replay e.

Definition redo_history `{Host} (e : buffer_t) : option buffer_t :=
  if negb (history_enabled global_config) then Some e
  else
    let e := set_loading e true in
    _ ← head (hist_past e);
    match hist_next e with
    | [] => Some (set_loading e false)
    | next => e ← redo_loop next e; after_replay e
    end.

(** ** [write_file]

    [opened] says whether a file name was given and [fopen] succeeded. *)

Fixpoint clear_rev_status (n : nat) (e : buffer_t) (i : Z)
  : option buffer_t :=
  match n with
  | O => Some e
  | S n' =>
    l ← line_at e i;
    e ← put_line e i (set_rev_status l 0);
    clear_rev_status n' e (i + 1)
  end.

Definition write_file (e : buffer_t) (opened : bool) : option buffer_t :=
  if negb opened then Some e
  else
    e ← clear_rev_status (Z.to_nat (line_count e)) e 0;
    Some (set_last_save_history (set_modified_flag e false) (history_ptr e)).

(** ** Keys of the mode loops

    The cases of [normal_mode], [insert_mode] and [replace_mode] that
    change the mode or edit through the functions above. *)

(** [case 'i'] of [normal_mode]: [insert_mode] starts. *)
Definition normal_i (e : buffer_t) : buffer_t :=
  if readonly e then e else place_cursor_actual (set_mode e MODE_INSERT).

(** [case 'a'] of [normal_mode] *)
Definition normal_a (e : buffer_t) : option buffer_t :=
  line ← line_at e (line_no e - 1);
  let e := if bool_decide (col_no e < actual line + 1)
           then set_col_no e (col_no e + 1) else e in
  Some (normal_i e).

(** [case 'R'] of [normal_mode]: [replace_mode] starts. *)
Definition normal_R (e : buffer_t) : buffer_t :=
  if readonly e then e else place_cursor_actual (set_mode e MODE_REPLACE).

(** [case 'r'] of [normal_mode]: [replace_one] with the key [c]. *)
Definition replace_one `{Host} (e : buffer_t) (c : Z) : option buffer_t :=
  if bool_decide (c = 27) then Some e
  else place_cursor_actual <$> replace_char e c.

(** Backspace in [normal_mode] and [replace_mode] *)
Definition backspace_move (e : buffer_t) : option buffer_t :=
  if bool_decide (line_no e > 1 /\ col_no e = 1) then
    let e := set_line_no e (line_no e - 1) in
    line ← line_at e (line_no e - 1);
    e ← set_preferred_column (set_col_no e (actual line));
    Some (place_cursor_actual e)
  else cursor_left e.

(** The [default] case of [replace_mode] *)
Definition replace_key `{Host} (e : buffer_t) (c : Z) : option buffer_t :=
  line ← line_at e (line_no e - 1);
  e ← (if bool_decide (col_no e <= actual line)
       then e ← replace_char e c; Some (set_col_no e (col_no e + 1))
       else insert_char e c);
  Some (place_cursor_actual e).

(** The [default] case of [insert_mode] *)
Definition insert_key `{Host} (e : buffer_t) (c : Z) : option buffer_t :=
  e ← insert_char e c;
  set_preferred_column e.

(** ** Concrete hosts and buffers used in examples *)

(** [tolower] of the C and UTF-8 locales. *)
Definition tolower_ascii (c : Z) : Z :=
  if bool_decide (65 <= c <= 90) then c + 32 else c.

Definition example_host : Host := {|
  global_config := GlobalConfig true true true;
  wcwidth := λ _, 1;
  tolower := tolower_ascii;
  lex_fuel := 64;
  dead_cell := λ _ _, Char 0 0 0
|}.

(** The same host after [:smartcase 0]. *)
Definition nosmartcase_host : Host := {|
  global_config := GlobalConfig true false true;
  wcwidth := λ _, 1;
  tolower := tolower_ascii;
  lex_fuel := 64;
  dead_cell := λ _ _, Char 0 0 0
|}.

(** The same host started with [-O nohistory]. *)
Definition nohistory_host : Host := {|
  global_config := GlobalConfig false true true;
  wcwidth := λ _, 1;
  tolower := tolower_ascii;
  lex_fuel := 64;
  dead_cell := λ _ _, Char 0 0 0
|}.

(** A line as [open_file] builds it from ASCII text: capacity 32, every
    cell one column wide. *)
Definition line_of (cps : list Z) : line_t :=
  Line 32 0 0 ((λ c, Char 1 0 c) <$> cps).

(** A buffer as [setup_buffer] leaves it, holding the lines [ls] in a
    vector of [avail] slots, with the cursor at [ln], [cn]. *)
Definition buffer_of (ls : list line_t) (avail ln cn : Z) : buffer_t :=
  Buffer false false false MODE_NORMAL 4 ln (Z.of_nat (length ls)) avail cn 0
    None None
    ((Some <$> ls) ++ replicate (Z.to_nat avail - length ls) None)
    [(1, HISTORY_SENTINEL)] [] 1 2.

(** The one-line buffer [ab], and the eight-line buffer [a] .. [h] that
    fills the vector [setup_buffer] allocates. *)
Definition buffer_ab : buffer_t := buffer_of [line_of [97; 98]] 8 1 1.

Definition buffer_ab_cd : buffer_t :=
  buffer_of [line_of [97; 98]; line_of [99; 100]] 8 1 1.

Definition buffer_eight : buffer_t :=
  buffer_of (line_of <$> [[97]; [98]; [99]; [100]; [101]; [102]; [103]; [104]])
    8 1 1.

(** ** What a search result should be

    [occurs_in_line ic str l j]: the cells of [l] from index [j] on spell
    [str], compared in mode [ic].  [match_pos] lifts it to 1-based
    positions of the buffer, [first_match_from] picks the first position
    at or after a given one in reading order. *)

Definition occurs_in_line `{Host} (ic : Z) (str : list Z) (l : line_t) (j : Z)
  : Prop :=
  0 <= j /\
  Forall2 (λ m c, search_matches m (codepoint c) ic = true) str
    (take (length str) (drop (Z.to_nat j) (text l))).

Definition match_pos `{Host} (e : buffer_t) (str : list Z) (p : Z * Z) : Prop :=
  exists l, 1 <= p.1 <= line_count e /\ line_at e (p.1 - 1) = Some l /\
            occurs_in_line (smart_case str) str l (p.2 - 1).

Definition pos_le (p q : Z * Z) : Prop :=
  p.1 < q.1 \/ (p.1 = q.1 /\ p.2 <= q.2).

Definition first_match_from `{Host} (e : buffer_t) (str : list Z)
  (from p : Z * Z) : Prop :=
  match_pos e str p /\ pos_le from p /\
  forall q, match_pos e str q -> pos_le from q -> pos_le p q.

Definition no_match_from `{Host} (e : buffer_t) (str : list Z) (from : Z * Z)
  : Prop :=
  forall q, match_pos e str q -> ~ pos_le from q.

(** Every line below [line_count] is there, and its [rev_status] is one
    of the small marker values (so that no codepoint bit of the header
    word is set). *)
Definition lines_live (e : buffer_t) : Prop :=
  forall i, 0 <= i < line_count e ->
    exists l, line_at e i = Some l /\ 0 <= rev_status l < 2048.

(** The one-line buffer [foo bar foo] with the search term [foo] and the
    cursor on column 9. *)
Definition buffer_foo_bar_foo : buffer_t :=
  Buffer false false false MODE_NORMAL 4 1 1 8 9 0
    (Some [102; 111; 111]) None
    [Some (line_of [102; 111; 111; 32; 98; 97; 114; 32; 102; 111; 111]);
     None; None; None; None; None; None; None]
    [(1, HISTORY_SENTINEL)] [] 1 2.

(** ** What the paren matcher should return

    The cells of the buffer that follow a position in scan order, each
    with its 1-based line and column, and the counter the specification
    describes run over them: it starts at 1 after the bracket, goes up on
    the bracket's own codepoint and down on its partner, looking only at
    cells of the bracket's syntax class, and stops where it reaches 0. *)

Definition nibble (c : char_t) : Z := Z.land (flags c) 15.

Fixpoint cells_from (line col : Z) (cells : list char_t)
  : list (Z * Z * char_t) :=
  match cells with
  | [] => []
  | c :: rest => (line, col, c) :: cells_from line (col + 1) rest
  end.

(** The cells of a line from column [col] rightwards, and from column
    [col] leftwards. *)
Definition line_forward (line : Z) (l : line_t) (col : Z)
  : list (Z * Z * char_t) :=
  cells_from line col (drop (Z.to_nat (col - 1)) (text l)).

Definition line_backward (line : Z) (l : line_t) (col : Z)
  : list (Z * Z * char_t) :=
  reverse (cells_from line 1 (take (Z.to_nat col) (text l))).

Definition line_cells (direction line : Z) (l : line_t) (col : Z)
  : list (Z * Z * char_t) :=
  if bool_decide (direction > 0) then line_forward line l col
  else line_backward line l col.

(** The cells of the [n] lines from [line] on, in the direction of the
    scan. *)
Fixpoint lines_cells (n : nat) (e : buffer_t) (direction line : Z)
  : list (Z * Z * char_t) :=
  match n with
  | O => []
  | S n' =>
    match line_at e (line - 1) with
    | Some l =>
      line_cells direction line l
        (if bool_decide (direction > 0) then 1 else actual l)
      ++ lines_cells n' e direction (line + direction)
    | None => []
    end
  end.

(** The cells after the bracket at [line], [col]. *)
Definition scan_order (e : buffer_t) (direction line col : Z)
  : list (Z * Z * char_t) :=
  match line_at e (line - 1) with
  | Some l =>
    line_cells direction line l (col + direction)
    ++ lines_cells
         (Z.to_nat (if bool_decide (direction > 0)
                    then line_count e - line else line - 1))
         e direction (line + direction)
  | None => []
  end.

Fixpoint paren_counter (start partner class : Z)
  (cells : list (Z * Z * char_t)) (count : Z) : (Z * Z) + Z :=
  match cells with
  | [] => inr count
  | (line, col, c) :: rest =>
    if bool_decide (nibble c = class) then
      if bool_decide (codepoint c = start)
      then paren_counter start partner class rest (count + 1)
      else if bool_decide (codepoint c = partner) then
        if bool_decide (count - 1 = 0) then inl (line, col)
        else paren_counter start partner class rest (count - 1)
      else paren_counter start partner class rest count
    else paren_counter start partner class rest count
  end.

Definition paren_partner (e : buffer_t) (line col : Z) : option (Z * Z) :=
  l ← line_at e (line - 1);
  c ← text l !! Z.to_nat (col - 1);
  '(direction, partner) ← paren_lookup 0 paren_pairs (codepoint c);
  match paren_counter (codepoint c) partner (nibble c)
          (scan_order e direction line col) 1 with
  | inl p => Some p
  | inr _ => None
  end.

(** The buffer of scenario 4, [{] over [}], with the cursor on the
    brace of the first line. *)
Definition buffer_braces : buffer_t :=
  buffer_of [line_of [123]; line_of [125]] 8 1 1.

(** ** What the lexer capability promises, and the exit state of a line

    A lexer paints: of the line it is handed it changes the [flags] of
    cells only.  It halts: the loop of [recalculate_syntax] gets a
    non-zero state within [lex_fuel] calls. *)

Definition paints_only (sd : syntax_definition) : Prop :=
  forall st,
    clear_flags (ss_line (calculate sd st).2) = clear_flags (ss_line st).

Definition lexer_halts `{Host} (sd : syntax_definition) : Prop :=
  forall st, is_Some (syntax_loop lex_fuel sd st).

(** The run of the lexer on line [l], numbered [line_no], as
    [recalculate_syntax] starts it, and the state it ends in. *)
Definition lex_line `{Host} (sd : syntax_definition) (l : line_t) (line_no : Z)
  : option syntax_state :=
  syntax_loop lex_fuel sd
    (SyntaxState (clear_flags l) line_no (istate (clear_flags l)) 0).

Definition exit_state `{Host} (sd : syntax_definition) (l : line_t)
  (line_no : Z) : option Z :=
  ss_state <$> lex_line sd l line_no.

(** What a run of [recalculate_syntax] from line [k] establishes: it
    ends on a line [j], has repainted the lines [k] to [j] and nothing
    else, left every exit state in the next line, and went on exactly
    past the lines whose successor had another state stored. *)
Definition cascade_result `{Host} (sd : syntax_definition) (e : buffer_t)
  (k : Z) (e' : buffer_t) (j : Z) : Prop :=
  k <= j < line_count e /\
  line_count e' = line_count e /\
  (forall m, m < k \/ j < m -> line_at e' m = line_at e m) /\
  (exists lk lk', line_at e k = Some lk /\ line_at e' k = Some lk' /\
                  clear_flags lk' = clear_flags lk) /\
  (forall m, k <= m <= j -> m + 1 < line_count e ->
     exists lm lm1, line_at e' m = Some lm /\ line_at e' (m + 1) = Some lm1 /\
                    exit_state sd lm m = Some (istate lm1)) /\
  (forall m, k <= m < j ->
     exists l0 l1, line_at e (m + 1) = Some l0 /\
                   line_at e' (m + 1) = Some l1 /\ istate l1 ≠ istate l0).

(** ** The diff lexer, [syn_diff_calculate], with the macros it uses *)

(** [charat()] *)
Definition charat (st : syntax_state) : Z :=
  if bool_decide (ss_i st < actual (ss_line st))
  then default (-1) (codepoint <$> text (ss_line st) !! Z.to_nat (ss_i st))
  else -1.

(** [paint(1, flag)] *)
Definition paint1 (st : syntax_state) (flag : Z) : syntax_state :=
  if bool_decide (ss_i st < actual (ss_line st))
  then SyntaxState
         (set_text (ss_line st)
            (alter (λ c, set_flags c flag) (Z.to_nat (ss_i st))
               (text (ss_line st))))
         (ss_line_no st) (ss_state st) (ss_i st + 1)
  else st.

(** [while (charat() != -1) paint(1, flag);], at most [n] rounds. *)
Fixpoint paint_while (n : nat) (st : syntax_state) (flag : Z) : syntax_state :=
  match n with
  | O => st
  | S n' =>
    if bool_decide (charat st ≠ -1) then paint_while n' (paint1 st flag) flag
    else st
  end.

Definition syn_diff_calculate (st : syntax_state) : Z * syntax_state :=
  if bool_decide (ss_i st = 0) then
    let paint_all flag :=
      (-1, paint_while (length (text (ss_line st))) st flag) in
    if bool_decide (charat st = 43) then paint_all FLAG_DIFFPLUS
    else if bool_decide (charat st = 45) then paint_all FLAG_DIFFMINUS
    else if bool_decide (charat st = 64) then paint_all FLAG_TYPE
    else if bool_decide (charat st ≠ 32) then paint_all FLAG_KEYWORD
    else (-1, st)
  else (-1, st).

Definition syntax_diff : syntax_definition :=
  SyntaxDef syn_diff_calculate false.

(** A two-line patch, [+a] over [-b], opened with the diff lexer. *)
Definition buffer_patch : buffer_t :=
  Buffer false false false MODE_NORMAL 4 1 2 8 1 0 None (Some syntax_diff)
    [Some (line_of [43; 97]); Some (line_of [45; 98]);
     None; None; None; None; None; None]
    [(1, HISTORY_SENTINEL)] [] 1 2.

(** ** Well-formed buffers

    The line vector of a well-formed buffer: its [line_count] lines,
    then [spare] slots that hold no line. *)

Definition vec (ls : list line_t) (spare : nat) : list (option line_t) :=
  (Some <$> ls) ++ replicate spare None.

Definition rep (e : buffer_t) (ls : list line_t) (spare : nat) : Prop :=
  lines e = vec ls spare /\
  line_count e = Z.of_nat (length ls) /\
  line_avail e = Z.of_nat (length ls + spare).

(** The lexer of the buffer, if it has one, keeps the promises of the
    capability. *)
Definition good_lexer `{Host} (e : buffer_t) : Prop :=
  forall sd, syntax e = Some sd -> paints_only sd /\ lexer_halts sd.

(** The text of a list of lines. *)
Definition doc_of (ls : list line_t) : list (list Z) := line_content <$> ls.

(** Two lines with the same text, the second with a capacity that is
    not negative if that of the first is not. *)
Definition same_line (l l' : line_t) : Prop :=
  line_content l' = line_content l /\
  (0 <= available l -> 0 <= available l').

(** ** What a journalled edit leaves

    The buffer after an editing primitive that journals [r] and leaves
    the lines [ls] in a vector with [k] spare slots. *)
Definition upd `{Host} (e : buffer_t) (r : history_t) (ls : list line_t)
  (k : nat) : buffer_t :=
  set_line_avail
    (set_line_count (set_lines (hist_record e r) (vec ls k))
       (Z.of_nat (length ls)))
    (Z.of_nat (length ls + k)).

(** The spare slots after [grow_lines]. *)
Definition grown_spare (ls : list line_t) (k : nat) : nat :=
  match k with O => length ls | S _ => k end.

(** A codepoint that fits the 21 bits of a cell, a text made of such
    codepoints, and a line whose capacity is not negative. *)
Definition cp_ok (cp : Z) : Prop := wrap21 cp = cp.

Definition doc_ok (d : list (list Z)) : Prop := Forall (Forall cp_ok) d.

Definition avail_ok (l : line_t) : Prop := 0 <= available l.

(** ** A session: the cases of the mode loops, one after the other *)

Inductive motion :=
  MoveLeft | MoveRight | MoveUp | MoveDown | MoveHome | MoveEnd.

Definition move (m : motion) (e : buffer_t) : option buffer_t :=
  match m with
  | MoveLeft => cursor_left e
  | MoveRight => cursor_right e
  | MoveUp => cursor_up e
  | MoveDown => cursor_down e
  | MoveHome => cursor_home e
  | MoveEnd => cursor_end e
  end.

(** What the loops of [normal_mode], [insert_mode] and [replace_mode] run
    for a key, for the keys whose code is embedded above. *)
Inductive command :=
  | Move (m : motion)
  | Key_i
  | Key_a
  | Key_R
  | Key_r (c : Z)
  | Key_u
  | Key_redo
  | Write (opened : bool)
  | Escape
  | TypeInsert (c : Z)
  | TypeReplace (c : Z)
  | BackspaceInsert
  | BackspaceMove.

Definition run_command `{Host} (cmd : command) (e : buffer_t)
  : option buffer_t :=
  match cmd with
  | Move m => move m e
  | Key_i => Some (normal_i e)
  | Key_a => normal_a e
  | Key_R => Some (normal_R e)
  | Key_r c => replace_one e c
  | Key_u => undo_history e
  | Key_redo => redo_history e
  | Write opened => write_file e opened
  | Escape => leave_insert e
  | TypeInsert c => insert_key e c
  | TypeReplace c => replace_key e c
  | BackspaceInsert => delete_at_cursor e
  | BackspaceMove => backspace_move e
  end.

(** The states a session reaches from [e0] when every command it runs
    is [allowed] in the state it is run in. *)
Inductive reachable `{Host} (allowed : command -> buffer_t -> Prop)
  (e0 : buffer_t) : buffer_t -> Prop :=
  | reach_start : reachable allowed e0 e0
  | reach_step e cmd e' :
    reachable allowed e0 e -> allowed cmd e ->
    run_command cmd e = Some e' -> reachable allowed e0 e'.

(** The part of the state that the journal and the modified flag live
    in. *)
Definition journal (e : buffer_t)
  : bool * bool * list (Z * history_t) * list (Z * history_t) * Z * Z :=
  (loading e, modified e, hist_past e, hist_next e, last_save_history e,
   next_addr e).

(** All the records of the journal, oldest first. *)
Definition timeline (e : buffer_t) : list (Z * history_t) :=
  reverse (hist_past e) ++ hist_next e.

Definition at_boundary (e : buffer_t) : Prop :=
  exists a h rest, hist_past e = (a, h) :: rest /\
                   (is_break h = true \/ is_sentinel h = true).

(** A journal whose records have distinct addresses, all handed out
    already, and whose last save was made at a group boundary. *)
Definition journal_ok (e : buffer_t) : Prop :=
  loading e = false /\
  (forall a h1 h2,
     (a, h1) ∈ timeline e -> (a, h2) ∈ timeline e -> h1 = h2) /\
  (forall a h, (a, h) ∈ timeline e -> a < next_addr e) /\
  last_save_history e < next_addr e /\
  (forall a h, (a, h) ∈ timeline e -> a = last_save_history e ->
               is_break h = true \/ is_sentinel h = true).

(** Saving is allowed at a group boundary of the journal. *)
Definition saves_at_boundary (cmd : command) (e : buffer_t) : Prop :=
  match cmd with
  | Write true => at_boundary e
  | _ => True
  end.

(** The invariant of the journal with the claim about [modified]. *)
Definition journal_inv (e : buffer_t) : Prop :=
  journal_ok e /\
  (modified e = true <-> history_ptr e ≠ last_save_history e).

(** [e'] has the journal of [e] with the record [r] appended and the
    modified flag [m]. *)
Definition appended (m : bool) (r : history_t) (e e' : buffer_t) : Prop :=
  journal e'
  = (false, m, (next_addr e, r) :: hist_past e, [], last_save_history e,
     next_addr e + 1).

(** The settings of a buffer that no function embedded here changes
    but the mode keys, and what an editing primitive leaves in place. *)
Definition config (e : buffer_t)
  : bool * Z * Z * option syntax_definition :=
  (readonly e, mode e, tabstop e, syntax e).

Definition unmoved (e e' : buffer_t) : Prop :=
  loading e' = loading e /\ config e' = config e /\
  line_no e' = line_no e /\ col_no e' = col_no e.

(** A buffer whose lexer keeps its promises, whose tab stop is not 0,
    and whose vector holds its lines, at least one, then free slots. *)
Definition steady `{Host} (e : buffer_t) : Prop :=
  good_lexer e /\ tabstop e ≠ 0 /\ exists ls k, rep e ls k /\ ls ≠ [].

(** ** Where the cursor may be *)

(** The last column the cursor may be in on the line [l]: one past the
    end of the line while text is typed, in insert or replace mode. *)
Definition col_limit (e : buffer_t) (l : line_t) : Z :=
  if bool_decide (mode e = MODE_INSERT \/ mode e = MODE_REPLACE)
  then actual l + 1 else Z.max 1 (actual l).

Definition cursor_valid (e : buffer_t) : Prop :=
  1 <= line_no e <= line_count e /\
  exists l, line_at e (line_no e - 1) = Some l /\
            1 <= col_no e <= col_limit e l.

(** The same, with one past the end allowed in insert mode only. *)
Definition col_limit_insert (e : buffer_t) (l : line_t) : Z :=
  if bool_decide (mode e = MODE_INSERT)
  then actual l + 1 else Z.max 1 (actual l).

Definition cursor_valid_insert (e : buffer_t) : Prop :=
  1 <= line_no e <= line_count e /\
  exists l, line_at e (line_no e - 1) = Some l /\
            1 <= col_no e <= col_limit_insert e l.

(** The records that the commands of a session journal. *)
Definition typing_record (h : history_t) : bool :=
  match h with
  | HISTORY_SENTINEL | HISTORY_BREAK | HISTORY_INSERT _ _ _
  | HISTORY_DELETE _ _ _ | HISTORY_REPLACE _ _ _ _
  | HISTORY_MERGE_LINES _ _ => true
  | _ => false
  end.

Definition typed_journal (e : buffer_t) : Prop :=
  forall a h, (a, h) ∈ timeline e -> typing_record h = true.

(** The mode loop that runs each command. *)
Definition in_mode (cmd : command) (e : buffer_t) : Prop :=
  match cmd with
  | Move _ => True
  | Key_i | Key_a | Key_R | Key_r _ | Key_u | Key_redo | Write _ =>
    mode e = MODE_NORMAL
  | Escape => mode e = MODE_INSERT \/ mode e = MODE_REPLACE
  | TypeInsert _ | BackspaceInsert => mode e = MODE_INSERT
  | TypeReplace _ => mode e = MODE_REPLACE
  | BackspaceMove => mode e = MODE_NORMAL \/ mode e = MODE_REPLACE
  end.

(** What a session keeps true of a writable buffer. *)
Definition session_inv `{Host} (e : buffer_t) : Prop :=
  steady e /\ loading e = false /\ readonly e = false /\
  typed_journal e /\ cursor_valid e.

(** What the cursor functions leave in place. *)
Definition textual (e : buffer_t) :=
  (lines e, line_count e, line_avail e, loading e, readonly e, tabstop e,
   syntax e, hist_past e, hist_next e).

(** ** Undoing a run of edits

    The line vector, the journal and the settings that the editing
    primitives read: what a command that only moves the cursor or changes
    the mode leaves as it is. *)
Definition story (e : buffer_t) :=
  (lines e, line_count e, line_avail e, hist_past e, next_addr e,
   loading e, tabstop e, syntax e).

(** From [e] to [e'] nothing of that changed, and the cursor is still
    on a line number from 1 if it was. *)
Definition kept (e e' : buffer_t) : Prop :=
  story e' = story e /\ (1 <= line_no e -> 1 <= line_no e').

(** The text [d'] that the edit journalled as [h] makes of the text [d],
    for the records that typing makes; [slots] is the length of the line
    vector, in which [merge_lines] needs two free slots. *)
Definition applied (slots : nat) (h : history_t) (d d' : list (list Z))
  : Prop :=
  match h with
  | HISTORY_INSERT lineno offset cp =>
    0 <= lineno /\ cp_ok cp /\
    exists cs, d !! Z.to_nat lineno = Some cs /\
      0 <= offset <= Z.of_nat (length cs) /\
      d' = <[Z.to_nat lineno :=
              take (Z.to_nat offset) cs ++ cp :: drop (Z.to_nat offset) cs]> d
  | HISTORY_DELETE lineno offset old =>
    0 <= lineno /\ cp_ok old /\
    exists cs, d !! Z.to_nat lineno = Some cs /\
      1 <= offset <= Z.of_nat (length cs) /\
      cs !! Z.to_nat (offset - 1) = Some old /\
      d' = <[Z.to_nat lineno :=
              take (Z.to_nat (offset - 1)) cs ++ drop (Z.to_nat offset) cs]> d
  | HISTORY_REPLACE lineno offset cp old =>
    0 <= lineno /\ cp_ok cp /\ cp_ok old /\
    exists cs, d !! Z.to_nat lineno = Some cs /\
      0 <= offset < Z.of_nat (length cs) /\
      cs !! Z.to_nat offset = Some old /\
      d' = <[Z.to_nat lineno := <[Z.to_nat offset := cp]> cs]> d
  | HISTORY_MERGE_LINES lineno split =>
    1 <= lineno /\ (length d + 2 <= slots)%nat /\
    exists ca cb, d !! Z.to_nat (lineno - 1) = Some ca /\
      d !! Z.to_nat lineno = Some cb /\
      split = Z.of_nat (length ca) /\
      d' = delete (Z.to_nat lineno)
             (<[Z.to_nat (lineno - 1) := ca ++ cb]> d)
  | HISTORY_BREAK => d' = d
  | _ => False
  end.

(** From [e] with the text [d] to [e'] with the text [d']: nothing was
    journalled and the text is the same, or one record was appended and
    it tells what became of the text. *)
Definition journalled (slots : nat) (e e' : buffer_t)
  (d d' : list (list Z)) : Prop :=
  (hist_past e' = hist_past e /\ next_addr e' = next_addr e /\ d' = d) \/
  exists r, hist_past e' = (next_addr e, r) :: hist_past e /\
            next_addr e' = next_addr e + 1 /\ applied slots r d d'.

(** A command took the buffer [e], with the lines [ls] and [k] spare
    slots, to [e']: the vector has the same length, the journal tells
    what became of the text, the settings are the same and the cursor is
    still on a line number from 1 if it was. *)
Definition edited (e : buffer_t) (ls : list line_t) (k : nat)
  (e' : buffer_t) : Prop :=
  exists ls' k',
    rep e' ls' k' /\ (length ls' + k')%nat = (length ls + k)%nat /\
    journalled (length ls + k) e e' (doc_of ls) (doc_of ls') /\
    (loading e', tabstop e', syntax e') = (loading e, tabstop e, syntax e) /\
    (1 <= line_no e -> 1 <= line_no e').

(** The records [rs], newest first, lead from the text [d0] to the
    text [d]. *)
Fixpoint replayable (slots : nat) (rs : list (Z * history_t))
  (d d0 : list (list Z)) : Prop :=
  match rs with
  | [] => d = d0
  | (_, r) :: rs' =>
    exists d1, applied slots r d1 d /\ replayable slots rs' d1 d0
  end.

(** The editing commands: all but undo, redo and saving. *)
Definition editing (cmd : command) (e : buffer_t) : Prop :=
  match cmd with
  | Key_u | Key_redo | Write _ => False
  | _ => True
  end.

(** [u] pressed until [env->history] is the record at the address [a],
    [n] times at most. *)
Fixpoint undo_until `{Host} (n : nat) (a : Z) (e : buffer_t)
  : option buffer_t :=
  if bool_decide (history_ptr e = a) then Some e
  else match n with
       | O => None
       | S n' => e ← undo_history e; undo_until n' a e
       end.

(** The line [abc] with the cursor in column 2. *)
Definition buffer_abc : buffer_t := buffer_of [line_of [97; 98; 99]] 8 1 2.

(** ** UTF-8: [to_eight], [decode] *)

(** What a [char] keeps of the value stored in it: its low eight bits. *)
Definition to_char (v : Z) : Z := Z.land v 255.

(** [strlen] of a buffer that holds a zero byte. *)
Fixpoint strlen (s : list Z) : Z :=
  match s with
  | [] => 0
  | c :: rest => if bool_decide (c = 0) then 0 else 1 + strlen rest
  end.

(** [to_eight]: the seven bytes of [out] that the function sets, and its
    result. *)
Definition to_eight (codepoint : Z) : list Z * Z :=
  let out :=
    if bool_decide (codepoint < 0x0080) then
      [to_char codepoint; 0; 0; 0; 0; 0; 0]
    else if bool_decide (codepoint < 0x0800) then
      [to_char (Z.lor 0xC0 (Z.shiftr codepoint 6));
       to_char (Z.lor 0x80 (Z.land codepoint 0x3F)); 0; 0; 0; 0; 0]
    else if bool_decide (codepoint < 0x10000) then
      [to_char (Z.lor 0xE0 (Z.shiftr codepoint 12));
       to_char (Z.lor 0x80 (Z.land (Z.shiftr codepoint 6) 0x3F));
       to_char (Z.lor 0x80 (Z.land codepoint 0x3F)); 0; 0; 0; 0]
    else if bool_decide (codepoint < 0x200000) then
      [to_char (Z.lor 0xF0 (Z.shiftr codepoint 18));
       to_char (Z.lor 0x80 (Z.land (Z.shiftr codepoint 12) 0x3F));
       to_char (Z.lor 0x80 (Z.land (Z.shiftr codepoint 6) 0x3F));
       to_char (Z.lor 0x80 (Z.land codepoint 0x3F)); 0; 0; 0]
    else if bool_decide (codepoint < 0x4000000) then
      [to_char (Z.lor 0xF8 (Z.shiftr codepoint 24));
       to_char (Z.lor 0x80 (Z.shiftr codepoint 18));
       to_char (Z.lor 0x80 (Z.land (Z.shiftr codepoint 12) 0x3F));
       to_char (Z.lor 0x80 (Z.land (Z.shiftr codepoint 6) 0x3F));
       to_char (Z.lor 0x80 (Z.land codepoint 0x3F)); 0; 0]
    else
      [to_char (Z.lor 0xF8 (Z.shiftr codepoint 30));
       to_char (Z.lor 0x80 (Z.land (Z.shiftr codepoint 24) 0x3F));
       to_char (Z.lor 0x80 (Z.land (Z.shiftr codepoint 18) 0x3F));
       to_char (Z.lor 0x80 (Z.land (Z.shiftr codepoint 12) 0x3F));
       to_char (Z.lor 0x80 (Z.land (Z.shiftr codepoint 6) 0x3F));
       to_char (Z.lor 0x80 (Z.land codepoint 0x3F)); 0] in
  (out, strlen out).

(** The bytes that a caller writes after [to_eight]: the first [i] of
    [tmp], [i] being the result. *)
Definition to_eight_bytes (codepoint : Z) : list Z :=
  take (Z.to_nat (to_eight codepoint).2) (to_eight codepoint).1.

Definition UTF8_ACCEPT : Z := 0.
Definition UTF8_REJECT : Z := 1.

Definition state_table : list Z :=
  [0; 0; 0; 0; 0; 0; 0; 0; 0; 0; 0; 0; 0; 0; 0; 0;
   1; 1; 1; 1; 1; 1; 1; 1;
   2; 2; 2; 2;
   3; 3;
   4;
   1].

Definition mask_bytes : list Z :=
  [0x7F; 0x7F; 0x7F; 0x7F; 0x7F; 0x7F; 0x7F; 0x7F;
   0x7F; 0x7F; 0x7F; 0x7F; 0x7F; 0x7F; 0x7F; 0x7F;
   0x00; 0x00; 0x00; 0x00; 0x00; 0x00; 0x00; 0x00;
   0x1F; 0x1F; 0x1F; 0x1F;
   0x0F; 0x0F;
   0x07;
   0x00].

Definition next_table : list Z := [0; 1; 0; 2; 3].

(** What a [uint32_t] keeps. *)
Definition wrap32 (v : Z) : Z := Z.land v 0xFFFFFFFF.

(** [decode]: [*state] (which is also the result) and [*codep] after the
    call.  A [byte] above 255 or a [*state] above 4 reads outside the
    tables. *)
Definition decode (state codep byte : Z) : option (Z * Z) :=
  if bool_decide (state = UTF8_ACCEPT) then
    mask ← load mask_bytes (Z.shiftr byte 3);
    state ← load state_table (Z.shiftr byte 3);
    Some (state, Z.land byte mask)
  else if bool_decide (state > 0) then
    next ← load next_table state;
    Some (next, wrap32 (Z.lor (Z.land byte 0x3F) (Z.shiftl codep 6)))
  else Some (state, codep).

(** [decode] on the bytes [bs] one after the other: the state after each
    byte, and the last [*codep]. *)
Fixpoint decode_states (state codep : Z) (bs : list Z)
  : option (list Z * Z) :=
  match bs with
  | [] => Some ([], codep)
  | b :: rest =>
    '(state, codep) ← decode state codep b;
    '(states, codep) ← decode_states state codep rest;
    Some (state :: states, codep)
  end.

(** ** Files: [setup_buffer], [add_buffer], the bytes of [write_file] *)

(** [setup_buffer]: the fields it sets; the new history record is the
    zeroed one, of type [HISTORY_SENTINEL], at a fresh address.  The
    seven slots after the first line are what [malloc] left there. *)
Definition setup_buffer (e : buffer_t) : buffer_t :=
  Buffer (loading e) false false (mode e) 4 1 1 8 1 (preferred_column e)
    (search e) (syntax e)
    (Some (calloc_line 32) :: replicate 7 None)
    [(next_addr e, HISTORY_SENTINEL)] [] (next_addr e) (next_addr e + 1).

(** The body of the loop of [add_buffer] for a decoded codepoint [c]. *)
Definition add_codepoint `{Host} (e : buffer_t) (c : Z) : option buffer_t :=
  if bool_decide (c = 10) then
    e ← add_line e (line_no e);
    Some (set_line_no (set_col_no e 1) (line_no e + 1))
  else
    e ← line_insert e (mk_char (codepoint_width c) 0 c) (col_no e - 1)
          (line_no e - 1);
    Some (set_col_no e (col_no e + 1)).

(** [add_buffer]; [dec] holds the globals [state] and [codepoint_r] of
    the decoder. *)
Fixpoint add_buffer `{Host} (e : buffer_t) (dec : Z * Z) (buf : list Z)
  : option (buffer_t * (Z * Z)) :=
  match buf with
  | [] => Some (e, dec)
  | b :: rest =>
    '(state, codepoint_r) ← decode dec.1 dec.2 b;
    if bool_decide (state = 0) then
      e ← add_codepoint e codepoint_r;
      add_buffer e (state, codepoint_r) rest
    else if bool_decide (state = UTF8_REJECT) then
      add_buffer e (0, codepoint_r) rest
    else add_buffer e (state, codepoint_r) rest
  end.

(** The bytes [write_file] writes for one cell, and for the lines from
    [i] on, [n] lines to go. *)
Definition cell_bytes (c : char_t) : list Z :=
  if bool_decide (codepoint c = 0) then [0]
  else to_eight_bytes (codepoint c).

Fixpoint write_lines (n : nat) (e : buffer_t) (i : Z) : option (list Z) :=
  match n with
  | O => Some []
  | S n' =>
    line ← line_at e i;
    rest ← write_lines n' e (i + 1);
    Some (concat (cell_bytes <$> text line) ++ 10 :: rest)
  end.

Definition write_file_bytes (e : buffer_t) : option (list Z) :=
  write_lines (Z.to_nat (line_count e)) e 0.

(** A buffer that is being loaded: it holds the lines [init] and the
    line [cs], and the cursor is behind the last cell of [cs]. *)
Definition loading_at `{Host} (e : buffer_t) (init : list (list Z))
  (cs : list Z) : Prop :=
  loading e = true /\ good_lexer e /\
  (exists ls k, rep e ls k /\ doc_of ls = init ++ [cs]) /\
  line_no e = Z.of_nat (length init) + 1 /\
  col_no e = Z.of_nat (length cs) + 1.

(** ** The gutter: [log_base_10], [num_width] *)

Definition log_base_10 (v : Z) : Z :=
  if bool_decide (v >= 1000000000) then 9
  else if bool_decide (v >= 100000000) then 8
  else if bool_decide (v >= 10000000) then 7
  else if bool_decide (v >= 1000000) then 6
  else if bool_decide (v >= 100000) then 5
  else if bool_decide (v >= 10000) then 4
  else if bool_decide (v >= 1000) then 3
  else if bool_decide (v >= 100) then 2
  else if bool_decide (v >= 10) then 1
  else 0.

(** [env->line_count] is an [int] and the parameter of [log_base_10] an
    [unsigned int]. *)
Definition num_width (e : buffer_t) : Z :=
  let w := log_base_10 (wrap32 (line_count e)) + 1 in
  if bool_decide (w < 2) then 2 else w.

(** ** [goto_line]: the cursor part *)

Definition goto_line (e : buffer_t) (line : Z) : buffer_t :=
  let line := if bool_decide (line < 1) then 1 else line in
  let line := if bool_decide (line > line_count e) then line_count e
              else line in
  set_col_no (set_line_no e line) 1.

(** ** [point_in_range] *)

Definition point_in_range (start_line end_line start_col end_col line col : Z)
  : bool :=
  if bool_decide (start_line = end_line) then
    let '(start_col, end_col) :=
      if bool_decide (end_col < start_col) then (end_col, start_col)
      else (start_col, end_col) in
    bool_decide (col >= start_col /\ col <= end_col)
  else
    let '(start_line, end_line, start_col, end_col) :=
      if bool_decide (start_line > end_line)
      then (end_line, start_line, end_col, start_col)
      else (start_line, end_line, start_col, end_col) in
    if bool_decide (line < start_line \/ line > end_line) then false
    else if bool_decide (line = start_line) then bool_decide (col >= start_col)
    else if bool_decide (line = end_line) then bool_decide (col <= end_col)
    else true.

(** ** [match_syntax]

    A C string is the list of its bytes before the terminating zero. *)

(** [s[i]], for [0 <= i <= strlen(s)] *)
Definition c_str_at (s : list Z) (i : Z) : option Z :=
  if bool_decide (i = Z.of_nat (length s)) then Some 0 else load s i.

(** The [do { ... } while (1)] of [match_syntax] from [i], [j], at most
    [n] rounds: whether it came to [return s]. *)
Fixpoint ext_loop (n : nat) (file ext : list Z) (i j : Z) : option bool :=
  match n with
  | O => None
  | S n' =>
    f ← c_str_at file i;
    x ← c_str_at ext j;
    if bool_decide (f ≠ x) then Some false
    else if bool_decide (j = 0) then Some true
    else if bool_decide (i = 0) then Some false
    else ext_loop n' file ext (i - 1) (j - 1)
  end.

(** [for (char ** ext = s->ext; *ext; ++ext)] *)
Fixpoint ext_any (file : list Z) (exts : list (list Z)) : option bool :=
  match exts with
  | [] => Some false
  | ext :: rest =>
    r ← ext_loop (S (length file)) file ext (Z.of_nat (length file))
          (Z.of_nat (length ext));
    if (r : bool) then Some true else ext_any file rest
  end.

(** [match_syntax] over the rows of [syntaxes] before the one whose
    name is [NULL]; a row is its list of extensions and the rest of
    it. *)
Fixpoint match_syntax {A} (syntaxes : list (list (list Z) * A))
  (file : list Z) : option (option (list (list Z) * A)) :=
  match syntaxes with
  | [] => Some None
  | s :: rest =>
    r ← ext_any file s.1;
    if (r : bool) then Some (Some s) else match_syntax rest file
  end.

(** ** More lexers: [syn_conf_calculate], [syn_biminfo_calculate] *)

Definition FLAG_COMMENT : Z := 3.
Definition FLAG_NUMERAL : Z := 6.

(** [while (charat() != stop && charat() != -1) paint(1, flag);], at most
    [n] rounds. *)
Fixpoint paint_until (n : nat) (st : syntax_state) (stop flag : Z)
  : syntax_state :=
  match n with
  | O => st
  | S n' =>
    if bool_decide (charat st ≠ stop) && bool_decide (charat st ≠ -1)
    then paint_until n' (paint1 st flag) stop flag
    else st
  end.

Definition syn_conf_calculate (st : syntax_state) : Z * syntax_state :=
  if bool_decide (ss_i st = 0) then
    let n := length (text (ss_line st)) in
    if bool_decide (charat st = 59) then (-1, paint_while n st FLAG_COMMENT)
    else if bool_decide (charat st = 35) then
      (-1, paint_while n st FLAG_COMMENT)
    else if bool_decide (charat st = 91) then
      let st := paint1 st FLAG_KEYWORD in
      let st := paint_until n st 93 FLAG_KEYWORD in
      (-1, if bool_decide (charat st = 93) then paint1 st FLAG_KEYWORD
           else st)
    else (-1, paint_until n st 61 FLAG_TYPE)
  else (-1, st).

Definition syntax_conf : syntax_definition :=
  SyntaxDef syn_conf_calculate false.

(** [skip()] *)
Definition skip (st : syntax_state) : syntax_state :=
  SyntaxState (ss_line st) (ss_line_no st) (ss_state st) (ss_i st + 1).

(** [while (charat() != ' ') paint(1, FLAG_TYPE);]: nothing but a space
    ends this loop, so it is given fuel, and [None] is the loop still
    running when the fuel is spent. *)
Fixpoint paint_to_space (n : nat) (st : syntax_state)
  : option syntax_state :=
  match n with
  | O => None
  | S n' =>
    if bool_decide (charat st ≠ 32)
    then paint_to_space n' (paint1 st FLAG_TYPE)
    else Some st
  end.

Definition syn_biminfo_calculate (fuel : nat) (st : syntax_state)
  : option (Z * syntax_state) :=
  if bool_decide (ss_i st = 0) then
    let n := length (text (ss_line st)) in
    if bool_decide (charat st = 35) then
      Some (-1, paint_while n st FLAG_COMMENT)
    else if bool_decide (charat st = 62) then
      let st := paint1 st FLAG_KEYWORD in
      st ← paint_to_space fuel st;
      let st := skip st in
      Some (-1, paint_while n st FLAG_NUMERAL)
    else Some (-1, paint_while n st FLAG_DIFFMINUS)
  else Some (-1, st).

(** What the lexers leave: a run of cells with one flag. *)
Definition repaint (flag : Z) (cs : list char_t) : list char_t :=
  (λ c, set_flags c flag) <$> cs.

(** The cells of a line before the first that holds [stop], and the
    cells from that one on. *)
Fixpoint before (stop : Z) (cs : list char_t) : list char_t :=
  match cs with
  | [] => []
  | c :: cs => if bool_decide (codepoint c ≠ stop) then c :: before stop cs
               else []
  end.

Fixpoint from (stop : Z) (cs : list char_t) : list char_t :=
  match cs with
  | [] => []
  | c :: cs' => if bool_decide (codepoint c ≠ stop) then from stop cs'
                else cs
  end.

(** ** Backward search: [find_match_backwards], [search_prev] *)

(** [while (j > -1) { ... j--; }]: the column found, if any; [n] rounds
    are left. *)
Fixpoint scan_line_back `{Host} (n : nat) (ignorecase i : Z) (line : line_t)
  (j : Z) (str : list Z) : option Z :=
  match n with
  | O => None
  | S n' =>
    if (match_at ignorecase i line j str).1 then Some (j + 1)
    else scan_line_back n' ignorecase i line (j - 1) str
  end.

(** [for (i = from_line; i >= 1; --i)], [n] lines to go. *)
Fixpoint find_match_backwards_lines `{Host} (n : nat) (e : buffer_t)
  (ignorecase i col : Z) (str : list Z) : option (option (Z * Z)) :=
  match n with
  | O => Some None
  | S n' =>
    line ← line_at e (i - 1);
    let j := col - 1 in
    match scan_line_back (Z.to_nat (j + 1)) ignorecase i line j str with
    | Some c => Some (Some (i, c))
    | None =>
      col ← (if bool_decide (i > 1)
             then prev ← line_at e (i - 2); Some (actual prev)
             else Some (-1));
      find_match_backwards_lines n' e ignorecase (i - 1) col str
    end
  end.

Definition find_match_backwards `{Host} (e : buffer_t)
  (from_line from_col : Z) (str : list Z) : option (option (Z * Z)) :=
  find_match_backwards_lines (Z.to_nat from_line) e (smart_case str)
    from_line from_col str.

(** [search_prev]; [draw_search_match] repaints the [FLAG_SEARCH] overlay
    and calls [place_cursor_actual]. *)
Definition search_prev `{Host} (e : buffer_t) : option buffer_t :=
  match search e with
  | None => Some e
  | Some str =>
    r ← find_match_backwards e (line_no e) (col_no e - 1) str;
    r ← (match r with
         | Some p => Some (Some p)
         | None =>
           last ← line_at e (line_count e - 1);
           find_match_backwards e (line_count e) (actual last) str
         end);
    match r with
    | None => Some e
    | Some (line, col) =>
      e ← set_preferred_column (set_line_no (set_col_no e col) line);
      Some (place_cursor_actual e)
    end
  end.

(** The last position at or before [upto], in reading order, where the
    string occurs. *)
Definition last_match_upto `{Host} (e : buffer_t) (str : list Z)
  (upto p : Z * Z) : Prop :=
  match_pos e str p /\ pos_le p upto /\
  forall q, match_pos e str q -> pos_le q upto -> pos_le q p.

Definition no_match_upto `{Host} (e : buffer_t) (str : list Z) (upto : Z * Z)
  : Prop :=
  forall q, match_pos e str q -> ~ pos_le q upto.

(** The end of the buffer: its last line and the length of that line. *)
Definition buffer_end (e : buffer_t) (p : Z * Z) : Prop :=
  exists l, line_at e (line_count e - 1) = Some l /\
            p = (line_count e, actual l).

(** The one-line buffer [foo bar foo] with the search term [foo] and the
    cursor on column 1. *)
Definition buffer_foo_bar_foo_1 : buffer_t :=
  set_col_no buffer_foo_bar_foo 1.

(** ** What a motion may change *)

(** [e'] is [e] but for the cursor: [line_no], [col_no] and
    [preferred_column]. *)
Definition cursor_only (e e' : buffer_t) : Prop :=
  e' = set_preferred_column_field
         (set_col_no (set_line_no e (line_no e')) (col_no e'))
         (preferred_column e').

(** The display column a cell starts in: the widths of the cells before
    it, summed. *)
Definition column_of (cells : list char_t) (idx : nat) : Z :=
  sum_widths (take idx cells).

(** ** Redoing what was undone *)

(** No record of [rs] is a [HISTORY_BREAK]. *)
Definition unbroken (rs : list (Z * history_t)) : Prop :=
  Forall (λ x, is_break x.2 = false) rs.

(** The line [xab] after [x] was typed in front of [ab] and insert mode
    was left: the journal holds the insertion and the break after it. *)
Definition buffer_xab : buffer_t :=
  set_next_addr
    (set_history (buffer_of [line_of [120; 97; 98]] 8 1 1)
       [(3, HISTORY_BREAK); (2, HISTORY_INSERT 0 0 120);
        (1, HISTORY_SENTINEL)] [])
    4.

(** * Properties *)

(** ** Tab widths *)

Lemma recalculate_tabs_loop_idempotent ts j cells cells' :
  recalculate_tabs_loop ts j cells = Some cells' ->
  recalculate_tabs_loop ts j cells' = Some cells'.
Proof.
  revert j cells'. induction cells as [|c rest IH]; intros j cells' Hrun.
  - simpl in Hrun. by simplify_eq.
  - simpl in Hrun.
    destruct (bool_decide (codepoint c = 9)) eqn:Htab.
    + destruct (bool_decide (ts = 0)) eqn:Hts; [done|].
      simpl in Hrun.
      destruct (recalculate_tabs_loop ts _ rest) as [rest'|] eqn:Hrest;
        [|done].
      simpl in Hrun. simplify_eq. simpl.
      rewrite Htab, Hts. simpl.
      unfold set_display_width at 2 3. simpl.
      rewrite (IH _ _ Hrest). simpl.
      by destruct c.
    + simpl in Hrun.
      destruct (recalculate_tabs_loop ts _ rest) as [rest'|] eqn:Hrest;
        [|done].
      simpl in Hrun. simplify_eq. simpl. rewrite Htab. simpl.
      by rewrite (IH _ _ Hrest).
Qed.

(** Running the tab pass on its own result changes nothing, for every
    line, every tabstop and in either loading state. *)
Lemma recalculate_tabs_idempotent e l l' :
  recalculate_tabs e l = Some l' -> recalculate_tabs e l' = Some l'.
Proof.
  unfold recalculate_tabs. destruct (loading e); [done|].
  destruct (recalculate_tabs_loop (tabstop e) 0 (text l)) as [cells|] eqn:Hl;
    [|done].
  simpl. intros [= <-]. simpl.
  rewrite (recalculate_tabs_loop_idempotent _ _ _ _ Hl). simpl.
  by destruct l.
Qed.

(** The pass changes neither codepoints nor flags, and no width of a cell
    that is not a tab. *)
Lemma recalculate_tabs_loop_frame ts j cells cells' :
  recalculate_tabs_loop ts j cells = Some cells' ->
  Forall2 (λ c c', codepoint c' = codepoint c /\ flags c' = flags c /\
                   (codepoint c ≠ 9 -> c' = c)) cells cells'.
Proof.
  revert j cells'. induction cells as [|c rest IH]; intros j cells' Hrun.
  - simpl in Hrun. simplify_eq. constructor.
  - simpl in Hrun.
    destruct (bool_decide (codepoint c = 9)) eqn:Htab.
    + destruct (bool_decide (ts = 0)); [done|]. simpl in Hrun.
      destruct (recalculate_tabs_loop ts _ rest) as [rest'|] eqn:Hrest;
        [|done].
      simpl in Hrun. simplify_eq. constructor; [|by eapply IH].
      apply bool_decide_eq_true in Htab. simpl. by repeat split.
    + simpl in Hrun.
      destruct (recalculate_tabs_loop ts _ rest) as [rest'|] eqn:Hrest;
        [|done].
      simpl in Hrun. simplify_eq. constructor; [|by eapply IH]. done.
Qed.

Lemma wrap4_small v : 0 <= v < 16 -> wrap4 v = v.
Proof.
  intros Hv. unfold wrap4. change 15 with (Z.ones 4).
  rewrite Z.land_ones by lia. apply Z.mod_small. lia.
Qed.

(** With a tabstop that fits the 4-bit width field, the tab found at
    display column [j] gets width [tabstop - j mod tabstop]. *)
Lemma recalculate_tabs_loop_width ts j cells cells' :
  0 < ts < 16 -> 0 <= j ->
  Forall (λ c, 0 <= display_width c) cells ->
  recalculate_tabs_loop ts j cells = Some cells' ->
  forall idx c, cells' !! idx = Some c -> codepoint c = 9 ->
    display_width c = ts - (j + sum_widths (take idx cells')) `mod` ts.
Proof.
  intros Hts. revert j cells'.
  induction cells as [|c0 rest IH]; intros j cells' Hj Hpos Hrun idx c Hc Htab.
  - simpl in Hrun. by simplify_eq.
  - simpl in Hrun. inversion Hpos as [|? ? Hc0 Hrest0]; subst.
    assert (Hrem : Z.rem j ts = j `mod` ts) by (apply Z.rem_mod_nonneg; lia).
    assert (Hmod : 0 <= j `mod` ts < ts) by (apply Z.mod_pos_bound; lia).
    destruct (bool_decide (codepoint c0 = 9)) eqn:Htab0.
    + destruct (bool_decide (ts = 0)) eqn:Hz; [done|]. simpl in Hrun.
      destruct (recalculate_tabs_loop ts _ rest) as [rest'|] eqn:Hrest;
        [|done].
      simpl in Hrun. simplify_eq.
      assert (Hw : wrap4 (ts - Z.rem j ts) = ts - j `mod` ts)
        by (rewrite Hrem; apply wrap4_small; lia).
      destruct idx as [|idx]; simpl in Hc.
      * simplify_eq. simpl. rewrite Hw. f_equal. f_equal. lia.
      * simpl in Hrest. rewrite Hw in Hrest.
        assert (Hj' : 0 <= j + (ts - j `mod` ts)) by lia.
        rewrite (IH _ _ Hj' Hrest0 Hrest idx c Hc Htab).
        simpl. rewrite Hw. f_equal. f_equal. lia.
    + simpl in Hrun.
      destruct (recalculate_tabs_loop ts _ rest) as [rest'|] eqn:Hrest;
        [|done].
      simpl in Hrun. simplify_eq.
      destruct idx as [|idx]; simpl in Hc.
      * simplify_eq. apply bool_decide_eq_false in Htab0. done.
      * assert (Hj' : 0 <= j + display_width c0) by lia.
        rewrite (IH _ _ Hj' Hrest0 Hrest idx c Hc Htab).
        simpl. f_equal. f_equal. lia.
Qed.

(** C9.  With [:tabstop 16], which the command accepts, the tab at display
    column 0 of a line is stored with width 0, not 16: the width field has
    four bits. *)
Lemma recalculate_tabs_tabstop_16 :
  recalculate_tabs
    (Buffer false false false MODE_NORMAL 16 1 1 8 1 0 None None
       [Some (line_of [9]); None; None; None; None; None; None; None]
       [(1, HISTORY_SENTINEL)] [] 1 2)
    (line_of [9])
  = Some (Line 32 0 0 [Char 0 0 9]).
Proof. reflexivity. Qed.

(** ** Reads of [find_match] *)

(** C10.  Searching the one-line buffer [ab] for [x] reads [text[2]], one
    cell past the two live cells; searching the two-line buffer [ab],
    [cd] also reads [text[-1]] of the second line. *)
Lemma find_match_reads_outside_live_cells :
  (exists reads l,
     find_match_reads (H:=example_host) buffer_ab 1 1 [120] = Some reads /\
     line_at buffer_ab 0 = Some l /\
     (1, actual l) ∈ reads) /\
  (exists reads,
     find_match_reads (H:=example_host) buffer_ab_cd 1 1 [120] = Some reads /\
     (2, -1) ∈ reads).
Proof.
  split.
  - exists [(1, 0); (1, 1); (1, 2)], (line_of [97; 98]).
    split; [reflexivity|]. split; [reflexivity|].
    change (actual (line_of [97; 98])) with 2.
    rewrite !elem_of_cons. auto.
  - exists [(1, 0); (1, 1); (1, 2); (2, -1); (2, 0); (2, 1); (2, 2)].
    split; [reflexivity|]. rewrite !elem_of_cons. auto 6.
Qed.

(** ** Smart case *)

(** Every comparison of [find_match] is made in the mode [smart_case]
    gives for the search string. *)
Lemma find_match_mode `{Host} e from_line from_col str :
  find_match_traced e from_line from_col str =
  find_match_lines (Z.to_nat (line_count e + 1 - from_line)) e
    (smart_case str) from_line from_col str.
Proof. reflexivity. Qed.

Lemma smart_case_lower `{Host} str :
  smart_case_opt global_config = true ->
  Forall (λ c, tolower c = c) str -> smart_case str = 1.
Proof.
  intros Hon Hall. unfold smart_case. rewrite Hon. simpl.
  assert (forallb (λ s, bool_decide (tolower s = s)) str = true) as ->;
    [|done].
  apply forallb_forall. intros c Hc. apply bool_decide_eq_true_2.
  rewrite Forall_forall in Hall. by apply Hall.
Qed.

Lemma smart_case_upper `{Host} str :
  Exists (λ c, tolower c ≠ c) str -> smart_case str = 0.
Proof.
  intros Hex. unfold smart_case.
  destruct (smart_case_opt global_config); [|done]. simpl.
  assert (forallb (λ s, bool_decide (tolower s = s)) str = false) as ->;
    [|done].
  apply not_true_is_false. intros Hall.
  rewrite forallb_forall in Hall. apply Exists_exists in Hex.
  destruct Hex as (c & Hc & Hne). apply Hne.
  apply Hall in Hc. by apply bool_decide_eq_true_1 in Hc.
Qed.

(** C6, as amended.  While the smartcase option is on: a search string
    that [tolower] leaves unchanged is compared up to [tolower], so each
    of its codepoints matches every codepoint [tolower] sends to it; a
    search string with a codepoint [tolower] changes is compared
    exactly. *)
Theorem smart_case_governs_matching `{Host} (str : list Z) (a b : Z) :
  smart_case_opt global_config = true ->
  (Forall (λ c, tolower c = c) str ->
     search_matches a b (smart_case str) = bool_decide (tolower a = tolower b)
     /\ (a ∈ str -> tolower b = a ->
         search_matches a b (smart_case str) = true)) /\
  (Exists (λ c, tolower c ≠ c) str ->
     search_matches a b (smart_case str) = bool_decide (a = b)).
Proof.
  intros Hon. split.
  - intros Hall. rewrite (smart_case_lower _ Hon Hall).
    split; [reflexivity|]. intros Ha Hb.
    unfold search_matches. simpl. apply bool_decide_eq_true.
    rewrite Forall_forall in Hall. rewrite Hb.
    apply Hall. by apply list_elem_of_In.
  - intros Hex. by rewrite (smart_case_upper _ Hex).
Qed.

Lemma smart_case_governs_matching_witness :
  smart_case_opt (global_config (Host:=example_host)) = true /\
  Forall (λ c, tolower_ascii c = c) [102; 111; 111] /\
  search_matches (H:=example_host) 102 70
    (smart_case (H:=example_host) [102; 111; 111]) = true.
Proof.
  assert (Hall : Forall (λ c, tolower (Host:=example_host) c = c)
                   [102; 111; 111]) by (repeat constructor).
  split; [reflexivity|]. split; [exact Hall|].
  apply (smart_case_governs_matching (H:=example_host) [102; 111; 111] 102 70
           eq_refl).
  - exact Hall.
  - apply elem_of_cons. by left.
  - reflexivity.
Defined.

(** After [:smartcase 0] every comparison is exact. *)
Lemma smart_case_off `{Host} (str : list Z) (a b : Z) :
  smart_case_opt global_config = false ->
  search_matches a b (smart_case str) = bool_decide (a = b).
Proof. intros Hoff. unfold smart_case. by rewrite Hoff. Qed.

(** C6 as stated fails after [:smartcase 0]: the search string [a] has no
    uppercase codepoint and [A] is the same letter, yet they do not
    match. *)
Lemma smart_case_off_counterexample :
  Forall (λ c, tolower_ascii c = c) [97] /\
  tolower_ascii 65 = 97 /\
  search_matches (H:=nosmartcase_host) 97 65
    (smart_case (H:=nosmartcase_host) [97]) = false.
Proof. split; [repeat constructor|]. split; reflexivity. Qed.

(** ** [remove_line] on a full vector *)

(** C5.  In a buffer of eight lines, the vector [setup_buffer] allocates
    is full; removing the first line moves [line_count - (offset - 1)]
    slots from slot 1 and so leaves the vector. *)
Lemma remove_line_leaves_vector :
  line_count buffer_eight = 8 /\ line_avail buffer_eight = 8 /\
  (exists ls, free_slot (lines buffer_eight) 0 = Some ls /\
              memmove ls 0 1 (8 - (0 - 1)) = None) /\
  remove_line (H:=example_host) buffer_eight 0 = None.
Proof.
  split; [done|]. split; [done|]. split; [|done].
  eexists. split; reflexivity.
Qed.

(** ** Forward search *)

Section Search.
Context `{Host}.
Variables (ic i : Z) (l : line_t).

Lemma text_at_live k c :
  text l !! k = Some c -> text_at i l (Z.of_nat k) = c.
Proof.
  intros Hk. unfold text_at. rewrite bool_decide_true by lia.
  by rewrite Nat2Z.id, Hk.
Qed.

(** A comparison that starts inside the line succeeds exactly when the
    string lies in the live cells from there. *)
Lemma match_at_spec str k :
  0 <= k ->
  (match_at ic i l k str).1 = true <->
  k <= actual l /\ occurs_in_line ic str l k.
Proof.
  revert k. induction str as [|m rest IH]; intros k Hk; simpl.
  - case_bool_decide; simpl.
    + split; [|done]. intros _. split; [lia|]. split; [done|]. simpl.
      constructor.
    + split; [done|]. intros [? _]. lia.
  - case_bool_decide as Hin; simpl; cycle 1.
    { split; [done|]. intros [? _]. lia. }
    unfold occurs_in_line.
    destruct (decide (k < actual l)) as [Hlt|Hge].
    + assert (Hlen : (Z.to_nat k < length (text l))%nat)
        by (unfold actual in Hlt; lia).
      destruct (lookup_lt_is_Some_2 _ _ Hlen) as [c Hc].
      rewrite (drop_S _ _ _ Hc). simpl.
      replace k with (Z.of_nat (Z.to_nat k)) at 1 by lia.
      rewrite (text_at_live _ _ Hc).
      destruct (search_matches m (codepoint c) ic) eqn:Hm.
      * destruct (match_at ic i l (k + 1) rest) as [r t] eqn:Hr. simpl.
        specialize (IH (k + 1) ltac:(lia)). rewrite Hr in IH. simpl in IH.
        rewrite IH. unfold occurs_in_line.
        replace (Z.to_nat (k + 1)) with (S (Z.to_nat k)) by lia.
        split.
        -- intros (? & ? & HF). split; [lia|]. split; [lia|].
           by constructor.
        -- intros (? & ? & HF). inversion HF; subst.
           split; [lia|]. split; [lia|]. done.
      * simpl. split; [done|]. intros (? & ? & HF).
        inversion HF; subst. congruence.
    + assert (k = actual l) as -> by lia.
      unfold actual. rewrite Nat2Z.id, drop_all. simpl.
      destruct (search_matches m _ ic).
      * destruct (match_at ic i l (Z.of_nat (length (text l)) + 1) rest)
          as [r t] eqn:Hr. simpl.
        destruct rest; simpl in Hr;
          rewrite bool_decide_false in Hr by (unfold actual; lia);
          simplify_eq; (split; [done|]); intros (? & ? & HF);
          inversion HF.
      * simpl. split; [done|]. intros (? & ? & HF). inversion HF.
Qed.

(** The cell before the first holds the header word: no codepoint of a
    search string matches it. *)
Lemma match_at_header m rest :
  tolower 0 = 0 -> 0 <= rev_status l < 2048 -> m ≠ 0 ->
  (ic = 0 \/ (ic = 1 /\ tolower m = m)) ->
  (match_at ic i l (-1) (m :: rest)).1 = false.
Proof.
  intros Ht0 Hrev Hm Hic.
  assert (Hcp : codepoint (text_at i l (-1)) = 0).
  { unfold text_at. rewrite bool_decide_false by lia.
    rewrite bool_decide_true by done. simpl.
    rewrite Z.shiftr_div_pow2 by lia.
    rewrite Z.div_small by lia. done. }
  cbn [match_at]. case_bool_decide; [|done].
  rewrite Hcp. unfold search_matches.
  destruct Hic as [->|[-> Hlow]]; simpl.
  - rewrite bool_decide_false by done. done.
  - rewrite Ht0, Hlow. rewrite bool_decide_false by done. done.
Qed.

(** The scan of a line from [j] finds the first start at or after [j]
    where the string occurs. *)
Lemma scan_line_spec str n j :
  0 <= j -> Z.of_nat n = actual l + 1 - j \/ (n = 0%nat /\ actual l < j) ->
  match (scan_line n ic i l j str).1 with
  | Some c => j + 1 <= c /\ occurs_in_line ic str l (c - 1) /\
              c - 1 <= actual l /\
              forall j', j <= j' < c - 1 -> ~ occurs_in_line ic str l j'
  | None => forall j', j <= j' -> j' <= actual l ->
              ~ occurs_in_line ic str l j'
  end.
Proof.
  revert j. induction n as [|n IH]; intros j Hj Hn; simpl.
  - intros j' ? ?. lia.
  - destruct Hn as [Hn|[? _]]; [|done].
    destruct (match_at ic i l j str) as [r t] eqn:Hr.
    pose proof (match_at_spec str j Hj) as Hspec. rewrite Hr in Hspec.
    simpl in Hspec. destruct r; simpl.
    + destruct Hspec as [Hspec _]. destruct (Hspec eq_refl) as [? Hocc].
      replace (j + 1 - 1) with j by lia.
      split; [lia|]. split; [done|]. split; [lia|]. intros j' ?. lia.
    + specialize (IH (j + 1) ltac:(lia) ltac:(lia)).
      destruct (scan_line n ic i l (j + 1) str) as [r' t'] eqn:Hr'.
      simpl in *. destruct r' as [c|].
      * destruct IH as (? & ? & ? & Hfirst).
        split; [lia|]. split; [done|]. split; [done|].
        intros j' Hj' Hocc.
        destruct (decide (j' = j)) as [->|Hne].
        -- assert (true = false); [|done].
           symmetry. apply Hspec. split; [lia|done].
        -- apply (Hfirst j'); [lia|done].
      * intros j' Hj' Hle Hocc.
        destruct (decide (j' = j)) as [->|Hne].
        -- assert (true = false); [|done].
           symmetry. apply Hspec. split; [lia|done].
        -- apply (IH j'); [lia|lia|done].
Qed.

Lemma occurs_in_line_bound str j :
  str ≠ [] ->
  occurs_in_line ic str l j -> j + Z.of_nat (length str) <= actual l.
Proof.
  intros Hne [Hj HF]. apply Forall2_length in HF.
  rewrite length_take, length_drop in HF. unfold actual.
  assert (0 < length str)%nat by (destruct str; simpl; [done|lia]).
  lia.
Qed.
End Search.

Lemma smart_case_cases `{Host} str :
  smart_case str = 0 \/
  (smart_case str = 1 /\ forall c, c ∈ str -> tolower c = c).
Proof.
  unfold smart_case. destruct (smart_case_opt global_config); [|by left].
  simpl. destruct (forallb _ str) eqn:Hall; [|by left].
  right. split; [done|]. intros c Hc.
  rewrite forallb_forall in Hall. apply list_elem_of_In in Hc.
  apply Hall in Hc. by apply bool_decide_eq_true_1 in Hc.
Qed.

Section FindMatch.
Context `{Host}.
Variables (e : buffer_t) (m : Z) (rest : list Z).
Hypothesis Htolower : tolower 0 = 0.
Hypothesis Hlive : lines_live e.
Hypothesis Hnonzero : m ≠ 0.

Let str := m :: rest.
Let ic := smart_case str.

Lemma ic_cases : ic = 0 \/ (ic = 1 /\ tolower m = m).
Proof.
  destruct (smart_case_cases str) as [?|[? Hlow]]; [by left|right].
  split; [done|]. apply Hlow. apply elem_of_cons. by left.
Qed.

(** One line, scanned from column [col] (0 on the lines after the
    first): the first occurrence from column [max col 1] on. *)
Lemma scan_from_col i l col :
  0 <= col -> 0 <= rev_status l < 2048 ->
  match (scan_line (Z.to_nat (actual l + 1 - (col - 1))) ic i l (col - 1)
           str).1 with
  | Some c => Z.max col 1 <= c /\ occurs_in_line ic str l (c - 1) /\
              forall j', Z.max col 1 - 1 <= j' < c - 1 ->
                         ~ occurs_in_line ic str l j'
  | None => forall j', Z.max col 1 - 1 <= j' -> ~ occurs_in_line ic str l j'
  end.
Proof.
  intros Hcol Hrev.
  assert (Hgen : forall n j, 0 <= j ->
            Z.of_nat n = actual l + 1 - j \/ (n = 0%nat /\ actual l < j) ->
            match (scan_line n ic i l j str).1 with
            | Some c => j + 1 <= c /\ occurs_in_line ic str l (c - 1) /\
                        forall j', j <= j' < c - 1 ->
                                   ~ occurs_in_line ic str l j'
            | None => forall j', j <= j' -> ~ occurs_in_line ic str l j'
            end).
  { intros n j Hj Hn. pose proof (scan_line_spec ic i l str n j Hj Hn) as Hs.
    destruct (scan_line n ic i l j str).1 as [c|].
    - destruct Hs as (? & ? & ? & ?). done.
    - intros j' Hj' Hocc.
      apply (Hs j' Hj'); [|done].
      apply occurs_in_line_bound in Hocc; [|done]. lia. }
  destruct (decide (col = 0)) as [->|Hpos].
  - replace (Z.to_nat (actual l + 1 - (0 - 1)))
      with (S (Z.to_nat (actual l + 1))) by (unfold actual; lia).
    change (0 - 1) with (-1). cbn [scan_line].
    pose proof (match_at_header ic i l m rest Htolower Hrev Hnonzero
                  ic_cases) as Hhead.
    fold str in Hhead.
    destruct (match_at ic i l (-1) str) as [r t]. simpl in Hhead.
    destruct r; [done|].
    specialize (Hgen (Z.to_nat (actual l + 1)) 0 ltac:(lia)
                  ltac:(unfold actual; lia)).
    change (-1 + 1) with 0.
    destruct (scan_line (Z.to_nat (actual l + 1)) ic i l 0 str) as [r' t'].
    simpl in *. replace (Z.max 0 1) with 1 by lia.
    replace (1 - 1) with 0 by lia. destruct r'; [|done].
    destruct Hgen as (? & ? & ?). split; [lia|done].
  - replace (Z.max col 1) with col by lia.
    assert (Hn : Z.of_nat (Z.to_nat (actual l + 1 - (col - 1)))
                 = actual l + 1 - (col - 1) \/
                 (Z.to_nat (actual l + 1 - (col - 1)) = 0%nat /\
                  actual l < col - 1)) by lia.
    specialize (Hgen _ (col - 1) ltac:(lia) Hn).
    destruct (scan_line _ ic i l (col - 1) str).1; [|done].
    destruct Hgen as (? & ? & ?). split; [lia|done].
Qed.

(** The lines from [i] on, the first of them from column [col]. *)
Lemma find_match_lines_spec n i col :
  1 <= i -> 0 <= col ->
  Z.of_nat n = line_count e + 1 - i \/ (n = 0%nat /\ line_count e < i) ->
  exists r t, find_match_lines n e ic i col str = Some (r, t) /\
    match r with
    | Some p => first_match_from e str (i, Z.max col 1) p
    | None => no_match_from e str (i, Z.max col 1)
    end.
Proof.
  revert i col. induction n as [|n IH]; intros i col Hi Hcol Hn.
  - exists None, []. split; [done|].
    intros q (l & Hq & _) [Hlt|[Heq _]]; simpl in *; lia.
  - destruct Hn as [Hn|[? _]]; [|done].
    destruct (Hlive (i - 1) ltac:(lia)) as (l & Hl & Hrev).
    cbn [find_match_lines]. rewrite Hl. simpl.
    pose proof (scan_from_col i l col Hcol Hrev) as Hscan.
    destruct (scan_line _ ic i l (col - 1) str) as [r t]. simpl in Hscan.
    destruct r as [c|].
    + eexists _, _. split; [done|].
      destruct Hscan as (Hc & Hocc & Hfirst).
      split; [|split].
      * exists l. simpl. split; [lia|]. done.
      * right. simpl. lia.
      * intros q (lq & Hq1 & Hlq & Hoccq) [Hlt|[Heq Hle]]; simpl in *.
        -- left. simpl. lia.
        -- right. simpl. split; [done|]. subst i.
           rewrite Hl in Hlq. simplify_eq.
           destruct (decide (c <= q.2)); [done|].
           exfalso. apply (Hfirst (q.2 - 1)); [lia|done].
    + destruct (IH (i + 1) 0 ltac:(lia) ltac:(lia) ltac:(lia))
        as (r' & t' & Hrun & Hspec).
      rewrite Hrun. simpl. eexists _, _. split; [done|].
      replace (Z.max 0 1) with 1 in Hspec by lia.
      assert (Hskip : forall q, match_pos e str q ->
                pos_le (i, Z.max col 1) q -> pos_le (i + 1, 1) q).
      { intros q (lq & Hq1 & Hlq & Hoccq) [Hlt|[Heq Hle]]; simpl in *.
        - destruct Hoccq as [? _]. destruct (decide (q.1 = i + 1)).
          + right. simpl. lia.
          + left. simpl. lia.
        - subst i. rewrite Hl in Hlq. simplify_eq.
          exfalso. apply (Hscan (q.2 - 1)); [lia|done]. }
      destruct r' as [p|].
      * destruct Hspec as (Hp & Hfrom & Hmin). split; [done|]. split.
        -- left. simpl. destruct Hfrom as [?|[? ?]]; simpl in *; lia.
        -- intros q Hq Hle. apply Hmin; [done|]. by apply Hskip.
      * intros q Hq Hle. apply (Hspec q Hq). by apply Hskip.
Qed.

Lemma find_match_spec from_line from_col :
  1 <= from_line -> 1 <= from_col ->
  exists r, find_match e from_line from_col str = Some r /\
    match r with
    | Some p => first_match_from e str (from_line, from_col) p
    | None => no_match_from e str (from_line, from_col)
    end.
Proof.
  intros Hl Hc. unfold find_match, find_match_traced.
  destruct (find_match_lines_spec
              (Z.to_nat (line_count e + 1 - from_line)) from_line from_col
              Hl ltac:(lia) ltac:(lia)) as (r & t & Hrun & Hspec).
  fold str ic. rewrite Hrun. simpl. exists r. split; [done|].
  by replace (Z.max from_col 1) with from_col in Hspec by lia.
Qed.
End FindMatch.

Lemma place_cursor_actual_valid e :
  1 <= line_no e -> 1 <= col_no e -> place_cursor_actual e = e.
Proof.
  intros Hl Hc. unfold place_cursor_actual.
  repeat case_bool_decide; simpl in *; try lia. done.
Qed.

Lemma search_next_moves `{Host} e p :
  (exists l, line_at e (p.1 - 1) = Some l) -> 1 <= p.1 -> 1 <= p.2 ->
  exists e', (e'' ← set_preferred_column (set_line_no (set_col_no e p.2) p.1);
              Some (place_cursor_actual e'')) = Some e' /\
             (line_no e', col_no e') = p.
Proof.
  intros [l Hl] H1 H2. unfold set_preferred_column. simpl.
  unfold line_at in *. simpl. rewrite Hl. simpl.
  eexists. split; [done|].
  rewrite place_cursor_actual_valid by (simpl; lia). simpl. by destruct p.
Qed.

(** C7.  [search_next] with a search term (a non-empty string of
    non-zero codepoints) moves the cursor to the first match at or after
    the column right of the cursor, in reading order; when there is none,
    to the first match from the start of the buffer; when there is none
    at all it leaves the buffer as it is. *)
Theorem search_next_first_match `{Host} (e : buffer_t) (str : list Z) :
  tolower 0 = 0 ->
  lines_live e ->
  search e = Some str -> str ≠ [] -> Forall (λ c, c ≠ 0) str ->
  1 <= line_no e -> 0 <= col_no e ->
  exists e', search_next e = Some e' /\
    ((exists p, first_match_from e str (line_no e, col_no e + 1) p /\
                (line_no e', col_no e') = p) \/
     (no_match_from e str (line_no e, col_no e + 1) /\
      exists p, first_match_from e str (1, 1) p /\
                (line_no e', col_no e') = p) \/
     (no_match_from e str (line_no e, col_no e + 1) /\
      no_match_from e str (1, 1) /\ e' = e)).
Proof.
  intros Ht0 Hlive Hsearch Hne Hnz Hline Hcol.
  destruct str as [|m rest]; [done|]. inversion Hnz as [|? ? Hm _]; subst.
  unfold search_next. rewrite Hsearch.
  destruct (find_match_spec e m rest Ht0 Hlive Hm (line_no e) (col_no e + 1)
              Hline ltac:(lia)) as (r & Hrun & Hspec).
  rewrite Hrun. simpl.
  assert (Hmove : forall from p, first_match_from e (m :: rest) from p ->
            exists e', (e'' ← set_preferred_column
                               (set_line_no (set_col_no e p.2) p.1);
                        Some (place_cursor_actual e'')) = Some e' /\
                       (line_no e', col_no e') = p).
  { intros from p ((l & Hp1 & Hl & Hocc) & _ & _).
    apply search_next_moves; [by exists l|lia|].
    destruct Hocc as [? _]. lia. }
  destruct r as [p|].
  - simpl. destruct (Hmove _ _ Hspec) as (e' & He' & Hcur).
    destruct p as [pl pc]. simpl in *. exists e'. split; [done|].
    left. by exists (pl, pc).
  - destruct (find_match_spec e m rest Ht0 Hlive Hm 1 1 ltac:(lia) ltac:(lia))
      as (r' & Hrun' & Hspec').
    rewrite Hrun'. simpl. destruct r' as [p|].
    + destruct (Hmove _ _ Hspec') as (e' & He' & Hcur).
      destruct p as [pl pc]. simpl in *. exists e'. split; [done|].
      right. left. split; [done|]. by exists (pl, pc).
    + exists e. split; [done|]. right. right. done.
Qed.

(** The scenario of the specification: in the one-line buffer
    [foo bar foo], searching [foo] from column 9 wraps to column 1. *)
Lemma search_next_first_match_witness :
  (tolower (Host:=example_host) 0 = 0 /\
   lines_live buffer_foo_bar_foo /\
   search buffer_foo_bar_foo = Some [102; 111; 111] /\
   1 <= line_no buffer_foo_bar_foo /\ 0 <= col_no buffer_foo_bar_foo) /\
  (exists e', search_next (H:=example_host) buffer_foo_bar_foo = Some e' /\
     ((exists p, first_match_from (H:=example_host) buffer_foo_bar_foo
                   [102; 111; 111] (1, 9 + 1) p /\
                 (line_no e', col_no e') = p) \/
      (no_match_from (H:=example_host) buffer_foo_bar_foo [102; 111; 111]
         (1, 9 + 1) /\
       exists p, first_match_from (H:=example_host) buffer_foo_bar_foo
                   [102; 111; 111] (1, 1) p /\
                 (line_no e', col_no e') = p) \/
      (no_match_from (H:=example_host) buffer_foo_bar_foo [102; 111; 111]
         (1, 9 + 1) /\
       no_match_from (H:=example_host) buffer_foo_bar_foo [102; 111; 111]
         (1, 1) /\ e' = buffer_foo_bar_foo))) /\
  (exists e', search_next (H:=example_host) buffer_foo_bar_foo = Some e' /\
              line_no e' = 1 /\ col_no e' = 1).
Proof.
  assert (Hlive : lines_live buffer_foo_bar_foo).
  { intros i Hi. change (line_count buffer_foo_bar_foo) with 1 in Hi.
    assert (i = 0) as -> by lia. eexists. split; [reflexivity|]. simpl. lia. }
  split; [|split].
  - repeat split; try done; simpl; lia.
  - apply (search_next_first_match (H:=example_host) buffer_foo_bar_foo
             [102; 111; 111] eq_refl Hlive eq_refl).
    + done.
    + repeat constructor; done.
    + simpl. lia.
    + simpl. lia.
  - eexists. split; [reflexivity|]. done.
Defined.

(** ** The paren matcher *)

Lemma paren_lookup_spec start d pm :
  paren_lookup 0 paren_pairs start = Some (d, pm) ->
  (d = 1 \/ d = -1) /\ start ≠ pm.
Proof.
  unfold paren_pairs. cbn [paren_lookup].
  repeat (case_bool_decide; [subst; cbn; intros [= <- <-]; split;
                             [auto|done]|]).
  done.
Qed.

Lemma paren_lookup_is_paren start :
  is_paren start = true -> is_Some (paren_lookup 0 paren_pairs start).
Proof.
  unfold is_paren. intros Hin%bool_decide_eq_true_1.
  unfold paren_pairs in *. rewrite !elem_of_cons, elem_of_nil in Hin.
  cbn [paren_lookup].
  repeat (case_bool_decide; [by eexists|]).
  exfalso. destruct Hin as [?|[?|[?|[?|[?|[?|[?|[?|[]]]]]]]]]; done.
Qed.

Lemma cells_from_app line col xs ys :
  cells_from line col (xs ++ ys) =
  cells_from line col xs ++ cells_from line (col + Z.of_nat (length xs)) ys.
Proof.
  revert col. induction xs as [|x xs IH]; intros col.
  - simpl. by rewrite Z.add_0_r.
  - cbn [cells_from app length]. rewrite IH. do 3 f_equal. lia.
Qed.

Section LineCells.
Variables (line : Z) (l : line_t).

Lemma line_forward_cons col c :
  1 <= col -> text l !! Z.to_nat (col - 1) = Some c ->
  line_forward line l col = (line, col, c) :: line_forward line l (col + 1).
Proof.
  intros Hcol Hc. unfold line_forward.
  rewrite (drop_S _ _ _ Hc). simpl. do 3 f_equal. lia.
Qed.

Lemma line_forward_nil col :
  actual l < col -> line_forward line l col = [].
Proof.
  intros Hcol. unfold line_forward.
  rewrite drop_ge; [done|]. unfold actual in Hcol. lia.
Qed.

Lemma line_backward_cons col c :
  1 <= col -> text l !! Z.to_nat (col - 1) = Some c ->
  line_backward line l col
  = (line, col, c) :: line_backward line l (col - 1).
Proof.
  intros Hcol Hc. unfold line_backward.
  replace (Z.to_nat col) with (S (Z.to_nat (col - 1))) by lia.
  rewrite (take_S_r _ _ _ Hc), cells_from_app, reverse_app. simpl.
  rewrite length_take.
  apply lookup_lt_Some in Hc.
  do 3 f_equal. lia.
Qed.

Lemma line_backward_nil col : col <= 0 -> line_backward line l col = [].
Proof.
  intros Hcol. unfold line_backward.
  by replace (Z.to_nat col) with 0%nat by lia.
Qed.

(** In either direction: inside the line the next cell is the one at
    [col]; outside, nothing is left. *)
Lemma line_cells_step d col :
  d = 1 \/ d = -1 ->
  (d = 1 -> 1 <= col) -> (d = -1 -> col <= actual l) ->
  if bool_decide (col > 0 /\ col < actual l + 1)
  then exists c, text l !! Z.to_nat (col - 1) = Some c /\
         line_cells d line l col
         = (line, col, c) :: line_cells d line l (col + d)
  else line_cells d line l col = [].
Proof.
  intros Hd Hf Hb. unfold line_cells. case_bool_decide as Hin.
  - assert (Hlt : (Z.to_nat (col - 1) < length (text l))%nat)
      by (unfold actual in Hin; lia).
    destruct (lookup_lt_is_Some_2 _ _ Hlt) as [c Hc]. exists c.
    split; [done|]. destruct Hd as [->| ->].
    + rewrite bool_decide_true by lia. by apply line_forward_cons; [lia|].
    + rewrite bool_decide_false by lia.
      by apply line_backward_cons; [lia|].
  - destruct Hd as [->| ->].
    + rewrite bool_decide_true by lia. apply line_forward_nil.
      specialize (Hf eq_refl). lia.
    + rewrite bool_decide_false by lia. apply line_backward_nil.
      specialize (Hb eq_refl). lia.
Qed.
End LineCells.

Lemma paren_counter_app start pm fl xs ys count :
  paren_counter start pm fl (xs ++ ys) count =
  match paren_counter start pm fl xs count with
  | inl p => inl p
  | inr k => paren_counter start pm fl ys k
  end.
Proof.
  revert count. induction xs as [|[[a b] c] xs IH]; intros count; simpl.
  - done.
  - repeat case_bool_decide; by rewrite ?IH.
Qed.

Section ParenScan.
Context `{Host}.
Variables (e : buffer_t) (start pm fl d : Z).
Hypothesis Hpartner : start ≠ pm.
Hypothesis Hd : d = 1 \/ d = -1.
Hypothesis Hlines : forall i, 0 <= i < line_count e -> is_Some (line_at e i).

(** The inner loop is the counter run over the rest of the line. *)
Lemma paren_scan_line_spec n line l col count :
  (d = 1 -> 1 <= col) -> (d = -1 -> col <= actual l) ->
  (d = 1 -> actual l - col + 1 <= Z.of_nat n) ->
  (d = -1 -> col <= Z.of_nat n) ->
  exists r, paren_counter start pm fl (line_cells d line l col) count = r /\
    (forall p, r = inl p -> p.1 = line) /\
    paren_scan_line n line l start pm fl d col count
    = Some (match r with inl p => inl p.2 | inr k => inr k end).
Proof.
  revert col count. induction n as [|n IH]; intros col count Hf Hb Hn Hn'.
  - pose proof (line_cells_step line l d col Hd Hf Hb) as Hstep.
    cbn [paren_scan_line].
    case_bool_decide as Hin.
    { exfalso. destruct Hd as [Hd1|Hd1];
        [specialize (Hn Hd1)|specialize (Hn' Hd1)]; lia. }
    rewrite Hstep. eexists. split; [done|]. split; [done|]. done.
  - pose proof (line_cells_step line l d col Hd Hf Hb) as Hstep.
    cbn [paren_scan_line].
    case_bool_decide as Hin; cycle 1.
    { rewrite Hstep. eexists. split; [done|]. split; [done|]. done. }
    destruct Hstep as (c & Hc & ->).
    assert (Hread : text_at line l (col - 1) = c).
    { replace (col - 1) with (Z.of_nat (Z.to_nat (col - 1))) by lia.
      by apply text_at_live. }
    rewrite Hread. cbn [paren_counter]. fold (nibble c).
    assert (Hnext : forall count',
              exists r,
                paren_counter start pm fl (line_cells d line l (col + d))
                  count' = r /\
                (forall p, r = inl p -> p.1 = line) /\
                paren_scan_line n line l start pm fl d (col + d) count'
                = Some (match r with inl p => inl p.2 | inr k => inr k end)).
    { intros count'. apply IH.
      - intros ->. lia.
      - intros ->. lia.
      - intros Hd1. specialize (Hn Hd1). lia.
      - intros Hd1. specialize (Hn' Hd1). lia. }
    case_bool_decide as Hfl; [|apply Hnext].
    case_bool_decide as Hs.
    + rewrite bool_decide_false by congruence. apply Hnext.
    + case_bool_decide as Hp; [|apply Hnext].
      case_bool_decide; [|apply Hnext].
      eexists. split; [done|]. split; [by intros p [= <-]|done].
Qed.

(** The outer loop is the counter run over the rest of the line and
    the lines after it. *)
Lemma paren_scan_spec n line l col count :
  1 <= line <= line_count e -> line_at e (line - 1) = Some l ->
  (d = 1 -> 1 <= col) -> (d = -1 -> col <= actual l) ->
  (d = 1 -> line_count e - line < Z.of_nat n) ->
  (d = -1 -> line - 1 < Z.of_nat n) ->
  paren_scan n e start pm fl d line col count
  = Some (match paren_counter start pm fl
                  (line_cells d line l col
                   ++ lines_cells
                        (Z.to_nat (if bool_decide (d > 0)
                                   then line_count e - line else line - 1))
                        e d (line + d)) count with
          | inl p => Some p
          | inr _ => None
          end).
Proof.
  revert line l col count.
  induction n as [|n IH]; intros line l col count Hline Hl Hf Hb Hn Hn'.
  { exfalso. destruct Hd as [Hd1|Hd1];
      [specialize (Hn Hd1)|specialize (Hn' Hd1)]; lia. }
  cbn [paren_scan]. rewrite Hl. cbn [mbind option_bind].
  destruct (paren_scan_line_spec (S (length (text l))) line l col count
              Hf Hb) as (r & Hr & Hpos & ->).
  { intros Hd1. specialize (Hf Hd1). unfold actual. lia. }
  { intros Hd1. specialize (Hb Hd1). unfold actual in *. lia. }
  simpl. rewrite paren_counter_app, Hr.
  destruct r as [p|count'].
  { specialize (Hpos p eq_refl). destruct p as [pl pc]. simpl in *.
    by subst pl. }
  destruct (decide (line + d = 0 \/ line + d = line_count e + 1))
    as [Hedge|Hedge].
  - rewrite (bool_decide_true _ Hedge).
    assert (Z.to_nat (if bool_decide (d > 0)
                      then line_count e - line else line - 1) = 0%nat)
      as -> by (destruct Hd as [->| ->]; simpl in *; lia).
    done.
  - rewrite (bool_decide_false _ Hedge).
    assert (Hline' : 1 <= line + d <= line_count e)
      by (destruct Hd as [->| ->]; lia).
    destruct (Hlines (line + d - 1) ltac:(lia)) as [l' Hl']. rewrite Hl'.
    simpl.
    assert (Hrem : Z.to_nat (if bool_decide (d > 0)
                             then line_count e - line else line - 1)
                   = S (Z.to_nat (if bool_decide (d > 0)
                                  then line_count e - (line + d)
                                  else line + d - 1)))
      by (destruct Hd as [->| ->]; simpl in *; lia).
    rewrite Hrem. cbn [lines_cells]. rewrite Hl'.
    rewrite (IH (line + d) l' _ count' Hline' Hl').
    + done.
    + intros ->. by rewrite bool_decide_true by lia.
    + intros ->. by rewrite bool_decide_false by lia.
    + intros Hd1. specialize (Hn Hd1). lia.
    + intros Hd1. specialize (Hn' Hd1). lia.
Qed.
End ParenScan.

(** C8.  With the cursor (or the cell left of it, [in_col = 2]) on a
    bracket of the pair table, [find_matching_paren] returns the cell the
    counter of the specification stops at, and no match when the scan
    runs off the first or last line. *)
Theorem find_matching_paren_spec `{Host} (e : buffer_t) (in_col : Z)
  (cur : line_t) (c : char_t) :
  (forall i, 0 <= i < line_count e -> is_Some (line_at e i)) ->
  1 <= line_no e <= line_count e ->
  line_at e (line_no e - 1) = Some cur ->
  1 <= col_no e - in_col + 1 ->
  text cur !! Z.to_nat (col_no e - in_col) = Some c ->
  is_paren (codepoint c) = true ->
  find_matching_paren e in_col
  = Some (paren_partner e (line_no e) (col_no e - in_col + 1)).
Proof.
  intros Hlines Hline Hcur Hcol Hc Hparen.
  assert (Hact : col_no e - in_col + 1 <= actual cur).
  { apply lookup_lt_Some in Hc. unfold actual. lia. }
  unfold find_matching_paren, paren_partner. rewrite Hcur.
  cbn [mbind option_bind].
  rewrite bool_decide_false by lia.
  replace (col_no e - in_col + 1 - 1) with (col_no e - in_col) by lia.
  rewrite Hc. cbn [mbind option_bind].
  assert (Hread : text_at (line_no e) cur (col_no e - in_col) = c).
  { replace (col_no e - in_col)
      with (Z.of_nat (Z.to_nat (col_no e - in_col))) at 1 by lia.
    by apply text_at_live. }
  rewrite Hread. fold (nibble c).
  destruct (paren_lookup_is_paren _ Hparen) as [[d pm] Hlook].
  rewrite Hlook. cbn [mbind option_bind].
  destruct (paren_lookup_spec _ _ _ Hlook) as [Hd Hne].
  rewrite (paren_scan_spec e (codepoint c) pm (nibble c) d Hne Hd Hlines
             _ (line_no e) cur _ 0 Hline Hcur).
  - f_equal. unfold scan_order. rewrite Hcur.
    pose proof (line_cells_step (line_no e) cur d (col_no e - in_col + 1) Hd
                  ltac:(lia) ltac:(lia)) as Hstep.
    rewrite bool_decide_true in Hstep by lia.
    destruct Hstep as (c' & Hc' & ->).
    replace (col_no e - in_col + 1 - 1) with (col_no e - in_col) in Hc' by lia.
    rewrite Hc in Hc'. simplify_eq.
    cbn [app paren_counter].
    rewrite bool_decide_true by done. rewrite bool_decide_true by done.
    done.
  - lia.
  - lia.
  - lia.
  - lia.
Qed.

(** Scenario 4 of the specification: in [{] over [}], from the brace at
    1:1 the matcher returns 2:1. *)
Lemma find_matching_paren_spec_witness :
  ((forall i, 0 <= i < line_count buffer_braces ->
              is_Some (line_at buffer_braces i)) /\
   1 <= line_no buffer_braces <= line_count buffer_braces /\
   line_at buffer_braces (line_no buffer_braces - 1) = Some (line_of [123]) /\
   is_paren 123 = true) /\
  find_matching_paren (H:=example_host) buffer_braces 1
  = Some (paren_partner buffer_braces 1 1) /\
  paren_partner buffer_braces 1 1 = Some (2, 1).
Proof.
  assert (Hlines : forall i, 0 <= i < line_count buffer_braces ->
                             is_Some (line_at buffer_braces i)).
  { intros i Hi. change (line_count buffer_braces) with 2 in Hi.
    assert (i = 0 \/ i = 1) as [->| ->] by lia; by eexists. }
  split; [|split].
  - repeat split; try done; simpl; lia.
  - apply (find_matching_paren_spec (H:=example_host) buffer_braces 1
             (line_of [123]) (Char 1 0 123) Hlines).
    + simpl. lia.
    + reflexivity.
    + simpl. lia.
    + reflexivity.
    + reflexivity.
  - reflexivity.
Defined.

(** ** Slots of the line vector *)

Lemma line_at_Some e i l :
  line_at e i = Some l <->
  0 <= i /\ lines e !! Z.to_nat i = Some (Some l).
Proof.
  unfold line_at, load. case_bool_decide as Hi; simpl.
  - destruct (lines e !! Z.to_nat i) as [[l'|]|]; simpl.
    + split; [by intros [= ->]|by intros [_ [= ->]]].
    + split; [done|by intros [_ ?]].
    + split; [done|by intros [_ ?]].
  - split; [done|]. by intros [? _].
Qed.

Lemma line_at_bound e i l :
  line_at e i = Some l -> 0 <= i < Z.of_nat (length (lines e)).
Proof.
  intros [? Hl%lookup_lt_Some]%line_at_Some. lia.
Qed.

Lemma put_line_Some e i l :
  0 <= i < Z.of_nat (length (lines e)) ->
  put_line e i l = Some (set_lines e (<[Z.to_nat i := Some l]> (lines e))).
Proof.
  intros Hi. unfold put_line, store. by rewrite bool_decide_true by done.
Qed.

Lemma put_line_inv e i l e' :
  put_line e i l = Some e' ->
  0 <= i < Z.of_nat (length (lines e)) /\
  e' = set_lines e (<[Z.to_nat i := Some l]> (lines e)).
Proof.
  unfold put_line, store. case_bool_decide; simpl; [|done].
  by intros [= <-].
Qed.

Lemma line_at_set_lines_same e i l :
  0 <= i < Z.of_nat (length (lines e)) ->
  line_at (set_lines e (<[Z.to_nat i := Some l]> (lines e))) i = Some l.
Proof.
  intros Hi. apply line_at_Some. split; [lia|]. simpl.
  apply list_lookup_insert_eq. lia.
Qed.

Lemma line_at_set_lines_other e i j l :
  i ≠ j -> 0 <= i ->
  line_at (set_lines e (<[Z.to_nat i := Some l]> (lines e))) j = line_at e j.
Proof.
  intros Hne Hi. unfold line_at, load. simpl.
  case_bool_decide; [|done].
  rewrite list_lookup_insert_ne by lia. done.
Qed.

(** ** The cascade of [recalculate_syntax] *)

Lemma clear_flags_idemp l : clear_flags (clear_flags l) = clear_flags l.
Proof.
  unfold clear_flags, set_text. simpl. f_equal.
  rewrite <- list_fmap_compose. apply list_fmap_ext. by intros ? [].
Qed.

Lemma clear_flags_istate l l' :
  clear_flags l = clear_flags l' -> istate l = istate l'.
Proof. intros Heq. by apply (f_equal istate) in Heq. Qed.

Lemma syntax_loop_paints n sd st st' :
  paints_only sd -> syntax_loop n sd st = Some st' ->
  clear_flags (ss_line st') = clear_flags (ss_line st) /\ ss_state st' ≠ 0.
Proof.
  intros Hp. revert st. induction n as [|n IH]; intros st; simpl; [done|].
  specialize (Hp st). destruct (calculate sd st) as [r st1]. simpl in Hp.
  case_bool_decide.
  - intros [= <-]. simpl. done.
  - intros Hrun. apply IH in Hrun. simpl in Hrun. by rewrite <- Hp.
Qed.

Lemma lex_line_paints `{Host} sd l k st :
  paints_only sd -> lex_line sd l k = Some st ->
  clear_flags (ss_line st) = clear_flags l.
Proof.
  intros Hp Hrun. apply (syntax_loop_paints _ _ _ _ Hp) in Hrun as [Hrun _].
  simpl in Hrun. by rewrite clear_flags_idemp in Hrun.
Qed.

Lemma lex_line_ext `{Host} sd l l' k :
  clear_flags l = clear_flags l' -> lex_line sd l k = lex_line sd l' k.
Proof. intros Heq. unfold lex_line. by rewrite Heq. Qed.

Section Cascade.
Context `{Host}.
Variable sd : syntax_definition.
Hypothesis Hpaints : paints_only sd.
Hypothesis Hhalts : lexer_halts sd.

Lemma recalculate_syntax_aux_cascade depth e k :
  loading e = false -> syntax e = Some sd ->
  (forall i, 0 <= i < line_count e -> is_Some (line_at e i)) ->
  0 <= k < line_count e -> line_count e - k <= Z.of_nat depth ->
  exists e' j, recalculate_syntax_aux depth e k = Some e' /\
               cascade_result sd e k e' j.
Proof.
  revert e k. induction depth as [|depth IH];
    intros e k Hload Hsyn Hlines Hk Hdepth; [lia|].
  destruct (Hlines k Hk) as [line Hline].
  pose proof (line_at_bound _ _ _ Hline) as Hslot.
  destruct (Hhalts (SyntaxState (clear_flags line) k
                      (istate (clear_flags line)) 0)) as [st Hst].
  assert (Hlex : lex_line sd line k = Some st) by done.
  pose proof (lex_line_paints _ _ _ _ Hpaints Hlex) as Hpaint.
  assert (Hexit : forall l', clear_flags l' = clear_flags line ->
                    exit_state sd l' k = Some (ss_state st)).
  { intros l' Heq. unfold exit_state.
    by rewrite (lex_line_ext sd l' line k Heq), Hlex. }
  set (e1 := set_lines e (<[Z.to_nat k := Some (ss_line st)]> (lines e))).
  assert (Hat1 : line_at e1 k = Some (ss_line st))
    by (by apply line_at_set_lines_same).
  assert (Hother1 : forall m, m ≠ k -> line_at e1 m = line_at e m).
  { intros m Hm. apply line_at_set_lines_other; [done|lia]. }
  assert (Hstop : cascade_result sd e k e1 k ->
            exists e' j, Some e1 = Some e' /\ cascade_result sd e k e' j)
    by (intros ?; by exists e1, k).
  assert (Hstop_frame :
            (k + 1 < line_count e ->
             exists next, line_at e (k + 1) = Some next /\
                          istate next = ss_state st) ->
            cascade_result sd e k e1 k).
  { intros Hnext. split; [lia|]. split; [done|]. split; [|split; [|split]].
    - intros m Hm. apply Hother1. lia.
    - by exists line, (ss_line st).
    - intros m Hm Hm1. assert (m = k) as -> by lia.
      destruct (Hnext Hm1) as (next & Hn & Hs).
      exists (ss_line st), next. split; [done|]. split.
      + rewrite Hother1 by lia. done.
      + rewrite Hs. by apply Hexit.
    - intros m Hm. lia. }
  cbn [recalculate_syntax_aux]. rewrite Hline. cbn [mbind option_bind].
  rewrite Hsyn. fold (lex_line sd line k) in Hst.
  change (syntax_loop lex_fuel sd
            (SyntaxState (clear_flags line) k (istate (clear_flags line)) 0))
    with (lex_line sd line k).
  rewrite Hlex. cbn [mbind option_bind].
  rewrite (put_line_Some e k (ss_line st) Hslot). fold e1.
  cbn [mbind option_bind]. change (line_count e1) with (line_count e).
  case_bool_decide as Hlast; cycle 1.
  { apply Hstop, Hstop_frame. intros ?. lia. }
  destruct (Hlines (k + 1) ltac:(lia)) as [next Hnext].
  rewrite (Hother1 (k + 1)) by lia. rewrite Hnext. cbn [mbind option_bind].
  case_bool_decide as Hdiff; cycle 1.
  { apply Hstop, Hstop_frame. intros _. exists next. split; [done|].
    destruct (decide (istate next = ss_state st)); done. }
  assert (Hslot1 : 0 <= k + 1 < Z.of_nat (length (lines e1))).
  { rewrite <- (Hother1 (k + 1)) in Hnext by lia.
    by apply line_at_bound in Hnext. }
  rewrite (put_line_Some e1 (k + 1) _ Hslot1).
  set (e2 := set_lines e1 (<[Z.to_nat (k + 1) :=
                             Some (set_istate next (ss_state st))]>
                             (lines e1))).
  cbn [mbind option_bind]. change (loading e2) with (loading e).
  rewrite Hload.
  assert (Hat2 : line_at e2 (k + 1)
                 = Some (set_istate next (ss_state st)))
    by (by apply line_at_set_lines_same).
  assert (Hother2 : forall m, m ≠ k + 1 -> line_at e2 m = line_at e1 m).
  { intros m Hm. apply line_at_set_lines_other; [done|lia]. }
  destruct (IH e2 (k + 1)) as (e' & j & Hrun & Hres).
  - done.
  - done.
  - intros i Hi. change (line_count e2) with (line_count e) in Hi.
    destruct (decide (i = k + 1)) as [->|]; [by rewrite Hat2|].
    rewrite Hother2 by done.
    destruct (decide (i = k)) as [->|]; [by rewrite Hat1|].
    rewrite Hother1 by done. by apply Hlines.
  - change (line_count e2) with (line_count e). lia.
  - change (line_count e2) with (line_count e). lia.
  - rewrite Hrun. exists e', j.
    split; [done|].
    destruct Hres as (Hj & Hcount & Hframe & Hstart & Hchain & Hchanged).
    change (line_count e2) with (line_count e) in *.
    destruct Hstart as (l2 & l2' & Hl2 & Hl2' & Hclear2).
    rewrite Hat2 in Hl2. injection Hl2 as <-.
    assert (Hk' : line_at e' k = Some (ss_line st)).
    { rewrite Hframe by lia. rewrite Hother2 by lia. done. }
    split; [lia|]. split; [done|]. split; [|split; [|split]].
    + intros m Hm. rewrite Hframe by lia. rewrite Hother2 by lia.
      apply Hother1. lia.
    + exists line, (ss_line st). split; [exact Hline|].
      split; [exact Hk'|exact Hpaint].
    + intros m Hm Hm1. destruct (decide (m = k)) as [->|Hne].
      * exists (ss_line st), l2'. split; [done|]. split; [done|].
        rewrite (clear_flags_istate _ _ Hclear2). simpl. by apply Hexit.
      * apply Hchain; [lia|done].
    + intros m Hm. destruct (decide (m = k)) as [->|Hne].
      * exists next, l2'. split; [done|]. split; [done|].
        rewrite (clear_flags_istate _ _ Hclear2). simpl. done.
      * destruct (Hchanged m ltac:(lia)) as (l0 & l1 & Hl0 & Hl1 & Hne').
        exists l0, l1. split; [|done].
        rewrite Hother2 in Hl0 by lia. rewrite Hother1 in Hl0 by lia. done.
Qed.
End Cascade.


(** The diff lexer paints and halts. *)
Lemma clear_after_paint f (i : nat) (cells : list char_t) :
  (λ c, set_flags c 0) <$> alter (λ c, set_flags c f) i cells
  = (λ c, set_flags c 0) <$> cells.
Proof.
  revert i. induction cells as [|c cells IH]; intros [|i]; simpl; try done.
  f_equal. apply IH.
Qed.

Lemma paint1_paints st f :
  clear_flags (ss_line (paint1 st f)) = clear_flags (ss_line st).
Proof.
  unfold paint1. case_bool_decide; [|done]. simpl.
  unfold clear_flags, set_text. simpl. by rewrite clear_after_paint.
Qed.

Lemma paint_while_paints n st f :
  clear_flags (ss_line (paint_while n st f)) = clear_flags (ss_line st).
Proof.
  revert st. induction n as [|n IH]; intros st; simpl; [done|].
  case_bool_decide; [|done]. by rewrite IH, paint1_paints.
Qed.

Lemma syntax_diff_paints : paints_only syntax_diff.
Proof.
  intros st. simpl. unfold syn_diff_calculate.
  repeat case_bool_decide; simpl; by rewrite ?paint_while_paints.
Qed.

Lemma syntax_diff_halts : lexer_halts (H:=example_host) syntax_diff.
Proof.
  intros st. change (@lex_fuel example_host) with 64%nat.
  cbn [syntax_loop]. simpl calculate.
  assert ((syn_diff_calculate st).1 = -1) as Hr
    by (unfold syn_diff_calculate; repeat case_bool_decide; done).
  destruct (syn_diff_calculate st) as [r st1]. simpl in Hr. subst r.
  by eexists.
Qed.


(** The same run, evaluated: both lines are painted and the second one
    now stores the state -1 the lexer left the first one in. *)
Lemma recalculate_syntax_patch :
  lines <$> recalculate_syntax (H:=example_host) buffer_patch 0
  = Some [Some (Line 32 0 0 [Char 1 8 43; Char 1 8 97]);
          Some (Line 32 (-1) 0 [Char 1 9 45; Char 1 9 98]);
          None; None; None; None; None; None].
Proof. reflexivity. Qed.

(** ** Moving slots of a vector *)

Ltac solve_length :=
  repeat first [rewrite length_app | rewrite length_fmap
               | rewrite length_replicate | rewrite length_insert
               | progress cbn [length]];
  lia.

Section Arrays.
Context {A : Type}.
Implicit Types (pre mid post : list A).

Lemma store_middle pre y post v :
  store (pre ++ y :: post) (Z.of_nat (length pre)) v = Some (pre ++ v :: post).
Proof.
  unfold store. rewrite bool_decide_true by solve_length.
  rewrite Nat2Z.id. f_equal.
  replace (length pre) with (length pre + 0)%nat at 1 by lia.
  by rewrite insert_app_r.
Qed.

Lemma store_bound (arr arr' : list A) i v :
  store arr i v = Some arr' -> 0 <= i < Z.of_nat (length arr).
Proof. unfold store. by case_bool_decide. Qed.

(** Shifting a tail down by one with two slots too many, as
    [remove_line] and [merge_lines] do. *)
Lemma memmove_down pre x mid d1 d2 post :
  memmove (pre ++ x :: mid ++ d1 :: d2 :: post) (Z.of_nat (length pre))
    (Z.of_nat (length pre) + 1) (Z.of_nat (length mid) + 2)
  = Some (pre ++ mid ++ d1 :: d2 :: d2 :: post).
Proof.
  unfold memmove.
  rewrite bool_decide_true
    by solve_length.
  f_equal. rewrite Nat2Z.id.
  replace (Z.to_nat (Z.of_nat (length pre) + 1))
    with (length pre + 1)%nat by lia.
  replace (Z.to_nat (Z.of_nat (length mid) + 2))
    with (length mid + 2)%nat by lia.
  replace (Z.to_nat (Z.of_nat (length pre) + (Z.of_nat (length mid) + 2)))
    with (length pre + S (length mid + 1))%nat by lia.
  rewrite take_app_length, !drop_app_add. simpl. rewrite ?drop_0.
  rewrite take_app_add, drop_app_add. simpl. by rewrite <- !app_assoc.
Qed.

(** Shifting a non-empty tail up by one, as [add_line] does. *)
Lemma memmove_up pre m mid y post :
  memmove (pre ++ (m :: mid) ++ y :: post) (Z.of_nat (length pre) + 1)
    (Z.of_nat (length pre)) (Z.of_nat (length (m :: mid)))
  = Some (pre ++ m :: (m :: mid) ++ post).
Proof.
  unfold memmove.
  rewrite bool_decide_true
    by solve_length.
  f_equal. rewrite !Nat2Z.id.
  replace (Z.to_nat (Z.of_nat (length pre) + 1))
    with (length pre + 1)%nat by lia.
  replace (Z.to_nat (Z.of_nat (length pre) + 1
                     + Z.of_nat (length (m :: mid))))
    with (length pre + S (length (m :: mid)))%nat by lia.
  rewrite take_app_add, !drop_app_length, drop_app_add.
  rewrite take_app_length.
  replace (S (length (m :: mid))) with (length (m :: mid) + 1)%nat by lia.
  rewrite drop_app_add. simpl. rewrite ?drop_0. by rewrite <- !app_assoc.
Qed.

(** Shifting a tail up by one with one slot too many, as [split_line]
    does, and writing the slot that opens. *)
Lemma memmove_up_store pre x mid d1 d2 post v :
  (ls ← memmove (pre ++ x :: mid ++ d1 :: d2 :: post)
          (Z.of_nat (length pre) + 2) (Z.of_nat (length pre) + 1)
          (Z.of_nat (length mid) + 1);
   store ls (Z.of_nat (length pre) + 1) v)
  = Some (pre ++ x :: v :: mid ++ d1 :: post).
Proof.
  unfold memmove.
  rewrite bool_decide_true
    by solve_length.
  cbn [mbind option_bind].
  replace (Z.to_nat (Z.of_nat (length pre) + 2))
    with (length pre + 2)%nat by lia.
  replace (Z.to_nat (Z.of_nat (length pre) + 1))
    with (length pre + 1)%nat by lia.
  replace (Z.to_nat (Z.of_nat (length mid) + 1))
    with (length mid + 1)%nat by lia.
  replace (Z.to_nat (Z.of_nat (length pre) + 2 + (Z.of_nat (length mid) + 1)))
    with (length pre + S (length mid + 2))%nat by lia.
  rewrite take_app_add, !drop_app_add. simpl. rewrite ?drop_0.
  rewrite take_app_add, drop_app_add. simpl. rewrite ?drop_0.
  assert (exists a, take 1 (mid ++ d1 :: d2 :: post) = [a]) as [a ->]
    by (destruct mid; by eexists).
  replace ((pre ++ x :: [a]) ++ (mid ++ [d1]) ++ post)
    with ((pre ++ [x]) ++ a :: mid ++ d1 :: post)
    by (by rewrite <- !app_assoc).
  replace (Z.of_nat (length pre) + 1) with (Z.of_nat (length (pre ++ [x])))
    by solve_length.
  rewrite store_middle. by rewrite <- !app_assoc.
Qed.
End Arrays.

(** ** The line vector of a well-formed buffer *)

Lemma line_at_vec e ls k i :
  lines e = vec ls k ->
  line_at e i = if bool_decide (0 <= i) then ls !! Z.to_nat i else None.
Proof.
  intros Hv. unfold line_at, load. rewrite Hv. case_bool_decide; [|done].
  unfold vec. destruct (decide (Z.to_nat i < length ls)%nat) as [Hlt|Hge].
  - rewrite lookup_app_l by solve_length. rewrite list_lookup_fmap.
    by destruct (ls !! Z.to_nat i).
  - rewrite lookup_app_r by solve_length.
    rewrite (lookup_ge_None_2 ls) by lia.
    by destruct (replicate k None !! _) as [x|] eqn:Hx;
      [apply lookup_replicate_1 in Hx as [-> _]|].
Qed.

Lemma line_at_vec_Some e ls k i l :
  lines e = vec ls k -> line_at e i = Some l ->
  0 <= i < Z.of_nat (length ls) /\ ls !! Z.to_nat i = Some l.
Proof.
  intros Hv Hl. rewrite (line_at_vec _ _ _ _ Hv) in Hl.
  case_bool_decide; [|done]. split; [|done].
  apply lookup_lt_Some in Hl. lia.
Qed.

Lemma vec_insert ls k i l :
  (i < length ls)%nat -> <[i := Some l]> (vec ls k) = vec (<[i := l]> ls) k.
Proof.
  intros Hi. unfold vec. rewrite insert_app_l by solve_length.
  by rewrite list_fmap_insert.
Qed.

Lemma put_line_vec e ls k i l :
  lines e = vec ls k -> 0 <= i < Z.of_nat (length ls) ->
  put_line e i l = Some (set_lines e (vec (<[Z.to_nat i := l]> ls) k)).
Proof.
  intros Hv Hi. rewrite put_line_Some by (rewrite Hv; unfold vec; solve_length).
  by rewrite Hv, vec_insert by lia.
Qed.

Lemma vec_split ls k i x :
  ls !! i = Some x ->
  vec ls k = (Some <$> take i ls) ++ Some x :: (Some <$> drop (S i) ls)
             ++ replicate k None.
Proof.
  intros Hx. unfold vec. rewrite <- (take_drop_middle _ _ _ Hx) at 1.
  rewrite fmap_app, fmap_cons, <- app_assoc. done.
Qed.

(** ** Repainting keeps text and capacity *)

Lemma same_line_refl l : same_line l l.
Proof. done. Qed.

Lemma same_line_trans l1 l2 l3 :
  same_line l1 l2 -> same_line l2 l3 -> same_line l1 l3.
Proof. intros [? ?] [? ?]. split; [congruence|auto]. Qed.

Lemma same_lines_refl ls : Forall2 same_line ls ls.
Proof. induction ls; constructor; done. Qed.

Lemma same_lines_trans ls1 ls2 ls3 :
  Forall2 same_line ls1 ls2 -> Forall2 same_line ls2 ls3 ->
  Forall2 same_line ls1 ls3.
Proof.
  intros H12. revert ls3. induction H12; intros ls3 H23;
    inversion H23; subst; constructor; eauto using same_line_trans.
Qed.

Lemma same_lines_insert ls i l l' :
  ls !! i = Some l -> same_line l l' ->
  Forall2 same_line ls (<[i := l']> ls).
Proof.
  revert i. induction ls as [|a ls IH]; intros [|i] Hl Hs; simpl in *;
    simplify_eq; constructor; eauto using same_lines_refl.
  done.
Qed.

Lemma same_lines_doc ls ls' :
  Forall2 same_line ls ls' -> doc_of ls' = doc_of ls.
Proof.
  induction 1 as [|l l' ls ls' [Hc _] _ IH]; [done|].
  unfold doc_of in *. rewrite !fmap_cons. by rewrite Hc, IH.
Qed.

Lemma same_lines_available ls ls' :
  Forall2 same_line ls ls' ->
  Forall (λ l, 0 <= available l) ls -> Forall (λ l, 0 <= available l) ls'.
Proof.
  induction 1 as [|l l' ls ls' [_ Ha] _ IH]; intros Hall; [done|].
  inversion Hall; subst. constructor; auto.
Qed.

Lemma same_line_clear_flags l : same_line l (clear_flags l).
Proof.
  split; [|done]. unfold line_content, clear_flags. simpl.
  rewrite <- list_fmap_compose. by apply list_fmap_ext.
Qed.

Lemma same_line_of_clear l l' :
  clear_flags l' = clear_flags l -> same_line l l'.
Proof.
  intros Heq.
  apply (same_line_trans _ (clear_flags l)); [apply same_line_clear_flags|].
  rewrite <- Heq. destruct (same_line_clear_flags l') as [Hc Ha].
  split; [by rewrite Hc|done].
Qed.

Lemma same_line_actual l l' : same_line l l' -> actual l' = actual l.
Proof.
  intros [Hc _]. unfold actual. apply (f_equal length) in Hc.
  unfold line_content in Hc. rewrite !length_fmap in Hc. lia.
Qed.

Lemma recalculate_tabs_loop_total ts j cells :
  ts ≠ 0 -> is_Some (recalculate_tabs_loop ts j cells).
Proof.
  intros Hts. revert j. induction cells as [|c rest IH]; intros j; simpl.
  - by eexists.
  - rewrite (bool_decide_false (ts = 0)) by done.
    destruct (bool_decide (codepoint c = 9)); simpl.
    + destruct (IH (j + wrap4 (ts - Z.rem j ts))) as [r ->]. by eexists.
    + destruct (IH (j + display_width c)) as [r ->]. by eexists.
Qed.

Lemma recalculate_tabs_same e l :
  (loading e = false -> tabstop e ≠ 0) ->
  exists l', recalculate_tabs e l = Some l' /\ same_line l l' /\
             istate l' = istate l.
Proof.
  intros Hts. unfold recalculate_tabs. destruct (loading e).
  - exists l. done.
  - destruct (recalculate_tabs_loop_total (tabstop e) 0 (text l)
                (Hts eq_refl)) as [cells Hcells].
    rewrite Hcells. simpl. eexists. split; [done|]. split; [|done].
    split; [|done]. unfold line_content. simpl.
    apply recalculate_tabs_loop_frame in Hcells.
    induction Hcells as [|c c' cs cs' (Hc & _) _ IH]; [done|].
    rewrite !fmap_cons. by rewrite Hc, IH.
Qed.

Lemma recalculate_syntax_aux_frame `{Host} depth e ls k line_no :
  good_lexer e -> lines e = vec ls k ->
  line_count e <= Z.of_nat (length ls) ->
  0 <= line_no < Z.of_nat (length ls) ->
  line_count e - line_no - 1 <= Z.of_nat depth ->
  exists ls', recalculate_syntax_aux depth e line_no
              = Some (set_lines e (vec ls' k)) /\
              Forall2 same_line ls ls'.
Proof.
  revert e ls line_no.
  induction depth as [|depth IH]; intros e ls line_no Hgood Hv Hcount Hln Hd.
  all: destruct (lookup_lt_is_Some_2 ls (Z.to_nat line_no) ltac:(lia))
         as [line Hline].
  all: cbn [recalculate_syntax_aux].
  all: rewrite (line_at_vec _ _ _ _ Hv), bool_decide_true, Hline by lia.
  all: cbn [mbind option_bind].
  all: destruct (syntax e) as [sd|] eqn:Hsyn.
  all: try (rewrite (put_line_vec _ _ _ _ _ Hv Hln); eexists; split; [done|];
            eapply same_lines_insert; [done|apply same_line_clear_flags]).
  all: destruct (Hgood sd Hsyn) as [Hpaints Hhalts].
  all: destruct (Hhalts (SyntaxState (clear_flags line) line_no
                           (istate (clear_flags line)) 0)) as [st Hst].
  all: pose proof (lex_line_paints sd line line_no st Hpaints Hst) as Hpaint.
  all: rewrite Hst; cbn [mbind option_bind].
  all: rewrite (put_line_vec _ _ _ _ _ Hv Hln); cbn [mbind option_bind].
  all: set (ls1 := <[Z.to_nat line_no := ss_line st]> ls).
  all: assert (Hs1 : Forall2 same_line ls ls1)
         by (eapply same_lines_insert; [done|by apply same_line_of_clear]).
  all: change (line_count (set_lines e (vec ls1 k))) with (line_count e).
  all: case_bool_decide as Hlast; [|by exists ls1].
  all: assert (Hlen1 : length ls1 = length ls)
         by (unfold ls1; by rewrite length_insert).
  all: destruct (lookup_lt_is_Some_2 ls1 (Z.to_nat (line_no + 1))
                   ltac:(lia)) as [next Hnext].
  all: rewrite (line_at_vec (set_lines e (vec ls1 k)) ls1 k) by done.
  all: rewrite bool_decide_true, Hnext by lia; cbn [mbind option_bind].
  all: case_bool_decide as Hdiff; [|by exists ls1].
  all: rewrite (put_line_vec (set_lines e (vec ls1 k)) ls1 k) by (done || lia).
  all: cbn [mbind option_bind].
  all: set (ls2 := <[Z.to_nat (line_no + 1) :=
                      set_istate next (ss_state st)]> ls1).
  all: assert (Hs2 : Forall2 same_line ls ls2)
         by (eapply same_lines_trans; [exact Hs1|];
             eapply same_lines_insert; [done|done]).
  all: change (loading (set_lines (set_lines e (vec ls1 k)) (vec ls2 k)))
         with (loading e).
  all: destruct (loading e); [by exists ls2|].
  - lia.
  - destruct (IH (set_lines (set_lines e (vec ls1 k)) (vec ls2 k)) ls2
                (line_no + 1)) as (ls' & Hrun & Hs').
    + intros sd' Hsd'. by apply Hgood.
    + done.
    + unfold ls2. rewrite length_insert. simpl. lia.
    + unfold ls2. rewrite length_insert. lia.
    + simpl. lia.
    + rewrite Hrun. exists ls'. split; [done|].
      by eapply same_lines_trans.
Qed.

Lemma recalculate_syntax_frame `{Host} e ls k line_no :
  good_lexer e -> lines e = vec ls k ->
  line_count e <= Z.of_nat (length ls) ->
  0 <= line_no < Z.of_nat (length ls) ->
  exists ls', recalculate_syntax e line_no = Some (set_lines e (vec ls' k)) /\
              Forall2 same_line ls ls'.
Proof.
  intros Hgood Hv Hcount Hln. apply recalculate_syntax_aux_frame; try done.
  lia.
Qed.

(** ** The editing primitives on a well-formed buffer *)

Lemma hist_record_frame `{Host} e r :
  lines (hist_record e r) = lines e /\
  loading (hist_record e r) = loading e /\
  tabstop (hist_record e r) = tabstop e /\
  syntax (hist_record e r) = syntax e /\
  line_count (hist_record e r) = line_count e /\
  line_avail (hist_record e r) = line_avail e.
Proof. unfold hist_record. by destruct (negb _ && _). Qed.

Lemma hist_record_loading `{Host} e r :
  loading e = true -> hist_record e r = e.
Proof. intros Hl. unfold hist_record. by rewrite Hl. Qed.

Lemma set_line_count_same e n : line_count e = n -> set_line_count e n = e.
Proof. intros <-. by destruct e. Qed.

Lemma set_line_avail_same e n : line_avail e = n -> set_line_avail e n = e.
Proof. intros <-. by destruct e. Qed.

Lemma set_lines_same e v : lines e = v -> set_lines e v = e.
Proof. intros <-. by destruct e. Qed.

Lemma buffer_ext e e' :
  loading e = loading e' -> modified e = modified e' ->
  readonly e = readonly e' -> mode e = mode e' -> tabstop e = tabstop e' ->
  line_no e = line_no e' -> line_count e = line_count e' ->
  line_avail e = line_avail e' -> col_no e = col_no e' ->
  preferred_column e = preferred_column e' -> search e = search e' ->
  syntax e = syntax e' -> lines e = lines e' ->
  hist_past e = hist_past e' -> hist_next e = hist_next e' ->
  last_save_history e = last_save_history e' -> next_addr e = next_addr e' ->
  e = e'.
Proof. destruct e, e'; simpl; intros; by subst. Qed.

Ltac buffer_eq :=
  try (apply (f_equal Some)); apply buffer_ext; try reflexivity.

Lemma upd_rep `{Host} e r ls k : rep (upd e r ls k) ls k.
Proof. done. Qed.

Lemma grow_lines_spec e ls k :
  rep e ls k ->
  grow_lines e
  = set_line_avail (set_lines e (vec ls (grown_spare ls k)))
      (Z.of_nat (length ls + grown_spare ls k)).
Proof.
  intros (Hv & Hc & Ha). unfold grow_lines. case_bool_decide as Hfull.
  - assert (k = 0%nat) as -> by lia. simpl grown_spare.
    unfold set_lines, set_line_avail. simpl. f_equal; [lia|].
    rewrite Hv, Ha. unfold realloc, vec. simpl replicate.
    rewrite app_nil_r, length_fmap, take_ge by (rewrite length_fmap; lia).
    f_equal. f_equal. lia.
  - destruct k as [|k]; [lia|]. simpl grown_spare.
    rewrite set_lines_same, set_line_avail_same; done.
Qed.

Lemma doc_of_length ls : length (doc_of ls) = length ls.
Proof. unfold doc_of. by rewrite length_fmap. Qed.

Lemma doc_of_lookup ls i l :
  ls !! i = Some l -> doc_of ls !! i = Some (line_content l).
Proof. intros Hl. unfold doc_of. by rewrite list_lookup_fmap, Hl. Qed.

Lemma doc_of_insert ls i l :
  doc_of (<[i := l]> ls) = <[i := line_content l]> (doc_of ls).
Proof. unfold doc_of. by rewrite list_fmap_insert. Qed.

Lemma same_lines_length ls ls' :
  Forall2 same_line ls ls' -> length ls' = length ls.
Proof. intros Hs. symmetry. by eapply Forall2_length. Qed.

Lemma avail_ok_insert ls i l :
  Forall avail_ok ls -> avail_ok l -> Forall avail_ok (<[i := l]> ls).
Proof. intros. by apply Forall_insert. Qed.

Lemma grow_once_nonneg a : 0 <= a -> 0 <= grow_once a.
Proof. unfold grow_once. case_bool_decide; lia. Qed.

(** After the line at [i] has been replaced by [l1] and repainted. *)
Lemma repaint_post `{Host} (ls ls' : list line_t) i l l1 :
  ls !! i = Some l ->
  Forall2 same_line (<[i := l1]> ls) ls' ->
  (avail_ok l -> avail_ok l1) ->
  doc_of ls' = <[i := line_content l1]> (doc_of ls) /\
  (Forall avail_ok ls -> Forall avail_ok ls').
Proof.
  intros Hl Hs Ha. split.
  - by rewrite (same_lines_doc _ _ Hs), doc_of_insert.
  - intros Hall. eapply same_lines_available; [exact Hs|].
    apply Forall_insert; [done|]. apply Ha.
    by eapply (proj1 (Forall_lookup _ _) Hall).
Qed.

Lemma upd_same_count `{Host} e r ls ls' k :
  rep e ls k -> length ls' = length ls ->
  set_lines (hist_record e r) (vec ls' k) = upd e r ls' k.
Proof.
  intros (_ & Hc & Ha) Hlen. unfold upd.
  destruct (hist_record_frame e r) as (_ & _ & _ & _ & Hr5 & Hr6).
  rewrite set_line_avail_same, set_line_count_same; [done| |].
  - simpl. by rewrite Hr5, Hc, Hlen.
  - simpl. by rewrite Hr6, Ha, Hlen.
Qed.

Lemma line_insert_spec `{Host} e ls k c offset lineno l :
  good_lexer e -> (loading e = false -> tabstop e ≠ 0) -> rep e ls k ->
  0 <= lineno -> ls !! Z.to_nat lineno = Some l -> 0 <= offset <= actual l ->
  exists ls',
    line_insert e c offset lineno
    = Some (upd e (HISTORY_INSERT lineno offset (codepoint c)) ls' k) /\
    doc_of ls' = <[Z.to_nat lineno :=
                    take (Z.to_nat offset) (line_content l)
                    ++ codepoint c :: drop (Z.to_nat offset) (line_content l)]>
                   (doc_of ls) /\
    (Forall avail_ok ls -> Forall avail_ok ls').
Proof.
  intros Hgood Hts Hrep Hln Hl Hoff.
  pose proof Hrep as (Hv & Hc & Ha).
  pose proof (lookup_lt_Some _ _ _ Hl) as Hlt.
  unfold line_insert.
  rewrite (line_at_vec _ _ _ _ Hv), bool_decide_true, Hl by lia.
  cbn [mbind option_bind].
  set (r := HISTORY_INSERT lineno offset (codepoint c)).
  destruct (hist_record_frame e r) as (Hr1 & Hr2 & Hr3 & Hr4 & Hr5 & Hr6).
  set (l0 := if bool_decide (actual l = available l)
             then set_available l (grow_once (available l)) else l).
  assert (Hl0 : text l0 = text l /\ (avail_ok l -> avail_ok l0)).
  { unfold l0, avail_ok. case_bool_decide; simpl; [|done].
    split; [done|]. apply grow_once_nonneg. }
  destruct Hl0 as [Ht0 Ha0].
  assert (Hact0 : actual l0 = actual l) by (unfold actual; by rewrite Ht0).
  rewrite option_guard_True by lia. cbn [mbind option_bind mret option_ret].
  rewrite Ht0.
  set (l1 := set_text l0 _).
  assert (Hc1 : line_content l1
    = take (Z.to_nat offset) (line_content l)
      ++ codepoint c :: drop (Z.to_nat offset) (line_content l)).
  { unfold l1, line_content. simpl.
    by rewrite fmap_app, fmap_cons, fmap_take, fmap_drop. }
  rewrite <- Hc1.
  assert (Hv1 : lines (hist_record e r) = vec ls k) by congruence.
  rewrite Hr2. destruct (loading e) eqn:Hload.
  - rewrite (put_line_vec _ _ _ _ _ Hv1) by lia.
    exists (<[Z.to_nat lineno := l1]> ls). split.
    + rewrite (upd_same_count e r ls _ k); [done|done|].
      by rewrite length_insert.
    + eapply repaint_post; [done|apply same_lines_refl|done].
  - destruct (recalculate_tabs_same (hist_record e r) (set_rev_status l1 2))
      as (l2 & Htabs & Hs2 & _); [by rewrite Hr2, Hr3; auto|].
    rewrite Htabs. cbn [mbind option_bind].
    rewrite (put_line_vec _ _ _ _ _ Hv1) by lia. cbn [mbind option_bind].
    set (ls2 := <[Z.to_nat lineno := l2]> ls).
    destruct (recalculate_syntax_frame
                (set_lines (hist_record e r) (vec ls2 k)) ls2 k lineno)
      as (ls' & Hrun & Hs').
    + intros sd Hsd. apply Hgood. simpl in Hsd. congruence.
    + done.
    + simpl. unfold ls2. rewrite length_insert. lia.
    + unfold ls2. rewrite length_insert. lia.
    + rewrite Hrun. exists ls'. split.
      * pose proof (same_lines_length _ _ Hs') as Hlen'.
        unfold ls2 in Hlen'. rewrite length_insert in Hlen'.
        buffer_eq; simpl; lia.
      * assert (Hs1 : Forall2 same_line (<[Z.to_nat lineno := l1]> ls) ls').
        { eapply same_lines_trans; [|exact Hs']. unfold ls2.
          rewrite <- (list_insert_insert_eq ls (Z.to_nat lineno) l2 l1).
          eapply same_lines_insert; [by apply list_lookup_insert_eq|].
          eapply same_line_trans; [|exact Hs2]. done. }
        eapply repaint_post; [done|exact Hs1|done].
Qed.

(** The tail shared by the primitives: mark the line as changed,
    recompute its tabs, store it and repaint from it. *)
Lemma repaint_spec `{Host} e ls k lineno l1 :
  good_lexer e -> (loading e = false -> tabstop e ≠ 0) ->
  lines e = vec ls k -> line_count e <= Z.of_nat (length ls) ->
  0 <= lineno < Z.of_nat (length ls) ->
  exists ls',
    (line ← recalculate_tabs e (set_rev_status l1 2);
     e ← put_line e lineno line;
     recalculate_syntax e lineno) = Some (set_lines e (vec ls' k)) /\
    Forall2 same_line (<[Z.to_nat lineno := l1]> ls) ls'.
Proof.
  intros Hgood Hts Hv Hc Hln.
  destruct (recalculate_tabs_same e (set_rev_status l1 2) Hts)
    as (l2 & Htabs & Hs2 & _).
  rewrite Htabs. cbn [mbind option_bind].
  rewrite (put_line_vec _ _ _ _ _ Hv) by lia. cbn [mbind option_bind].
  set (ls2 := <[Z.to_nat lineno := l2]> ls).
  destruct (recalculate_syntax_frame (set_lines e (vec ls2 k)) ls2 k lineno)
    as (ls' & Hrun & Hs').
  - intros sd Hsd. by apply Hgood.
  - done.
  - simpl. unfold ls2. rewrite length_insert. lia.
  - unfold ls2. rewrite length_insert. lia.
  - rewrite Hrun. exists ls'. split; [done|].
    eapply same_lines_trans; [|exact Hs']. unfold ls2.
    rewrite <- (list_insert_insert_eq ls (Z.to_nat lineno) l2 l1).
    eapply same_lines_insert; [apply list_lookup_insert_eq; lia|].
    eapply same_line_trans; [|exact Hs2]. done.
Qed.

Lemma good_lexer_syntax `{Host} e e' :
  syntax e' = syntax e -> good_lexer e -> good_lexer e'.
Proof. intros Heq Hgood sd Hsd. apply Hgood. congruence. Qed.

Lemma line_delete_spec `{Host} e ls k offset lineno l old :
  good_lexer e -> (loading e = false -> tabstop e ≠ 0) -> rep e ls k ->
  0 <= lineno -> ls !! Z.to_nat lineno = Some l -> 1 <= offset <= actual l ->
  line_content l !! Z.to_nat (offset - 1) = Some old ->
  exists ls',
    line_delete e offset lineno
    = Some (upd e (HISTORY_DELETE lineno offset old) ls' k) /\
    doc_of ls' = <[Z.to_nat lineno :=
                    take (Z.to_nat (offset - 1)) (line_content l)
                    ++ drop (Z.to_nat offset) (line_content l)]> (doc_of ls) /\
    (Forall avail_ok ls -> Forall avail_ok ls').
Proof.
  intros Hgood Hts Hrep Hln Hl Hoff Hold.
  pose proof Hrep as (Hv & Hc & Ha).
  pose proof (lookup_lt_Some _ _ _ Hl) as Hlt.
  unfold line_delete. rewrite bool_decide_false by lia.
  rewrite (line_at_vec _ _ _ _ Hv), bool_decide_true, Hl by lia.
  cbn [mbind option_bind].
  rewrite option_guard_True by lia.
  unfold line_content in Hold. rewrite list_lookup_fmap in Hold.
  destruct (text l !! Z.to_nat (offset - 1)) as [oldc|] eqn:Holdc; [|done].
  injection Hold as <-. cbn [mbind option_bind].
  set (r := HISTORY_DELETE lineno offset (codepoint oldc)).
  destruct (hist_record_frame e r) as (Hr1 & Hr2 & Hr3 & Hr4 & Hr5 & Hr6).
  set (l1 := set_text l _).
  destruct (repaint_spec (hist_record e r) ls k lineno l1)
    as (ls' & Hrun & Hs'); [by eapply good_lexer_syntax|rewrite Hr2, Hr3; auto
                           |congruence|lia|lia|].
  rewrite Hrun. exists ls'. split.
  - rewrite (upd_same_count e r ls ls' k Hrep); [done|].
    rewrite (same_lines_length _ _ Hs'). by rewrite length_insert.
  - replace (take (Z.to_nat (offset - 1)) (line_content l)
             ++ drop (Z.to_nat offset) (line_content l))
      with (line_content l1)
      by (unfold l1, line_content; simpl;
          by rewrite fmap_app, fmap_take, fmap_drop).
    eapply repaint_post; [done|exact Hs'|done].
Qed.

Lemma line_replace_spec `{Host} e ls k c offset lineno l old :
  good_lexer e -> (loading e = false -> tabstop e ≠ 0) -> rep e ls k ->
  0 <= lineno -> ls !! Z.to_nat lineno = Some l -> 0 <= offset < actual l ->
  line_content l !! Z.to_nat offset = Some old ->
  exists ls',
    line_replace e c offset lineno
    = Some (upd e (HISTORY_REPLACE lineno offset (codepoint c) old) ls' k) /\
    doc_of ls' = <[Z.to_nat lineno :=
                    <[Z.to_nat offset := codepoint c]> (line_content l)]>
                   (doc_of ls) /\
    (Forall avail_ok ls -> Forall avail_ok ls').
Proof.
  intros Hgood Hts Hrep Hln Hl Hoff Hold.
  pose proof Hrep as (Hv & Hc & Ha).
  pose proof (lookup_lt_Some _ _ _ Hl) as Hlt.
  unfold line_replace.
  rewrite (line_at_vec _ _ _ _ Hv), bool_decide_true, Hl by lia.
  cbn [mbind option_bind].
  rewrite option_guard_True by lia.
  unfold line_content in Hold. rewrite list_lookup_fmap in Hold.
  destruct (text l !! Z.to_nat offset) as [oldc|] eqn:Holdc; [|done].
  injection Hold as <-. cbn [mbind option_bind].
  set (r := HISTORY_REPLACE lineno offset (codepoint c) (codepoint oldc)).
  destruct (hist_record_frame e r) as (Hr1 & Hr2 & Hr3 & Hr4 & Hr5 & Hr6).
  set (l1 := set_text l _).
  assert (Hc1 : line_content l1
                = <[Z.to_nat offset := codepoint c]> (line_content l))
    by (unfold l1, line_content; simpl; by rewrite list_fmap_insert).
  rewrite <- Hc1.
  assert (Hv1 : lines (hist_record e r) = vec ls k) by congruence.
  rewrite Hr2. destruct (loading e) eqn:Hload.
  - rewrite (put_line_vec _ _ _ _ _ Hv1) by lia.
    exists (<[Z.to_nat lineno := l1]> ls). split.
    + rewrite (upd_same_count e r ls _ k Hrep); [done|].
      by rewrite length_insert.
    + eapply repaint_post; [done|apply same_lines_refl|done].
  - destruct (repaint_spec (hist_record e r) ls k lineno l1)
      as (ls' & Hrun & Hs'); [by eapply good_lexer_syntax
                             |rewrite Hr3; auto|congruence|lia|lia|].
    rewrite Hrun. exists ls'. split.
    + rewrite (upd_same_count e r ls ls' k Hrep); [done|].
      rewrite (same_lines_length _ _ Hs'). by rewrite length_insert.
    + eapply repaint_post; [done|exact Hs'|done].
Qed.

(** ** Opening and closing a slot of the line vector *)

Lemma vec_add ls k offset v :
  0 <= offset <= Z.of_nat (length ls) ->
  (ls0 ← (if bool_decide (offset < Z.of_nat (length ls))
          then memmove (vec ls (S k)) (offset + 1) offset
                 (Z.of_nat (length ls) - offset)
          else Some (vec ls (S k)));
   store ls0 offset (Some v))
  = Some (vec (take (Z.to_nat offset) ls ++ v :: drop (Z.to_nat offset) ls) k).
Proof.
  intros Hoff. set (i := Z.to_nat offset).
  assert (Hpre : length (Some <$> take i ls) = i)
    by (rewrite length_fmap, length_take; lia).
  replace offset with (Z.of_nat (length (Some <$> take i ls))) by lia.
  assert (Hvec : vec (take i ls ++ v :: drop i ls) k
                 = (Some <$> take i ls) ++ Some v :: (Some <$> drop i ls)
                   ++ replicate k None).
  { unfold vec. by rewrite fmap_app, fmap_cons, <- app_assoc. }
  rewrite Hvec. case_bool_decide as Hlt.
  - destruct (drop i ls) as [|m mid] eqn:Hdrop.
    { apply (f_equal length) in Hdrop. rewrite length_drop in Hdrop.
      simpl in Hdrop. lia. }
    assert (Hsplit : vec ls (S k)
                     = (Some <$> take i ls) ++ (Some m :: (Some <$> mid))
                       ++ None :: replicate k None).
    { unfold vec. rewrite <- (take_drop i ls) at 1. rewrite Hdrop.
      rewrite fmap_app, fmap_cons, <- app_assoc. done. }
    rewrite Hsplit.
    replace (Z.of_nat (length ls) - Z.of_nat (length (Some <$> take i ls)))
      with (Z.of_nat (length (Some m :: (Some <$> mid)))).
    2:{ apply (f_equal length) in Hdrop. rewrite length_drop in Hdrop.
        rewrite Hpre. cbn [length] in *. rewrite length_fmap. lia. }
    rewrite memmove_up. cbn [mbind option_bind].
    rewrite store_middle. by rewrite fmap_cons.
  - assert (Hi : i = length ls) by lia.
    rewrite Hi, drop_all, take_ge by lia. cbn [mbind option_bind].
    unfold vec. simpl. rewrite store_middle. done.
Qed.

Lemma store_middle_at {A} (pre : list A) y post v i :
  i = Z.of_nat (length pre) ->
  store (pre ++ y :: post) i v = Some (pre ++ v :: post).
Proof. intros ->. apply store_middle. Qed.

Lemma memmove_down_at {A} (pre : list A) x mid d1 d2 post dst src n :
  dst = Z.of_nat (length pre) -> src = dst + 1 ->
  n = Z.of_nat (length mid) + 2 ->
  memmove (pre ++ x :: mid ++ d1 :: d2 :: post) dst src n
  = Some (pre ++ mid ++ d1 :: d2 :: d2 :: post).
Proof. intros -> -> ->. apply memmove_down. Qed.

Lemma vec_remove ls k i x :
  ls !! i = Some x ->
  (ls0 ← free_slot (vec ls (S (S k))) (Z.of_nat i);
   ls0 ← memmove ls0 (Z.of_nat i) (Z.of_nat i + 1)
          (Z.of_nat (length ls) - (Z.of_nat i - 1));
   store ls0 (Z.of_nat (length ls) - 1) None)
  = Some (vec (delete i ls) (S (S (S k)))).
Proof.
  intros Hx. pose proof (lookup_lt_Some _ _ _ Hx) as Hlt.
  rewrite (vec_split _ _ _ _ Hx). unfold free_slot.
  assert (Hpre : length (Some <$> take i ls) = i)
    by (rewrite length_fmap, length_take; lia).
  assert (Hmid : length (Some <$> drop (S i) ls) = (length ls - S i)%nat)
    by (by rewrite length_fmap, length_drop).
  rewrite store_middle_at by lia. cbn [mbind option_bind replicate].
  rewrite memmove_down_at by lia. cbn [mbind option_bind].
  rewrite app_assoc, store_middle_at by (rewrite length_app; lia).
  f_equal. unfold vec. by rewrite delete_take_drop, fmap_app.
Qed.

Lemma doc_of_app ls1 ls2 : doc_of (ls1 ++ ls2) = doc_of ls1 ++ doc_of ls2.
Proof. unfold doc_of. by rewrite fmap_app. Qed.

Lemma doc_of_take n ls : doc_of (take n ls) = take n (doc_of ls).
Proof. unfold doc_of. by rewrite fmap_take. Qed.

Lemma doc_of_drop n ls : doc_of (drop n ls) = drop n (doc_of ls).
Proof. unfold doc_of. by rewrite fmap_drop. Qed.

Lemma same_lines_post ls ls' :
  Forall2 same_line ls ls' ->
  doc_of ls' = doc_of ls /\ (Forall avail_ok ls -> Forall avail_ok ls').
Proof.
  intros Hs. split; [by apply same_lines_doc|].
  by apply same_lines_available.
Qed.

Lemma add_line_spec `{Host} e ls k k1 offset :
  good_lexer e -> rep e ls k -> grown_spare ls k = S k1 ->
  0 <= offset <= Z.of_nat (length ls) ->
  exists ls',
    add_line e offset = Some (upd e (HISTORY_ADD_LINE offset) ls' k1) /\
    doc_of ls' = take (Z.to_nat offset) (doc_of ls)
                 ++ [] :: drop (Z.to_nat offset) (doc_of ls) /\
    (Forall avail_ok ls -> Forall avail_ok ls').
Proof.
  intros Hgood (Hv & Hc & Ha) HK Hoff.
  unfold add_line. rewrite bool_decide_false by lia.
  set (r := HISTORY_ADD_LINE offset).
  destruct (hist_record_frame e r) as (Hr1 & Hr2 & Hr3 & Hr4 & Hr5 & Hr6).
  cbv zeta.
  assert (Hrep1 : rep (hist_record e r) ls k) by (split_and!; congruence).
  rewrite (grow_lines_spec _ _ _ Hrep1), HK.
  set (e1 := set_line_avail (set_lines (hist_record e r) _) _).
  change (line_count e1) with (line_count (hist_record e r)).
  change (lines e1) with (vec ls (S k1)).
  rewrite Hr5, Hc.
  set (lsA := take (Z.to_nat offset) ls ++ calloc_line 32
              :: drop (Z.to_nat offset) ls).
  destruct (proj1 (bind_Some _ _ _)
              (vec_add ls k1 offset (calloc_line 32) Hoff))
    as (ls0 & Hm & Hst).
  rewrite Hm. cbn [mbind option_bind]. rewrite Hst. cbn [mbind option_bind].
  fold lsA. clear Hm Hst.
  assert (HlenA : length lsA = S (length ls)).
  { unfold lsA. rewrite length_app, length_take. cbn [length].
    rewrite length_drop. lia. }
  assert (HA : lsA !! Z.to_nat offset = Some (calloc_line 32)).
  { unfold lsA. apply list_lookup_middle. rewrite length_take. lia. }
  assert (Hpost : forall ls', Forall2 same_line lsA ls' ->
            doc_of ls' = take (Z.to_nat offset) (doc_of ls)
                         ++ [] :: drop (Z.to_nat offset) (doc_of ls) /\
            (Forall avail_ok ls -> Forall avail_ok ls')).
  { intros ls' Hs. destruct (same_lines_post _ _ Hs) as [-> Hav]. split.
    - unfold lsA. by rewrite doc_of_app, doc_of_take; unfold doc_of;
        rewrite fmap_cons, fmap_drop.
    - intros Hall. apply Hav. unfold lsA. apply Forall_app. split.
      + by apply Forall_take.
      + constructor; [unfold avail_ok; simpl; lia|by apply Forall_drop]. }
  change (loading (set_line_count _ _)) with (loading (hist_record e r)).
  rewrite Hr2.
  set (e2 := set_line_count _ _).
  assert (Hv2 : lines e2 = vec lsA k1) by done.
  destruct (loading e) eqn:Hload; cbn [mbind option_bind].
  - change (loading e2) with (loading (hist_record e r)).
    rewrite Hr2, andb_false_r. exists lsA. split.
    + buffer_eq; simpl; lia.
    + apply Hpost, same_lines_refl.
  - rewrite (line_at_vec _ _ _ _ Hv2), (bool_decide_true (0 <= offset)), HA
      by lia.
    cbn [mbind option_bind].
    rewrite (put_line_vec _ _ _ _ _ Hv2) by lia. cbn [mbind option_bind].
    set (lsB := <[Z.to_nat offset := set_rev_status (calloc_line 32) 2]> lsA).
    assert (HsB : Forall2 same_line lsA lsB)
      by (eapply same_lines_insert; [done|done]).
    pose proof (same_lines_length _ _ HsB) as HlenB.
    change (loading (set_lines e2 (vec lsB k1)))
      with (loading (hist_record e r)).
    rewrite Hr2, andb_true_r. case_bool_decide as Hpos.
    + destruct (recalculate_syntax_frame (set_lines e2 (vec lsB k1)) lsB k1
                  (offset - 1)) as (ls' & Hrun & Hs').
      * eapply good_lexer_syntax; [|exact Hgood]. simpl. done.
      * done.
      * change (line_count _) with (Z.of_nat (length ls) + 1). lia.
      * lia.
      * rewrite Hrun. exists ls'. split.
        -- pose proof (same_lines_length _ _ Hs') as Hlen'.
           buffer_eq; simpl; lia.
        -- apply Hpost. by eapply same_lines_trans.
    + exists lsB. split.
      * buffer_eq; simpl; lia.
      * by apply Hpost.
Qed.

Lemma grow_once_grows a : 0 <= a -> a + 1 <= grow_once a.
Proof. unfold grow_once. case_bool_decide; lia. Qed.

Lemma grow_available_total n avail need :
  0 <= avail -> need - avail <= Z.of_nat n ->
  exists av, grow_available n avail need = Some av /\ 0 <= av.
Proof.
  revert avail. induction n as [|n IH]; intros avail Ha Hn; simpl.
  - rewrite bool_decide_false by lia. by exists avail.
  - case_bool_decide; [|by exists avail].
    pose proof (grow_once_grows avail Ha). apply IH; lia.
Qed.

(** Storing the changed line [l1] in slot [lineno], repainted unless the
    buffer is loading. *)
Lemma store_repaint_spec `{Host} e ls k lineno l1 :
  good_lexer e -> (loading e = false -> tabstop e ≠ 0) ->
  lines e = vec ls k -> line_count e <= Z.of_nat (length ls) ->
  0 <= lineno < Z.of_nat (length ls) ->
  exists ls',
    (if loading e then put_line e lineno l1
     else line ← recalculate_tabs e (set_rev_status l1 2);
          e ← put_line e lineno line;
          recalculate_syntax e lineno) = Some (set_lines e (vec ls' k)) /\
    Forall2 same_line (<[Z.to_nat lineno := l1]> ls) ls'.
Proof.
  intros Hgood Hts Hv Hc Hln. destruct (loading e) eqn:Hload.
  - rewrite (put_line_vec _ _ _ _ _ Hv) by lia.
    eexists. split; [done|apply same_lines_refl].
  - apply repaint_spec; try done. by rewrite Hload.
Qed.

Lemma grow_available_nonneg n avail need av :
  grow_available n avail need = Some av -> 0 <= avail -> 0 <= av.
Proof.
  revert avail. induction n as [|n IH]; intros avail; simpl.
  - case_bool_decide; [done|]. by intros [= <-].
  - case_bool_decide; [|by intros [= <-]].
    intros Hg Ha. eapply IH; [done|]. by apply grow_once_nonneg.
Qed.

Lemma merge_lines_spec `{Host} e ls k lineb la lb av :
  good_lexer e -> (loading e = false -> tabstop e ≠ 0) ->
  rep e ls (S (S k)) -> 1 <= lineb ->
  ls !! Z.to_nat (lineb - 1) = Some la -> ls !! Z.to_nat lineb = Some lb ->
  grow_available (Z.to_nat (actual la + actual lb)) (available la)
    (actual la + actual lb) = Some av ->
  exists ls',
    merge_lines e lineb
    = Some (upd e (HISTORY_MERGE_LINES lineb (actual la)) ls' (S (S (S k)))) /\
    doc_of ls' = delete (Z.to_nat lineb)
                   (<[Z.to_nat (lineb - 1) :=
                       line_content la ++ line_content lb]> (doc_of ls)) /\
    (Forall avail_ok ls -> Forall avail_ok ls').
Proof.
  intros Hgood Hts Hrep Hlb Hla Hlb' Hgrow.
  pose proof Hrep as (Hv & Hc & Ha).
  pose proof (lookup_lt_Some _ _ _ Hlb') as Hlt.
  unfold merge_lines. cbv zeta.
  rewrite (line_at_vec e ls _ (lineb - 1) Hv),
    (bool_decide_true (0 <= lineb - 1)), Hla by lia.
  cbn [mbind option_bind].
  rewrite (line_at_vec e ls _ lineb Hv), (bool_decide_true (0 <= lineb)),
    Hlb' by lia.
  cbn [mbind option_bind].
  set (r := HISTORY_MERGE_LINES lineb (actual la)).
  destruct (hist_record_frame e r) as (Hr1 & Hr2 & Hr3 & Hr4 & Hr5 & Hr6).
  rewrite Hgrow. cbn [mbind option_bind].
  set (la' := set_text (set_available la av) (text la ++ text lb)).
  destruct (store_repaint_spec (hist_record e r) ls (S (S k)) (lineb - 1) la')
    as (ls1 & Hrun & Hs1); [by eapply good_lexer_syntax|rewrite Hr2, Hr3; auto
                           |congruence|lia|lia|].
  rewrite Hrun. cbn [mbind option_bind]. clear Hrun.
  assert (Hlen1 : length ls1 = length ls)
    by (rewrite (same_lines_length _ _ Hs1); by rewrite length_insert).
  destruct (lookup_lt_is_Some_2 ls1 (Z.to_nat lineb) ltac:(lia)) as [x Hx].
  change (lines (set_lines _ ?v)) with v.
  change (line_count (set_lines ?e' _)) with (line_count e').
  rewrite Hr5, Hc, <- Hlen1. rewrite bool_decide_true by lia.
  pose proof (vec_remove ls1 k (Z.to_nat lineb) x Hx) as Hrem.
  rewrite Z2Nat.id in Hrem by lia.
  apply bind_Some in Hrem as (ls0 & Hfree & Hrem).
  rewrite Hfree. cbn [mbind option_bind]. rewrite Hrem.
  cbn [mbind option_bind]. clear Hfree Hrem.
  exists (delete (Z.to_nat lineb) ls1).
  assert (Hlen' : length (delete (Z.to_nat lineb) ls1) = (length ls1 - 1)%nat)
    by (by apply length_delete).
  split; [|split].
  - buffer_eq; simpl; lia.
  - unfold doc_of at 1. rewrite list_fmap_delete. fold (doc_of ls1).
    rewrite (same_lines_doc _ _ Hs1), doc_of_insert. do 2 f_equal.
    unfold la', line_content. simpl. by rewrite fmap_app.
  - intros Hall. apply Forall_delete.
    eapply same_lines_available; [exact Hs1|].
    apply Forall_insert; [done|]. unfold avail_ok, la'. simpl.
    eapply grow_available_nonneg; [exact Hgrow|].
    by eapply (proj1 (Forall_lookup _ _) Hall).
Qed.

Lemma round_up_pow2_nonneg remaining :
  0 <= remaining -> 0 <= round_up_pow2 remaining.
Proof.
  intros Hr. destruct (decide (remaining = 0)) as [->|Hne]; [done|].
  unfold round_up_pow2. cbv zeta.
  assert (H0 : 0 <= remaining - 1) by lia.
  repeat match goal with
         | |- context [Z.lor ?a (Z.shiftr ?a ?n)] =>
           let v := fresh "v" in
           let Hv := fresh "Hv" in
           assert (Hv : 0 <= Z.lor a (Z.shiftr a n))
             by (apply Z.lor_nonneg; split; [|apply Z.shiftr_nonneg]; done);
           set (v := Z.lor a (Z.shiftr a n)) in *
         end.
  lia.
Qed.

Lemma split_line_spec `{Host} e ls k0 k line split l :
  good_lexer e -> (loading e = false -> tabstop e ≠ 0) ->
  rep e ls k0 -> grown_spare ls k0 = S (S k) ->
  (k0 = 0%nat -> loading e = true \/ syntax e = None
                \/ line_count e <= line + 1) ->
  0 <= line ->
  ls !! Z.to_nat line = Some l -> 1 <= split <= actual l ->
  exists ls',
    split_line e line split
    = Some (upd e (HISTORY_SPLIT_LINE line split) ls' (S k)) /\
    doc_of ls' = take (Z.to_nat line) (doc_of ls)
                 ++ take (Z.to_nat split) (line_content l)
                 :: drop (Z.to_nat split) (line_content l)
                 :: drop (S (Z.to_nat line)) (doc_of ls) /\
    (Forall avail_ok ls -> Forall avail_ok ls').
Proof.
  intros Hgood Hts Hrep HK Hfull Hln Hl Hsplit.
  pose proof Hrep as (Hv & Hc & Ha).
  pose proof (lookup_lt_Some _ _ _ Hl) as Hlt.
  unfold split_line. rewrite bool_decide_false by lia.
  rewrite (line_at_vec e ls _ line Hv), (bool_decide_true (0 <= line)), Hl
    by lia.
  cbn [mbind option_bind].
  set (r := HISTORY_SPLIT_LINE line split).
  destruct (hist_record_frame e r) as (Hr1 & Hr2 & Hr3 & Hr4 & Hr5 & Hr6).
  cbv zeta.
  assert (Hrep1 : rep (hist_record e r) ls k0) by (split_and!; congruence).
  rewrite (grow_lines_spec _ _ _ Hrep1), HK.
  set (e1 := set_line_avail (set_lines (hist_record e r) _) _).
  change (line_count e1) with (line_count (hist_record e r)).
  change (lines e1) with (vec ls (S (S k))).
  rewrite Hr5, Hr6, Hc, Ha. rewrite (bool_decide_true (line < _)) by lia.
  set (i := Z.to_nat line).
  set (l1 := set_text l (take (Z.to_nat split) (text l))).
  set (l2 := Line (round_up_pow2 (actual l - split)) 0 0
               (drop (Z.to_nat split) (text l))).
  set (pre := Some <$> take i ls).
  set (mid := Some <$> drop (S i) ls).
  assert (Hpre : length pre = i)
    by (unfold pre; rewrite length_fmap, length_take; lia).
  assert (Hmid : length mid = (length ls - S i)%nat)
    by (unfold mid; by rewrite length_fmap, length_drop).
  pose proof (memmove_up_store pre (Some l) mid None None (replicate k None)
                (Some l2)) as Hmv.
  rewrite Hpre, Hmid in Hmv.
  replace (Z.of_nat i + 2) with (line + 2) in Hmv by lia.
  replace (Z.of_nat i + 1) with (line + 1) in Hmv by lia.
  replace (Z.of_nat (length ls - S i) + 1) with (Z.of_nat (length ls) - line)
    in Hmv by lia.
  apply bind_Some in Hmv as (ls0 & Hm & Hst).
  rewrite (vec_split _ _ _ _ Hl). fold i pre mid. cbn [replicate].
  rewrite Hm. cbn [mbind option_bind].
  rewrite option_guard_True by lia. cbn [mbind option_bind].
  rewrite option_guard_True.
  2:{ change (loading e1) with (loading (hist_record e r)).
      change (syntax e1) with (syntax (hist_record e r)).
      rewrite Hr2, Hr4.
      destruct (loading e) eqn:Hload; [by left|right].
      intros (Hg & Hsyn & Hlast). apply bool_decide_eq_true_1 in Hg.
      destruct Hfull as [?|[Hnone|?]]; [lia|done| |lia].
      rewrite Hnone in Hsyn. by destruct Hsyn. }
  cbn [mbind option_bind].
  fold l2. rewrite Hst. cbn [mbind option_bind]. clear Hm Hst.
  set (lsB := take i ls ++ l1 :: l2 :: drop (S i) ls).
  set (lsA := take i ls ++ l :: l2 :: drop (S i) ls).
  assert (HvA : pre ++ Some l :: Some l2 :: mid ++ None :: replicate k None
                = vec lsA (S k)).
  { unfold vec, lsA, pre, mid. rewrite fmap_app, !fmap_cons, <- app_assoc.
    done. }
  rewrite HvA.
  assert (HAB : <[i := l1]> lsA = lsB).
  { unfold lsA, lsB. rewrite insert_app_r_alt by (rewrite length_take; lia).
    replace (i - length (take i ls))%nat with 0%nat
      by (rewrite length_take; lia).
    done. }
  rewrite (put_line_vec _ lsA (S k) line)
    by (done || (unfold lsA; rewrite length_app, length_take; simpl; lia)).
  fold i. rewrite HAB. cbn [mbind option_bind].
  assert (HlenB : length lsB = S (length ls)).
  { unfold lsB. rewrite length_app, length_take. cbn [length].
    rewrite length_drop. lia. }
  assert (HB1 : lsB !! i = Some l1).
  { unfold lsB. apply list_lookup_middle. rewrite length_take. lia. }
  assert (HB2 : lsB !! S i = Some l2).
  { unfold lsB. rewrite (cons_middle l1), app_assoc.
    apply list_lookup_middle. rewrite length_app, length_take. simpl. lia. }
  assert (Hpost : forall ls', Forall2 same_line lsB ls' ->
            doc_of ls' = take i (doc_of ls)
                         ++ take (Z.to_nat split) (line_content l)
                         :: drop (Z.to_nat split) (line_content l)
                         :: drop (S i) (doc_of ls) /\
            (Forall avail_ok ls -> Forall avail_ok ls')).
  { intros ls' Hs. destruct (same_lines_post _ _ Hs) as [-> Hav]. split.
    - unfold lsB. rewrite doc_of_app, doc_of_take. unfold doc_of.
      rewrite !fmap_cons, fmap_drop. unfold l1, l2, line_content. simpl.
      by rewrite fmap_take, fmap_drop.
    - intros Hall. apply Hav. unfold lsB. apply Forall_app. split.
      + by apply Forall_take.
      + constructor.
        * apply (proj1 (Forall_lookup _ _) Hall _ _ Hl).
        * constructor; [|by apply Forall_drop].
          unfold avail_ok, l2. simpl. apply round_up_pow2_nonneg. lia. }
  clear HvA HAB. clearbody lsA.
  set (eB := set_lines (set_lines e1 _) (vec lsB (S k))).
  assert (HvB' : lines eB = vec lsB (S k)) by done.
  change (loading eB) with (loading (hist_record e r)). rewrite Hr2.
  destruct (loading e) eqn:Hload; cbn [mbind option_bind].
  - exists lsB. split; [|by apply Hpost, same_lines_refl].
    buffer_eq; simpl; lia.
  - rewrite (line_at_vec _ _ _ line HvB'), (bool_decide_true (0 <= line))
      by lia.
    fold i. rewrite HB1. cbn [mbind option_bind].
    assert (HtsB : forall ls'', loading (set_lines eB ls'') = false ->
                     tabstop (set_lines eB ls'') ≠ 0).
    { intros ls'' _. change (tabstop (hist_record e r) ≠ 0).
      rewrite Hr3. by apply Hts. }
    destruct (recalculate_tabs_same eB (set_rev_status l1 2))
      as (l1' & Ht1 & Hs1 & _).
    { intros _. change (tabstop (hist_record e r) ≠ 0).
      rewrite Hr3. by apply Hts. }
    rewrite Ht1. cbn [mbind option_bind].
    rewrite (put_line_vec _ _ _ _ _ HvB') by lia. cbn [mbind option_bind].
    fold i. set (lsC := <[i := l1']> lsB).
    assert (HsC : Forall2 same_line lsB lsC).
    { eapply same_lines_insert; [done|].
      eapply same_line_trans; [|exact Hs1]. done. }
    assert (HC2 : lsC !! S i = Some l2).
    { unfold lsC. rewrite list_lookup_insert_ne by lia. done. }
    set (eC := set_lines eB (vec lsC (S k))).
    assert (HvC : lines eC = vec lsC (S k)) by done.
    rewrite (line_at_vec _ _ _ (line + 1) HvC),
      (bool_decide_true (0 <= line + 1)) by lia.
    replace (Z.to_nat (line + 1)) with (S i) by lia.
    rewrite HC2. cbn [mbind option_bind].
    destruct (recalculate_tabs_same eC (set_rev_status l2 2))
      as (l2' & Ht2 & Hs2 & _).
    { intros _. change (tabstop (hist_record e r) ≠ 0).
      rewrite Hr3. by apply Hts. }
    rewrite Ht2. cbn [mbind option_bind].
    rewrite (put_line_vec _ _ _ _ _ HvC)
      by (rewrite (same_lines_length _ _ HsC); lia).
    cbn [mbind option_bind].
    replace (Z.to_nat (line + 1)) with (S i) by lia.
    set (lsD := <[S i := l2']> lsC).
    assert (HsD : Forall2 same_line lsB lsD).
    { eapply same_lines_trans; [exact HsC|].
      eapply same_lines_insert; [done|].
      eapply same_line_trans; [|exact Hs2]. done. }
    pose proof (same_lines_length _ _ HsD) as HlenD.
    set (eD := set_lines eC (vec lsD (S k))).
    destruct (recalculate_syntax_frame eD lsD (S k) line)
      as (lsE & HrunE & HsE).
    { eapply good_lexer_syntax; [|exact Hgood]. done. }
    { done. }
    { change (line_count eD) with (line_count (hist_record e r)). lia. }
    { lia. }
    rewrite HrunE. cbn [mbind option_bind].
    pose proof (same_lines_length _ _ HsE) as HlenE.
    destruct (recalculate_syntax_frame (set_lines eD (vec lsE (S k))) lsE
                (S k) (line + 1)) as (lsF & HrunF & HsF).
    { eapply good_lexer_syntax; [|exact Hgood]. done. }
    { done. }
    { change (line_count (set_lines eD _))
        with (line_count (hist_record e r)). lia. }
    { lia. }
    rewrite HrunF. cbn [mbind option_bind].
    pose proof (same_lines_length _ _ HsF) as HlenF.
    exists lsF. split.
    + buffer_eq; simpl; lia.
    + apply Hpost. eapply same_lines_trans; [exact HsD|].
      by eapply same_lines_trans.
Qed.

(** ** What a run of a primitive that returns tells about its arguments *)

Ltac bind_step H :=
  match type of H with
  | (?m ≫= _) = Some _ =>
    let x := fresh "x" in
    let E := fresh "E" in
    destruct m as [x|] eqn:E;
    [cbn [mbind option_bind] in H|discriminate H]
  | (if ?b then _ else _) = Some _ => destruct b eqn:?
  | (let '(_, _) := ?p in _) = Some _ => destruct p eqn:?
  | Some _ = Some _ => apply (inj Some) in H; try subst
  | None = Some _ => discriminate H
  end.

Ltac bind_steps H := repeat bind_step H.

Ltac bind_all :=
  repeat match goal with
         | H : _ = Some _ |- _ => progress (bind_step H)
         end.

Lemma line_insert_pre `{Host} e ls k c offset lineno e' :
  lines e = vec ls k -> line_insert e c offset lineno = Some e' ->
  exists l, 0 <= lineno /\ ls !! Z.to_nat lineno = Some l /\
            0 <= offset <= actual l.
Proof.
  intros Hv Hrun. unfold line_insert in Hrun.
  destruct (line_at e lineno) as [l|] eqn:Hl; [|done].
  apply (line_at_vec_Some _ _ _ _ _ Hv) in Hl as [Hln Hl].
  cbn [mbind option_bind] in Hrun. case_guard as Hg; [|done].
  exists l. split; [lia|]. split; [done|]. clear Hrun.
  revert Hg. case_bool_decide; unfold actual; simpl; lia.
Qed.

Lemma line_delete_pre `{Host} e ls k offset lineno e' :
  lines e = vec ls k -> offset ≠ 0 ->
  line_delete e offset lineno = Some e' ->
  exists l old, 0 <= lineno /\ ls !! Z.to_nat lineno = Some l /\
                1 <= offset <= actual l /\
                line_content l !! Z.to_nat (offset - 1) = Some old.
Proof.
  intros Hv Hne Hrun. unfold line_delete in Hrun.
  rewrite bool_decide_false in Hrun by done.
  destruct (line_at e lineno) as [l|] eqn:Hl; [|done].
  apply (line_at_vec_Some _ _ _ _ _ Hv) in Hl as [Hln Hl].
  cbn [mbind option_bind] in Hrun. case_guard as Hg; [|done].
  cbn [mbind option_bind] in Hrun.
  destruct (text l !! Z.to_nat (offset - 1)) as [old|] eqn:Hold; [|done].
  exists l, (codepoint old). split; [lia|]. split; [done|]. split; [done|].
  unfold line_content. by rewrite list_lookup_fmap, Hold.
Qed.

Lemma line_replace_pre `{Host} e ls k c offset lineno e' :
  lines e = vec ls k -> line_replace e c offset lineno = Some e' ->
  exists l old, 0 <= lineno /\ ls !! Z.to_nat lineno = Some l /\
                0 <= offset < actual l /\
                line_content l !! Z.to_nat offset = Some old.
Proof.
  intros Hv Hrun. unfold line_replace in Hrun.
  destruct (line_at e lineno) as [l|] eqn:Hl; [|done].
  apply (line_at_vec_Some _ _ _ _ _ Hv) in Hl as [Hln Hl].
  cbn [mbind option_bind] in Hrun. case_guard as Hg; [|done].
  cbn [mbind option_bind] in Hrun.
  destruct (text l !! Z.to_nat offset) as [old|] eqn:Hold; [|done].
  exists l, (codepoint old). split; [lia|]. split; [done|]. split; [done|].
  unfold line_content. by rewrite list_lookup_fmap, Hold.
Qed.

Lemma memmove_bound {A} (arr arr' : list A) dst src n :
  memmove arr dst src n = Some arr' ->
  0 <= n /\ 0 <= src /\ 0 <= dst /\ src + n <= Z.of_nat (length arr) /\
  dst + n <= Z.of_nat (length arr).
Proof. unfold memmove. by case_bool_decide. Qed.

Lemma store_length {A} (arr arr' : list A) i v :
  store arr i v = Some arr' -> length arr' = length arr.
Proof.
  unfold store. case_bool_decide; [|done]. intros [= <-].
  by rewrite length_insert.
Qed.

Lemma vec_length ls k : length (vec ls k) = (length ls + k)%nat.
Proof. unfold vec. by rewrite length_app, length_fmap, length_replicate. Qed.

Lemma merge_lines_pre `{Host} e ls k lineb e' :
  good_lexer e -> (loading e = false -> tabstop e ≠ 0) -> rep e ls k ->
  merge_lines e lineb = Some e' ->
  exists la lb k' av, 1 <= lineb /\ ls !! Z.to_nat (lineb - 1) = Some la /\
    ls !! Z.to_nat lineb = Some lb /\ k = S (S k') /\
    grow_available (Z.to_nat (actual la + actual lb)) (available la)
      (actual la + actual lb) = Some av.
Proof.
  intros Hgood Hts (Hv & Hc & Ha) Hrun. unfold merge_lines in Hrun.
  cbv zeta in Hrun.
  destruct (line_at e (lineb - 1)) as [la|] eqn:Hla; [|done].
  apply (line_at_vec_Some _ _ _ _ _ Hv) in Hla as [Hlna Hla].
  cbn [mbind option_bind] in Hrun.
  destruct (line_at e lineb) as [lb|] eqn:Hlb; [|done].
  apply (line_at_vec_Some _ _ _ _ _ Hv) in Hlb as [Hlnb Hlb].
  cbn [mbind option_bind] in Hrun.
  destruct (grow_available _ _ _) as [av|] eqn:Hgrow; [|done].
  cbn [mbind option_bind] in Hrun.
  set (r := HISTORY_MERGE_LINES lineb (actual la)) in Hrun.
  destruct (hist_record_frame e r) as (Hr1 & Hr2 & Hr3 & Hr4 & Hr5 & Hr6).
  set (la' := set_text _ _) in Hrun.
  destruct (store_repaint_spec (hist_record e r) ls k (lineb - 1) la')
    as (ls1 & Hst & Hs1); [by eapply good_lexer_syntax|rewrite Hr2, Hr3; auto
                          |congruence|lia|lia|].
  rewrite Hst in Hrun. cbn [mbind option_bind] in Hrun.
  change (lines (set_lines _ ?v)) with v in Hrun.
  change (line_count (set_lines ?e' _)) with (line_count e') in Hrun.
  rewrite Hr5, Hc in Hrun.
  destruct (free_slot _ _) as [ls0|] eqn:Hfree; [|done].
  apply store_length in Hfree. rewrite vec_length in Hfree.
  cbn [mbind option_bind] in Hrun.
  rewrite bool_decide_true in Hrun by lia.
  destruct (memmove _ _ _ _) as [ls2|] eqn:Hmv; [|done].
  apply memmove_bound in Hmv.
  pose proof (same_lines_length _ _ Hs1) as Hlen1.
  rewrite length_insert in Hlen1.
  destruct k as [|[|k']]; [lia|lia|].
  exists la, lb, k', av. split; [lia|done].
Qed.

Lemma memmove_length {A} (arr arr' : list A) dst src n :
  memmove arr dst src n = Some arr' -> length arr' = length arr.
Proof.
  unfold memmove. case_bool_decide as Hb; [|done]. intros [= <-].
  rewrite !length_app, !length_take, !length_drop. lia.
Qed.

Lemma add_line_pre `{Host} e ls k offset e' :
  rep e ls k -> add_line e offset = Some e' ->
  (offset > line_count e /\ e' = e) \/
  (0 <= offset <= Z.of_nat (length ls) /\
   exists k1, grown_spare ls k = S k1).
Proof.
  intros Hrep Hrun. pose proof Hrep as (Hv & Hc & Ha).
  unfold add_line in Hrun. case_bool_decide as Hoff.
  { left. split; [done|]. by injection Hrun as <-. }
  right. cbv zeta in Hrun.
  set (r := HISTORY_ADD_LINE offset) in Hrun.
  destruct (hist_record_frame e r) as (Hr1 & Hr2 & Hr3 & Hr4 & Hr5 & Hr6).
  assert (Hrep1 : rep (hist_record e r) ls k) by (split_and!; congruence).
  rewrite (grow_lines_spec _ _ _ Hrep1) in Hrun.
  set (e1 := set_line_avail _ _) in Hrun.
  change (line_count e1) with (line_count (hist_record e r)) in Hrun.
  change (lines e1) with (vec ls (grown_spare ls k)) in Hrun.
  rewrite Hr5, Hc in Hrun.
  match type of Hrun with
  | (?m ≫= _) = _ => destruct m as [ls0|] eqn:E0; [|done]
  end.
  cbn [mbind option_bind] in Hrun.
  destruct (store ls0 offset _) as [ls1|] eqn:E1; [|done].
  apply store_bound in E1. clear Hrun.
  case_bool_decide as Hlt.
  - pose proof (memmove_bound _ _ _ _ _ E0) as Hb.
    rewrite vec_length in Hb.
    split; [lia|]. destruct (grown_spare ls k) as [|k1]; [lia|by exists k1].
  - injection E0 as <-. rewrite vec_length in E1.
    split; [lia|]. destruct (grown_spare ls k) as [|k1]; [lia|by exists k1].
Qed.

Lemma split_line_pre `{Host} e ls k line split e' :
  rep e ls k -> split ≠ 0 -> split_line e line split = Some e' ->
  exists l k1, 0 <= line /\ ls !! Z.to_nat line = Some l /\
    1 <= split <= actual l /\ grown_spare ls k = S (S k1) /\
    (k = 0%nat -> loading e = true \/ syntax e = None
                  \/ line_count e <= line + 1).
Proof.
  intros Hrep Hne Hrun. pose proof Hrep as (Hv & Hc & Ha).
  unfold split_line in Hrun. rewrite bool_decide_false in Hrun by done.
  destruct (line_at e line) as [l|] eqn:Hl; [|done].
  apply (line_at_vec_Some _ _ _ _ _ Hv) in Hl as [Hln Hl].
  cbn [mbind option_bind] in Hrun. cbv zeta in Hrun.
  set (r := HISTORY_SPLIT_LINE line split) in Hrun.
  destruct (hist_record_frame e r) as (Hr1 & Hr2 & Hr3 & Hr4 & Hr5 & Hr6).
  assert (Hrep1 : rep (hist_record e r) ls k) by (split_and!; congruence).
  rewrite (grow_lines_spec _ _ _ Hrep1) in Hrun.
  set (e1 := set_line_avail _ _) in Hrun.
  change (line_count e1) with (line_count (hist_record e r)) in Hrun.
  change (lines e1) with (vec ls (grown_spare ls k)) in Hrun.
  change (loading e1) with (loading (hist_record e r)) in Hrun.
  change (syntax e1) with (syntax (hist_record e r)) in Hrun.
  rewrite Hr2, Hr4, Hr5, Hr6, Hc, Ha in Hrun.
  rewrite (bool_decide_true (line < _)) in Hrun by lia.
  destruct (memmove _ _ _ _) as [ls0|] eqn:E0;
    [|by cbn [mbind option_bind] in Hrun].
  cbn [mbind option_bind] in Hrun.
  apply memmove_bound in E0. rewrite vec_length in E0.
  bind_step Hrun. rename x into Hg1. bind_step Hrun. rename x into Hg2.
  clear Hrun E E1.
  exists l. destruct (grown_spare ls k) as [|[|k1]] eqn:HK; [lia|lia|].
  exists k1. split; [lia|]. split; [done|]. split; [lia|]. split; [done|].
  intros ->. destruct Hg2 as [?|Hg2]; [by left|right].
  destruct (syntax e) as [sd|]; [right|by left].
  destruct (decide (Z.of_nat (length ls) <= line + 1)) as [?|Hlast]; [lia|].
  destruct Hg2. split; [apply bool_decide_eq_true_2; lia|].
  split; [by eexists|lia].
Qed.

(** ** What the functions leave of the journal *)

Lemma put_line_journal e i l e' :
  put_line e i l = Some e' -> journal e' = journal e.
Proof. intros [_ ->]%put_line_inv. done. Qed.

Lemma recalculate_syntax_aux_journal `{Host} depth e i e' :
  recalculate_syntax_aux depth e i = Some e' -> journal e' = journal e.
Proof.
  revert e i. induction depth as [|depth IH]; intros e i Hrun;
    cbn [recalculate_syntax_aux] in Hrun.
  - bind_step Hrun. destruct (syntax e); [|by eapply put_line_journal].
    bind_step Hrun. bind_step Hrun.
    pose proof (put_line_journal _ _ _ _ E1) as J1.
    bind_step Hrun; [|congruence]. bind_step Hrun.
    bind_step Hrun; [|congruence]. bind_step Hrun.
    pose proof (put_line_journal _ _ _ _ E3) as J2.
    bind_step Hrun; [|done]. bind_step Hrun. congruence.
  - bind_step Hrun. destruct (syntax e); [|by eapply put_line_journal].
    bind_step Hrun. bind_step Hrun.
    pose proof (put_line_journal _ _ _ _ E1) as J1.
    bind_step Hrun; [|congruence]. bind_step Hrun.
    bind_step Hrun; [|congruence]. bind_step Hrun.
    pose proof (put_line_journal _ _ _ _ E3) as J2.
    bind_step Hrun; [congruence|]. apply IH in Hrun. congruence.
Qed.

Lemma recalculate_syntax_journal `{Host} e i e' :
  recalculate_syntax e i = Some e' -> journal e' = journal e.
Proof. apply recalculate_syntax_aux_journal. Qed.

Lemma place_cursor_actual_journal e :
  journal (place_cursor_actual e) = journal e.
Proof. unfold place_cursor_actual. by repeat case_bool_decide. Qed.

Lemma normal_i_journal e : journal (normal_i e) = journal e.
Proof.
  unfold normal_i. destruct (readonly e); [done|].
  by rewrite place_cursor_actual_journal.
Qed.

Lemma normal_R_journal e : journal (normal_R e) = journal e.
Proof.
  unfold normal_R. destruct (readonly e); [done|].
  by rewrite place_cursor_actual_journal.
Qed.

Lemma set_modified_journal e :
  journal (set_modified e)
  = (loading e, true, hist_past e, hist_next e, last_save_history e,
     next_addr e).
Proof.
  unfold set_modified.
  by destruct (modified e) eqn:Hm; unfold journal; rewrite ?Hm.
Qed.

Lemma set_preferred_column_journal e e' :
  set_preferred_column e = Some e' -> journal e' = journal e.
Proof. unfold set_preferred_column. intros Hrun. by bind_steps Hrun. Qed.

Ltac jstep0 :=
  match goal with
  | E : put_line _ _ _ = Some _ |- _ => apply put_line_journal in E
  | E : recalculate_syntax _ _ = Some _ |- _ =>
    apply recalculate_syntax_journal in E
  | E : set_preferred_column _ = Some _ |- _ =>
    apply set_preferred_column_journal in E
  end.

Ltac jfinish :=
  rewrite ?place_cursor_actual_journal, ?normal_i_journal, ?normal_R_journal
    in *;
  unfold journal in *; simpl in *; congruence.

Lemma settle_column_journal e e' :
  settle_column e = Some e' -> journal e' = journal e.
Proof.
  unfold settle_column. intros Hrun. bind_steps Hrun.
  rewrite place_cursor_actual_journal.
  by repeat (case_bool_decide; simpl).
Qed.

Lemma cursor_left_journal e e' :
  cursor_left e = Some e' -> journal e' = journal e.
Proof.
  unfold cursor_left. intros Hrun. jstep0. rewrite Hrun.
  case_bool_decide; [|done]. by rewrite place_cursor_actual_journal.
Qed.

Lemma cursor_right_journal e e' :
  cursor_right e = Some e' -> journal e' = journal e.
Proof.
  unfold cursor_right. intros Hrun. bind_step Hrun. jstep0. rewrite Hrun.
  case_bool_decide; [|done]. by rewrite place_cursor_actual_journal.
Qed.

Lemma cursor_up_journal e e' :
  cursor_up e = Some e' -> journal e' = journal e.
Proof.
  unfold cursor_up. intros Hrun. bind_step Hrun; [|by bind_steps Hrun].
  by apply settle_column_journal in Hrun.
Qed.

Lemma cursor_down_journal e e' :
  cursor_down e = Some e' -> journal e' = journal e.
Proof.
  unfold cursor_down. intros Hrun. bind_step Hrun; [|by bind_steps Hrun].
  by apply settle_column_journal in Hrun.
Qed.

Lemma cursor_home_journal e e' :
  cursor_home e = Some e' -> journal e' = journal e.
Proof.
  unfold cursor_home. intros Hrun. bind_steps Hrun. jstep0. jfinish.
Qed.

Lemma cursor_end_journal e e' :
  cursor_end e = Some e' -> journal e' = journal e.
Proof.
  unfold cursor_end. intros Hrun. bind_steps Hrun. jstep0. jfinish.
Qed.

Lemma move_journal m e e' : move m e = Some e' -> journal e' = journal e.
Proof.
  destruct m; simpl; eauto using cursor_left_journal, cursor_right_journal,
    cursor_up_journal, cursor_down_journal, cursor_home_journal,
    cursor_end_journal.
Qed.

Lemma backspace_move_journal e e' :
  backspace_move e = Some e' -> journal e' = journal e.
Proof.
  unfold backspace_move. intros Hrun. bind_step Hrun.
  - bind_steps Hrun. jstep0. jfinish.
  - by apply cursor_left_journal.
Qed.

Lemma normal_a_journal e e' :
  normal_a e = Some e' -> journal e' = journal e.
Proof.
  unfold normal_a. intros Hrun. bind_steps Hrun.
  rewrite normal_i_journal. by case_bool_decide.
Qed.

Lemma reset_istate_tabs_journal n e i e' :
  reset_istate_tabs n e i = Some e' -> journal e' = journal e.
Proof.
  revert e i. induction n as [|n IH]; intros e i Hrun; simpl in Hrun.
  - by bind_steps Hrun.
  - do 3 bind_step Hrun. apply IH in Hrun. jstep0. congruence.
Qed.

Lemma recalculate_all_journal `{Host} n e i e' :
  recalculate_all n e i = Some e' -> journal e' = journal e.
Proof.
  revert e i. induction n as [|n IH]; intros e i Hrun; simpl in Hrun.
  - by bind_steps Hrun.
  - bind_step Hrun. apply IH in Hrun. jstep0. congruence.
Qed.

Lemma clear_rev_status_journal n e i e' :
  clear_rev_status n e i = Some e' -> journal e' = journal e.
Proof.
  revert e i. induction n as [|n IH]; intros e i Hrun; simpl in Hrun.
  - by bind_steps Hrun.
  - do 2 bind_step Hrun. apply IH in Hrun. jstep0. congruence.
Qed.

Lemma hist_record_journal `{Host} e r :
  loading e = false -> history_enabled global_config = true ->
  journal (hist_record e r)
  = (false, modified e, (next_addr e, r) :: hist_past e, [],
     last_save_history e, next_addr e + 1).
Proof.
  intros Hl Hen. unfold hist_record, journal. rewrite Hl, Hen. simpl.
  by rewrite Hl.
Qed.

Lemma grow_lines_journal e : journal (grow_lines e) = journal e.
Proof. unfold grow_lines. by case_bool_decide. Qed.

Lemma line_insert_journal `{Host} e c offset lineno e' :
  line_insert e c offset lineno = Some e' ->
  journal e' = journal (hist_record e (HISTORY_INSERT lineno offset
                                         (codepoint c))).
Proof.
  unfold line_insert. intros Hrun. bind_steps Hrun; repeat jstep0; congruence.
Qed.

Lemma line_delete_journal `{Host} e offset lineno e' :
  line_delete e offset lineno = Some e' ->
  (offset = 0 /\ e' = e) \/
  exists old, offset ≠ 0 /\
    journal e' = journal (hist_record e (HISTORY_DELETE lineno offset old)).
Proof.
  unfold line_delete. intros Hrun. bind_step Hrun.
  { left. apply bool_decide_eq_true_1 in Heqb. by bind_steps Hrun. }
  apply bool_decide_eq_false_1 in Heqb.
  bind_steps Hrun. right. eexists. split; [done|].
  repeat jstep0. etrans; eassumption.
Qed.

Lemma line_replace_journal `{Host} e c offset lineno e' :
  line_replace e c offset lineno = Some e' ->
  exists old,
    journal e' = journal (hist_record e (HISTORY_REPLACE lineno offset
                                           (codepoint c) old)).
Proof.
  unfold line_replace. intros Hrun. bind_steps Hrun; eexists;
    repeat jstep0; first [eassumption|etrans; eassumption].
Qed.

Lemma merge_lines_journal `{Host} e lineb e' :
  merge_lines e lineb = Some e' ->
  exists n, journal e' = journal (hist_record e (HISTORY_MERGE_LINES lineb n)).
Proof.
  unfold merge_lines. intros Hrun. cbv zeta in Hrun. do 3 bind_step Hrun.
  exists (actual x).
  bind_step Hrun.
  assert (J : journal x2 = journal (hist_record e
                                      (HISTORY_MERGE_LINES lineb (actual x)))).
  { bind_steps E2; repeat jstep0; congruence. }
  clear E2. bind_steps Hrun; done.
Qed.

Section Loading.
Context `{Host}.
Variable e : buffer_t.
Hypothesis Hload : loading e = true.

Lemma line_insert_loading c offset lineno e' :
  line_insert e c offset lineno = Some e' -> journal e' = journal e.
Proof.
  intros Hrun%line_insert_journal. by rewrite hist_record_loading in Hrun.
Qed.

Lemma line_delete_loading offset lineno e' :
  line_delete e offset lineno = Some e' -> journal e' = journal e.
Proof.
  intros [[_ ->]|(old & _ & Hrun)]%line_delete_journal; [done|].
  by rewrite hist_record_loading in Hrun.
Qed.

Lemma line_replace_loading c offset lineno e' :
  line_replace e c offset lineno = Some e' -> journal e' = journal e.
Proof.
  intros [old Hrun]%line_replace_journal.
  by rewrite hist_record_loading in Hrun.
Qed.

Lemma merge_lines_loading lineb e' :
  merge_lines e lineb = Some e' -> journal e' = journal e.
Proof.
  intros [n Hrun]%merge_lines_journal.
  by rewrite hist_record_loading in Hrun.
Qed.

Lemma add_line_loading offset e' :
  add_line e offset = Some e' -> journal e' = journal e.
Proof.
  unfold add_line. intros Hrun. cbv zeta in Hrun.
  rewrite hist_record_loading in Hrun by done.
  bind_step Hrun; [by bind_steps Hrun|].
  do 2 bind_step Hrun. clear E E0.
  match type of Hrun with
  | (?m ≫= _) = _ => destruct m as [e1|] eqn:E1; [|done]
  end.
  cbn [mbind option_bind] in Hrun.
  assert (J : journal e1 = journal e).
  { bind_steps E1; repeat jstep0; rewrite <- (grow_lines_journal e); done. }
  clear E1. bind_steps Hrun; repeat jstep0; congruence.
Qed.

Lemma replace_line_loading offset replacement e' :
  replace_line e offset replacement = Some e' -> journal e' = journal e.
Proof.
  unfold replace_line. intros Hrun. bind_step Hrun.
  rewrite hist_record_loading in Hrun by done.
  bind_steps Hrun; repeat jstep0; congruence.
Qed.

Lemma split_line_loading line split e' :
  split_line e line split = Some e' -> journal e' = journal e.
Proof.
  unfold split_line. intros Hrun. bind_step Hrun.
  { by eapply add_line_loading. }
  cbv zeta in Hrun. rewrite hist_record_loading in Hrun by done.
  do 6 bind_step Hrun. apply put_line_journal in E4.
  assert (J4 : journal x4 = journal e)
    by (rewrite E4; simpl; apply grow_lines_journal).
  clear -J4 Hrun.
  destruct (loading x4); bind_all; repeat jstep0; jfinish.
Qed.
End Loading.

Lemma clear_line_loading `{Host} n e lineno e' :
  loading e = true -> clear_line n e lineno = Some e' ->
  journal e' = journal e.
Proof.
  revert e. induction n as [|n IH]; intros e Hload Hrun; simpl in Hrun.
  - bind_steps Hrun; done.
  - bind_step Hrun. bind_step Hrun; [|by bind_steps Hrun].
    bind_step Hrun. apply line_delete_loading in E0; [|done].
    apply IH in Hrun.
    + congruence.
    + apply (f_equal (λ j, j.1.1.1.1.1)) in E0. simpl in E0. congruence.
Qed.

Lemma remove_line_loading `{Host} e offset e' :
  loading e = true -> remove_line e offset = Some e' ->
  journal e' = journal e.
Proof.
  intros Hload. unfold remove_line. intros Hrun. bind_step Hrun.
  - bind_step Hrun. by eapply clear_line_loading.
  - rewrite Hload in Hrun. simpl in Hrun. by bind_steps Hrun.
Qed.

Lemma journal_loading e e' :
  journal e' = journal e -> loading e' = loading e.
Proof. intros J. by apply (f_equal (λ j, j.1.1.1.1.1)) in J. Qed.

Lemma undo_record_journal `{Host} e h e' :
  loading e = true -> undo_record e h = Some e' -> journal e' = journal e.
Proof.
  intros Hload Hrun. destruct h; simpl in Hrun; bind_steps Hrun;
    try done.
  - by apply line_delete_loading in E.
  - by apply line_insert_loading in E.
  - by apply line_replace_loading in E.
  - apply add_line_loading in E; [|done].
    apply replace_line_loading in E0; [|by rewrite (journal_loading _ _ E)].
    jfinish.
  - by apply remove_line_loading in E.
  - by apply replace_line_loading in E.
  - by apply split_line_loading in E.
  - by apply merge_lines_loading in E.
Qed.

Lemma redo_record_journal `{Host} e h e' :
  loading e = true -> redo_record e h = Some e' -> journal e' = journal e.
Proof.
  intros Hload Hrun. destruct h; simpl in Hrun; bind_steps Hrun;
    try done.
  - by apply line_insert_loading in E.
  - by apply line_delete_loading in E.
  - by apply line_replace_loading in E.
  - by apply remove_line_loading in E.
  - by apply add_line_loading in E.
  - by apply replace_line_loading in E.
  - by apply merge_lines_loading in E.
  - by apply split_line_loading in E.
Qed.

(** ** Replaying the journal moves records, it makes none *)

Lemma undo_loop_journal `{Host} past e e' :
  loading e = true -> hist_past e = past -> undo_loop past e = Some e' ->
  loading e' = true /\ modified e' = modified e /\
  last_save_history e' = last_save_history e /\
  next_addr e' = next_addr e /\ timeline e' = timeline e.
Proof.
  revert e. induction past as [|[a h] prev IH]; intros e Hload Hpast Hrun;
    simpl in Hrun; [done|].
  bind_step Hrun; [by bind_steps Hrun|].
  bind_step Hrun. apply undo_record_journal in E; [|done].
  unfold journal in E. injection E as E1 E2 E3 E4 E5 E6.
  set (e2 := set_history x prev ((a, h) :: hist_next x)) in *.
  assert (Ht : timeline e2 = timeline e).
  { unfold timeline, e2. simpl. rewrite E4, Hpast, reverse_cons.
    by rewrite <- app_assoc. }
  destruct prev as [|[a' h'] prev']; [done|].
  bind_step Hrun.
  - bind_steps Hrun. simpl. by rewrite E1, E2, E5, E6.
  - apply IH in Hrun; [|by simpl; congruence|done].
    destruct Hrun as (-> & -> & -> & -> & ->). simpl.
    by rewrite E2, E5, E6.
Qed.

Lemma redo_loop_journal `{Host} next e e' :
  loading e = true -> hist_next e = next -> redo_loop next e = Some e' ->
  loading e' = true /\ modified e' = modified e /\
  last_save_history e' = last_save_history e /\
  next_addr e' = next_addr e /\ timeline e' = timeline e.
Proof.
  revert e. induction next as [|[a h] rest IH]; intros e Hload Hnext Hrun;
    simpl in Hrun.
  { by bind_steps Hrun. }
  bind_step Hrun.
  - bind_steps Hrun. simpl. split_and!; try done.
    unfold timeline. simpl. rewrite Hnext, reverse_cons.
    by rewrite <- app_assoc.
  - bind_step Hrun. apply redo_record_journal in E; [|done].
    unfold journal in E. injection E as E1 E2 E3 E4 E5 E6.
    apply IH in Hrun; [|by simpl; congruence|done].
    destruct Hrun as (-> & -> & -> & -> & ->). simpl.
    split_and!; try done. unfold timeline. simpl.
    rewrite E3, Hnext, reverse_cons. by rewrite <- app_assoc.
Qed.

Lemma after_replay_journal `{Host} e e' :
  after_replay e = Some e' ->
  journal e'
  = (false, bool_decide (history_ptr e ≠ last_save_history e), hist_past e,
     hist_next e, last_save_history e, next_addr e).
Proof.
  unfold after_replay. intros Hrun. cbv zeta in Hrun. bind_steps Hrun.
  apply reset_istate_tabs_journal in E0.
  apply recalculate_all_journal in E1.
  rewrite place_cursor_actual_journal, E1, E0. clear.
  unfold journal, history_ptr. simpl.
  by repeat (case_bool_decide; simpl).
Qed.

(** ** The invariant of the journal *)

Lemma journal_fields e e' :
  journal e' = journal e ->
  loading e' = loading e /\ modified e' = modified e /\
  hist_past e' = hist_past e /\ hist_next e' = hist_next e /\
  last_save_history e' = last_save_history e /\ next_addr e' = next_addr e.
Proof. unfold journal. intros [= -> -> -> -> -> ->]. done. Qed.

Lemma journal_inv_ext e e' :
  journal e' = journal e -> journal_inv e -> journal_inv e'.
Proof.
  intros (Hl & Hm & Hp & Hn & Hs & Ha)%journal_fields.
  unfold journal_inv, journal_ok, timeline, history_ptr.
  by rewrite Hl, Hm, Hp, Hn, Hs, Ha.
Qed.

Lemma timeline_head e a h rest :
  hist_past e = (a, h) :: rest -> (a, h) ∈ timeline e.
Proof.
  intros Hp. unfold timeline. rewrite Hp, reverse_cons.
  rewrite !elem_of_app, list_elem_of_singleton. auto.
Qed.

Lemma journal_ok_append m r e e' :
  journal_ok e -> appended m r e e' ->
  journal_ok e' /\ history_ptr e' ≠ last_save_history e'.
Proof.
  intros (Hl & Huniq & Hall & Hsave & Hbound) Happ.
  unfold appended, journal in Happ.
  injection Happ as Hl' Hm' Hp' Hn' Hs' Ha'.
  assert (Hin : forall a h, (a, h) ∈ timeline e' ->
            (a, h) ∈ reverse (hist_past e) \/ (a = next_addr e /\ h = r)).
  { intros a h. unfold timeline. rewrite Hp', Hn', app_nil_r, reverse_cons.
    rewrite elem_of_app, list_elem_of_singleton. intros [?|[= -> ->]]; auto. }
  assert (Hold : forall a h, (a, h) ∈ reverse (hist_past e) ->
            (a, h) ∈ timeline e).
  { intros a h Hah. unfold timeline. apply elem_of_app. by left. }
  unfold journal_ok, history_ptr. rewrite Hl', Hp', Hs', Ha'.
  split; [|lia]. split_and!; [done| | |lia|].
  - intros a h1 h2 [H1%Hold|[-> ->]]%Hin [H2%Hold|[Ha2 ->]]%Hin.
    + by eapply Huniq.
    + apply Hall in H1. lia.
    + apply Hall in H2. lia.
    + done.
  - intros a h [H1%Hold|[-> ->]]%Hin; [apply Hall in H1|]; lia.
  - intros a h [H1%Hold|[-> ->]]%Hin Heq; [by eapply Hbound|lia].
Qed.

Lemma journal_inv_edit r e e' :
  journal_inv e -> appended true r e e' -> journal_inv e'.
Proof.
  intros [Hok _] Happ.
  destruct (journal_ok_append _ _ _ _ Hok Happ) as [Hok' Hne].
  split; [done|]. unfold appended, journal in Happ.
  injection Happ as _ -> _ _ _ _. done.
Qed.

Lemma journal_inv_break e e' :
  journal_inv e ->
  (forall a h rest, hist_past e = (a, h) :: rest ->
                    is_break h = false /\ is_sentinel h = false) ->
  hist_past e ≠ [] ->
  appended (modified e) HISTORY_BREAK e e' -> journal_inv e'.
Proof.
  intros [Hok Hiff] Hhead Hne Happ.
  destruct (journal_ok_append _ _ _ _ Hok Happ) as [Hok' Hne'].
  split; [done|]. unfold appended, journal in Happ.
  injection Happ as _ -> _ _ _ _. split; [done|intros _].
  destruct (hist_past e) as [|[a h] rest] eqn:Hp; [done|].
  destruct (Hhead a h rest eq_refl) as [Hb Hs].
  apply Hiff. unfold history_ptr. rewrite Hp. intros Heq.
  destruct Hok as (_ & _ & _ & _ & Hbound).
  destruct (Hbound a h) as [?|?]; [|done|congruence|congruence].
  by eapply timeline_head.
Qed.

Lemma journal_inv_save e e' :
  journal_inv e -> at_boundary e ->
  journal e' = (false, false, hist_past e, hist_next e, history_ptr e,
                next_addr e) ->
  journal_inv e'.
Proof.
  intros [(Hl & Huniq & Hall & Hsave & Hbound) _] (a & h & rest & Hp & Hb) J.
  unfold journal in J. injection J as Hl' Hm' Hp' Hn' Hs' Ha'.
  pose proof (timeline_head _ _ _ _ Hp) as Hin.
  assert (Ht' : timeline e' = timeline e)
    by (unfold timeline; by rewrite Hp', Hn').
  unfold journal_inv, journal_ok, history_ptr in *.
  rewrite Ht', Hl', Hm', Hp', Hs', Ha', Hp.
  split; [|done]. split_and!; try done.
  - by eapply Hall.
  - intros a' h' Hin' ->. by rewrite (Huniq _ _ _ Hin' Hin).
Qed.

Lemma journal_inv_replay e e1 e' :
  journal_inv e -> timeline e1 = timeline e ->
  last_save_history e1 = last_save_history e -> next_addr e1 = next_addr e ->
  journal e'
  = (false, bool_decide (history_ptr e1 ≠ last_save_history e1),
     hist_past e1, hist_next e1, last_save_history e1, next_addr e1) ->
  journal_inv e'.
Proof.
  intros [(Hl & Huniq & Hall & Hsave & Hbound) _] Ht Hs Ha J.
  unfold journal in J. injection J as Hl' Hm' Hp' Hn' Hs' Ha'.
  assert (Ht' : timeline e' = timeline e)
    by (unfold timeline in *; by rewrite Hp', Hn').
  unfold journal_inv, journal_ok, history_ptr in *.
  rewrite Ht', Hl', Hm', Hp', Hs', Ha', Hs, Ha.
  split; [done|]. by rewrite bool_decide_eq_true.
Qed.

(** ** The journal after a command *)

Section Commands.
Context `{Host}.
Hypothesis Henabled : history_enabled global_config = true.

Lemma insert_char_journal e c e' :
  loading e = false -> insert_char e c = Some e' ->
  e' = e \/ exists r, appended true r e e'.
Proof.
  intros Hload. unfold insert_char. intros Hrun.
  bind_step Hrun; [left; by bind_steps Hrun|]. bind_steps Hrun. right.
  apply line_insert_journal in E.
  rewrite hist_record_journal in E by done.
  eexists. unfold appended. rewrite set_modified_journal.
  unfold journal in E. simpl. injection E as -> _ -> -> -> ->. done.
Qed.

Lemma replace_char_journal e c e' :
  loading e = false -> replace_char e c = Some e' ->
  e' = e \/ exists r, appended true r e e'.
Proof.
  intros Hload. unfold replace_char. intros Hrun. bind_step Hrun.
  bind_step Hrun; [left; by bind_steps Hrun|]. bind_steps Hrun. right.
  apply line_replace_journal in E0 as [old E0].
  rewrite hist_record_journal in E0 by done.
  eexists. unfold appended. rewrite set_modified_journal.
  unfold journal in E0. injection E0 as -> _ -> -> -> ->. done.
Qed.

Lemma delete_at_cursor_journal e e' :
  loading e = false -> delete_at_cursor e = Some e' ->
  e' = e \/ exists r, appended true r e e'.
Proof.
  intros Hload. unfold delete_at_cursor. intros Hrun. bind_step Hrun.
  - apply bool_decide_eq_true_1 in Heqb. bind_steps Hrun. right.
    apply line_delete_journal in E as [[? _]|(old & _ & E)]; [lia|].
    rewrite hist_record_journal in E by done.
    eexists. unfold appended.
    rewrite place_cursor_actual_journal, set_modified_journal.
    unfold journal in E. simpl. injection E as -> _ -> -> -> ->. done.
  - bind_step Hrun; [|left; by bind_steps Hrun]. bind_steps Hrun. right.
    apply merge_lines_journal in E0 as [n E0].
    rewrite hist_record_journal in E0 by done.
    apply set_preferred_column_journal in E1.
    eexists. unfold appended.
    rewrite place_cursor_actual_journal, set_modified_journal.
    unfold journal in E0, E1. simpl in E1.
    injection E1 as -> _ -> -> -> ->.
    injection E0 as -> _ -> -> -> ->. done.
Qed.

Lemma set_history_break_journal e e' :
  journal_inv e -> set_history_break e = Some e' -> journal_inv e'.
Proof.
  intros Hinv. unfold set_history_break. rewrite Henabled. simpl.
  intros Hrun. bind_step Hrun. destruct x as [a h].
  destruct (hist_past e) as [|[a0 h0] rest] eqn:Hp; [done|].
  simpl in E. injection E as -> ->.
  bind_step Hrun; bind_steps Hrun; [|done].
  apply andb_prop in Heqb as [Hb Hs].
  apply negb_true_iff in Hb, Hs.
  eapply journal_inv_break; [done| |by rewrite Hp|].
  - rewrite Hp. by intros a' h' rest' [= <- <- <-].
  - unfold appended, HIST_APPEND, journal. simpl.
    destruct Hinv as [(-> & _) _]. by rewrite Hp.
Qed.

Lemma leave_insert_journal e e' :
  journal_inv e -> leave_insert e = Some e' -> journal_inv e'.
Proof.
  intros Hinv. unfold leave_insert. intros Hrun. do 3 bind_step Hrun.
  bind_steps Hrun.
  apply set_history_break_journal in E1.
  - eapply journal_inv_ext; [|exact E1]. done.
  - eapply journal_inv_ext; [|exact Hinv].
    bind_all; repeat jstep0; repeat case_bool_decide; jfinish.
Qed.

Lemma write_file_journal e opened e' :
  journal_inv e -> saves_at_boundary (Write opened) e ->
  write_file e opened = Some e' -> journal_inv e'.
Proof.
  intros Hinv Hsave. unfold write_file. intros Hrun.
  destruct opened; simpl in Hrun; [|by bind_steps Hrun].
  bind_steps Hrun. apply clear_rev_status_journal in E.
  eapply journal_inv_save; [done|exact Hsave|].
  apply journal_fields in E as (Hl & Hm & Hp & Hn & Hs & Ha).
  unfold journal, history_ptr. simpl. rewrite Hl, Hp, Hn, Ha.
  by destruct Hinv as [(-> & _) _].
Qed.

Lemma undo_history_journal e e' :
  journal_inv e -> undo_history e = Some e' -> journal_inv e'.
Proof.
  intros Hinv. unfold undo_history. rewrite Henabled. simpl.
  intros Hrun. bind_step Hrun. destruct x as [a h]. bind_step Hrun.
  { bind_steps Hrun. eapply journal_inv_ext; [|exact Hinv].
    unfold journal. simpl. by destruct Hinv as [(-> & _) _]. }
  bind_step Hrun.
  apply undo_loop_journal in E0 as (_ & _ & Hs & Ha & Ht); [|done|done].
  apply after_replay_journal in Hrun.
  eapply (journal_inv_replay e x); done.
Qed.

Lemma redo_history_journal e e' :
  journal_inv e -> redo_history e = Some e' -> journal_inv e'.
Proof.
  intros Hinv. unfold redo_history. rewrite Henabled. cbn [negb].
  intros Hrun. cbv zeta in Hrun. bind_step Hrun.
  change (hist_next (set_loading e true)) with (hist_next e) in Hrun.
  destruct (hist_next e) as [|n0 next] eqn:Hnext.
  { bind_steps Hrun. eapply journal_inv_ext; [|exact Hinv].
    unfold journal. simpl. by destruct Hinv as [(-> & _) _]. }
  bind_step Hrun.
  apply redo_loop_journal in E0 as (_ & _ & Hs & Ha & Ht); [|done|done].
  apply after_replay_journal in Hrun.
  eapply (journal_inv_replay e x0); done.
Qed.

Lemma journal_inv_edit_or_same e e' :
  journal_inv e -> e' = e \/ (exists r, appended true r e e') ->
  journal_inv e'.
Proof.
  intros Hinv [->|[r Happ]]; [done|]. by eapply journal_inv_edit.
Qed.

Lemma run_command_journal cmd e e' :
  journal_inv e -> saves_at_boundary cmd e -> run_command cmd e = Some e' ->
  journal_inv e'.
Proof.
  intros Hinv Hsave Hrun. pose proof Hinv as [(Hload & _) _].
  destruct cmd; simpl in Hrun.
  - eapply journal_inv_ext; [|exact Hinv]. by eapply move_journal.
  - bind_steps Hrun. eapply journal_inv_ext; [|exact Hinv].
    apply normal_i_journal.
  - eapply journal_inv_ext; [|exact Hinv]. by eapply normal_a_journal.
  - bind_steps Hrun. eapply journal_inv_ext; [|exact Hinv].
    apply normal_R_journal.
  - unfold replace_one in Hrun. bind_step Hrun; [by bind_steps Hrun|].
    destruct (replace_char e c) as [e1|] eqn:E1; [|done].
    simpl in Hrun. bind_steps Hrun.
    eapply journal_inv_ext; [apply place_cursor_actual_journal|].
    eapply journal_inv_edit_or_same; [done|].
    by eapply replace_char_journal.
  - by eapply undo_history_journal.
  - by eapply redo_history_journal.
  - by eapply write_file_journal.
  - by eapply leave_insert_journal.
  - unfold insert_key in Hrun. bind_step Hrun.
    eapply journal_inv_ext; [by eapply set_preferred_column_journal|].
    eapply journal_inv_edit_or_same; [done|].
    by eapply insert_char_journal.
  - unfold replace_key in Hrun. do 2 bind_step Hrun. bind_steps Hrun.
    eapply journal_inv_ext; [apply place_cursor_actual_journal|].
    bind_step E0.
    + bind_steps E0.
      eapply (journal_inv_ext x1); [done|].
      eapply journal_inv_edit_or_same; [done|].
      by eapply replace_char_journal.
    + eapply journal_inv_edit_or_same; [done|].
      by eapply insert_char_journal.
  - eapply journal_inv_edit_or_same; [done|].
    by eapply delete_at_cursor_journal.
  - eapply journal_inv_ext; [|exact Hinv]. by eapply backspace_move_journal.
Qed.
End Commands.

(** ** The primitives, from a run that returns *)

Lemma unmoved_refl e : unmoved e e.
Proof. done. Qed.

Lemma unmoved_trans e1 e2 e3 :
  unmoved e1 e2 -> unmoved e2 e3 -> unmoved e1 e3.
Proof.
  unfold unmoved. intros (? & ? & ? & ?) (? & ? & ? & ?).
  split_and!; congruence.
Qed.

Lemma hist_record_unmoved `{Host} e r : unmoved e (hist_record e r).
Proof. unfold hist_record. by destruct (negb _ && _). Qed.

Lemma upd_unmoved `{Host} e r ls k : unmoved e (upd e r ls k).
Proof. apply (hist_record_unmoved e r). Qed.

Lemma doc_nonempty ls ls' d :
  doc_of ls' = d -> length d = length (doc_of ls) -> ls ≠ [] -> ls' ≠ [].
Proof.
  intros <- Hlen Hne ->. rewrite !doc_of_length in Hlen.
  destruct ls; [done|]. simpl in Hlen. lia.
Qed.

Section Runs.
Context `{Host}.
Variables (e : buffer_t) (ls : list line_t) (k : nat).
Hypothesis Hgood : good_lexer e.
Hypothesis Hts : loading e = false -> tabstop e ≠ 0.
Hypothesis Hrep : rep e ls k.

Lemma line_insert_run c offset lineno e' :
  line_insert e c offset lineno = Some e' ->
  exists l ls',
    0 <= lineno /\ ls !! Z.to_nat lineno = Some l /\
    0 <= offset <= actual l /\
    e' = upd e (HISTORY_INSERT lineno offset (codepoint c)) ls' k /\
    doc_of ls' = <[Z.to_nat lineno :=
                    take (Z.to_nat offset) (line_content l)
                    ++ codepoint c :: drop (Z.to_nat offset) (line_content l)]>
                   (doc_of ls) /\
    (Forall avail_ok ls -> Forall avail_ok ls').
Proof.
  intros Hrun. pose proof Hrep as (Hv & _).
  destruct (line_insert_pre _ _ _ _ _ _ _ Hv Hrun) as (l & Hln & Hl & Hoff).
  destruct (line_insert_spec e ls k c offset lineno l) as (ls' & Hs & Hpost);
    try done.
  rewrite Hs in Hrun. injection Hrun as <-. by exists l, ls'.
Qed.

Lemma line_delete_run offset lineno e' :
  offset ≠ 0 -> line_delete e offset lineno = Some e' ->
  exists l old ls',
    0 <= lineno /\ ls !! Z.to_nat lineno = Some l /\
    1 <= offset <= actual l /\
    line_content l !! Z.to_nat (offset - 1) = Some old /\
    e' = upd e (HISTORY_DELETE lineno offset old) ls' k /\
    doc_of ls' = <[Z.to_nat lineno :=
                    take (Z.to_nat (offset - 1)) (line_content l)
                    ++ drop (Z.to_nat offset) (line_content l)]> (doc_of ls) /\
    (Forall avail_ok ls -> Forall avail_ok ls').
Proof.
  intros Hne Hrun. pose proof Hrep as (Hv & _).
  destruct (line_delete_pre _ _ _ _ _ _ Hv Hne Hrun)
    as (l & old & Hln & Hl & Hoff & Hold).
  destruct (line_delete_spec e ls k offset lineno l old)
    as (ls' & Hs & Hpost); try done.
  rewrite Hs in Hrun. injection Hrun as <-. by exists l, old, ls'.
Qed.

Lemma line_replace_run c offset lineno e' :
  line_replace e c offset lineno = Some e' ->
  exists l old ls',
    0 <= lineno /\ ls !! Z.to_nat lineno = Some l /\
    0 <= offset < actual l /\
    line_content l !! Z.to_nat offset = Some old /\
    e' = upd e (HISTORY_REPLACE lineno offset (codepoint c) old) ls' k /\
    doc_of ls' = <[Z.to_nat lineno :=
                    <[Z.to_nat offset := codepoint c]> (line_content l)]>
                   (doc_of ls) /\
    (Forall avail_ok ls -> Forall avail_ok ls').
Proof.
  intros Hrun. pose proof Hrep as (Hv & _).
  destruct (line_replace_pre _ _ _ _ _ _ _ Hv Hrun)
    as (l & old & Hln & Hl & Hoff & Hold).
  destruct (line_replace_spec e ls k c offset lineno l old)
    as (ls' & Hs & Hpost); try done.
  rewrite Hs in Hrun. injection Hrun as <-. by exists l, old, ls'.
Qed.

Lemma merge_lines_run lineb e' :
  merge_lines e lineb = Some e' ->
  exists la lb k' ls',
    1 <= lineb /\ ls !! Z.to_nat (lineb - 1) = Some la /\
    ls !! Z.to_nat lineb = Some lb /\ k = S (S k') /\
    e' = upd e (HISTORY_MERGE_LINES lineb (actual la)) ls' (S k) /\
    doc_of ls' = delete (Z.to_nat lineb)
                   (<[Z.to_nat (lineb - 1) :=
                       line_content la ++ line_content lb]> (doc_of ls)) /\
    (Forall avail_ok ls -> Forall avail_ok ls').
Proof.
  intros Hrun.
  destruct (merge_lines_pre _ _ _ _ _ Hgood Hts Hrep Hrun)
    as (la & lb & k' & av & Hlb & Hla & Hlb' & -> & Hgrow).
  destruct (merge_lines_spec e ls k' lineb la lb av)
    as (ls' & Hs & Hpost); try done.
  rewrite Hs in Hrun. injection Hrun as <-. by exists la, lb, k', ls'.
Qed.

Lemma add_line_run offset e' :
  add_line e offset = Some e' ->
  (offset > line_count e /\ e' = e) \/
  exists k1 ls',
    0 <= offset <= Z.of_nat (length ls) /\ grown_spare ls k = S k1 /\
    e' = upd e (HISTORY_ADD_LINE offset) ls' k1 /\
    doc_of ls' = take (Z.to_nat offset) (doc_of ls)
                 ++ [] :: drop (Z.to_nat offset) (doc_of ls) /\
    (Forall avail_ok ls -> Forall avail_ok ls').
Proof.
  intros Hrun.
  destruct (add_line_pre _ _ _ _ _ Hrep Hrun) as [?|(Hoff & k1 & HK)];
    [by left|right].
  destruct (add_line_spec e ls k k1 offset) as (ls' & Hs & Hpost); try done.
  rewrite Hs in Hrun. injection Hrun as <-. by exists k1, ls'.
Qed.

Lemma split_line_run line split e' :
  split ≠ 0 -> split_line e line split = Some e' ->
  exists l k1 ls',
    0 <= line /\ ls !! Z.to_nat line = Some l /\ 1 <= split <= actual l /\
    grown_spare ls k = S (S k1) /\
    e' = upd e (HISTORY_SPLIT_LINE line split) ls' (S k1) /\
    doc_of ls' = take (Z.to_nat line) (doc_of ls)
                 ++ take (Z.to_nat split) (line_content l)
                 :: drop (Z.to_nat split) (line_content l)
                 :: drop (S (Z.to_nat line)) (doc_of ls) /\
    (Forall avail_ok ls -> Forall avail_ok ls').
Proof.
  intros Hne Hrun.
  destruct (split_line_pre _ _ _ _ _ _ Hrep Hne Hrun)
    as (l & k1 & Hln & Hl & Hsp & HK & Hfull).
  destruct (split_line_spec e ls k k1 line split l) as (ls' & Hs & Hpost);
    try done.
  rewrite Hs in Hrun. injection Hrun as <-. by exists l, k1, ls'.
Qed.
End Runs.

(** ** Buffers that stay well formed *)

Lemma good_lexer_config `{Host} e e' :
  config e' = config e -> good_lexer e -> good_lexer e'.
Proof.
  unfold config. intros [= _ _ _ Hsyn]. by apply good_lexer_syntax.
Qed.

Lemma steady_unmoved `{Host} e e' ls' k' :
  steady e -> unmoved e e' -> rep e' ls' k' -> ls' ≠ [] -> steady e'.
Proof.
  intros (Hgood & Hts & _) (_ & Hcfg & _) Hrep Hne.
  split; [by eapply good_lexer_config|]. split; [|by exists ls', k'].
  unfold config in Hcfg. injection Hcfg as _ _ -> _. done.
Qed.

Lemma insert_nonempty {A} (l : list A) i x : l ≠ [] -> <[i := x]> l ≠ [].
Proof. destruct l; [done|]. by destruct i. Qed.

Lemma doc_of_nonempty ls : doc_of ls ≠ [] -> ls ≠ [].
Proof. by intros Hd ->. Qed.

Lemma doc_of_nonempty_2 ls : ls ≠ [] -> doc_of ls ≠ [].
Proof. by destruct ls. Qed.

Section Shapes.
Context `{Host}.
Variable e : buffer_t.
Hypothesis Hsteady : steady e.

Lemma line_insert_steady c offset lineno e' :
  line_insert e c offset lineno = Some e' -> steady e' /\ unmoved e e'.
Proof.
  destruct Hsteady as (Hgood & Hts & ls & k & Hrep & Hne). intros Hrun.
  destruct (line_insert_run e ls k Hgood (λ _, Hts) Hrep _ _ _ _ Hrun)
    as (l & ls' & _ & _ & _ & -> & Hdoc & _).
  split; [|apply upd_unmoved].
  eapply steady_unmoved; [done|apply upd_unmoved|apply upd_rep|].
  apply doc_of_nonempty. rewrite Hdoc.
  by apply insert_nonempty, doc_of_nonempty_2.
Qed.

Lemma line_delete_steady offset lineno e' :
  line_delete e offset lineno = Some e' -> steady e' /\ unmoved e e'.
Proof.
  destruct Hsteady as (Hgood & Hts & ls & k & Hrep & Hne). intros Hrun.
  destruct (decide (offset = 0)) as [->|Hoff].
  { unfold line_delete in Hrun. simpl in Hrun. by injection Hrun as <-. }
  destruct (line_delete_run e ls k Hgood (λ _, Hts) Hrep _ _ _ Hoff Hrun)
    as (l & old & ls' & _ & _ & _ & _ & -> & Hdoc & _).
  split; [|apply upd_unmoved].
  eapply steady_unmoved; [done|apply upd_unmoved|apply upd_rep|].
  apply doc_of_nonempty. rewrite Hdoc.
  by apply insert_nonempty, doc_of_nonempty_2.
Qed.

Lemma line_replace_steady c offset lineno e' :
  line_replace e c offset lineno = Some e' -> steady e' /\ unmoved e e'.
Proof.
  destruct Hsteady as (Hgood & Hts & ls & k & Hrep & Hne). intros Hrun.
  destruct (line_replace_run e ls k Hgood (λ _, Hts) Hrep _ _ _ _ Hrun)
    as (l & old & ls' & _ & _ & _ & _ & -> & Hdoc & _).
  split; [|apply upd_unmoved].
  eapply steady_unmoved; [done|apply upd_unmoved|apply upd_rep|].
  apply doc_of_nonempty. rewrite Hdoc.
  by apply insert_nonempty, doc_of_nonempty_2.
Qed.

Lemma merge_lines_steady lineb e' :
  merge_lines e lineb = Some e' -> steady e' /\ unmoved e e'.
Proof.
  destruct Hsteady as (Hgood & Hts & ls & k & Hrep & Hne). intros Hrun.
  destruct (merge_lines_run e ls k Hgood (λ _, Hts) Hrep _ _ Hrun)
    as (la & lb & k' & ls' & Hlb & Hla & Hlb' & _ & -> & Hdoc & _).
  split; [|apply upd_unmoved].
  eapply steady_unmoved; [done|apply upd_unmoved|apply upd_rep|].
  intros ->. apply (f_equal length) in Hdoc.
  apply lookup_lt_Some in Hlb'.
  rewrite length_delete, length_insert, !doc_of_length in Hdoc.
  - cbn [length] in Hdoc. lia.
  - apply lookup_lt_is_Some_2. rewrite length_insert, doc_of_length. lia.
Qed.

Lemma add_line_steady offset e' :
  add_line e offset = Some e' -> steady e' /\ unmoved e e'.
Proof.
  destruct Hsteady as (Hgood & Hts & ls & k & Hrep & Hne). intros Hrun.
  destruct (add_line_run e ls k Hgood Hrep _ _ Hrun)
    as [[_ ->]|(k1 & ls' & _ & _ & -> & Hdoc & _)]; [done|].
  split; [|apply upd_unmoved].
  eapply steady_unmoved; [done|apply upd_unmoved|apply upd_rep|].
  apply doc_of_nonempty. rewrite Hdoc. by destruct (take _ _).
Qed.

Lemma split_line_steady line split e' :
  split_line e line split = Some e' -> steady e' /\ unmoved e e'.
Proof.
  intros Hrun. destruct (decide (split = 0)) as [->|Hsp].
  { unfold split_line in Hrun. simpl in Hrun. by eapply add_line_steady. }
  destruct Hsteady as (Hgood & Hts & ls & k & Hrep & Hne).
  destruct (split_line_run e ls k Hgood (λ _, Hts) Hrep _ _ _ Hsp Hrun)
    as (l & k1 & ls' & _ & _ & _ & _ & -> & Hdoc & _).
  split; [|apply upd_unmoved].
  eapply steady_unmoved; [done|apply upd_unmoved|apply upd_rep|].
  apply doc_of_nonempty. rewrite Hdoc. by destruct (take _ _).
Qed.
End Shapes.

(** ** The cursor stays on the text *)

Ltac fields :=
  cbn [loading modified readonly mode tabstop line_no line_count line_avail
       col_no preferred_column search syntax lines hist_past hist_next
       last_save_history next_addr set_loading set_modified_flag set_mode
       set_line_no set_line_count set_line_avail set_col_no
       set_preferred_column_field set_lines set_history
       set_last_save_history set_next_addr] in *.

Lemma place_cursor_actual_eq e :
  place_cursor_actual e
  = set_col_no (set_line_no e (Z.max 1 (line_no e))) (Z.max 1 (col_no e)).
Proof.
  unfold place_cursor_actual.
  destruct e as [? ? ? ? ? ln ? ? cn ? ? ? ? ? ? ? ?].
  simpl. destruct (bool_decide_reflect (ln < 1));
    simpl; destruct (bool_decide_reflect (cn < 1));
    unfold set_col_no, set_line_no; simpl; f_equal; lia.
Qed.

Lemma session_inv_textual `{Host} e e' :
  session_inv e -> textual e' = textual e -> cursor_valid e' ->
  session_inv e'.
Proof.
  intros ((Hgood & Hts & ls & k & Hrep & Hne) & Hl & Hro & Hty & _) Ht Hcur.
  unfold textual in Ht. injection Ht as Hv Hc Ha Hl' Hro' Hts' Hsyn Hp Hn.
  split; [|split_and!; try congruence].
  - split; [by eapply good_lexer_syntax|]. split; [congruence|].
    exists ls, k. split; [|done]. destruct Hrep as (? & ? & ?).
    split_and!; congruence.
  - unfold typed_journal, timeline in *. by rewrite Hp, Hn.
Qed.

Lemma line_at_lines e e' i : lines e' = lines e -> line_at e' i = line_at e i.
Proof. unfold line_at. by intros ->. Qed.

Lemma col_limit_bounds e l :
  Z.max 1 (actual l) <= col_limit e l <= actual l + 1.
Proof.
  unfold col_limit, actual. case_bool_decide; lia.
Qed.

Lemma session_inv_cursor `{Host} e e' l :
  session_inv e -> textual e' = textual e ->
  1 <= line_no e' <= line_count e ->
  line_at e (line_no e' - 1) = Some l ->
  1 <= col_no e' <= col_limit e' l ->
  session_inv e'.
Proof.
  intros Hinv Ht Hln Hl Hcol. apply session_inv_textual with e; [done..|].
  unfold textual in Ht. injection Ht as Hv Hc _ _ _ _ _ _ _.
  split; [by rewrite Hc|]. exists l. split; [|done].
  by rewrite (line_at_lines _ _ _ Hv).
Qed.

Lemma settle_column_spec e e' :
  settle_column e = Some e' ->
  exists line,
    line_at e (line_no e - 1) = Some line /\ textual e' = textual e /\
    mode e' = mode e /\ line_no e' = Z.max 1 (line_no e) /\
    1 <= col_no e' <= Z.max 1 (actual line + insert_bonus e).
Proof.
  unfold settle_column. intros Hrun. bind_step Hrun.
  destruct (seek_column _ _ _ _ _) as [sx col]. cbv zeta in Hrun.
  injection Hrun as <-. exists x. split; [done|].
  rewrite place_cursor_actual_eq. unfold insert_bonus.
  destruct (bool_decide (mode _ = MODE_INSERT) && _) eqn:Hb1; fields;
    repeat (case_bool_decide; fields); split_and!; try done; lia.
Qed.

Section Motions.
Context `{Host}.
Variable e : buffer_t.
Hypothesis Hinv : session_inv e.

Lemma cursor_valid_here :
  1 <= line_no e <= line_count e /\
  exists l, line_at e (line_no e - 1) = Some l /\
            1 <= col_no e <= col_limit e l.
Proof. by destruct Hinv as (_ & _ & _ & _ & ?). Qed.

Lemma bonus_limit l :
  Z.max 1 (actual l + insert_bonus e) <= col_limit e l.
Proof.
  unfold insert_bonus, col_limit, actual.
  repeat case_bool_decide; try lia.
Qed.

Lemma cursor_left_inv e' : cursor_left e = Some e' -> session_inv e'.
Proof.
  destruct cursor_valid_here as (Hln & l & Hl & Hcol).
  unfold cursor_left. rewrite place_cursor_actual_eq.
  unfold set_preferred_column. intros Hrun. bind_steps Hrun.
  apply session_inv_cursor with e l; [done|by case_bool_decide|..];
    unfold col_limit in *; case_bool_decide; fields; try done;
    rewrite ?Z.max_r by lia; try done; try lia.
Qed.

Lemma cursor_right_inv e' : cursor_right e = Some e' -> session_inv e'.
Proof.
  destruct cursor_valid_here as (Hln & l & Hl & Hcol).
  pose proof (bonus_limit l) as Hb.
  unfold cursor_right. rewrite place_cursor_actual_eq.
  unfold set_preferred_column. intros Hrun. rewrite Hl in Hrun.
  cbn [mbind option_bind] in Hrun. bind_steps Hrun.
  apply session_inv_cursor with e l; [done|by case_bool_decide|..];
    unfold col_limit in *; case_bool_decide; fields; try done;
    rewrite ?Z.max_r by lia; try done; try lia.
Qed.

Lemma cursor_home_inv e' : cursor_home e = Some e' -> session_inv e'.
Proof.
  destruct cursor_valid_here as (Hln & l & Hl & Hcol).
  pose proof (col_limit_bounds e l) as Hb.
  unfold cursor_home, set_preferred_column. intros Hrun. bind_all.
  rewrite place_cursor_actual_eq.
  apply session_inv_cursor with e l; [done|done|..]; fields;
    rewrite ?Z.max_r by lia; try done.
  unfold col_limit in *. fields. lia.
Qed.

Lemma cursor_end_inv e' : cursor_end e = Some e' -> session_inv e'.
Proof.
  destruct cursor_valid_here as (Hln & l & Hl & Hcol).
  pose proof (bonus_limit l) as Hb.
  unfold cursor_end, set_preferred_column. intros Hrun. rewrite Hl in Hrun.
  cbn [mbind option_bind] in Hrun. bind_all.
  rewrite place_cursor_actual_eq.
  apply session_inv_cursor with e l; [done|done|..]; fields;
    rewrite ?Z.max_r by lia; try done.
  unfold col_limit in *. fields. lia.
Qed.

Lemma settle_inv e1 e' :
  textual e1 = textual e -> mode e1 = mode e ->
  1 <= line_no e1 <= line_count e ->
  settle_column e1 = Some e' -> session_inv e'.
Proof.
  intros Ht Hm Hln Hrun.
  destruct (settle_column_spec _ _ Hrun) as (l & Hl & Ht' & Hm' & Hln' & Hcol).
  assert (Hv : lines e1 = lines e) by (unfold textual in Ht; congruence).
  rewrite (line_at_lines _ _ _ Hv) in Hl.
  apply session_inv_cursor with e l; [done|congruence|..].
  - lia.
  - rewrite Hln', Z.max_r by lia. done.
  - split; [lia|]. etrans; [apply Hcol|].
    pose proof (bonus_limit l) as Hb. unfold insert_bonus, col_limit in *.
    by rewrite Hm', Hm.
Qed.

Lemma cursor_up_inv e' : cursor_up e = Some e' -> session_inv e'.
Proof.
  destruct cursor_valid_here as (Hln & _).
  unfold cursor_up. case_bool_decide; [|by intros [= <-]].
  apply settle_inv; [done|done|fields; lia].
Qed.

Lemma cursor_down_inv e' : cursor_down e = Some e' -> session_inv e'.
Proof.
  destruct cursor_valid_here as (Hln & _).
  unfold cursor_down. case_bool_decide; [|by intros [= <-]].
  apply settle_inv; [done|done|fields; lia].
Qed.

Lemma move_inv m e' : move m e = Some e' -> session_inv e'.
Proof.
  destruct m; simpl; eauto using cursor_left_inv, cursor_right_inv,
    cursor_up_inv, cursor_down_inv, cursor_home_inv, cursor_end_inv.
Qed.
End Motions.

Lemma set_modified_eq e : set_modified e = set_modified_flag e true.
Proof.
  unfold set_modified. destruct (modified e) eqn:Hm; [|done].
  destruct e. simpl in Hm. by subst.
Qed.

Lemma doc_of_lookup_inv ls i c :
  doc_of ls !! i = Some c ->
  exists l, ls !! i = Some l /\ line_content l = c.
Proof.
  unfold doc_of. rewrite list_lookup_fmap.
  destruct (ls !! i) as [l|]; [|done]. intros [= <-]. by exists l.
Qed.

Lemma actual_content l : actual l = Z.of_nat (length (line_content l)).
Proof. unfold actual, line_content. by rewrite length_fmap. Qed.

Lemma hist_record_timeline `{Host} e r a h :
  (a, h) ∈ timeline (hist_record e r) -> (a, h) ∈ timeline e \/ h = r.
Proof.
  unfold hist_record. destruct (negb _ && _); [|by left].
  unfold timeline, HIST_APPEND. simpl. rewrite reverse_cons, app_nil_r.
  rewrite !elem_of_app, list_elem_of_singleton. intros [?|[= _ ->]]; auto.
Qed.

Lemma session_inv_upd `{Host} e r ls' k' e' l' :
  session_inv e -> typing_record r = true -> ls' ≠ [] ->
  textual e' = textual (upd e r ls' k') ->
  1 <= line_no e' <= Z.of_nat (length ls') ->
  ls' !! Z.to_nat (line_no e' - 1) = Some l' ->
  1 <= col_no e' <= col_limit e' l' ->
  session_inv e'.
Proof.
  intros ((Hgood & Hts & _) & Hl & Hro & Hty & _) Hr Hne Ht Hln Hl' Hcol.
  destruct (hist_record_unmoved e r) as (Hul & Hucfg & _).
  unfold config in Hucfg. injection Hucfg as Huro _ Huts Husyn.
  unfold textual in Ht. injection Ht as Hv Hc Ha Hl1 Hro1 Hts1 Hsyn1 Hp Hn.
  assert (Hrep : rep e' ls' k')
    by (split_and!; [rewrite Hv|rewrite Hc|rewrite Ha]; done).
  split; [|split_and!; try congruence].
  - split; [apply (good_lexer_syntax e); [congruence|done]|].
    split; [congruence|]. by exists ls', k'.
  - unfold typed_journal. intros a h Hin.
    assert (Hin' : (a, h) ∈ timeline (hist_record e r))
      by (unfold timeline in *; by rewrite <- Hp, <- Hn).
    apply hist_record_timeline in Hin' as [?| ->]; [by eapply Hty|done].
  - split; [by rewrite Hc|]. exists l'. split; [|done].
    destruct Hrep as (Hv' & _). rewrite (line_at_vec _ _ _ _ Hv').
    by rewrite bool_decide_true by lia.
Qed.

Section Typing.
Context `{Host}.
Variable e : buffer_t.
Hypothesis Hinv : session_inv e.

Lemma session_rep :
  good_lexer e /\ tabstop e ≠ 0 /\
  exists ls k l,
    rep e ls k /\ ls ≠ [] /\ 1 <= line_no e <= Z.of_nat (length ls) /\
    ls !! Z.to_nat (line_no e - 1) = Some l /\
    1 <= col_no e <= col_limit e l.
Proof.
  destruct Hinv as ((Hgood & Hts & ls & k & Hrep & Hne) & _ & _ & _
                    & Hln & l & Hl & Hcol).
  split; [done|]. split; [done|]. exists ls, k, l.
  pose proof Hrep as (Hv & Hc & _).
  apply (line_at_vec_Some _ _ _ _ _ Hv) in Hl as [_ Hl].
  split_and!; try done; lia.
Qed.

Lemma insert_char_inv c e' :
  mode e = MODE_INSERT \/ mode e = MODE_REPLACE ->
  insert_char e c = Some e' ->
  session_inv e' /\ mode e' = mode e.
Proof.
  intros Hmode.
  destruct session_rep as (Hgood & Hts & ls & k & l & Hrep & Hne & Hln & Hl
                           & Hcol).
  unfold insert_char. case_bool_decide; [by intros [= <-]|].
  intros Hrun. bind_step Hrun. injection Hrun as <-.
  destruct (line_insert_run e ls k Hgood (λ _, Hts) Hrep _ _ _ _ E)
    as (l0 & ls' & _ & Hl0 & Hoff & -> & Hdoc & _).
  rewrite Hl in Hl0. injection Hl0 as <-.
  rewrite set_modified_eq. clear E.
  set (r := HISTORY_INSERT _ _ _).
  assert (Hlen : length ls' = length ls).
  { rewrite <- !doc_of_length, Hdoc. by rewrite length_insert. }
  destruct (doc_of_lookup_inv ls' (Z.to_nat (line_no e - 1))
              (take (Z.to_nat (col_no e - 1)) (line_content l)
               ++ codepoint (mk_char (codepoint_width c) 0 c)
               :: drop (Z.to_nat (col_no e - 1)) (line_content l)))
    as (l' & Hl' & Hc').
  { rewrite Hdoc. apply list_lookup_insert_eq. rewrite doc_of_length.
    by eapply lookup_lt_Some. }
  assert (Hact : actual l' = actual l + 1).
  { rewrite !actual_content, Hc'. rewrite length_app, length_take. simpl.
    rewrite length_drop. rewrite actual_content in Hoff. lia. }
  destruct (upd_unmoved e r ls' k) as (_ & Hcfg & Hln' & Hcn').
  assert (Hm' : mode (upd e r ls' k) = mode e)
    by (unfold config in Hcfg; by injection Hcfg as _ Hm' _ _).
  split; [|exact Hm'].
  apply (session_inv_upd e r ls' k _ l'); try done.
  - intros ->. destruct ls; [done|]. simpl in Hlen. lia.
  - fields. lia.
  - fields. rewrite Hln'. done.
  - fields. rewrite Hcn'. split; [lia|]. unfold col_limit in *. fields.
    rewrite Hm'. rewrite bool_decide_true in * by done. lia.
Qed.

Lemma replace_char_inv c e' :
  replace_char e c = Some e' ->
  session_inv e' /\ mode e' = mode e /\ line_no e' = line_no e /\
  col_no e' = col_no e /\
  forall l l', line_at e (line_no e - 1) = Some l ->
               line_at e' (line_no e - 1) = Some l' -> actual l' = actual l.
Proof.
  destruct session_rep as (Hgood & Hts & ls & k & l & Hrep & Hne & Hln & Hl
                           & Hcol).
  unfold replace_char. intros Hrun. pose proof Hrep as (Hv0 & _).
  rewrite (line_at_vec _ _ _ _ Hv0), bool_decide_true, Hl in Hrun by lia.
  cbn [mbind option_bind] in Hrun. bind_step Hrun.
  { injection Hrun as <-. split_and!; try done. congruence. }
  bind_step Hrun. injection Hrun as <-. rename E into E0.
  destruct (line_replace_run e ls k Hgood (λ _, Hts) Hrep _ _ _ _ E0)
    as (l0 & old & ls' & _ & Hl0 & Hoff & _ & -> & Hdoc & _).
  rewrite Hl in Hl0. injection Hl0 as <-.
  rewrite set_modified_eq. clear E0.
  set (r := HISTORY_REPLACE _ _ _ _).
  assert (Hlen : length ls' = length ls).
  { rewrite <- !doc_of_length, Hdoc. by rewrite length_insert. }
  destruct (doc_of_lookup_inv ls' (Z.to_nat (line_no e - 1))
              (<[Z.to_nat (col_no e - 1) :=
                  codepoint (mk_char (codepoint_width c) 0 c)]>
                 (line_content l)))
    as (l' & Hl' & Hc').
  { rewrite Hdoc. apply list_lookup_insert_eq. rewrite doc_of_length.
    by eapply lookup_lt_Some. }
  assert (Hact : actual l' = actual l).
  { rewrite !actual_content, Hc'. by rewrite length_insert. }
  destruct (upd_unmoved e r ls' k) as (_ & Hcfg & Hln' & Hcn').
  assert (Hm' : mode (upd e r ls' k) = mode e)
    by (unfold config in Hcfg; by injection Hcfg as _ Hm' _ _).
  split; [|split_and!; try done].
  - apply (session_inv_upd e r ls' k _ l'); try done.
    + intros ->. destruct ls; [done|]. simpl in Hlen. lia.
    + fields. lia.
    + fields. rewrite Hln'. done.
    + fields. rewrite Hcn'. unfold col_limit in *. fields.
      rewrite Hm'. by rewrite Hact.
  - intros l1 l1'. pose proof Hrep as (Hv & _).
    rewrite (line_at_vec _ _ _ _ Hv), bool_decide_true, Hl by lia.
    rewrite (line_at_vec (set_modified_flag (upd e r ls' k) true) ls' k)
      by done.
    rewrite bool_decide_true, Hl' by lia. by intros [= <-] [= <-].
Qed.
End Typing.

Lemma replace_key_inv `{Host} e c e' :
  session_inv e -> mode e = MODE_REPLACE -> replace_key e c = Some e' ->
  session_inv e'.
Proof.
  intros Hinv Hmode. unfold replace_key. intros Hrun. do 2 bind_step Hrun.
  injection Hrun as <-. rewrite place_cursor_actual_eq.
  destruct (cursor_valid_here e Hinv) as (Hln & l & Hl & Hcol).
  rewrite Hl in E. injection E as <-.
  revert E0. case_bool_decide as Hin; intros E0.
  - bind_step E0. injection E0 as <-.
    destruct (replace_char_inv e Hinv _ _ E)
      as (Hinv1 & Hm1 & Hln1 & Hcn1 & Hact).
    destruct (cursor_valid_here x Hinv1) as (Hlnx & lx & Hlx & Hcolx).
    rewrite Hln1 in Hlx. pose proof (Hact _ _ Hl Hlx) as Hax.
    apply session_inv_cursor with x lx; [done|done|..]; fields.
    + rewrite Z.max_r by lia. lia.
    + rewrite Z.max_r by lia. by rewrite Hln1.
    + rewrite Z.max_r by lia. unfold col_limit. fields.
      rewrite Hm1, bool_decide_true by auto. lia.
  - destruct (insert_char_inv e Hinv c x0 (or_intror Hmode) E0) as [Hinv1 Hm1].
    destruct (cursor_valid_here x0 Hinv1) as (Hlnx & lx & Hlx & Hcolx).
    apply session_inv_cursor with x0 lx; [done|done|..]; fields;
      rewrite ?Z.max_r by lia; try done.
Qed.

Lemma replace_one_inv `{Host} e c e' :
  session_inv e -> replace_one e c = Some e' -> session_inv e'.
Proof.
  intros Hinv. unfold replace_one. case_bool_decide; [by intros [= <-]|].
  destruct (replace_char e c) as [e1|] eqn:E; [|done]. intros [= <-].
  destruct (replace_char_inv e Hinv _ _ E) as (Hinv1 & _).
  destruct (cursor_valid_here e1 Hinv1) as (Hlnx & lx & Hlx & Hcolx).
  rewrite place_cursor_actual_eq.
  apply session_inv_cursor with e1 lx; [done|done|..]; fields;
    rewrite ?Z.max_r by lia; try done.
Qed.

Lemma insert_key_inv `{Host} e c e' :
  session_inv e -> mode e = MODE_INSERT -> insert_key e c = Some e' ->
  session_inv e'.
Proof.
  intros Hinv Hmode. unfold insert_key. intros Hrun. bind_step Hrun.
  destruct (insert_char_inv e Hinv c x (or_introl Hmode) E) as [Hinv1 Hm1].
  destruct (cursor_valid_here x Hinv1) as (Hlnx & lx & Hlx & Hcolx).
  unfold set_preferred_column in Hrun. bind_steps Hrun.
  apply session_inv_cursor with x lx; [done|done|..]; fields; try done.
  congruence.
Qed.

Lemma delete_at_cursor_inv `{Host} e e' :
  session_inv e -> mode e = MODE_INSERT -> delete_at_cursor e = Some e' ->
  session_inv e'.
Proof.
  intros Hinv Hmode.
  destruct (session_rep e Hinv)
    as (Hgood & Hts & ls & k & l & Hrep & Hne & Hln & Hl & Hcol).
  pose proof Hrep as (Hv & _).
  unfold delete_at_cursor. case_bool_decide as Hc1.
  - intros Hrun. bind_step Hrun. injection Hrun as <-.
    destruct (line_delete_run e ls k Hgood (λ _, Hts) Hrep (col_no e - 1)
                (line_no e - 1) _ ltac:(lia) E)
      as (l0 & old & ls' & _ & Hl0 & Hoff & _ & -> & Hdoc & _).
    rewrite Hl in Hl0. injection Hl0 as <-.
    rewrite set_modified_eq, place_cursor_actual_eq. clear E.
    set (r := HISTORY_DELETE _ _ _).
    assert (Hlen : length ls' = length ls).
    { rewrite <- !doc_of_length, Hdoc. by rewrite length_insert. }
    destruct (doc_of_lookup_inv ls' (Z.to_nat (line_no e - 1))
                (take (Z.to_nat (col_no e - 1 - 1)) (line_content l)
                 ++ drop (Z.to_nat (col_no e - 1)) (line_content l)))
      as (l' & Hl' & Hc').
    { rewrite Hdoc. apply list_lookup_insert_eq. rewrite doc_of_length.
      by eapply lookup_lt_Some. }
    assert (Hact : actual l' = actual l - 1).
    { rewrite !actual_content, Hc'. rewrite length_app, length_take.
      rewrite length_drop. rewrite actual_content in Hoff. lia. }
    destruct (upd_unmoved e r ls' k) as (_ & Hcfg & Hln' & Hcn').
    assert (Hm' : mode (upd e r ls' k) = mode e)
      by (unfold config in Hcfg; by injection Hcfg as _ Hm' _ _).
    apply (session_inv_upd e r ls' k _ l'); try done.
    + intros ->. destruct ls; [done|]. simpl in Hlen. lia.
    + fields. rewrite Hln', Z.max_r by lia. lia.
    + fields. rewrite Hln', Z.max_r by lia. done.
    + fields. rewrite Hcn', Z.max_r by lia. unfold col_limit. fields.
      rewrite Hm', bool_decide_true by auto. lia.
  - case_bool_decide as Hc2; [|by intros [= <-]].
    intros Hrun. do 3 bind_step Hrun. injection Hrun as <-.
    destruct (merge_lines_run e ls k Hgood (λ _, Hts) Hrep _ _ E0)
      as (la & lb & k' & ls' & _ & Hla & Hlb & -> & -> & Hdoc & _).
    rewrite (line_at_vec _ _ _ _ Hv), bool_decide_true in E by lia.
    replace (Z.to_nat (line_no e - 2)) with (Z.to_nat (line_no e - 1 - 1))
      in E by lia.
    rewrite Hla in E. injection E as <-.
    unfold set_preferred_column in E1. bind_steps E1.
    rewrite set_modified_eq, place_cursor_actual_eq. clear E0.
    set (r := HISTORY_MERGE_LINES _ _).
    set (i := Z.to_nat (line_no e - 1)) in *.
    assert (Hi : Z.to_nat (line_no e - 1 - 1) = (i - 1)%nat) by lia.
    rewrite Hi in *.
    assert (Hilt : (i < length ls)%nat) by (by eapply lookup_lt_Some).
    assert (Hlen : length ls' = (length ls - 1)%nat).
    { rewrite <- !doc_of_length, Hdoc.
      rewrite length_delete, length_insert; [done|].
      apply lookup_lt_is_Some_2. rewrite length_insert, doc_of_length. lia. }
    destruct (doc_of_lookup_inv ls' (i - 1)
                (line_content la ++ line_content lb)) as (l' & Hl' & Hc').
    { rewrite Hdoc, list_lookup_delete_lt by lia.
      apply list_lookup_insert_eq. rewrite doc_of_length. lia. }
    assert (Hact : actual l' = actual la + actual lb).
    { rewrite !actual_content, Hc'. rewrite length_app. lia. }
    destruct (upd_unmoved e r ls' (S (S (S k')))) as (_ & Hcfg & Hln' & Hcn').
    assert (Hm' : mode (upd e r ls' (S (S (S k')))) = mode e)
      by (unfold config in Hcfg; by injection Hcfg as _ Hm' _ _).
    apply (session_inv_upd e r ls' (S (S (S k'))) _ l'); try done.
    + intros ->. simpl in Hlen. lia.
    + fields. rewrite Hln', Z.max_r by lia. lia.
    + fields. rewrite Hln', Z.max_r by lia.
      by replace (Z.to_nat (line_no e - 1 - 1)) with (i - 1)%nat by lia.
    + fields. unfold actual at 1 2. rewrite Z.max_r by lia.
      unfold col_limit. fields.
      rewrite Hm', bool_decide_true by auto. unfold actual in *. lia.
Qed.

Section ModeKeys.
Context `{Host}.
Variable e : buffer_t.
Hypothesis Hinv : session_inv e.

Lemma normal_i_inv : session_inv (normal_i e).
Proof.
  destruct (cursor_valid_here e Hinv) as (Hln & l & Hl & Hcol).
  pose proof (col_limit_bounds e l) as Hb.
  unfold normal_i. destruct (readonly e); [done|].
  rewrite place_cursor_actual_eq.
  apply session_inv_cursor with e l; [done|done|..]; fields;
    rewrite ?Z.max_r by lia; try done.
  unfold col_limit in *. fields. rewrite bool_decide_true by auto. lia.
Qed.

Lemma normal_R_inv : session_inv (normal_R e).
Proof.
  destruct (cursor_valid_here e Hinv) as (Hln & l & Hl & Hcol).
  pose proof (col_limit_bounds e l) as Hb.
  unfold normal_R. destruct (readonly e); [done|].
  rewrite place_cursor_actual_eq.
  apply session_inv_cursor with e l; [done|done|..]; fields;
    rewrite ?Z.max_r by lia; try done.
  unfold col_limit in *. fields. rewrite bool_decide_true by auto. lia.
Qed.

Lemma normal_a_inv e' : normal_a e = Some e' -> session_inv e'.
Proof.
  destruct (cursor_valid_here e Hinv) as (Hln & l & Hl & Hcol).
  pose proof (col_limit_bounds e l) as Hb.
  destruct Hinv as (_ & _ & Hro & _).
  unfold normal_a. rewrite Hl. cbn [mbind option_bind]. intros [= <-].
  unfold normal_i. case_bool_decide; fields; rewrite Hro;
    rewrite place_cursor_actual_eq;
    apply session_inv_cursor with e l; try done; fields;
    rewrite ?Z.max_r by lia; try done;
    unfold col_limit in *; fields; rewrite bool_decide_true by auto; lia.
Qed.

Lemma backspace_move_inv e' : backspace_move e = Some e' -> session_inv e'.
Proof.
  unfold backspace_move. case_bool_decide as Hc; [|by apply cursor_left_inv].
  destruct (cursor_valid_here e Hinv) as (Hln & l & Hl & Hcol).
  unfold set_preferred_column. fields. intros Hrun. bind_all.
  rewrite place_cursor_actual_eq.
  pose proof (col_limit_bounds e x) as Hb.
  apply session_inv_cursor with e x; [done|done|..]; fields;
    rewrite ?Z.max_r by lia; try done; try lia.
  unfold col_limit in *. fields. unfold actual in *. lia.
Qed.
End ModeKeys.

(** ** Passes over all the lines keep their text *)

Lemma recalculate_tabs_frame e l l' :
  recalculate_tabs e l = Some l' -> same_line l l'.
Proof.
  unfold recalculate_tabs. destruct (loading e); [by intros [= <-]|].
  destruct (recalculate_tabs_loop _ _ _) as [cells|] eqn:Hcells; [|done].
  intros [= <-]. split; [|done]. unfold line_content. simpl.
  apply recalculate_tabs_loop_frame in Hcells.
  induction Hcells as [|c c' cs cs' (Hc & _) _ IH]; [done|].
  rewrite !fmap_cons. by rewrite Hc, IH.
Qed.

Lemma put_line_vec_inv e ls k i l e' :
  lines e = vec ls k -> is_Some (line_at e i) -> put_line e i l = Some e' ->
  e' = set_lines e (vec (<[Z.to_nat i := l]> ls) k).
Proof.
  intros Hv [l0 Hl0] Hput.
  apply (line_at_vec_Some _ _ _ _ _ Hv) in Hl0 as [Hi _].
  rewrite (put_line_vec _ _ _ _ _ Hv Hi) in Hput. by injection Hput as <-.
Qed.

Lemma reset_istate_tabs_frame n e i ls k e' :
  lines e = vec ls k -> reset_istate_tabs n e i = Some e' ->
  exists ls', e' = set_lines e (vec ls' k) /\ Forall2 same_line ls ls'.
Proof.
  revert e i ls. induction n as [|n IH]; intros e i ls Hv Hrun;
    simpl in Hrun.
  - injection Hrun as <-. exists ls.
    split; [by rewrite set_lines_same|apply same_lines_refl].
  - do 3 bind_step Hrun.
    pose proof (line_at_vec_Some _ _ _ _ _ Hv E) as [Hi Hli].
    apply (put_line_vec_inv _ _ _ _ _ _ Hv) in E1; [|by eexists].
    subst x1. apply recalculate_tabs_frame in E0.
    apply IH with (ls := <[Z.to_nat i := x0]> ls) in Hrun; [|done].
    destruct Hrun as (ls' & -> & Hs). exists ls'. split; [done|].
    eapply same_lines_trans; [|exact Hs].
    eapply same_lines_insert; [done|].
    eapply same_line_trans; [|exact E0]. done.
Qed.

Lemma clear_rev_status_frame n e i ls k e' :
  lines e = vec ls k -> clear_rev_status n e i = Some e' ->
  exists ls', e' = set_lines e (vec ls' k) /\ Forall2 same_line ls ls'.
Proof.
  revert e i ls. induction n as [|n IH]; intros e i ls Hv Hrun;
    simpl in Hrun.
  - injection Hrun as <-. exists ls.
    split; [by rewrite set_lines_same|apply same_lines_refl].
  - do 2 bind_step Hrun.
    pose proof (line_at_vec_Some _ _ _ _ _ Hv E) as [Hi Hli].
    apply (put_line_vec_inv _ _ _ _ _ _ Hv) in E0; [|by eexists].
    subst x0.
    apply IH with (ls := <[Z.to_nat i := set_rev_status x 0]> ls) in Hrun;
      [|done].
    destruct Hrun as (ls' & -> & Hs). exists ls'. split; [done|].
    eapply same_lines_trans; [|exact Hs].
    eapply same_lines_insert; [done|done].
Qed.

Lemma recalculate_all_frame `{Host} n e i ls k e' :
  good_lexer e -> lines e = vec ls k ->
  line_count e <= Z.of_nat (length ls) ->
  0 <= i -> i + Z.of_nat n <= Z.of_nat (length ls) ->
  recalculate_all n e i = Some e' ->
  exists ls', e' = set_lines e (vec ls' k) /\ Forall2 same_line ls ls'.
Proof.
  revert e i ls. induction n as [|n IH]; intros e i ls Hgood Hv Hc Hi Hn Hrun;
    simpl in Hrun.
  - injection Hrun as <-. exists ls.
    split; [by rewrite set_lines_same|apply same_lines_refl].
  - bind_step Hrun.
    destruct (recalculate_syntax_frame e ls k i Hgood Hv Hc ltac:(lia))
      as (ls1 & Hrun1 & Hs1).
    rewrite Hrun1 in E. injection E as <-.
    pose proof (same_lines_length _ _ Hs1) as Hlen1.
    apply IH with (ls := ls1) in Hrun; try done; try lia.
    + destruct Hrun as (ls' & -> & Hs). exists ls'. split; [done|].
      by eapply same_lines_trans.
    + simpl. lia.
Qed.

Lemma session_inv_lines `{Host} e e' ls' k' l' :
  good_lexer e -> tabstop e ≠ 0 ->
  syntax e' = syntax e -> tabstop e' = tabstop e ->
  rep e' ls' k' -> ls' ≠ [] -> loading e' = false -> readonly e' = false ->
  typed_journal e' ->
  1 <= line_no e' <= Z.of_nat (length ls') ->
  ls' !! Z.to_nat (line_no e' - 1) = Some l' ->
  1 <= col_no e' <= col_limit e' l' ->
  session_inv e'.
Proof.
  intros Hgood Hts Hsyn Hts' Hrep Hne Hl Hro Hty Hln Hl' Hcol.
  pose proof Hrep as (Hv & Hc & _).
  split; [|split_and!; try done].
  - split; [by apply (good_lexer_syntax e)|]. split; [congruence|].
    by exists ls', k'.
  - split; [by rewrite Hc|]. exists l'. split; [|done].
    rewrite (line_at_vec _ _ _ _ Hv). by rewrite bool_decide_true by lia.
Qed.

Lemma same_lines_lookup ls ls' i l :
  Forall2 same_line ls ls' -> ls !! i = Some l ->
  exists l', ls' !! i = Some l' /\ actual l' = actual l.
Proof.
  intros Hs Hl. destruct (Forall2_lookup_l _ _ _ _ _ Hs Hl) as (l' & Hl' & Hsl).
  exists l'. split; [done|]. by apply same_line_actual.
Qed.

Lemma typed_journal_break e :
  typed_journal e -> typed_journal (HIST_APPEND e HISTORY_BREAK).
Proof.
  intros Hty a h. unfold timeline, HIST_APPEND. simpl.
  rewrite reverse_cons, app_nil_r, elem_of_app, list_elem_of_singleton.
  intros [Hin|[= _ ->]]; [|done]. apply (Hty a). unfold timeline.
  apply elem_of_app. by left.
Qed.

Lemma leave_insert_inv `{Host} e e' :
  session_inv e -> leave_insert e = Some e' -> session_inv e'.
Proof.
  intros Hinv.
  destruct (session_rep e Hinv)
    as (Hgood & Hts & ls & k & l & Hrep & Hne & Hln & Hl & Hcol).
  pose proof Hrep as (Hv & Hc & Ha).
  destruct Hinv as (_ & Hload & Hro & Hty & _).
  unfold leave_insert.
  rewrite (line_at_vec _ _ _ _ Hv), bool_decide_true, Hl by lia.
  cbn [mbind option_bind]. intros Hrun. do 2 bind_step Hrun.
  injection Hrun as <-.
  assert (H1 : textual x = textual e /\ mode x = mode e /\
               line_no x = line_no e /\
               1 <= col_no x <= Z.max 1 (actual l)).
  { clear E0. revert E. unfold set_preferred_column, col_limit in *.
    destruct (bool_decide_reflect (col_no e > actual l)) as [Hc1|Hc1];
      [|intros E; bind_all; split_and!; try done; lia].
    fields.
    destruct (bool_decide_reflect (actual l = 0)) as [Hc2|Hc2];
      fields; intros E; bind_all; fields; split_and!; try done;
      unfold actual in *; lia. }
  destruct H1 as (Ht & Hm & Hln1 & Hcol1).
  unfold textual in Ht. injection Ht as Hv1 Hc1 Ha1 Hl1 Hro1 Hts1 Hsyn1 Hp1 Hn1.
  assert (Hty1 : typed_journal x)
    by (unfold typed_journal, timeline in *; by rewrite Hp1, Hn1).
  assert (H2 : x0 = x \/ x0 = HIST_APPEND x HISTORY_BREAK).
  { unfold set_history_break in E0. bind_all; auto. }
  assert (H4 : (lines x0, line_count x0, line_avail x0, loading x0,
                readonly x0, tabstop x0, syntax x0, mode x0, line_no x0,
                col_no x0)
               = (lines x, line_count x, line_avail x, loading x, readonly x,
                  tabstop x, syntax x, mode x, line_no x, col_no x))
    by (by destruct H2 as [-> | ->]).
  injection H4 as Hv0 Hc0 Ha0 Hl0 Hro0 Hts0 Hsyn0 Hm0 Hln0 Hcn0.
  apply (session_inv_lines e _ ls k l); fields; try congruence; try done.
  - unfold rep. fields. split_and!; congruence.
  - destruct H2 as [-> | ->]; [done|]. by apply typed_journal_break.
  - unfold col_limit. fields.
    rewrite bool_decide_false
      by (unfold MODE_NORMAL, MODE_INSERT, MODE_REPLACE; lia).
    lia.
Qed.

Lemma write_file_inv `{Host} e opened e' :
  session_inv e -> write_file e opened = Some e' -> session_inv e'.
Proof.
  intros Hinv. pose proof Hinv as Hinv0.
  destruct (session_rep e Hinv)
    as (Hgood & Hts & ls & k & l & Hrep & Hne & Hln & Hl & Hcol).
  pose proof Hrep as (Hv & Hc & Ha).
  destruct Hinv as (_ & Hload & Hro & Hty & _).
  unfold write_file. destruct opened; cbn [negb];
    [|by intros [= <-]].
  intros Hrun. bind_step Hrun. injection Hrun as <-.
  destruct (clear_rev_status_frame _ _ _ _ _ _ Hv E) as (ls' & -> & Hs).
  destruct (same_lines_lookup _ _ _ _ Hs Hl) as (l' & Hl' & Hact).
  pose proof (same_lines_length _ _ Hs) as Hlen.
  apply (session_inv_lines e _ ls' k l'); try done.
  - split_and!; fields; [done|by rewrite Hlen|by rewrite Hlen].
  - intros ->. destruct ls; [done|]. simpl in Hlen. lia.
  - fields. lia.
  - unfold col_limit in *. fields. by rewrite Hact.
Qed.

(** ** Undo and redo keep the buffer well formed *)

Lemma steady_ext `{Host} e e' :
  (syntax e', tabstop e', lines e', line_count e', line_avail e')
  = (syntax e, tabstop e, lines e, line_count e, line_avail e) ->
  steady e -> steady e'.
Proof.
  intros [= Hsyn Hts Hv Hc Ha]
    (Hgood & Hts0 & ls & k & (Hv0 & Hc0 & Ha0) & Hne).
  split; [by apply (good_lexer_syntax e)|]. split; [congruence|].
  exists ls, k. split; [|done]. split_and!; congruence.
Qed.

Lemma undo_record_steady `{Host} e h e' :
  steady e -> typing_record h = true -> undo_record e h = Some e' ->
  steady e' /\ loading e' = loading e /\ config e' = config e.
Proof.
  intros Hst Hty Hrun. destruct h; try done; simpl in Hrun;
    bind_steps Hrun; try done.
  - destruct (line_delete_steady e Hst _ _ _ E) as (Hst' & Hl & Hc & _).
    split; [by eapply steady_ext|done].
  - destruct (line_insert_steady e Hst _ _ _ _ E) as (Hst' & Hl & Hc & _).
    split; [by eapply steady_ext|done].
  - destruct (line_replace_steady e Hst _ _ _ _ E) as (Hst' & Hl & Hc & _).
    split; [by eapply steady_ext|done].
  - destruct (split_line_steady e Hst _ _ _ E) as (Hst' & Hl & Hc & _).
    split; [by eapply steady_ext|done].
Qed.

Lemma redo_record_steady `{Host} e h e' :
  steady e -> typing_record h = true -> redo_record e h = Some e' ->
  steady e' /\ loading e' = loading e /\ config e' = config e.
Proof.
  intros Hst Hty Hrun. destruct h; try done; simpl in Hrun;
    bind_steps Hrun; try done.
  - destruct (line_insert_steady e Hst _ _ _ _ E) as (Hst' & Hl & Hc & _).
    split; [by eapply steady_ext|done].
  - destruct (line_delete_steady e Hst _ _ _ E) as (Hst' & Hl & Hc & _).
    split; [by eapply steady_ext|done].
  - destruct (line_replace_steady e Hst _ _ _ _ E) as (Hst' & Hl & Hc & _).
    split; [by eapply steady_ext|done].
  - destruct (merge_lines_steady e Hst _ _ E) as (Hst' & Hl & Hc & _).
    split; [by eapply steady_ext|done].
Qed.

Lemma undo_loop_steady `{Host} past e e' :
  steady e -> (forall a h, (a, h) ∈ past -> typing_record h = true) ->
  undo_loop past e = Some e' ->
  steady e' /\ loading e' = loading e /\ config e' = config e.
Proof.
  revert e. induction past as [|[a h] prev IH]; intros e Hst Hty Hrun;
    simpl in Hrun; [done|].
  bind_step Hrun; [by bind_steps Hrun|]. bind_step Hrun.
  destruct (undo_record_steady e h x Hst) as (Hst1 & Hl1 & Hc1); [|done|].
  { apply (Hty a). apply elem_of_cons. by left. }
  destruct prev as [|[a' h'] prev']; [done|].
  bind_step Hrun.
  - bind_steps Hrun. split; [by eapply steady_ext|done].
  - apply IH in Hrun.
    + destruct Hrun as (? & -> & ->). done.
    + by eapply steady_ext.
    + intros a0 h0 Hin. apply (Hty a0). apply elem_of_cons. by right.
Qed.

Lemma redo_loop_steady `{Host} next e e' :
  steady e -> (forall a h, (a, h) ∈ next -> typing_record h = true) ->
  redo_loop next e = Some e' ->
  steady e' /\ loading e' = loading e /\ config e' = config e.
Proof.
  revert e. induction next as [|[a h] rest IH]; intros e Hst Hty Hrun;
    simpl in Hrun.
  { by bind_steps Hrun. }
  bind_step Hrun.
  - bind_steps Hrun. split; [by eapply steady_ext|done].
  - bind_step Hrun.
    destruct (redo_record_steady e h x Hst) as (Hst1 & Hl1 & Hc1); [|done|].
    { apply (Hty a). apply elem_of_cons. by left. }
    apply IH in Hrun.
    + destruct Hrun as (? & -> & ->). done.
    + by eapply steady_ext.
    + intros a0 h0 Hin. apply (Hty a0). apply elem_of_cons. by right.
Qed.

Lemma after_replay_inv `{Host} e e' :
  steady e -> readonly e = false -> typed_journal e ->
  after_replay e = Some e' -> session_inv e'.
Proof.
  intros (Hgood & Hts & ls & k & Hrep & Hne) Hro Hty.
  pose proof Hrep as (Hv & Hc & Ha).
  unfold after_replay. cbv zeta. intros Hrun.
  set (eA := if bool_decide (line_no e > line_count e)
             then set_line_no e (line_count e) else e) in *.
  assert (HA : textual eA = textual e /\ mode eA = mode e /\
               col_no eA = col_no e /\ line_no eA <= line_count e).
  { unfold eA. destruct (bool_decide_reflect (line_no e > line_count e));
      fields; split_and!; try done; lia. }
  destruct HA as (HtA & HmA & HcA & HlnA).
  unfold textual in HtA.
  injection HtA as HvA HcA' HaA HlA HroA HtsA HsynA HpA HnA.
  bind_step Hrun.
  apply (line_at_vec_Some eA ls k) in E as [Hi Hcur]; [|congruence].
  set (eB := if bool_decide (col_no eA > actual x)
             then set_col_no eA (actual x) else eA) in *.
  assert (HB : textual eB = textual e /\ mode eB = mode e /\
               line_no eB = line_no eA /\ col_no eB <= actual x).
  { unfold eB. destruct (bool_decide_reflect (col_no eA > actual x));
      split_and!; fields; try done; unfold textual; fields;
      try congruence; lia. }
  destruct HB as (HtB & HmB & HlnB & HcB).
  unfold textual in HtB.
  injection HtB as HvB HcB' HaB HlB HroB HtsB HsynB HpB HnB.
  set (eC := set_loading _ false) in *.
  bind_step Hrun.
  assert (HvC : lines eC = vec ls k) by (unfold eC; fields; congruence).
  destruct (reset_istate_tabs_frame _ _ _ _ _ _ HvC E) as (ls1 & -> & Hs1).
  bind_step Hrun.
  pose proof (same_lines_length _ _ Hs1) as Hlen1.
  assert (HgC : good_lexer (set_lines eC (vec ls1 k)))
    by (apply (good_lexer_syntax e); [unfold eC; fields; congruence|done]).
  assert (HcC : line_count eC = Z.of_nat (length ls))
    by (unfold eC; fields; congruence).
  destruct (λ H1 H2 H3, recalculate_all_frame _ _ 0 ls1 k _ HgC eq_refl
                          H1 H2 H3 E0)
    as (ls2 & -> & Hs2); fields; try lia.
  injection Hrun as <-. rewrite place_cursor_actual_eq.
  pose proof (same_lines_length _ _ Hs2) as Hlen2.
  destruct (same_lines_lookup _ _ _ _ Hs1 Hcur) as (l1 & Hl1 & Hact1).
  destruct (same_lines_lookup _ _ _ _ Hs2 Hl1) as (l2 & Hl2 & Hact2).
  clear HvC HgC HcC E E0. subst eC. fields.
  set (e2 := set_col_no _ _).
  pose proof (col_limit_bounds e2 l2) as Hb.
  apply (session_inv_lines e e2 ls2 k l2); unfold e2 in *; fields;
    try congruence; try done.
  - unfold rep. fields. split_and!; [done|lia|lia].
  - intros ->. destruct ls; [done|]. simpl in *. lia.
  - unfold typed_journal, timeline in *. fields. by rewrite HpB, HnB.
  - lia.
  - rewrite Z.max_r by lia. by rewrite HlnB.
  - lia.
Qed.

Lemma elem_of_timeline_past e a h :
  (a, h) ∈ hist_past e -> (a, h) ∈ timeline e.
Proof.
  intros Hin. unfold timeline. apply elem_of_app. left.
  by apply elem_of_reverse.
Qed.

Lemma elem_of_timeline_next e a h :
  (a, h) ∈ hist_next e -> (a, h) ∈ timeline e.
Proof. intros Hin. unfold timeline. apply elem_of_app. by right. Qed.

Lemma undo_history_inv `{Host} e e' :
  session_inv e -> undo_history e = Some e' -> session_inv e'.
Proof.
  intros Hinv. pose proof Hinv as (Hst & Hload & Hro & Hty & Hcur).
  destruct (cursor_valid_here e Hinv) as (Hln & l & Hl & Hcol).
  unfold undo_history. destruct (negb _); [by intros [= <-]|].
  cbv zeta. intros Hrun. bind_step Hrun. destruct x as [a h].
  bind_step Hrun.
  { injection Hrun as <-.
    apply session_inv_cursor with e l; try done.
    unfold textual. fields. by rewrite Hload. }
  bind_step Hrun.
  assert (Hst0 : steady (set_loading e true)) by (by eapply steady_ext).
  destruct (undo_loop_steady _ _ _ Hst0 (λ a h Hin, Hty a h
              (elem_of_timeline_past e a h Hin)) E0) as (Hst1 & _ & Hc1).
  apply undo_loop_journal in E0 as (_ & _ & _ & _ & Ht); [|done|done].
  apply (after_replay_inv x); try done.
  - unfold config in Hc1. injection Hc1 as -> _ _ _. done.
  - unfold typed_journal. by rewrite Ht.
Qed.

Lemma redo_history_inv `{Host} e e' :
  session_inv e -> redo_history e = Some e' -> session_inv e'.
Proof.
  intros Hinv. pose proof Hinv as (Hst & Hload & Hro & Hty & Hcur).
  destruct (cursor_valid_here e Hinv) as (Hln & l & Hl & Hcol).
  unfold redo_history. destruct (negb _); [by intros [= <-]|].
  cbv zeta. intros Hrun. bind_step Hrun.
  change (hist_next (set_loading e true)) with (hist_next e) in Hrun.
  destruct (hist_next e) as [|n0 next] eqn:Hnext.
  { injection Hrun as <-.
    apply session_inv_cursor with e l; try done.
    unfold textual. fields. by rewrite Hload. }
  bind_step Hrun.
  assert (Hst0 : steady (set_loading e true)) by (by eapply steady_ext).
  destruct (redo_loop_steady _ _ _ Hst0 (λ a h Hin, Hty a h
              (elem_of_timeline_next e a h
                 (eq_ind_r (λ n, (a, h) ∈ n) Hin Hnext))) E0)
    as (Hst1 & _ & Hc1).
  apply redo_loop_journal in E0 as (_ & _ & _ & _ & Ht); [|done|done].
  apply (after_replay_inv x0); try done.
  - unfold config in Hc1. injection Hc1 as -> _ _ _. done.
  - unfold typed_journal. by rewrite Ht.
Qed.

Lemma run_command_inv `{Host} cmd e e' :
  session_inv e -> in_mode cmd e -> run_command cmd e = Some e' ->
  session_inv e'.
Proof.
  intros Hinv Hmode Hrun. destruct cmd; simpl in Hrun, Hmode.
  - by eapply move_inv.
  - injection Hrun as <-. by apply normal_i_inv.
  - by eapply normal_a_inv.
  - injection Hrun as <-. by apply normal_R_inv.
  - by eapply replace_one_inv.
  - by eapply undo_history_inv.
  - by eapply redo_history_inv.
  - by eapply write_file_inv.
  - by eapply leave_insert_inv.
  - by eapply insert_key_inv.
  - by eapply replace_key_inv.
  - by eapply delete_at_cursor_inv.
  - by eapply backspace_move_inv.
Qed.

(** ** The modified flag and the journal *)


Lemma journal_ok_buffer_ab : journal_ok buffer_ab.
Proof.
  unfold journal_ok, timeline. simpl. split; [done|].
  split_and!; try done.
  - by intros a h1 h2 [= -> ->]%list_elem_of_singleton
      [= ->]%list_elem_of_singleton.
  - by intros a h [= -> ->]%list_elem_of_singleton.
  - intros a h [= -> ->]%list_elem_of_singleton _. by right.
Qed.



(** A save made in the middle of a group is the one way the commands
    part [modified] from the journal: after [r x] and a save the journal
    stands at the Replace record; entering and leaving insert mode then
    appends a Break without touching [modified]. *)
Lemma break_after_save_moves_history :
  exists e,
    reachable (H:=example_host) (fun _ _ => True) buffer_ab e /\
    modified e = false /\ history_ptr e = 3 /\ last_save_history e = 2.
Proof.
  eexists. split.
  - eapply (reach_step _ _ _ Escape).
    + eapply (reach_step _ _ _ Key_i).
      * eapply (reach_step _ _ _ (Write true)).
        -- eapply (reach_step _ _ _ (Key_r 120));
             [apply reach_start|exact I|vm_compute; reflexivity].
        -- exact I.
        -- vm_compute. reflexivity.
      * exact I.
      * vm_compute. reflexivity.
    + exact I.
    + vm_compute. reflexivity.
  - split_and!; reflexivity.
Qed.

(** ** The cursor stays valid *)




(** ** What the commands leave of the line vector and the journal *)

Lemma story_rep e e' ls k : story e' = story e -> rep e ls k -> rep e' ls k.
Proof. unfold story, rep. intros [= -> -> -> _ _ _ _ _]. done. Qed.

Lemma kept_refl e : kept e e.
Proof. done. Qed.

Lemma kept_trans e1 e2 e3 : kept e1 e2 -> kept e2 e3 -> kept e1 e3.
Proof. intros [H1 H2] [H3 H4]. split; [congruence|auto]. Qed.

Lemma kept_placed e e' : story e' = story e -> kept e (place_cursor_actual e').
Proof.
  intros Hst. rewrite place_cursor_actual_eq. split; [done|].
  intros _. fields. lia.
Qed.

Lemma kept_line e e' :
  story e' = story e -> line_no e' = line_no e -> kept e e'.
Proof. intros Hst Hln. split; [done|]. by rewrite Hln. Qed.

Lemma set_modified_kept e : kept e (set_modified e).
Proof. by rewrite set_modified_eq. Qed.

Lemma set_preferred_column_kept e e' :
  set_preferred_column e = Some e' -> kept e e'.
Proof. unfold set_preferred_column. intros Hrun. by bind_steps Hrun. Qed.

Lemma normal_i_kept e : kept e (normal_i e).
Proof.
  unfold normal_i. destruct (readonly e); [done|]. by apply kept_placed.
Qed.

Lemma normal_R_kept e : kept e (normal_R e).
Proof.
  unfold normal_R. destruct (readonly e); [done|]. by apply kept_placed.
Qed.

Lemma normal_a_kept e e' : normal_a e = Some e' -> kept e e'.
Proof.
  unfold normal_a. intros Hrun. bind_steps Hrun.
  eapply kept_trans; [|apply normal_i_kept]. by case_bool_decide.
Qed.

Lemma settle_column_story e e' :
  settle_column e = Some e' -> story e' = story e /\ 1 <= line_no e'.
Proof.
  unfold settle_column. intros Hrun. bind_steps Hrun.
  rewrite place_cursor_actual_eq. split; [|fields; lia].
  by repeat (case_bool_decide; simpl).
Qed.

Lemma cursor_left_kept e e' : cursor_left e = Some e' -> kept e e'.
Proof.
  unfold cursor_left. intros Hrun.
  apply set_preferred_column_kept in Hrun.
  eapply kept_trans; [|exact Hrun].
  case_bool_decide; [|done]. by apply kept_placed.
Qed.

Lemma cursor_right_kept e e' : cursor_right e = Some e' -> kept e e'.
Proof.
  unfold cursor_right. intros Hrun. bind_step Hrun.
  apply set_preferred_column_kept in Hrun.
  eapply kept_trans; [|exact Hrun].
  case_bool_decide; [|done]. by apply kept_placed.
Qed.

Lemma cursor_up_kept e e' : cursor_up e = Some e' -> kept e e'.
Proof.
  unfold cursor_up. intros Hrun. bind_step Hrun; [|by bind_steps Hrun].
  apply settle_column_story in Hrun as [Hst Hln]. by split.
Qed.

Lemma cursor_down_kept e e' : cursor_down e = Some e' -> kept e e'.
Proof.
  unfold cursor_down. intros Hrun. bind_step Hrun; [|by bind_steps Hrun].
  apply settle_column_story in Hrun as [Hst Hln]. by split.
Qed.

Lemma cursor_home_kept e e' : cursor_home e = Some e' -> kept e e'.
Proof.
  unfold cursor_home. intros Hrun. bind_steps Hrun.
  apply set_preferred_column_kept in E as [E _]. by apply kept_placed.
Qed.

Lemma cursor_end_kept e e' : cursor_end e = Some e' -> kept e e'.
Proof.
  unfold cursor_end. intros Hrun. bind_steps Hrun.
  apply set_preferred_column_kept in E0 as [E0 _]. by apply kept_placed.
Qed.

Lemma move_kept m e e' : move m e = Some e' -> kept e e'.
Proof.
  destruct m; simpl; eauto using cursor_left_kept, cursor_right_kept,
    cursor_up_kept, cursor_down_kept, cursor_home_kept, cursor_end_kept.
Qed.

Lemma backspace_move_kept e e' : backspace_move e = Some e' -> kept e e'.
Proof.
  unfold backspace_move. intros Hrun. bind_step Hrun.
  - bind_steps Hrun. apply set_preferred_column_kept in E0 as [E0 _].
    by apply kept_placed.
  - by apply cursor_left_kept.
Qed.

(** ** The records that typing makes *)

Lemma cp_ok_wrap21 c : cp_ok (wrap21 c).
Proof.
  unfold cp_ok, wrap21. by rewrite <- Z.land_assoc.
Qed.

Lemma cp_ok_mk_char w f c : cp_ok (codepoint (mk_char w f c)).
Proof. apply cp_ok_wrap21. Qed.

Lemma doc_ok_lookup d i cs j cp :
  doc_ok d -> d !! i = Some cs -> cs !! j = Some cp -> cp_ok cp.
Proof.
  intros Hd Hcs Hcp. unfold doc_ok in Hd.
  rewrite Forall_lookup in Hd. specialize (Hd _ _ Hcs).
  rewrite Forall_lookup in Hd. by eapply Hd.
Qed.

Lemma doc_ok_insert d i cs :
  doc_ok d -> Forall cp_ok cs -> doc_ok (<[i := cs]> d).
Proof. intros. by apply Forall_insert. Qed.

Lemma applied_doc_ok A r d d' : applied A r d d' -> doc_ok d -> doc_ok d'.
Proof.
  intros Happ Hd.
  assert (Hline : forall i cs, d !! i = Some cs -> Forall cp_ok cs).
  { intros i cs Hcs. unfold doc_ok in Hd. rewrite Forall_lookup in Hd. eauto. }
  destruct r; simpl in Happ; try done.
  - destruct Happ as (_ & Hcp & cs & Hcs & _ & ->).
    apply doc_ok_insert; [done|]. specialize (Hline _ _ Hcs).
    apply Forall_app. split; [by apply Forall_take|].
    constructor; [done|by apply Forall_drop].
  - destruct Happ as (_ & _ & cs & Hcs & _ & _ & ->).
    apply doc_ok_insert; [done|]. specialize (Hline _ _ Hcs).
    apply Forall_app. split; [by apply Forall_take|by apply Forall_drop].
  - destruct Happ as (_ & Hcp & _ & cs & Hcs & _ & _ & ->).
    apply doc_ok_insert; [done|]. specialize (Hline _ _ Hcs).
    by apply Forall_insert.
  - destruct Happ as (_ & _ & ca & cb & Hca & Hcb & _ & ->).
    apply Forall_delete. apply doc_ok_insert; [done|].
    apply Forall_app. eauto.
  - by subst.
Qed.

Lemma applied_length A r d d' :
  applied A r d d' -> (length d' <= length d)%nat.
Proof.
  destruct r; simpl; try done.
  - intros (_ & _ & cs & _ & _ & ->). by rewrite length_insert.
  - intros (_ & _ & cs & _ & _ & _ & ->). by rewrite length_insert.
  - intros (_ & _ & _ & cs & _ & _ & _ & ->). by rewrite length_insert.
  - intros (_ & _ & ca & cb & _ & Hcb & _ & ->).
    rewrite length_delete, length_insert; [lia|].
    apply lookup_lt_is_Some_2. rewrite length_insert.
    by eapply lookup_lt_Some.
  - by intros ->.
Qed.

Lemma merged_shape {A} (d : list A) i ca cb x :
  d !! i = Some ca -> d !! S i = Some cb ->
  delete (S i) (<[i := x]> d) = take i d ++ x :: drop (S (S i)) d /\
  d = take i d ++ ca :: cb :: drop (S (S i)) d.
Proof.
  revert d. induction i as [|i IH]; intros [|a [|b d]] Ha Hb; simplify_eq/=.
  - done.
  - destruct (IH (b :: d) Ha Hb) as [H1 H2]. simpl in *.
    split; [by rewrite H1|by rewrite <- H2].
Qed.

Lemma applied_nonempty A r d d' : applied A r d d' -> d ≠ [] -> d' ≠ [].
Proof.
  destruct r; simpl; try done.
  - intros (_ & _ & cs & _ & _ & ->). apply insert_nonempty.
  - intros (_ & _ & cs & _ & _ & _ & ->). apply insert_nonempty.
  - intros (_ & _ & _ & cs & _ & _ & _ & ->). apply insert_nonempty.
  - intros (Hl & _ & ca & cb & Hca & Hcb & _ & ->) _.
    replace (Z.to_nat lineno) with (S (Z.to_nat (lineno - 1))) in * by lia.
    destruct (merged_shape d _ ca cb (ca ++ cb) Hca Hcb) as [-> _].
    by destruct (take _ d).
  - by intros ->.
Qed.

Lemma replayable_nonempty A rs d d0 :
  replayable A rs d d0 -> d0 ≠ [] -> d ≠ [].
Proof.
  revert d. induction rs as [|[a r] rs IH]; intros d; simpl.
  - by intros ->.
  - intros (d1 & Happ & Hrest) Hne. eapply applied_nonempty; [done|].
    by eapply IH.
Qed.

(** ** What the editing commands journal *)

Lemma edited_kept e ls k e1 e' :
  edited e ls k e1 -> kept e1 e' -> edited e ls k e'.
Proof.
  intros (ls' & k' & Hrep & Hlen & Hj & Hcfg & Hln) [Hst Hln']. exists ls', k'.
  split; [by eapply story_rep|]. split; [done|].
  unfold story in Hst. injection Hst as _ _ _ Hp Hn Hl Ht Hs.
  unfold journalled in *. rewrite Hp, Hn, Hl, Ht, Hs. auto.
Qed.

Lemma edited_same e ls k : rep e ls k -> edited e ls k e.
Proof.
  intros Hrep. exists ls, k. split; [done|]. split; [done|].
  split; [by left|done].
Qed.

Lemma edited_upd `{Host} e ls k r ls' k' :
  loading e = false -> history_enabled global_config = true ->
  (length ls' + k')%nat = (length ls + k)%nat ->
  applied (length ls + k) r (doc_of ls) (doc_of ls') ->
  edited e ls k (upd e r ls' k').
Proof.
  intros Hload Hen Hlen Happ. exists ls', k'.
  split; [apply upd_rep|]. split; [done|].
  destruct (upd_unmoved e r ls' k') as (_ & _ & Hln & _).
  destruct (hist_record_frame e r) as (_ & Hl & Ht & Hs & _).
  split; [|split; [unfold upd; fields; by rewrite Hl, Ht, Hs|by rewrite Hln]].
  right. exists r. unfold upd, hist_record. by rewrite Hload, Hen.
Qed.

Lemma edited_break e ls k :
  rep e ls k -> edited e ls k (HIST_APPEND e HISTORY_BREAK).
Proof.
  intros Hrep. exists ls, k. split; [done|]. split; [done|].
  split; [|done]. right. by exists HISTORY_BREAK.
Qed.

Section Edits.
Context `{Host}.
Variables (e : buffer_t) (ls : list line_t) (k : nat).
Hypothesis Henabled : history_enabled global_config = true.
Hypothesis Hgood : good_lexer e.
Hypothesis Hts : tabstop e ≠ 0.
Hypothesis Hload : loading e = false.
Hypothesis Hrep : rep e ls k.
Hypothesis Hok : doc_ok (doc_of ls).

Lemma line_insert_edited c offset lineno e' :
  line_insert e (mk_char (codepoint_width c) 0 c) offset lineno = Some e' ->
  edited e ls k e'.
Proof.
  intros Hrun.
  destruct (line_insert_run e ls k Hgood (λ _, Hts) Hrep _ _ _ _ Hrun)
    as (l & ls' & Hln & Hl & Hoff & -> & Hdoc & _).
  apply edited_upd; try done.
  - apply (f_equal length) in Hdoc.
    rewrite length_insert, !doc_of_length in Hdoc. lia.
  - unfold applied. split; [done|]. split; [apply cp_ok_mk_char|].
    exists (line_content l). split; [by apply doc_of_lookup|].
    split; [by rewrite <- actual_content|done].
Qed.

Lemma line_delete_edited offset lineno e' :
  offset ≠ 0 -> line_delete e offset lineno = Some e' -> edited e ls k e'.
Proof.
  intros Hne Hrun.
  destruct (line_delete_run e ls k Hgood (λ _, Hts) Hrep _ _ _ Hne Hrun)
    as (l & old & ls' & Hln & Hl & Hoff & Hold & -> & Hdoc & _).
  apply edited_upd; try done.
  - apply (f_equal length) in Hdoc.
    rewrite length_insert, !doc_of_length in Hdoc. lia.
  - unfold applied. split; [done|].
    split; [by eapply doc_ok_lookup; [|apply doc_of_lookup|]|].
    exists (line_content l). split; [by apply doc_of_lookup|].
    split; [by rewrite <- actual_content|done].
Qed.

Lemma line_replace_edited c offset lineno e' :
  line_replace e (mk_char (codepoint_width c) 0 c) offset lineno = Some e' ->
  edited e ls k e'.
Proof.
  intros Hrun.
  destruct (line_replace_run e ls k Hgood (λ _, Hts) Hrep _ _ _ _ Hrun)
    as (l & old & ls' & Hln & Hl & Hoff & Hold & -> & Hdoc & _).
  apply edited_upd; try done.
  - apply (f_equal length) in Hdoc.
    rewrite length_insert, !doc_of_length in Hdoc. lia.
  - unfold applied. split; [done|]. split; [apply cp_ok_mk_char|].
    split; [by eapply doc_ok_lookup; [|apply doc_of_lookup|]|].
    exists (line_content l). split; [by apply doc_of_lookup|].
    split; [by rewrite <- actual_content|done].
Qed.

Lemma merge_lines_edited lineb e' :
  merge_lines e lineb = Some e' -> edited e ls k e'.
Proof.
  intros Hrun.
  destruct (merge_lines_run e ls k Hgood (λ _, Hts) Hrep _ _ Hrun)
    as (la & lb & k' & ls' & Hln & Hla & Hlb & Hk & -> & Hdoc & _).
  assert (Hlt : (Z.to_nat lineb < length ls)%nat) by (by eapply lookup_lt_Some).
  apply edited_upd; try done.
  - apply (f_equal length) in Hdoc.
    rewrite length_delete, length_insert, !doc_of_length in Hdoc; [lia|].
    apply lookup_lt_is_Some_2. rewrite length_insert, doc_of_length. lia.
  - unfold applied. split; [done|].
    split; [rewrite doc_of_length; lia|].
    exists (line_content la), (line_content lb).
    split; [by apply doc_of_lookup|]. split; [by apply doc_of_lookup|].
    split; [apply actual_content|done].
Qed.

Lemma insert_char_edited c e' : insert_char e c = Some e' -> edited e ls k e'.
Proof.
  unfold insert_char. case_bool_decide; [intros [= <-]; by apply edited_same|].
  intros Hrun. bind_step Hrun. injection Hrun as <-.
  eapply edited_kept; [by eapply line_insert_edited|].
  by rewrite set_modified_eq.
Qed.

Lemma replace_char_edited c e' :
  replace_char e c = Some e' -> edited e ls k e'.
Proof.
  unfold replace_char. intros Hrun. bind_step Hrun.
  bind_step Hrun; [injection Hrun as <-; by apply edited_same|].
  bind_step Hrun. injection Hrun as <-.
  eapply edited_kept; [by eapply line_replace_edited|].
  apply set_modified_kept.
Qed.

Lemma delete_at_cursor_edited e' :
  delete_at_cursor e = Some e' -> edited e ls k e'.
Proof.
  unfold delete_at_cursor. case_bool_decide as Hc1.
  - intros Hrun. bind_step Hrun. injection Hrun as <-.
    eapply edited_kept; [eapply line_delete_edited; [|done]; lia|].
    apply kept_placed. by rewrite set_modified_eq.
  - case_bool_decide as Hc2; [|intros [= <-]; by apply edited_same].
    intros Hrun. do 3 bind_step Hrun. injection Hrun as <-.
    eapply edited_kept; [by eapply merge_lines_edited|].
    apply set_preferred_column_kept in E1 as [E1 _].
    apply kept_placed. by rewrite set_modified_eq.
Qed.

Lemma set_history_break_edited e1 e' :
  kept e e1 -> set_history_break e1 = Some e' -> edited e ls k e'.
Proof.
  intros [Hst Hln]. unfold set_history_break. rewrite Henabled. cbn [negb].
  intros Hrun. bind_step Hrun. destruct x as [a h].
  bind_step Hrun; injection Hrun as <-.
  - eapply edited_kept; [by apply edited_break|]. split; [|done].
    unfold story in *. simpl. by injection Hst as -> -> -> -> -> -> -> ->.
  - eapply edited_kept; [by apply edited_same|done].
Qed.

Lemma leave_insert_edited e' : leave_insert e = Some e' -> edited e ls k e'.
Proof.
  unfold leave_insert. intros Hrun. do 3 bind_step Hrun.
  injection Hrun as <-.
  eapply edited_kept; [eapply (set_history_break_edited x0); [|done]|done].
  revert E0. case_bool_decide; [|by intros [= <-]].
  intros E0. apply set_preferred_column_kept in E0.
  eapply kept_trans; [|exact E0]. by case_bool_decide.
Qed.

Lemma run_command_edited cmd e' :
  editing cmd e -> run_command cmd e = Some e' -> edited e ls k e'.
Proof.
  intros Hcmd Hrun. destruct cmd; simpl in Hrun; try done.
  - eapply edited_kept; [by apply edited_same|by eapply move_kept].
  - injection Hrun as <-.
    eapply edited_kept; [by apply edited_same|apply normal_i_kept].
  - eapply edited_kept; [by apply edited_same|by eapply normal_a_kept].
  - injection Hrun as <-.
    eapply edited_kept; [by apply edited_same|apply normal_R_kept].
  - unfold replace_one in Hrun.
    bind_step Hrun; [injection Hrun as <-; by apply edited_same|].
    destruct (replace_char e c) as [e1|] eqn:E1; [|done].
    injection Hrun as <-.
    eapply edited_kept; [by eapply replace_char_edited|].
    by apply kept_placed.
  - by apply leave_insert_edited.
  - unfold insert_key in Hrun. bind_step Hrun.
    eapply edited_kept; [by eapply insert_char_edited|].
    by eapply set_preferred_column_kept.
  - unfold replace_key in Hrun. do 2 bind_step Hrun. injection Hrun as <-.
    bind_step E0.
    + bind_step E0. injection E0 as <-.
      eapply edited_kept; [by eapply replace_char_edited|].
      by apply kept_placed.
    + eapply edited_kept; [by eapply insert_char_edited|].
      by apply kept_placed.
  - by apply delete_at_cursor_edited.
  - eapply edited_kept; [by apply edited_same|by eapply backspace_move_kept].
Qed.
End Edits.

(** ** What undoing a record does to the text *)

Lemma take_take_app {A} (cs x : list A) n :
  (n <= length cs)%nat -> take n (take n cs ++ x) = take n cs.
Proof. intros Hn. apply take_app_length'. by rewrite length_take_le. Qed.

Lemma drop_take_app {A} (cs x : list A) n :
  (n <= length cs)%nat -> drop n (take n cs ++ x) = x.
Proof. intros Hn. apply drop_app_length'. by rewrite length_take_le. Qed.

Lemma reset_istate_tabs_spec n : forall e i ls k,
  (loading e = false -> tabstop e ≠ 0) -> lines e = vec ls k ->
  0 <= i -> i + Z.of_nat n <= Z.of_nat (length ls) ->
  exists ls', reset_istate_tabs n e i = Some (set_lines e (vec ls' k)) /\
              Forall2 same_line ls ls'.
Proof.
  induction n as [|n IH]; intros e i ls k Hts Hv Hi Hn;
    cbn [reset_istate_tabs].
  - exists ls. split; [by rewrite set_lines_same|apply same_lines_refl].
  - rewrite (line_at_vec e ls k i Hv), (bool_decide_true (0 <= i)) by done.
    destruct (lookup_lt_is_Some_2 ls (Z.to_nat i)) as [l Hl]; [lia|].
    rewrite Hl. cbn [mbind option_bind].
    destruct (recalculate_tabs_same e (set_istate l 0) Hts)
      as (l' & -> & Hs & _).
    cbn [mbind option_bind].
    rewrite (put_line_vec e ls k i l' Hv) by lia. cbn [mbind option_bind].
    destruct (IH (set_lines e (vec (<[Z.to_nat i := l']> ls) k)) (i + 1)
                (<[Z.to_nat i := l']> ls) k) as (ls' & -> & Hs');
      [done|done|lia|rewrite length_insert; lia|].
    exists ls'. split; [done|].
    eapply same_lines_trans; [|exact Hs'].
    eapply same_lines_insert; [done|].
    eapply same_line_trans; [|exact Hs]. done.
Qed.

Lemma recalculate_all_spec `{Host} n : forall e i ls k,
  good_lexer e -> lines e = vec ls k ->
  line_count e <= Z.of_nat (length ls) ->
  0 <= i -> i + Z.of_nat n <= Z.of_nat (length ls) ->
  exists ls', recalculate_all n e i = Some (set_lines e (vec ls' k)) /\
              Forall2 same_line ls ls'.
Proof.
  induction n as [|n IH]; intros e i ls k Hgood Hv Hc Hi Hn;
    cbn [recalculate_all].
  - exists ls. split; [by rewrite set_lines_same|apply same_lines_refl].
  - destruct (recalculate_syntax_frame e ls k i Hgood Hv Hc)
      as (ls1 & -> & Hs1); [lia|].
    cbn [mbind option_bind].
    pose proof (same_lines_length _ _ Hs1) as Hlen.
    destruct (IH (set_lines e (vec ls1 k)) (i + 1) ls1 k)
      as (ls' & -> & Hs'); [done|done|simpl; lia|lia|lia|].
    exists ls'. split; [done|]. by eapply same_lines_trans.
Qed.

Lemma after_replay_spec `{Host} e ls k :
  good_lexer e -> tabstop e ≠ 0 -> rep e ls k -> ls ≠ [] ->
  1 <= line_no e ->
  exists e' ls',
    after_replay e = Some e' /\ rep e' ls' k /\ doc_of ls' = doc_of ls /\
    (syntax e', tabstop e', hist_past e', next_addr e')
    = (syntax e, tabstop e, hist_past e, next_addr e) /\
    loading e' = false /\ 1 <= line_no e'.
Proof.
  intros Hgood Hts (Hv & Hc & Ha) Hne Hln.
  assert (Hlen : (0 < length ls)%nat) by (destruct ls; [done|simpl; lia]).
  unfold after_replay. cbv zeta.
  set (eA := if bool_decide (line_no e > line_count e)
             then set_line_no e (line_count e) else e).
  assert (HA : story eA = story e /\
               1 <= line_no eA <= Z.of_nat (length ls)).
  { unfold eA. destruct (bool_decide_reflect (line_no e > line_count e));
      fields; split; try done; lia. }
  destruct HA as (HstA & HlnA).
  unfold story in HstA. injection HstA as HvA HcA HaA HpA HnA HlA HtA HsA.
  rewrite (line_at_vec eA ls k (line_no eA - 1)) by congruence.
  rewrite (bool_decide_true (0 <= line_no eA - 1)) by lia.
  destruct (lookup_lt_is_Some_2 ls (Z.to_nat (line_no eA - 1))) as [cur Hcur];
    [lia|].
  rewrite Hcur. cbn [mbind option_bind].
  set (eB := if bool_decide (col_no eA > actual cur)
             then set_col_no eA (actual cur) else eA).
  assert (HB : story eB = story eA /\ line_no eB = line_no eA).
  { unfold eB. by destruct (bool_decide_reflect (col_no eA > actual cur)). }
  destruct HB as (HstB & HlnB).
  unfold story in HstB. injection HstB as HvB HcB HaB HpB HnB HlB HtB HsB.
  set (eC := set_loading _ false).
  assert (HvC : lines eC = vec ls k) by (unfold eC; fields; congruence).
  assert (HcC : line_count eC = Z.of_nat (length ls))
    by (unfold eC; fields; congruence).
  assert (HtC : tabstop eC ≠ 0) by (unfold eC; fields; congruence).
  rewrite HcC, Nat2Z.id.
  destruct (reset_istate_tabs_spec (length ls) eC 0 ls k) as (ls1 & -> & Hs1);
    [done|done|lia|lia|].
  cbn [mbind option_bind].
  pose proof (same_lines_length _ _ Hs1) as Hlen1.
  change (line_count (set_lines eC (vec ls1 k))) with (line_count eC).
  rewrite HcC, Nat2Z.id.
  destruct (recalculate_all_spec (length ls) (set_lines eC (vec ls1 k)) 0
              ls1 k) as (ls2 & -> & Hs2).
  { apply (good_lexer_syntax e); [unfold eC; fields; congruence|done]. }
  { done. }
  { fields. lia. }
  { lia. }
  { lia. }
  cbn [mbind option_bind].
  pose proof (same_lines_length _ _ Hs2) as Hlen2.
  eexists. exists ls2. split; [done|].
  rewrite place_cursor_actual_eq. unfold eC. fields.
  split; [unfold rep; fields; split_and!; [done|lia|lia]|].
  split.
  { rewrite (same_lines_doc _ _ Hs2). apply (same_lines_doc _ _ Hs1). }
  split; [congruence|]. split; [done|lia].
Qed.

Lemma undone_upd `{Host} e r ls k ln cn :
  rep (set_col_no (set_line_no (upd e r ls k) ln) cn) ls k /\
  line_no (set_col_no (set_line_no (upd e r ls k) ln) cn) = ln /\
  (loading (set_col_no (set_line_no (upd e r ls k) ln) cn),
   syntax (set_col_no (set_line_no (upd e r ls k) ln) cn),
   tabstop (set_col_no (set_line_no (upd e r ls k) ln) cn))
  = (loading e, syntax e, tabstop e).
Proof.
  destruct (hist_record_frame e r) as (_ & Hl & Ht & Hs & _).
  split; [apply (story_rep (upd e r ls k)); [done|apply upd_rep]|].
  split; [done|]. unfold upd. fields. by rewrite Hl, Ht, Hs.
Qed.

Lemma undo_record_text `{Host} e ls' k' r d :
  good_lexer e -> loading e = true -> rep e ls' k' ->
  applied (length ls' + k') r d (doc_of ls') -> 1 <= line_no e ->
  exists e' ls k,
    undo_record e r = Some e' /\ rep e' ls k /\ doc_of ls = d /\
    (length ls + k)%nat = (length ls' + k')%nat /\ 1 <= line_no e' /\
    (loading e', syntax e', tabstop e') = (loading e, syntax e, tabstop e).
Proof.
  intros Hgood Hload Hrep Happ Hln.
  assert (Hts : loading e = false -> tabstop e ≠ 0) by (by rewrite Hload).
  destruct r as [|lineno offset cp|lineno offset old|lineno offset cp old| | |
                 |lineno split| |]; simpl in Happ; try done.
  - destruct Happ as (Hlineno & Hcp & cs & Hcs & Hoff & Hdoc).
    set (i := Z.to_nat lineno) in *. set (n := Z.to_nat offset) in *.
    assert (Hi : (i < length d)%nat) by (by eapply lookup_lt_Some).
    destruct (doc_of_lookup_inv ls' i (take n cs ++ cp :: drop n cs))
      as (l' & Hl' & Hc').
    { rewrite Hdoc. by apply list_lookup_insert_eq. }
    destruct (line_delete_spec e ls' k' (offset + 1) lineno l' cp Hgood Hts
                Hrep) as (ls & Hrun & Hdoc' & _).
    + done.
    + done.
    + rewrite actual_content, Hc'. rewrite length_app, length_take. simpl.
      rewrite length_drop. lia.
    + rewrite Hc'. replace (Z.to_nat (offset + 1 - 1)) with n by lia.
      apply list_lookup_middle. rewrite length_take_le; lia.
    + cbn [undo_record]. rewrite Hrun. cbn [mbind option_bind].
      destruct (undone_upd e (HISTORY_DELETE lineno (offset + 1) cp) ls k'
                  (lineno + 1) (offset + 1)) as (Hrep' & Hln' & Hcfg).
      eexists. exists ls, k'. split; [done|]. split; [done|].
      split; [|split; [|split; [lia|done]]].
      * rewrite Hdoc', Hc', Hdoc. fold i.
        replace (Z.to_nat (offset + 1 - 1)) with n by lia.
        replace (Z.to_nat (offset + 1)) with (n + 1)%nat by lia.
        rewrite <- drop_drop, take_take_app, drop_take_app by lia. simpl.
        rewrite drop_0, take_drop, list_insert_insert_eq.
        by apply list_insert_id.
      * apply (f_equal length) in Hdoc', Hdoc.
        rewrite length_insert, !doc_of_length in Hdoc'. lia.
  - destruct Happ as (Hlineno & Hcp & cs & Hcs & Hoff & Hold & Hdoc).
    set (i := Z.to_nat lineno) in *. set (n := Z.to_nat (offset - 1)) in *.
    assert (Hi : (i < length d)%nat) by (by eapply lookup_lt_Some).
    assert (Hn : Z.to_nat offset = S n) by lia.
    rewrite Hn in Hdoc.
    destruct (doc_of_lookup_inv ls' i (take n cs ++ drop (S n) cs))
      as (l' & Hl' & Hc').
    { rewrite Hdoc. by apply list_lookup_insert_eq. }
    destruct (line_insert_spec e ls' k'
                (mk_char (codepoint_width old) 0 old) (offset - 1) lineno l'
                Hgood Hts Hrep) as (ls & Hrun & Hdoc' & _).
    + done.
    + done.
    + rewrite actual_content, Hc'. rewrite length_app, length_take.
      rewrite length_drop. lia.
    + cbn [undo_record]. rewrite Hrun. cbn [mbind option_bind].
      destruct (undone_upd e
                  (HISTORY_INSERT lineno (offset - 1)
                     (codepoint (mk_char (codepoint_width old) 0 old)))
                  ls k' (lineno + 1) (offset + 2)) as (Hrep' & Hln' & Hcfg).
      eexists. exists ls, k'. split; [done|]. split; [done|].
      split; [|split; [|split; [lia|done]]].
      * rewrite Hdoc', Hc', Hdoc. fold i n.
        rewrite take_take_app, drop_take_app by lia.
        change (codepoint (mk_char (codepoint_width old) 0 old))
          with (wrap21 old).
        rewrite Hcp, take_drop_middle by done.
        rewrite list_insert_insert_eq. by apply list_insert_id.
      * apply (f_equal length) in Hdoc', Hdoc.
        rewrite length_insert, !doc_of_length in Hdoc'. lia.
  - destruct Happ as (Hlineno & Hcp & Hcp' & cs & Hcs & Hoff & Hold & Hdoc).
    set (i := Z.to_nat lineno) in *. set (n := Z.to_nat offset) in *.
    assert (Hi : (i < length d)%nat) by (by eapply lookup_lt_Some).
    destruct (doc_of_lookup_inv ls' i (<[n := cp]> cs)) as (l' & Hl' & Hc').
    { rewrite Hdoc. by apply list_lookup_insert_eq. }
    destruct (line_replace_spec e ls' k'
                (mk_char (codepoint_width old) 0 old) offset lineno l' cp
                Hgood Hts Hrep) as (ls & Hrun & Hdoc' & _).
    + done.
    + done.
    + rewrite actual_content, Hc'. rewrite length_insert. lia.
    + rewrite Hc'. apply list_lookup_insert_eq. lia.
    + cbn [undo_record]. rewrite Hrun. cbn [mbind option_bind].
      destruct (undone_upd e
                  (HISTORY_REPLACE lineno offset
                     (codepoint (mk_char (codepoint_width old) 0 old)) cp)
                  ls k' (lineno + 1) (offset + 1)) as (Hrep' & Hln' & Hcfg).
      eexists. exists ls, k'. split; [done|]. split; [done|].
      split; [|split; [|split; [lia|done]]].
      * rewrite Hdoc', Hc', Hdoc. fold i n.
        change (codepoint (mk_char (codepoint_width old) 0 old))
          with (wrap21 old).
        rewrite Hcp', !list_insert_insert_eq.
        rewrite (list_insert_id cs n old Hold). by apply list_insert_id.
      * apply (f_equal length) in Hdoc', Hdoc.
        rewrite length_insert, !doc_of_length in Hdoc'. lia.
  - destruct Happ as (Hlineno & Hslack & ca & cb & Hca & Hcb & -> & Hdoc).
    set (i := Z.to_nat (lineno - 1)) in *.
    assert (Hi : Z.to_nat lineno = S i) by lia.
    rewrite Hi in *.
    destruct (merged_shape d i ca cb (ca ++ cb) Hca Hcb) as [Hshape Hd].
    rewrite Hshape in Hdoc.
    assert (Hlt : (S i < length d)%nat) by (by eapply lookup_lt_Some).
    assert (Htake : length (take i d) = i) by (rewrite length_take_le; lia).
    assert (Hlen' : length ls' = (length d - 1)%nat).
    { apply (f_equal length) in Hdoc. rewrite doc_of_length in Hdoc.
      rewrite Hdoc, length_app, Htake. simpl. rewrite length_drop. lia. }
    destruct (doc_of_lookup_inv ls' i (ca ++ cb)) as (l' & Hl' & Hc').
    { rewrite Hdoc. by apply list_lookup_middle. }
    assert (Hk : exists k1, k' = S (S (S k1))).
    { exists (k' - 3)%nat. lia. }
    destruct Hk as [k1 ->].
    assert (Hres : take i (doc_of ls') = take i d /\
                   drop i (doc_of ls') = (ca ++ cb) :: drop (S (S i)) d /\
                   drop (S i) (doc_of ls') = drop (S (S i)) d).
    { rewrite Hdoc. split; [by apply take_app_length'|].
      split; [by apply drop_app_length'|].
      change (take i d ++ (ca ++ cb) :: drop (S (S i)) d)
        with (take i d ++ [ca ++ cb] ++ drop (S (S i)) d).
      rewrite app_assoc. apply drop_app_length'.
      rewrite length_app, Htake. simpl. lia. }
    destruct Hres as (Ht & Hd0 & Hd1).
    cbn [undo_record].
    destruct (decide (Z.of_nat (length ca) = 0)) as [Hz|Hnz].
    + destruct ca; [|done]. simpl in Hc', Hd, Hd0.
      change (split_line e (lineno - 1) (Z.of_nat (length [])))
        with (add_line e (lineno - 1)).
      destruct (add_line_spec e ls' (S (S (S k1))) (S (S k1)) (lineno - 1)
                  Hgood Hrep) as (ls & Hrun & Hdoc' & _); [done|lia|].
      rewrite Hrun. cbn [mbind option_bind].
      destruct (undone_upd e (HISTORY_ADD_LINE (lineno - 1)) ls (S (S k1))
                  lineno 1) as (Hrep' & Hln' & Hcfg).
      eexists. exists ls, (S (S k1)). split; [done|]. split; [done|].
      split; [|split; [|split; [lia|done]]].
      * rewrite Hdoc'. fold i. rewrite Ht, Hd0. by rewrite Hd at 3.
      * apply (f_equal length) in Hdoc'.
        rewrite doc_of_length in Hdoc'. fold i in Hdoc'.
        rewrite Ht, Hd0, length_app, Htake in Hdoc'. simpl in Hdoc'.
        rewrite length_drop in Hdoc'. lia.
    + destruct (split_line_spec e ls' (S (S (S k1))) (S k1) (lineno - 1)
                  (Z.of_nat (length ca)) l' Hgood Hts Hrep)
        as (ls & Hrun & Hdoc' & _).
      * done.
      * done.
      * lia.
      * done.
      * rewrite actual_content, Hc', length_app. lia.
      * rewrite Hrun. cbn [mbind option_bind].
        destruct (undone_upd e
                    (HISTORY_SPLIT_LINE (lineno - 1) (Z.of_nat (length ca)))
                    ls (S (S k1)) lineno 1) as (Hrep' & Hln' & Hcfg).
        eexists. exists ls, (S (S k1)). split; [done|]. split; [done|].
        assert (Hdoc'' : doc_of ls = d).
        { rewrite Hdoc', Hc'. fold i. rewrite Nat2Z.id, Ht, Hd1.
          rewrite take_app_length, drop_app_length. by rewrite Hd at 3. }
        split; [done|]. split; [|split; [lia|done]].
        apply (f_equal length) in Hdoc''. rewrite doc_of_length in Hdoc''.
        lia.
  - subst d. exists e, ls', k'. done.
Qed.

(** ** Undoing back to where the edits started *)

Lemma undo_loop_cons `{Host} a h prev e :
  undo_loop ((a, h) :: prev) e
  = if is_sentinel h then Some e
    else e1 ← undo_record e h;
         match prev with
         | [] => None
         | (_, h') :: _ =>
           if is_break h'
           then Some (set_history e1 prev ((a, h) :: hist_next e1))
           else undo_loop prev (set_history e1 prev ((a, h) :: hist_next e1))
         end.
Proof. by destruct prev. Qed.

Lemma history_kept e p n ls k :
  rep e ls k -> rep (set_history e p n) ls k.
Proof. done. Qed.

Section Rewind.
Context `{Host}.
Variables (a0 : Z) (h0 : history_t) (rest : list (Z * history_t)).
Variables (d0 : list (list Z)) (slots : nat).
Hypothesis Henabled : history_enabled global_config = true.
Hypothesis Hboundary : is_break h0 = true \/ is_sentinel h0 = true.
Hypothesis Hd0 : d0 ≠ [].

Lemma undo_loop_text rs : forall e ls k,
  rs ≠ [] -> good_lexer e -> loading e = true -> rep e ls k ->
  (length ls + k)%nat = slots -> replayable slots rs (doc_of ls) d0 ->
  1 <= line_no e ->
  exists rs' e' ls' k',
    undo_loop (rs ++ (a0, h0) :: rest) e = Some e' /\
    hist_past e' = rs' ++ (a0, h0) :: rest /\
    (length rs' < length rs)%nat /\ rs' ⊆ rs /\
    (loading e', syntax e', tabstop e') = (loading e, syntax e, tabstop e) /\
    rep e' ls' k' /\ (length ls' + k')%nat = slots /\
    replayable slots rs' (doc_of ls') d0 /\ 1 <= line_no e'.
Proof.
  induction rs as [|[a r] rs IH]; intros e ls k Hne Hgood Hload Hrep Hlen Hre
    Hln; [done|].
  simpl in Hre. destruct Hre as (d1 & Happ & Hre).
  assert (Hsent : is_sentinel r = false) by (by destruct r).
  rewrite <- app_comm_cons, undo_loop_cons, Hsent. subst slots.
  destruct (undo_record_text e ls k r d1 Hgood Hload Hrep Happ Hln)
    as (e1 & ls1 & k1 & -> & Hrep1 & <- & Hlen1 & Hln1 & Hcfg1).
  cbn [mbind option_bind].
  injection Hcfg1 as Hl1 Hs1 Ht1.
  destruct rs as [|[a' r'] rs2].
  - assert (Hrun : (if is_break h0
                    then Some (set_history e1 ((a0, h0) :: rest)
                                 ((a, r) :: hist_next e1))
                    else undo_loop ((a0, h0) :: rest)
                           (set_history e1 ((a0, h0) :: rest)
                              ((a, r) :: hist_next e1)))
                   = Some (set_history e1 ((a0, h0) :: rest)
                             ((a, r) :: hist_next e1))).
    { destruct Hboundary as [-> | Hs]; [done|].
      rewrite undo_loop_cons, Hs. by destruct (is_break h0). }
    cbn [app]. rewrite Hrun.
    exists [], (set_history e1 ((a0, h0) :: rest) ((a, r) :: hist_next e1)),
      ls1, k1.
    split; [done|]. split; [done|].
    split; [simpl; lia|]. split; [apply list_subseteq_nil|].
    split; [fields; by rewrite Hl1, Hs1, Ht1|].
    split; [done|]. split; [done|]. split; [done|]. done.
  - rewrite <- app_comm_cons. destruct (is_break r') eqn:Hb.
    + exists ((a', r') :: rs2),
        (set_history e1 ((a', r') :: rs2 ++ (a0, h0) :: rest)
           ((a, r) :: hist_next e1)), ls1, k1.
      split; [done|]. split; [done|].
      split; [simpl; lia|].
      split; [intros x Hx; apply elem_of_cons; by right|].
      split; [fields; by rewrite Hl1, Hs1, Ht1|].
      split; [done|]. split; [done|]. split; [done|]. done.
    + rewrite app_comm_cons.
      destruct (IH (set_history e1 ((a', r') :: rs2 ++ (a0, h0) :: rest)
                      ((a, r) :: hist_next e1)) ls1 k1)
        as (rs' & e' & ls' & k' & Hrun & Hp & Hlt & Hsub & Hcfg & Hrep' & Hlen'
            & Hre' & Hln'); try done.
      * apply (good_lexer_syntax e); [by fields|done].
      * fields. congruence.
      * exists rs', e', ls', k'. split; [done|]. split; [done|].
        split; [simpl in *; lia|].
        split; [intros x Hx; apply elem_of_cons; right; by apply Hsub|].
        split; [fields; rewrite Hcfg; by rewrite Hl1, Hs1, Ht1|].
        split; [done|]. split; [lia|]. split; [done|done].
Qed.

Lemma undo_history_text rs e ls k :
  rs ≠ [] -> good_lexer e -> tabstop e ≠ 0 -> rep e ls k ->
  (length ls + k)%nat = slots ->
  hist_past e = rs ++ (a0, h0) :: rest ->
  replayable slots rs (doc_of ls) d0 -> 1 <= line_no e ->
  exists rs' e' ls' k',
    undo_history e = Some e' /\
    hist_past e' = rs' ++ (a0, h0) :: rest /\
    (length rs' < length rs)%nat /\ rs' ⊆ rs /\
    good_lexer e' /\ tabstop e' ≠ 0 /\
    rep e' ls' k' /\ (length ls' + k')%nat = slots /\
    replayable slots rs' (doc_of ls') d0 /\ 1 <= line_no e'.
Proof.
  intros Hne Hgood Hts Hrep Hlen Hpast Hre Hln.
  unfold undo_history. rewrite Henabled. cbn [negb]. cbv zeta.
  change (hist_past (set_loading e true)) with (hist_past e). rewrite Hpast.
  destruct rs as [|[a r] rs1]; [done|].
  assert (Hsent : is_sentinel r = false).
  { simpl in Hre. destruct Hre as (d1 & Happ & _). by destruct r. }
  rewrite <- app_comm_cons. cbn [head mbind option_bind]. rewrite Hsent.
  rewrite app_comm_cons.
  destruct (undo_loop_text ((a, r) :: rs1) (set_loading e true) ls k)
    as (rs' & e1 & ls1 & k1 & -> & Hp & Hlt & Hsub & Hcfg & Hrep1 & Hlen1
        & Hre1 & Hln1); try done.
  cbn [mbind option_bind]. injection Hcfg as Hl1 Hs1 Ht1.
  destruct (after_replay_spec e1 ls1 k1)
    as (e2 & ls2 & -> & Hrep2 & Hdoc2 & Hcfg2 & Hl2 & Hln2); try done.
  { apply (good_lexer_syntax e); done. }
  { by rewrite Ht1. }
  { apply doc_of_nonempty. by eapply replayable_nonempty. }
  injection Hcfg2 as Hs2 Ht2 Hp2 Hn2.
  exists rs', e2, ls2, k1. split; [done|]. split; [congruence|].
  split; [done|]. split; [done|].
  split; [apply (good_lexer_syntax e); [congruence|done]|].
  split; [congruence|]. split; [done|].
  apply (f_equal length) in Hdoc2 as Hlen2. rewrite !doc_of_length in Hlen2.
  split; [lia|]. split; [by rewrite Hdoc2|done].
Qed.

Lemma undo_until_text n : forall rs e ls k,
  (length rs <= n)%nat -> (forall a h, (a, h) ∈ rs -> a ≠ a0) ->
  good_lexer e -> tabstop e ≠ 0 -> rep e ls k ->
  (length ls + k)%nat = slots ->
  hist_past e = rs ++ (a0, h0) :: rest ->
  replayable slots rs (doc_of ls) d0 -> 1 <= line_no e ->
  exists e2 ls2 k2,
    undo_until n a0 e = Some e2 /\ hist_past e2 = (a0, h0) :: rest /\
    rep e2 ls2 k2 /\ doc_of ls2 = d0.
Proof.
  assert (Hstop : forall n e ls k,
            hist_past e = (a0, h0) :: rest -> rep e ls k -> doc_of ls = d0 ->
            exists e2 ls2 k2,
              undo_until n a0 e = Some e2 /\ hist_past e2 = (a0, h0) :: rest /\
              rep e2 ls2 k2 /\ doc_of ls2 = d0).
  { intros m e ls k Hp Hrep Hdoc. exists e, ls, k. split; [|done].
    assert (Hptr : history_ptr e = a0) by (unfold history_ptr; by rewrite Hp).
    destruct m; cbn [undo_until]; by rewrite bool_decide_true. }
  induction n as [|n IH]; intros rs e ls k Hn Hfresh Hgood Hts Hrep Hlen Hpast
    Hre Hln.
  - destruct rs; [|simpl in Hn; lia]. by eapply Hstop.
  - destruct rs as [|[a r] rs1]; [by eapply Hstop|].
    assert (Hptr : history_ptr e ≠ a0).
    { unfold history_ptr. rewrite Hpast. simpl. apply (Hfresh a r).
      apply elem_of_cons. by left. }
    cbn [undo_until]. rewrite bool_decide_false by done.
    destruct (undo_history_text ((a, r) :: rs1) e ls k)
      as (rs' & e1 & ls1 & k1 & -> & Hp1 & Hlt & Hsub & Hgood1 & Hts1 & Hrep1
          & Hlen1 & Hre1 & Hln1); try done.
    cbn [mbind option_bind].
    apply (IH rs' e1 ls1 k1); try done.
    + simpl in *. lia.
    + intros a' h' Hin. apply (Hfresh a' h'). by apply Hsub.
Qed.
End Rewind.

Lemma rep_buffer_text e ls k :
  rep e ls k -> buffer_text e = Some <$> doc_of ls.
Proof.
  intros (Hv & Hc & _). unfold buffer_text, live_lines, doc_of, vec in *.
  rewrite Hv, Hc, Nat2Z.id, take_app_length' by (by rewrite length_fmap).
  rewrite <- !list_fmap_compose. done.
Qed.

Lemma edits_replayable `{Host} e0 ls0 k0 e :
  history_enabled global_config = true ->
  good_lexer e0 -> tabstop e0 ≠ 0 -> loading e0 = false ->
  rep e0 ls0 k0 -> doc_ok (doc_of ls0) -> 1 <= line_no e0 ->
  reachable editing e0 e ->
  good_lexer e /\ tabstop e ≠ 0 /\ loading e = false /\ 1 <= line_no e /\
  next_addr e0 <= next_addr e /\
  exists rs ls k,
    hist_past e = rs ++ hist_past e0 /\ rep e ls k /\
    (length ls + k)%nat = (length ls0 + k0)%nat /\ doc_ok (doc_of ls) /\
    replayable (length ls0 + k0) rs (doc_of ls) (doc_of ls0) /\
    (forall a h, (a, h) ∈ rs -> next_addr e0 <= a).
Proof.
  intros Hen Hgood0 Hts0 Hload0 Hrep0 Hok0 Hln0 Hreach.
  induction Hreach as [|e cmd e' _ IH Hcmd Hrun].
  - split_and!; try done. exists [], ls0, k0. split_and!; try done.
    intros a h Hin. by apply elem_of_nil in Hin.
  - destruct IH as (Hgood & Hts & Hload & Hln & Hnext & rs & ls & k & Hpast
                    & Hrep & Hlen & Hok & Hre & Hfresh).
    destruct (run_command_edited e ls k Hen Hgood Hts Hload Hrep Hok cmd e'
                Hcmd Hrun)
      as (ls' & k' & Hrep' & Hlen' & Hj & Hcfg & Hln').
    injection Hcfg as Hl' Ht' Hs'. rewrite Hlen in Hj.
    split; [by apply (good_lexer_syntax e)|].
    split; [congruence|]. split; [congruence|]. split; [auto|].
    destruct Hj as [(Hp & Hn & Hdoc)|(r & Hp & Hn & Happ)].
    + split; [lia|]. exists rs, ls', k'. rewrite Hdoc.
      split_and!; try done; congruence.
    + split; [lia|]. exists ((next_addr e, r) :: rs), ls', k'.
      split; [by rewrite Hp, Hpast|]. split; [done|]. split; [lia|].
      split; [by eapply applied_doc_ok|].
      split; [by exists (doc_of ls)|].
      intros a h [[= -> ->]|Hin]%elem_of_cons; [done|by eapply Hfresh].
Qed.




(** ** UTF-8 *)

Lemma lor_disjoint q n b :
  0 <= n -> 0 <= b < 2 ^ n -> Z.lor (q * 2 ^ n) b = q * 2 ^ n + b.
Proof.
  intros Hn Hb. symmetry. apply Z.add_nocarry_lor.
  apply Z.bits_inj'. intros i Hi. rewrite Z.land_spec, Z.bits_0.
  destruct (Z.lt_ge_cases i n) as [Hlt|Hge].
  - by rewrite Z.mul_pow2_bits_low.
  - rewrite andb_false_iff. right.
    apply (Z.bounded_iff_bits_nonneg n b); lia.
Qed.

Lemma land_63 x : Z.land x 0x3F = x mod 64.
Proof. change 0x3F with (Z.ones 6). by rewrite Z.land_ones. Qed.

Lemma to_char_mod v : to_char v = v mod 256.
Proof. unfold to_char. change 255 with (Z.ones 8). by rewrite Z.land_ones. Qed.

Lemma to_char_small v : 0 <= v < 256 -> to_char v = v.
Proof. intros Hv. rewrite to_char_mod. by apply Z.mod_small. Qed.

Lemma lead_byte (hi : Z) q n :
  0 <= n -> hi mod 2 ^ n = 0 -> 0 <= hi -> 0 <= q < 2 ^ n -> hi + q < 256 ->
  to_char (Z.lor hi q) = hi + q.
Proof.
  intros Hn Hmod Hhi Hq Hlt.
  assert (Hpos : 0 < 2 ^ n) by (by apply Z.pow_pos_nonneg).
  assert (Hdiv : hi = hi / 2 ^ n * 2 ^ n).
  { pose proof (Z.div_mod hi (2 ^ n)) as H. specialize (H ltac:(lia)).
    rewrite Hmod in H. lia. }
  rewrite Hdiv at 1. rewrite lor_disjoint by done.
  rewrite <- Hdiv. apply to_char_small. lia.
Qed.

Lemma cont_byte x : to_char (Z.lor 0x80 (Z.land x 0x3F)) = 128 + x mod 64.
Proof.
  rewrite land_63. pose proof (Z.mod_pos_bound x 64).
  apply (lead_byte 128 (x mod 64) 6);
    [lia|done|lia|change (2 ^ 6) with 64; lia|lia].
Qed.

Lemma strlen_nonzero c rest : c ≠ 0 -> strlen (c :: rest) = 1 + strlen rest.
Proof. intros Hc. simpl. by rewrite bool_decide_false. Qed.

Lemma shiftr_div x n : 0 <= n -> Z.shiftr x n = x / 2 ^ n.
Proof. apply Z.shiftr_div_pow2. Qed.

Lemma to_eight_bytes_1 cp : 0 < cp < 0x80 -> to_eight_bytes cp = [cp].
Proof.
  intros Hcp. unfold to_eight_bytes, to_eight.
  rewrite bool_decide_true by lia. rewrite to_char_small by lia.
  cbn [fst snd]. rewrite strlen_nonzero by lia. done.
Qed.

Lemma to_eight_bytes_2 cp :
  0x80 <= cp < 0x800 ->
  to_eight_bytes cp = [192 + cp / 64; 128 + cp mod 64].
Proof.
  intros Hcp. unfold to_eight_bytes, to_eight.
  rewrite bool_decide_false, bool_decide_true by lia.
  rewrite !cont_byte, shiftr_div by lia. change (2 ^ 6) with 64.
  assert (Hq : 0 <= cp / 64 < 32)
    by (split; [apply Z.div_pos|apply Z.div_lt_upper_bound]; lia).
  rewrite (lead_byte 0xC0 (cp / 64) 6);
    [|lia|done|lia|change (2 ^ 6) with 64; lia|lia].
  pose proof (Z.mod_pos_bound cp 64).
  cbn [fst snd]. rewrite !strlen_nonzero by lia. done.
Qed.

Lemma to_eight_bytes_3 cp :
  0x800 <= cp < 0x10000 ->
  to_eight_bytes cp
  = [224 + cp / 4096; 128 + (cp / 64) mod 64; 128 + cp mod 64].
Proof.
  intros Hcp. unfold to_eight_bytes, to_eight.
  rewrite !bool_decide_false, bool_decide_true by lia.
  rewrite !cont_byte, !shiftr_div by lia.
  change (2 ^ 6) with 64. change (2 ^ 12) with 4096.
  assert (Hq : 0 <= cp / 4096 < 16)
    by (split; [apply Z.div_pos|apply Z.div_lt_upper_bound]; lia).
  rewrite (lead_byte 0xE0 (cp / 4096) 5);
    [|lia|done|lia|change (2 ^ 5) with 32; lia|lia].
  pose proof (Z.mod_pos_bound cp 64).
  pose proof (Z.mod_pos_bound (cp / 64) 64).
  cbn [fst snd]. rewrite !strlen_nonzero by lia. done.
Qed.

Lemma to_eight_bytes_4 cp :
  0x10000 <= cp < 0x200000 ->
  to_eight_bytes cp
  = [240 + cp / 262144; 128 + (cp / 4096) mod 64; 128 + (cp / 64) mod 64;
     128 + cp mod 64].
Proof.
  intros Hcp. unfold to_eight_bytes, to_eight.
  rewrite !bool_decide_false, bool_decide_true by lia.
  rewrite !cont_byte, !shiftr_div by lia.
  change (2 ^ 6) with 64. change (2 ^ 12) with 4096.
  change (2 ^ 18) with 262144.
  assert (Hq : 0 <= cp / 262144 < 8)
    by (split; [apply Z.div_pos|apply Z.div_lt_upper_bound]; lia).
  rewrite (lead_byte 0xF0 (cp / 262144) 4);
    [|lia|done|lia|change (2 ^ 4) with 16; lia|lia].
  pose proof (Z.mod_pos_bound cp 64).
  pose proof (Z.mod_pos_bound (cp / 64) 64).
  pose proof (Z.mod_pos_bound (cp / 4096) 64).
  cbn [fst snd]. rewrite !strlen_nonzero by lia. done.
Qed.

Lemma forallb_below (P : Z -> bool) (n : nat) :
  forallb (λ i, P (Z.of_nat i)) (seq 0 n) = true ->
  forall b, 0 <= b < Z.of_nat n -> P b = true.
Proof.
  intros Hall b Hb. rewrite forallb_forall in Hall.
  specialize (Hall (Z.to_nat b)). rewrite Z2Nat.id in Hall by lia.
  apply Hall. apply in_seq. lia.
Qed.

Lemma decode_first c b :
  0 <= b < 256 ->
  decode UTF8_ACCEPT c b
  = Some (if bool_decide (b < 128) then (0, b)
          else if bool_decide (b < 192) then (1, 0)
          else if bool_decide (b < 224) then (2, b - 192)
          else if bool_decide (b < 240) then (3, b - 224)
          else if bool_decide (b < 248) then (4, b - 240)
          else (1, 0)).
Proof.
  intros Hb.
  change (decode UTF8_ACCEPT c b) with (decode UTF8_ACCEPT 0 b).
  assert (Hall : forallb
            (λ i, (λ b, bool_decide
                     (decode UTF8_ACCEPT 0 b
                      = Some (if bool_decide (b < 128) then (0, b)
                              else if bool_decide (b < 192) then (1, 0)
                              else if bool_decide (b < 224) then (2, b - 192)
                              else if bool_decide (b < 240) then (3, b - 224)
                              else if bool_decide (b < 248) then (4, b - 240)
                              else (1, 0)))) (Z.of_nat i))
            (seq 0 256) = true) by (vm_compute; reflexivity).
  apply forallb_below with (b := b) in Hall; [|done].
  by apply bool_decide_eq_true in Hall.
Qed.

Lemma wrap32_small v : 0 <= v < 2 ^ 32 -> wrap32 v = v.
Proof.
  intros Hv. unfold wrap32. change 0xFFFFFFFF with (Z.ones 32).
  rewrite Z.land_ones by lia. by apply Z.mod_small.
Qed.

Lemma decode_next s c b :
  1 <= s <= 4 -> 0 <= b -> 0 <= c < 2 ^ 26 ->
  decode s c b
  = Some (default 0 (next_table !! Z.to_nat s), c * 64 + b mod 64).
Proof.
  intros Hs Hb Hc. unfold decode.
  rewrite bool_decide_false by (unfold UTF8_ACCEPT; lia).
  rewrite bool_decide_true by lia.
  assert (Hn : is_Some (next_table !! Z.to_nat s)).
  { apply lookup_lt_is_Some. simpl. lia. }
  destruct Hn as [n Hn]. unfold load. rewrite bool_decide_true by lia.
  rewrite Hn. cbn [mbind option_bind default]. do 2 f_equal.
  rewrite land_63, Z.shiftl_mul_pow2 by lia. change (2 ^ 6) with 64.
  pose proof (Z.mod_pos_bound b 64).
  rewrite Z.lor_comm. change 64 with (2 ^ 6) at 1.
  rewrite lor_disjoint by (change (2 ^ 6) with 64; lia).
  change (2 ^ 6) with 64. apply wrap32_small.
  change (2 ^ 26) with 67108864 in Hc. change (2 ^ 32) with 4294967296. lia.
Qed.

Lemma decode_states_cons s c b bs s1 c1 sts c2 :
  decode s c b = Some (s1, c1) ->
  decode_states s1 c1 bs = Some (sts, c2) ->
  decode_states s c (b :: bs) = Some (s1 :: sts, c2).
Proof. intros H1 H2. simpl. rewrite H1. simpl. by rewrite H2. Qed.

Ltac divlia := Z.div_mod_to_equations; lia.

Lemma decode_cont s c x :
  2 <= s <= 4 -> 0 <= x -> 0 <= c < 2 ^ 26 ->
  decode s c (128 + x mod 64)
  = Some (default 0 (next_table !! Z.to_nat s), c * 64 + x mod 64).
Proof.
  intros Hs Hx Hc. rewrite decode_next by (try done; divlia).
  do 3 f_equal. divlia.
Qed.

Lemma to_eight_decodes (cp c0 : Z) :
  0 < cp < 0x200000 ->
  exists states,
    decode_states UTF8_ACCEPT c0 (to_eight_bytes cp)
    = Some (states ++ [UTF8_ACCEPT], cp) /\
    Forall (λ s, 2 <= s) states.
Proof.
  intros Hcp. change (2 ^ 26) with 67108864 in *.
  destruct (Z.lt_ge_cases cp 0x80) as [H1|H1];
    [|destruct (Z.lt_ge_cases cp 0x800) as [H2|H2];
      [|destruct (Z.lt_ge_cases cp 0x10000) as [H3|H3]]].
  - exists []. split; [|done]. rewrite to_eight_bytes_1 by lia.
    eapply decode_states_cons; [|done].
    rewrite decode_first by lia. by rewrite bool_decide_true by lia.
  - exists [2]. split; [|by repeat constructor].
    rewrite to_eight_bytes_2 by lia.
    eapply decode_states_cons;
      [rewrite decode_first by divlia;
       rewrite !bool_decide_false, bool_decide_true by divlia; done|].
    eapply decode_states_cons; [|done].
    rewrite decode_cont by (change (2 ^ 26) with 67108864; divlia).
    simpl. do 2 f_equal. divlia.
  - exists [3; 2]. split; [|by repeat constructor].
    rewrite to_eight_bytes_3 by lia.
    eapply decode_states_cons;
      [rewrite decode_first by divlia;
       rewrite !bool_decide_false, bool_decide_true by divlia; done|].
    eapply decode_states_cons;
      [by rewrite decode_cont by (change (2 ^ 26) with 67108864; divlia)|].
    eapply decode_states_cons; [|done].
    rewrite decode_cont by (change (2 ^ 26) with 67108864; divlia).
    simpl. do 2 f_equal. divlia.
  - exists [4; 3; 2]. split; [|by repeat constructor].
    rewrite to_eight_bytes_4 by lia.
    eapply decode_states_cons;
      [rewrite decode_first by divlia;
       rewrite !bool_decide_false, bool_decide_true by divlia; done|].
    eapply decode_states_cons;
      [by rewrite decode_cont by (change (2 ^ 26) with 67108864; divlia)|].
    eapply decode_states_cons;
      [by rewrite decode_cont by (change (2 ^ 26) with 67108864; divlia)|].
    eapply decode_states_cons; [|done].
    rewrite decode_cont by (change (2 ^ 26) with 67108864; divlia).
    simpl. do 2 f_equal. divlia.
Qed.

(** X1.  A codepoint from 1 to 0x1FFFFF comes back from its own bytes:
    given the bytes [to_eight] writes for it, one after the other,
    [decode] started in the accepting state ends in the accepting state
    with that codepoint, and is in neither the accepting nor the
    rejecting state before the last byte. *)
Theorem decode_to_eight (cp c0 : Z) :
  0 < cp < 0x200000 ->
  exists states,
    decode_states UTF8_ACCEPT c0 (to_eight_bytes cp)
    = Some (states ++ [UTF8_ACCEPT], cp) /\
    Forall (λ s, 2 <= s) states.
Proof. apply to_eight_decodes. Qed.

Lemma decode_to_eight_witness :
  exists states,
    decode_states UTF8_ACCEPT 0 (to_eight_bytes 0x20AC)
    = Some (states ++ [UTF8_ACCEPT], 0x20AC) /\
    Forall (λ s, 2 <= s) states.
Proof. apply (decode_to_eight 0x20AC 0). lia. Defined.

(** X2.  What [decode] makes of a first byte: a byte below 0x80 is
    accepted as its own codepoint; 0x80 to 0xBF and 0xF8 to 0xFF are
    rejected; 0xC0 to 0xDF, 0xE0 to 0xEF and 0xF0 to 0xF7 open a
    sequence with one, two and three bytes to come (states 2, 3, 4) and
    give its high bits. *)
Theorem decode_lead_byte (c b : Z) :
  0 <= b < 256 ->
  decode UTF8_ACCEPT c b
  = Some (if bool_decide (b < 0x80) then (UTF8_ACCEPT, b)
          else if bool_decide (b < 0xC0) then (UTF8_REJECT, 0)
          else if bool_decide (b < 0xE0) then (2, b - 0xC0)
          else if bool_decide (b < 0xF0) then (3, b - 0xE0)
          else if bool_decide (b < 0xF8) then (4, b - 0xF0)
          else (UTF8_REJECT, 0)).
Proof. apply decode_first. Qed.

Lemma decode_lead_byte_witness :
  decode UTF8_ACCEPT 0 0xE2 = Some (3, 2).
Proof. apply (decode_lead_byte 0 0xE2). lia. Defined.

(** X3.  [to_eight] and [decode] part above 0x1FFFFF: the first byte
    [to_eight] writes for such a codepoint is one that [decode]
    rejects. *)
Theorem decode_rejects_long_forms (cp c0 : Z) :
  0x200000 <= cp < 2 ^ 32 ->
  exists b rest,
    (to_eight cp).1 = b :: rest /\
    decode UTF8_ACCEPT c0 b = Some (UTF8_REJECT, 0).
Proof.
  intros Hcp. change (2 ^ 32) with 4294967296 in Hcp.
  unfold to_eight. rewrite !bool_decide_false by lia.
  assert (Hlead : forall q, 0 <= q < 8 ->
            decode UTF8_ACCEPT c0 (to_char (Z.lor 0xF8 q))
            = Some (UTF8_REJECT, 0)).
  { intros q Hq.
    rewrite (lead_byte 0xF8 q 3);
      [|lia|done|lia|change (2 ^ 3) with 8; lia|lia].
    rewrite decode_first by lia. by rewrite !bool_decide_false by lia. }
  case_bool_decide; cbn [fst]; eexists _, _; (split; [done|]);
    apply Hlead; rewrite shiftr_div by lia;
    [change (2 ^ 24) with 16777216|change (2 ^ 30) with 1073741824]; divlia.
Qed.

Lemma decode_rejects_long_forms_witness :
  exists b rest,
    (to_eight 0x200000).1 = b :: rest /\
    decode UTF8_ACCEPT 0 b = Some (UTF8_REJECT, 0).
Proof. apply (decode_rejects_long_forms 0x200000 0). by vm_compute. Defined.

Lemma strlen_bounds s : 0 <= strlen s <= Z.of_nat (length s).
Proof.
  induction s as [|c s IH]; cbn [strlen length]; [done|].
  case_bool_decide; lia.
Qed.

(** X4.  The result of [to_eight] for a codepoint below 0x200000 is the
    number of bytes of its UTF-8 form, 1 to 4, but 0 for the codepoint
    0, whose only byte ends the string. *)
Theorem to_eight_length (cp : Z) :
  0 <= cp < 0x200000 ->
  (to_eight cp).2
  = if bool_decide (cp = 0) then 0
    else if bool_decide (cp < 0x80) then 1
    else if bool_decide (cp < 0x800) then 2
    else if bool_decide (cp < 0x10000) then 3
    else 4.
Proof.
  intros Hcp.
  pose proof (strlen_bounds (to_eight cp).1) as Hnn.
  change (strlen (to_eight cp).1) with (to_eight cp).2 in Hnn.
  assert (Hbs : length (to_eight_bytes cp) = Z.to_nat (to_eight cp).2)
    by (unfold to_eight_bytes; rewrite length_take; lia).
  repeat case_bool_decide.
  - by subst.
  - rewrite to_eight_bytes_1 in Hbs by lia. cbn [length] in Hbs. lia.
  - rewrite to_eight_bytes_2 in Hbs by lia. cbn [length] in Hbs. lia.
  - rewrite to_eight_bytes_3 in Hbs by lia. cbn [length] in Hbs. lia.
  - rewrite to_eight_bytes_4 in Hbs by lia. cbn [length] in Hbs. lia.
Qed.

Lemma to_eight_length_witness : (to_eight 0).2 = 0 /\ (to_eight 0x20AC).2 = 3.
Proof.
  split; [apply (to_eight_length 0)|apply (to_eight_length 0x20AC)]; lia.
Defined.

(** ** Loading what was written *)

Lemma add_buffer_app `{Host} bs1 : forall e dec bs2,
  add_buffer e dec (bs1 ++ bs2)
  = '(e1, dec1) ← add_buffer e dec bs1; add_buffer e1 dec1 bs2.
Proof.
  induction bs1 as [|b bs1 IH]; intros e dec bs2; [done|].
  cbn [app add_buffer].
  destruct (decode dec.1 dec.2 b) as [[s c]|]; [|done].
  cbn [mbind option_bind]. case_bool_decide.
  - destruct (add_codepoint e c) as [e1|]; [|done]. apply IH.
  - case_bool_decide; apply IH.
Qed.

Lemma loading_hist_record `{Host} e r ls k :
  loading e = true ->
  upd e r ls k
  = set_line_avail (set_line_count (set_lines e (vec ls k))
                      (Z.of_nat (length ls))) (Z.of_nat (length ls + k)).
Proof. intros Hl. unfold upd. by rewrite hist_record_loading. Qed.

Lemma add_codepoint_cell `{Host} e init cs c :
  loading_at e init cs -> c ≠ 10 ->
  exists e', add_codepoint e c = Some e' /\
             loading_at e' init (cs ++ [wrap21 c]).
Proof.
  intros (Hload & Hgood & (ls & k & Hrep & Hdoc) & Hln & Hcn) Hc.
  unfold add_codepoint. rewrite bool_decide_false by done.
  destruct (doc_of_lookup_inv ls (length init) cs) as (l & Hl & Hcont).
  { rewrite Hdoc. by apply list_lookup_middle. }
  destruct (line_insert_spec e ls k (mk_char (codepoint_width c) 0 c)
              (col_no e - 1) (line_no e - 1) l Hgood)
    as (ls' & -> & Hdoc' & _).
  - by rewrite Hload.
  - done.
  - lia.
  - by replace (Z.to_nat (line_no e - 1)) with (length init) by lia.
  - rewrite actual_content, Hcont. lia.
  - cbn [mbind option_bind]. eexists. split; [done|].
    rewrite loading_hist_record by done.
    split; [done|]. split; [done|]. split.
    + exists ls', k. split.
      * apply (f_equal length) in Hdoc'.
        rewrite length_insert, !doc_of_length in Hdoc'.
        destruct Hrep as (Hv & Hcount & Ha).
        unfold rep. fields. rewrite Hdoc'. done.
      * rewrite Hdoc', Hdoc, Hcont.
        replace (Z.to_nat (line_no e - 1)) with (length init + 0)%nat by lia.
        replace (Z.to_nat (col_no e - 1)) with (length cs) by lia.
        rewrite insert_app_r. simpl.
        by rewrite take_ge, drop_ge by lia.
    + fields. rewrite length_app. simpl. lia.
Qed.

Lemma add_codepoint_newline `{Host} e init cs :
  loading_at e init cs ->
  exists e', add_codepoint e 10 = Some e' /\
             loading_at e' (init ++ [cs]) [].
Proof.
  intros (Hload & Hgood & (ls & k & Hrep & Hdoc) & Hln & Hcn).
  unfold add_codepoint. rewrite bool_decide_true by done.
  assert (Hlen : length ls = S (length init)).
  { apply (f_equal length) in Hdoc.
    rewrite doc_of_length, length_app in Hdoc. simpl in Hdoc. lia. }
  assert (Hk : exists k1, grown_spare ls k = S k1).
  { unfold grown_spare. destruct k; [rewrite Hlen|]; by eexists. }
  destruct Hk as [k1 Hk].
  destruct (add_line_spec e ls k k1 (line_no e) Hgood Hrep Hk)
    as (ls' & -> & Hdoc' & _); [lia|].
  cbn [mbind option_bind]. eexists. split; [done|].
  rewrite loading_hist_record by done.
  split; [done|]. split; [done|].
  assert (Hdoc'' : doc_of ls' = (init ++ [cs]) ++ [[]]).
  { rewrite Hdoc', Hdoc.
    rewrite take_ge, drop_ge by (rewrite length_app; simpl; lia). done. }
  split.
  - exists ls', k1. split; [|done]. unfold rep. fields. done.
  - fields. rewrite length_app. simpl. lia.
Qed.

Lemma decode_states_nil_inv s c bs cp :
  decode_states s c bs = Some ([], cp) -> bs = [] /\ cp = c.
Proof.
  destruct bs as [|b bs]; simpl; [by intros [= ->]|].
  destruct (decode s c b) as [[s1 c1]|]; [|done]. simpl.
  by destruct (decode_states s1 c1 bs) as [[sts c2]|].
Qed.

Lemma add_buffer_sequence `{Host} bs : forall s c sts cp e rest,
  decode_states s c bs = Some (sts ++ [UTF8_ACCEPT], cp) ->
  Forall (λ s, 2 <= s) sts ->
  add_buffer e (s, c) (bs ++ rest)
  = e' ← add_codepoint e cp; add_buffer e' (UTF8_ACCEPT, cp) rest.
Proof.
  induction bs as [|b bs IH]; intros s c sts cp e rest Hdec Hsts.
  { simpl in Hdec. by destruct sts. }
  simpl in Hdec. cbn [app add_buffer fst snd].
  destruct (decode s c b) as [[s1 c1]|]; [|done].
  cbn [mbind option_bind] in *.
  destruct (decode_states s1 c1 bs) as [[sts1 c2]|] eqn:Hrest; [|done].
  cbn [mbind option_bind] in Hdec. injection Hdec as Hs ->.
  destruct sts as [|s2 sts]; simplify_eq/=.
  - by apply decode_states_nil_inv in Hrest as [-> ->].
  - inversion Hsts as [|? ? Hs1 Hsts']; subst.
    rewrite !bool_decide_false by (unfold UTF8_REJECT; lia).
    by apply (IH _ _ sts).
Qed.

Lemma cp_ok_range cp : cp_ok cp -> 0 <= cp < 0x200000.
Proof.
  unfold cp_ok, wrap21. change 2097151 with (Z.ones 21).
  rewrite Z.land_ones by lia. intros <-.
  change (2 ^ 21) with 2097152. divlia.
Qed.

Lemma cell_decodes c c0 :
  cp_ok (codepoint c) ->
  exists sts,
    decode_states UTF8_ACCEPT c0 (cell_bytes c)
    = Some (sts ++ [UTF8_ACCEPT], codepoint c) /\
    Forall (λ s, 2 <= s) sts.
Proof.
  intros Hok%cp_ok_range. unfold cell_bytes. case_bool_decide as Hz.
  - exists []. split; [|done]. rewrite Hz.
    eapply decode_states_cons; [|done]. by rewrite decode_first.
  - apply to_eight_decodes. lia.
Qed.

Lemma add_buffer_cells `{Host} cells : forall e init cs c0 rest,
  loading_at e init cs ->
  Forall (λ c, cp_ok (codepoint c) /\ codepoint c ≠ 10) cells ->
  exists e' c1,
    add_buffer e (UTF8_ACCEPT, c0) (concat (cell_bytes <$> cells) ++ rest)
    = add_buffer e' (UTF8_ACCEPT, c1) rest /\
    loading_at e' init (cs ++ (codepoint <$> cells)).
Proof.
  induction cells as [|c cells IH]; intros e init cs c0 rest Hat Hok.
  { exists e, c0. by rewrite app_nil_r. }
  inversion Hok as [|? ? [Hcp Hnl] Hok']; subst.
  destruct (cell_decodes c c0 Hcp) as (sts & Hdec & Hsts).
  destruct (add_codepoint_cell e init cs (codepoint c) Hat Hnl)
    as (e1 & Hadd & Hat1).
  rewrite Hcp in Hat1.
  destruct (IH e1 init (cs ++ [codepoint c]) (codepoint c) rest Hat1 Hok')
    as (e' & c1 & Hrun & Hat').
  exists e', c1. split.
  - rewrite fmap_cons. cbn [concat]. rewrite <- app_assoc.
    rewrite (add_buffer_sequence _ _ _ _ _ _ _ Hdec Hsts), Hadd. done.
  - by rewrite fmap_cons, cons_middle, app_assoc.
Qed.

Lemma add_buffer_lines `{Host} ls : forall e init c0 rest,
  loading_at e init [] ->
  Forall (λ l, Forall (λ c, cp_ok (codepoint c) /\ codepoint c ≠ 10)
                 (text l)) ls ->
  exists e' c1,
    add_buffer e (UTF8_ACCEPT, c0)
      (concat ((λ l, concat (cell_bytes <$> text l) ++ [10]) <$> ls) ++ rest)
    = add_buffer e' (UTF8_ACCEPT, c1) rest /\
    loading_at e' (init ++ doc_of ls) [].
Proof.
  induction ls as [|l ls IH]; intros e init c0 rest Hat Hok.
  { exists e, c0. by rewrite app_nil_r. }
  inversion Hok as [|? ? Hl Hok']; subst.
  rewrite fmap_cons. cbn [concat]. rewrite <- !app_assoc.
  destruct (add_buffer_cells (text l) e init [] c0
              ([10] ++ concat ((λ l, concat (cell_bytes <$> text l) ++ [10])
                                 <$> ls) ++ rest) Hat Hl)
    as (e1 & c1 & -> & Hat1).
  rewrite app_nil_l in Hat1.
  destruct (add_codepoint_newline e1 init _ Hat1) as (e2 & Hadd & Hat2).
  destruct (IH e2 (init ++ [codepoint <$> text l]) 10 rest Hat2 Hok')
    as (e' & c2 & Hrun & Hat').
  exists e', c2. split.
  - cbn [app add_buffer fst snd]. rewrite decode_first by lia.
    rewrite bool_decide_true by lia. cbn [mbind option_bind].
    rewrite bool_decide_true by done. rewrite Hadd. done.
  - unfold doc_of in *. rewrite fmap_cons, cons_middle, app_assoc. done.
Qed.

Lemma write_lines_spec n : forall e ls k i,
  lines e = vec ls k -> (i + n <= length ls)%nat ->
  write_lines n e (Z.of_nat i)
  = Some (concat ((λ l, concat (cell_bytes <$> text l) ++ [10])
                    <$> take n (drop i ls))).
Proof.
  induction n as [|n IH]; intros e ls k i Hv Hn; [done|].
  cbn [write_lines].
  rewrite (line_at_vec e ls k _ Hv), bool_decide_true, Nat2Z.id by lia.
  destruct (lookup_lt_is_Some_2 ls i) as [l Hl]; [lia|].
  rewrite Hl. cbn [mbind option_bind].
  replace (Z.of_nat i + 1) with (Z.of_nat (S i)) by lia.
  rewrite (IH e ls k (S i) Hv) by lia. cbn [mbind option_bind].
  rewrite (drop_S _ _ _ Hl). cbn [take fmap list_fmap concat].
  by rewrite <- app_assoc.
Qed.

Lemma write_file_bytes_spec e ls k :
  rep e ls k ->
  write_file_bytes e
  = Some (concat ((λ l, concat (cell_bytes <$> text l) ++ [10]) <$> ls)).
Proof.
  intros (Hv & Hc & _). unfold write_file_bytes. rewrite Hc, Nat2Z.id.
  rewrite (write_lines_spec _ e ls k 0 Hv) by lia.
  by rewrite drop_0, firstn_all.
Qed.

Lemma setup_buffer_loading_at `{Host} b :
  good_lexer b -> loading_at (setup_buffer (set_loading b true)) [] [].
Proof.
  intros Hgood. split; [done|]. split; [done|]. split; [|done].
  by exists [calloc_line 32], 7%nat.
Qed.

(** X5.  Loading what was saved.  Take a buffer whose cells hold 21-bit
    codepoints, none of them a line feed.  The bytes [write_file] writes
    for it, read by [add_buffer] into a buffer that [setup_buffer] has
    just set up for loading, give the same lines followed by one empty
    line; the decoder is back in the accepting state and the cursor is
    at the start of that empty line. *)
Theorem load_written_file `{Host} (e b : buffer_t) (ls : list line_t)
  (k : nat) (c0 : Z) :
  rep e ls k ->
  Forall (λ l, Forall (λ c, cp_ok (codepoint c) /\ codepoint c ≠ 10)
                 (text l)) ls ->
  good_lexer b ->
  exists bs e1 c1,
    write_file_bytes e = Some bs /\
    add_buffer (setup_buffer (set_loading b true)) (UTF8_ACCEPT, c0) bs
    = Some (e1, (UTF8_ACCEPT, c1)) /\
    buffer_text e1 = buffer_text e ++ [Some []] /\
    line_no e1 = line_count e + 1 /\ col_no e1 = 1.
Proof.
  intros Hrep Hok Hgood. eexists. 
  destruct (add_buffer_lines ls (setup_buffer (set_loading b true)) [] c0 []
              (setup_buffer_loading_at b Hgood) Hok)
    as (e1 & c1 & Hrun & Hat).
  exists e1, c1. split; [by apply (write_file_bytes_spec e ls k)|].
  rewrite app_nil_r in Hrun. split; [by rewrite Hrun|].
  destruct Hat as (_ & _ & (ls1 & k1 & Hrep1 & Hdoc1) & Hln & Hcn).
  rewrite (rep_buffer_text _ _ _ Hrep1), (rep_buffer_text _ _ _ Hrep), Hdoc1.
  split; [by rewrite fmap_app|].
  destruct Hrep as (_ & -> & _). rewrite Hln.
  by rewrite app_nil_l, doc_of_length.
Qed.

Lemma load_written_file_witness :
  exists bs e1 c1,
    write_file_bytes buffer_ab = Some bs /\
    add_buffer (H:=example_host) (setup_buffer (set_loading buffer_ab true))
      (UTF8_ACCEPT, 0) bs
    = Some (e1, (UTF8_ACCEPT, c1)) /\
    buffer_text e1 = buffer_text buffer_ab ++ [Some []] /\
    line_no e1 = line_count buffer_ab + 1 /\ col_no e1 = 1.
Proof.
  apply (load_written_file (H:=example_host) buffer_ab buffer_ab
           [line_of [97; 98]] 7 0).
  - done.
  - repeat constructor; done.
  - by intros sd.
Defined.



(** ** The gutter *)

(** X7.  [log_base_10] is the decimal logarithm, rounded down, of a
    32-bit value from 1: [10 ^ r <= v < 10 ^ (r + 1)]. *)
Theorem log_base_10_spec (v : Z) :
  1 <= v < 2 ^ 32 ->
  10 ^ log_base_10 v <= v < 10 ^ (log_base_10 v + 1).
Proof.
  intros Hv. change (2 ^ 32) with 4294967296 in Hv. unfold log_base_10.
  repeat case_bool_decide;
    match goal with
    | |- 10 ^ ?a <= _ < 10 ^ ?b =>
      let x := eval vm_compute in (10 ^ a) in
      let y := eval vm_compute in (10 ^ b) in
      change (10 ^ a) with x; change (10 ^ b) with y
    end; lia.
Qed.

Lemma log_base_10_spec_witness :
  10 ^ log_base_10 4321 <= 4321 < 10 ^ (log_base_10 4321 + 1).
Proof. apply (log_base_10_spec 4321). by vm_compute. Defined.

(** X8.  [num_width] is wide enough for every line number of the
    buffer, never below 2 and not wider than needed: the line count has
    fewer than [num_width] + 1 digits, and when [num_width] is above 2
    exactly [num_width]. *)
Theorem num_width_spec (e : buffer_t) :
  0 <= line_count e < 2 ^ 31 ->
  2 <= num_width e /\ line_count e < 10 ^ num_width e /\
  (num_width e = 2 \/ 10 ^ (num_width e - 1) <= line_count e).
Proof.
  intros Hc. change (2 ^ 31) with 2147483648 in Hc. unfold num_width.
  rewrite wrap32_small by (change (2 ^ 32) with 4294967296; lia).
  unfold log_base_10. cbv zeta.
  repeat case_bool_decide; try lia;
    (split; [lia|]);
    repeat match goal with
           | |- context [10 ^ ?a] =>
             let x := eval vm_compute in (10 ^ a) in
             change (10 ^ a) with x
           end; lia.
Qed.

Lemma num_width_spec_witness :
  2 <= num_width buffer_ab /\ line_count buffer_ab < 10 ^ num_width buffer_ab /\
  (num_width buffer_ab = 2 \/
   10 ^ (num_width buffer_ab - 1) <= line_count buffer_ab).
Proof. apply (num_width_spec buffer_ab). by vm_compute. Defined.

(** ** [goto_line] *)

(** X9.  [goto_line] puts the cursor on the line asked for, or on the
    nearest line of the buffer when there is no such line, in column 1:
    in a buffer that holds a line the cursor is valid afterwards, and
    the text is as before. *)
Theorem goto_line_clamps (e : buffer_t) (line : Z) (ls : list line_t)
  (k : nat) :
  rep e ls k -> ls ≠ [] ->
  line_no (goto_line e line) = Z.max 1 (Z.min line (line_count e)) /\
  col_no (goto_line e line) = 1 /\
  cursor_valid (goto_line e line) /\
  buffer_text (goto_line e line) = buffer_text e.
Proof.
  intros Hrep Hne. pose proof Hrep as (Hv & Hc & Ha).
  assert (Hlen : (0 < length ls)%nat) by (destruct ls; [done|simpl; lia]).
  assert (Hln : line_no (goto_line e line)
                = Z.max 1 (Z.min line (line_count e))).
  { unfold goto_line. cbv zeta. repeat case_bool_decide; simpl; lia. }
  split; [done|]. split; [done|]. split; [|done].
  split; [rewrite Hln; change (line_count (goto_line e line))
                         with (line_count e); lia|].
  destruct (lookup_lt_is_Some_2 ls (Z.to_nat (line_no (goto_line e line) - 1)))
    as [l Hl]; [lia|].
  exists l. split.
  - rewrite (line_at_vec (goto_line e line) ls k _ Hv), bool_decide_true
      by lia.
    done.
  - pose proof (col_limit_bounds (goto_line e line) l).
    change (col_no (goto_line e line)) with 1. lia.
Qed.

Lemma goto_line_clamps_witness :
  line_no (goto_line buffer_ab_cd 7) = 2 /\
  cursor_valid (goto_line buffer_ab_cd 7).
Proof.
  destruct (goto_line_clamps buffer_ab_cd 7
              [line_of [97; 98]; line_of [99; 100]] 6)
    as (Hln & _ & Hcur & _); [done|done|].
  split; [|done]. by rewrite Hln.
Defined.

(** ** [point_in_range] *)

(** X10.  [point_in_range] tells whether a cell lies between the two
    ends of a selection in reading order, whichever end comes first;
    when both ends are on one line it compares the columns only,
    whatever the line of the cell. *)
Theorem point_in_range_spec (start_line end_line start_col end_col line
  col : Z) :
  point_in_range start_line end_line start_col end_col line col = true <->
  (start_line = end_line /\
   Z.min start_col end_col <= col <= Z.max start_col end_col) \/
  (start_line ≠ end_line /\
   ((pos_le (start_line, start_col) (line, col) /\
     pos_le (line, col) (end_line, end_col)) \/
    (pos_le (end_line, end_col) (line, col) /\
     pos_le (line, col) (start_line, start_col)))).
Proof.
  unfold point_in_range, pos_le. cbn [fst snd].
  repeat case_bool_decide; cbv beta iota;
    rewrite ?bool_decide_eq_true; split; intros; try done; lia.
Qed.

(** ** [match_syntax] *)

Lemma c_str_at_end s : c_str_at s (Z.of_nat (length s)) = Some 0.
Proof. unfold c_str_at. by rewrite bool_decide_true. Qed.

Lemma c_str_at_inside s i :
  (i < length s)%nat -> c_str_at s (Z.of_nat i) = s !! i.
Proof.
  intros Hi. unfold c_str_at, load.
  rewrite bool_decide_false, bool_decide_true by lia. by rewrite Nat2Z.id.
Qed.

Lemma suffix_lookup {A} (ext file : list A) t :
  ext `suffix_of` file -> (1 <= t <= length ext)%nat ->
  file !! (length file - t)%nat = ext !! (length ext - t)%nat.
Proof.
  intros [k ->] Ht. rewrite length_app.
  rewrite lookup_app_r by lia. f_equal. lia.
Qed.

Lemma ext_loop_spec file ext n : forall t,
  (t <= length file)%nat -> (t <= length ext)%nat ->
  (length file - t < n)%nat ->
  drop (length file - (t - 1)) file = drop (length ext - (t - 1)) ext ->
  ext_loop n file ext (Z.of_nat (length file - t)) (Z.of_nat (length ext - t))
  = Some (bool_decide (ext `suffix_of` file)).
Proof.
  induction n as [|n IH]; intros t HtF HtE Hn Hagree; [lia|].
  cbn [ext_loop].
  assert (Hchars : exists f x,
            c_str_at file (Z.of_nat (length file - t)) = Some f /\
            c_str_at ext (Z.of_nat (length ext - t)) = Some x /\
            (f = x -> drop (length file - t) file
                      = drop (length ext - t) ext) /\
            (ext `suffix_of` file -> f = x)).
  { destruct t as [|t].
    - exists 0, 0. rewrite !Nat.sub_0_r, !c_str_at_end.
      split; [done|]. split; [done|]. split; [|done].
      intros _. by rewrite !drop_all.
    - destruct (lookup_lt_is_Some_2 file (length file - S t)) as [f Hf];
        [lia|].
      destruct (lookup_lt_is_Some_2 ext (length ext - S t)) as [x Hx]; [lia|].
      exists f, x. rewrite !c_str_at_inside by lia.
      split; [done|]. split; [done|]. split.
      + intros ->. rewrite (drop_S _ _ _ Hf), (drop_S _ _ _ Hx).
        replace (S (length file - S t)) with (length file - (S t - 1))%nat
          by lia.
        replace (S (length ext - S t)) with (length ext - (S t - 1))%nat
          by lia.
        by rewrite Hagree.
      + intros Hsuf. apply (suffix_lookup _ _ (S t)) in Hsuf; [|lia].
        rewrite Hf, Hx in Hsuf. by injection Hsuf. }
  destruct Hchars as (f & x & -> & -> & Hstep & Hsuf).
  cbn [mbind option_bind].
  destruct (bool_decide_reflect (f ≠ x)) as [Hne|Hne].
  { f_equal. symmetry. apply bool_decide_eq_false. intros H.
    by apply Hne, Hsuf. }
  apply dec_stable in Hne. specialize (Hstep Hne).
  destruct (bool_decide_reflect (Z.of_nat (length ext - t) = 0)) as [Hj|Hj].
  { f_equal. symmetry. apply bool_decide_eq_true.
    replace (length ext - t)%nat with 0%nat in Hstep by lia.
    rewrite drop_0 in Hstep. rewrite <- Hstep. apply suffix_drop. }
  destruct (bool_decide_reflect (Z.of_nat (length file - t) = 0)) as [Hi|Hi].
  { f_equal. symmetry. apply bool_decide_eq_false.
    intros Hs%suffix_length. lia. }
  replace (Z.of_nat (length file - t) - 1)
    with (Z.of_nat (length file - S t)) by lia.
  replace (Z.of_nat (length ext - t) - 1)
    with (Z.of_nat (length ext - S t)) by lia.
  apply IH; try lia.
  by replace (S t - 1)%nat with t by lia.
Qed.

Lemma ext_any_spec file exts :
  ext_any file exts
  = Some (bool_decide (Exists (λ ext, ext `suffix_of` file) exts)).
Proof.
  induction exts as [|ext exts IH]; cbn [ext_any].
  { rewrite bool_decide_false; [done|by intros H%Exists_nil]. }
  pose proof (ext_loop_spec file ext (S (length file)) 0) as Hloop.
  rewrite !Nat.sub_0_r in Hloop.
  rewrite Hloop by (first [lia|by rewrite !drop_all]).
  cbn [mbind option_bind].
  destruct (bool_decide_reflect (ext `suffix_of` file)) as [Hs|Hs].
  - f_equal. symmetry. apply bool_decide_eq_true. by left.
  - rewrite IH. f_equal. apply bool_decide_ext. rewrite Exists_cons. tauto.
Qed.

Lemma match_syntax_find {A} (syntaxes : list (list (list Z) * A)) file :
  match_syntax syntaxes file
  = Some (snd <$>
            list_find (λ s, Exists (λ ext, ext `suffix_of` file) s.1)
              syntaxes).
Proof.
  induction syntaxes as [|s rest IH]; [done|].
  cbn [match_syntax list_find]. rewrite ext_any_spec.
  cbn [mbind option_bind].
  destruct (bool_decide_reflect
              (Exists (λ ext, ext `suffix_of` file) s.1)) as [Hs|Hs].
  - by rewrite decide_True.
  - rewrite decide_False by done. rewrite IH. f_equal.
    by destruct (list_find _ rest) as [[i s']|].
Qed.

(** X11.  [match_syntax] returns the first row of the table one of whose
    extensions is a suffix of the file name, byte for byte, and [NULL]
    when no row has one. *)
Theorem match_syntax_first_suffix {A} (syntaxes : list (list (list Z) * A))
  (file : list Z) :
  match_syntax syntaxes file
  = Some (snd <$>
            list_find (λ s, Exists (λ ext, ext `suffix_of` file) s.1)
              syntaxes).
Proof. apply match_syntax_find. Qed.

(** ** Lexers *)

Lemma set_text_same l : set_text l (text l) = l.
Proof. by destruct l. Qed.

Lemma charat_at st pre c post :
  text (ss_line st) = pre ++ c :: post ->
  ss_i st = Z.of_nat (length pre) ->
  charat st = codepoint c.
Proof.
  intros Ht Hi. unfold charat, actual. rewrite Ht, Hi, length_app.
  cbn [length]. rewrite bool_decide_true by lia.
  rewrite Nat2Z.id, list_lookup_middle by done. done.
Qed.

Lemma charat_end st :
  ss_i st = Z.of_nat (length (text (ss_line st))) -> charat st = -1.
Proof.
  intros Hi. unfold charat, actual. by rewrite bool_decide_false by lia.
Qed.

Lemma paint1_at st pre c post flag :
  text (ss_line st) = pre ++ c :: post ->
  ss_i st = Z.of_nat (length pre) ->
  paint1 st flag
  = SyntaxState (set_text (ss_line st) (pre ++ set_flags c flag :: post))
      (ss_line_no st) (ss_state st) (ss_i st + 1).
Proof.
  intros Ht Hi. unfold paint1, actual. rewrite Ht, Hi, length_app.
  cbn [length]. rewrite bool_decide_true by lia. f_equal. f_equal.
  rewrite Nat2Z.id. rewrite <- (Nat.add_0_r (length pre)).
  by rewrite (alter_app_r _ pre (c :: post) 0).
Qed.

Lemma paint1_end st flag :
  ss_i st = Z.of_nat (length (text (ss_line st))) -> paint1 st flag = st.
Proof.
  intros Hi. unfold paint1, actual. by rewrite bool_decide_false by lia.
Qed.

(** The loop paints the cells before the first one that holds [stop],
    and stops on that cell or at the end of the line. *)
Lemma paint_until_run stop flag mid : forall n st pre post,
  text (ss_line st) = pre ++ mid ++ post ->
  ss_i st = Z.of_nat (length pre) ->
  Forall (λ c, codepoint c ≠ stop /\ codepoint c ≠ -1) mid ->
  (length mid <= n)%nat ->
  match post with
  | [] => True
  | c :: _ => codepoint c = stop \/ codepoint c = -1
  end ->
  paint_until n st stop flag
  = SyntaxState (set_text (ss_line st) (pre ++ repaint flag mid ++ post))
      (ss_line_no st) (ss_state st)
      (Z.of_nat (length pre) + Z.of_nat (length mid)).
Proof.
  induction mid as [|c mid IH]; intros n st pre post Ht Hi Hmid Hn Hpost.
  - cbn [repeat repaint fmap list_fmap app length]. rewrite Z.add_0_r, <- Hi.
    cbn [app] in Ht. rewrite <- Ht, set_text_same.
    assert (paint_until n st stop flag = st) as ->; [|by destruct st].
    destruct n as [|n]; [done|]. cbn [paint_until].
    destruct post as [|c post].
    + rewrite charat_end by (rewrite Ht, app_nil_r; done).
      rewrite (bool_decide_false (-1 ≠ -1)) by (intros Hne; by apply Hne).
      by rewrite andb_false_r.
    + rewrite (charat_at st pre c post Ht Hi).
      destruct Hpost as [->| ->].
      * by rewrite (bool_decide_false (stop ≠ stop))
          by (intros Hne; by apply Hne).
      * rewrite (bool_decide_false (-1 ≠ -1)) by (intros Hne; by apply Hne).
        by rewrite andb_false_r.
  - apply Forall_cons_1 in Hmid as [[Hc1 Hc2] Hmid].
    destruct n as [|n]; [cbn [length] in Hn; lia|]. cbn [paint_until].
    cbn [app] in Ht.
    rewrite (charat_at st pre c (mid ++ post) Ht Hi).
    rewrite !bool_decide_true by done. cbn [andb].
    rewrite (paint1_at st pre c (mid ++ post) flag Ht Hi).
    rewrite (IH n _ (pre ++ [set_flags c flag]) post).
    + cbn [ss_line ss_line_no ss_state]. f_equal.
      * unfold set_text. cbn [available istate rev_status].
        f_equal. cbn [repaint fmap list_fmap]. by rewrite <- app_assoc.
      * rewrite length_app. cbn [length]. lia.
    + cbn [ss_line]. unfold set_text. cbn [text]. by rewrite <- app_assoc.
    + cbn [ss_i]. rewrite length_app. cbn [length]. lia.
    + done.
    + cbn [length] in Hn. lia.
    + done.
Qed.

Lemma paint_while_until n st flag :
  paint_while n st flag = paint_until n st (-1) flag.
Proof.
  revert st. induction n as [|n IH]; intros st; [done|].
  cbn [paint_while paint_until]. rewrite IH.
  by destruct (bool_decide (charat st ≠ -1)).
Qed.

(** [while (charat() != -1) paint(1, flag)] paints the rest of the
    line. *)
Lemma paint_while_run flag n st pre mid :
  text (ss_line st) = pre ++ mid ->
  ss_i st = Z.of_nat (length pre) ->
  Forall (λ c, codepoint c ≠ -1) mid ->
  (length mid <= n)%nat ->
  paint_while n st flag
  = SyntaxState (set_text (ss_line st) (pre ++ repaint flag mid))
      (ss_line_no st) (ss_state st)
      (Z.of_nat (length pre) + Z.of_nat (length mid)).
Proof.
  intros Ht Hi Hmid Hn. rewrite paint_while_until.
  rewrite (paint_until_run (-1) flag mid n st pre []); try done.
  - by rewrite app_nil_r.
  - by rewrite app_nil_r.
  - apply Forall_forall. intros c Hc.
    by pose proof (proj1 (Forall_forall _ _) Hmid c Hc).
Qed.

(** X12.  The diff lexer gives a line one colour, chosen by its first
    cell: [+] the colour of additions, [-] of removals, [@] of types, a
    space none, and anything else that of keywords.  It answers -1 and
    leaves the cells themselves as they were. *)
Theorem syn_diff_paints_line (l : line_t) (line_no state : Z) (c : char_t)
  (cs : list char_t) :
  text l = c :: cs ->
  Forall (λ c, codepoint c ≠ -1) (text l) ->
  syn_diff_calculate (SyntaxState l line_no state 0)
  = (-1,
     if bool_decide (codepoint c = 32) then SyntaxState l line_no state 0
     else
       SyntaxState
         (set_text l
            (repaint (if bool_decide (codepoint c = 43) then FLAG_DIFFPLUS
                      else if bool_decide (codepoint c = 45)
                           then FLAG_DIFFMINUS
                      else if bool_decide (codepoint c = 64) then FLAG_TYPE
                      else FLAG_KEYWORD) (text l)))
         line_no state (actual l)).
Proof.
  intros Ht Hok. unfold syn_diff_calculate. cbn [ss_i ss_line].
  rewrite bool_decide_true by done.
  assert (Hc : charat (SyntaxState l line_no state 0) = codepoint c)
    by (by apply (charat_at _ [] c cs)).
  rewrite Hc.
  assert (Hrun : forall flag,
            paint_while (length (text l)) (SyntaxState l line_no state 0) flag
            = SyntaxState (set_text l (repaint flag (text l))) line_no state
                (actual l)).
  { intros flag.
    by rewrite (paint_while_run flag _ _ [] (text l)). }
  repeat case_bool_decide; try congruence; by rewrite ?Hrun.
Qed.

Lemma syn_diff_paints_line_witness :
  syn_diff_calculate (SyntaxState (line_of [45; 98]) 1 0 0)
  = (-1, SyntaxState (Line 32 0 0 [Char 1 9 45; Char 1 9 98]) 1 0 2).
Proof.
  apply (syn_diff_paints_line (line_of [45; 98]) 1 0 (Char 1 0 45)
           [Char 1 0 98]); [done|].
  by repeat constructor.
Defined.

Lemma before_from stop cs : before stop cs ++ from stop cs = cs.
Proof.
  induction cs as [|c cs IH]; cbn; [done|].
  case_bool_decide; [|done]. cbn. by rewrite IH.
Qed.

Lemma before_ok stop cs :
  Forall (λ c, codepoint c ≠ -1) cs ->
  Forall (λ c, codepoint c ≠ stop /\ codepoint c ≠ -1) (before stop cs).
Proof.
  induction 1 as [|c cs Hc Hcs IH]; cbn; [done|].
  case_bool_decide; [|done]. by constructor.
Qed.

Lemma from_head stop cs :
  match from stop cs with
  | [] => True
  | c :: _ => codepoint c = stop \/ codepoint c = -1
  end.
Proof.
  induction cs as [|c cs IH]; cbn; [done|].
  case_bool_decide as Hc; [done|]. left.
  by destruct (decide (codepoint c = stop)).
Qed.

Lemma before_length stop cs : (length (before stop cs) <= length cs)%nat.
Proof.
  rewrite <- (before_from stop cs) at 2. rewrite length_app. lia.
Qed.

(** X13.  The conf lexer, on a line that is neither a comment nor a
    section header, paints the key: the cells before the first [=] get
    the colour of types, the [=] and what follows keep their flags. *)
Theorem syn_conf_paints_key (l : line_t) (line_no state : Z) (c : char_t)
  (cs : list char_t) :
  text l = c :: cs ->
  codepoint c ≠ 59 -> codepoint c ≠ 35 -> codepoint c ≠ 91 ->
  Forall (λ c, codepoint c ≠ -1) (text l) ->
  syn_conf_calculate (SyntaxState l line_no state 0)
  = (-1,
     SyntaxState
       (set_text l (repaint FLAG_TYPE (before 61 (text l)) ++ from 61 (text l)))
       line_no state (Z.of_nat (length (before 61 (text l))))).
Proof.
  intros Ht H1 H2 H3 Hok. unfold syn_conf_calculate. cbn [ss_i ss_line].
  rewrite bool_decide_true by done.
  rewrite (charat_at (SyntaxState l line_no state 0) [] c cs) by done.
  rewrite !bool_decide_false by done. f_equal.
  rewrite (paint_until_run 61 FLAG_TYPE (before 61 (text l)) _ _ []
             (from 61 (text l))).
  - done.
  - by rewrite before_from.
  - done.
  - by apply before_ok.
  - apply before_length.
  - apply from_head.
Qed.

Lemma syn_conf_paints_key_witness :
  syn_conf_calculate (SyntaxState (line_of [97; 61; 98]) 0 0 0)
  = (-1, SyntaxState (Line 32 0 0 [Char 1 4 97; Char 1 0 61; Char 1 0 98])
           0 0 1).
Proof.
  apply (syn_conf_paints_key (line_of [97; 61; 98]) 0 0 (Char 1 0 97)
           [Char 1 0 61; Char 1 0 98]); try done.
  by repeat constructor.
Defined.

(** X14.  The conf lexer paints a section header, a line that starts
    with an opening square bracket: the cells up to the first closing
    square bracket and that cell get the colour of keywords, what
    follows it keeps its flags; with no closing bracket the whole line
    is painted. *)
Theorem syn_conf_paints_section (l : line_t) (line_no state : Z)
  (c : char_t) (cs : list char_t) :
  text l = c :: cs ->
  codepoint c = 91 ->
  Forall (λ c, codepoint c ≠ -1) (text l) ->
  syn_conf_calculate (SyntaxState l line_no state 0)
  = (-1,
     let painted := c :: before 93 cs ++ take 1 (from 93 cs) in
     SyntaxState
       (set_text l (repaint FLAG_KEYWORD painted ++ drop 1 (from 93 cs)))
       line_no state (Z.of_nat (length painted))).
Proof.
  intros Ht Hc Hok. unfold syn_conf_calculate. cbn [ss_i ss_line].
  rewrite bool_decide_true by done.
  rewrite (charat_at (SyntaxState l line_no state 0) [] c cs) by done.
  rewrite Hc. rewrite !bool_decide_false by done.
  rewrite bool_decide_true by done. cbv zeta. f_equal.
  rewrite (paint1_at _ [] c cs) by done.
  cbn [ss_line ss_line_no ss_state ss_i app].
  rewrite Ht in Hok. apply Forall_cons_1 in Hok as [_ Hcs].
  rewrite (paint_until_run 93 FLAG_KEYWORD (before 93 cs) _ _
             [set_flags c FLAG_KEYWORD] (from 93 cs)).
  - cbn [ss_line ss_line_no ss_state length].
    pose proof (from_head 93 cs) as Hhead.
    pose proof (before_ok 93 cs Hcs) as Hbefore.
    destruct (from 93 cs) as [|r rest] eqn:Hfrom.
    + rewrite charat_end.
      * rewrite bool_decide_false by done.
        change (take 1 (@nil char_t)) with (@nil char_t).
        change (drop 1 (@nil char_t)) with (@nil char_t).
        rewrite !app_nil_r. f_equal. cbn [length]. lia.
      * cbn [ss_i ss_line]. unfold set_text. cbn [text].
        rewrite app_nil_r, length_app. unfold repaint.
        rewrite length_fmap. cbn [length]. lia.
    + assert (Hr : codepoint r = 93).
      { destruct Hhead as [Hr|Hr]; [done|].
        rewrite <- (before_from 93 cs), Hfrom in Hcs.
        apply Forall_app in Hcs as [_ Hcs].
        by apply Forall_cons_1 in Hcs as [? _]. }
      set (pre := [set_flags c FLAG_KEYWORD]
                  ++ repaint FLAG_KEYWORD (before 93 cs)).
      assert (Hlen : Z.of_nat (length pre)
                     = Z.of_nat 1 + Z.of_nat (length (before 93 cs))).
      { unfold pre, repaint. rewrite length_app, length_fmap.
        cbn [length]. lia. }
      rewrite (charat_at _ pre r rest); [| |done].
      * rewrite bool_decide_true by done.
        rewrite (paint1_at _ pre r rest); [| |done].
        -- cbn [ss_line ss_line_no ss_state ss_i firstn skipn]. f_equal.
           ++ unfold set_text. cbn [available istate rev_status]. f_equal.
              unfold pre, repaint. cbn [app fmap list_fmap].
              rewrite fmap_app. cbn [fmap list_fmap].
              by rewrite <- !app_assoc.
           ++ rewrite length_app, firstn_O. cbn [length]. lia.
        -- cbn [ss_line]. unfold set_text. cbn [text]. unfold pre.
           by rewrite <- app_assoc.
      * cbn [ss_line]. unfold set_text. cbn [text]. unfold pre.
        by rewrite <- app_assoc.
  - cbn [ss_line]. unfold set_text. cbn [text]. by rewrite before_from.
  - done.
  - by apply before_ok.
  - rewrite Ht. cbn [length]. pose proof (before_length 93 cs). lia.
  - apply from_head.
Qed.

Lemma syn_conf_paints_section_witness :
  syn_conf_calculate (SyntaxState (line_of [91; 97; 93; 98]) 0 0 0)
  = (-1, SyntaxState
           (Line 32 0 0 [Char 1 1 91; Char 1 1 97; Char 1 1 93; Char 1 0 98])
           0 0 3).
Proof.
  apply (syn_conf_paints_section (line_of [91; 97; 93; 98]) 0 0 (Char 1 0 91)
           [Char 1 0 97; Char 1 0 93; Char 1 0 98]); try done.
  by repeat constructor.
Defined.

(** The loop that looks for a space does not end on a line without
    one. *)
Lemma paint_to_space_runs n : forall st,
  Forall (λ c, codepoint c ≠ 32) (text (ss_line st)) ->
  paint_to_space n st = None.
Proof.
  induction n as [|n IH]; intros st Hns; [done|]. cbn [paint_to_space].
  assert (Hc : charat st ≠ 32).
  { unfold charat. case_bool_decide; [|done].
    destruct (text (ss_line st) !! Z.to_nat (ss_i st)) as [c|] eqn:Hl;
      [|done].
    cbn. by apply (Forall_lookup_1 _ _ _ _ Hns Hl). }
  rewrite bool_decide_true by done. apply IH.
  unfold paint1. case_bool_decide; [|done]. cbn [ss_line].
  unfold set_text. cbn [text].
  apply Forall_lookup. intros i c Hi.
  destruct (decide (i = Z.to_nat (ss_i st))) as [->|Hne].
  - rewrite list_lookup_alter in Hi.
    rewrite decide_True in Hi by done.
    destruct (text (ss_line st) !! Z.to_nat (ss_i st)) as [c0|] eqn:Hl;
      simplify_eq/=.
    by apply (Forall_lookup_1 _ _ _ _ Hns Hl).
  - rewrite list_lookup_alter_ne in Hi by done.
    by apply (Forall_lookup_1 _ _ _ _ Hns Hi).
Qed.

(** X15.  The biminfo lexer does not return on a line that starts with
    [>] and holds no space: its loop that paints up to the next space
    tests for nothing else, and at the end of the line neither paints
    nor moves. *)
Theorem syn_biminfo_hangs (fuel : nat) (l : line_t) (line_no state : Z)
  (c : char_t) (cs : list char_t) :
  text l = c :: cs ->
  codepoint c = 62 ->
  Forall (λ c, codepoint c ≠ 32) (text l) ->
  syn_biminfo_calculate fuel (SyntaxState l line_no state 0) = None.
Proof.
  intros Ht Hc Hns. unfold syn_biminfo_calculate. cbn [ss_i ss_line].
  rewrite bool_decide_true by done.
  rewrite (charat_at (SyntaxState l line_no state 0) [] c cs) by done.
  rewrite Hc, bool_decide_false by done. rewrite bool_decide_true by done.
  cbv zeta. rewrite paint_to_space_runs; [done|].
  rewrite (paint1_at _ [] c cs) by done. cbn [ss_line app].
  unfold set_text. cbn [text]. rewrite Ht in Hns.
  apply Forall_cons_1 in Hns as [Hc0 Hcs]. by constructor.
Qed.

Lemma syn_biminfo_hangs_witness :
  syn_biminfo_calculate 1000 (SyntaxState (line_of [62; 47; 97]) 0 0 0) = None.
Proof.
  apply (syn_biminfo_hangs 1000 (line_of [62; 47; 97]) 0 0 (Char 1 0 62)
           [Char 1 0 47; Char 1 0 97]); try done.
  by repeat constructor.
Defined.

(** ** Backward search *)

Section SearchBack.
Context `{Host}.
Variables (ic i : Z) (l : line_t) (str : list Z).
Hypothesis Hstr : str ≠ [].

(** The scan of a line down from [j] finds the last start at or before
    [j] where the string occurs. *)
Lemma scan_line_back_spec n j :
  Z.of_nat n = j + 1 ->
  match scan_line_back n ic i l j str with
  | Some c => 1 <= c <= j + 1 /\ occurs_in_line ic str l (c - 1) /\
              forall j', c - 1 < j' <= j -> ~ occurs_in_line ic str l j'
  | None => forall j', j' <= j -> ~ occurs_in_line ic str l j'
  end.
Proof.
  revert j. induction n as [|n IH]; intros j Hn; cbn [scan_line_back].
  - intros j' Hj' [Hnn _]. lia.
  - pose proof (match_at_spec ic i l str j ltac:(lia)) as Hspec.
    destruct (match_at ic i l j str) as [r t]. cbn [fst] in *.
    destruct r.
    + destruct Hspec as [Hspec _]. destruct (Hspec eq_refl) as [_ Hocc].
      replace (j + 1 - 1) with j by lia.
      split; [lia|]. split; [done|]. intros j' ?. lia.
    + assert (Hno : ~ occurs_in_line ic str l j).
      { intros Hocc. assert (false = true); [|done]. apply Hspec.
        split; [|done].
        pose proof (occurs_in_line_bound ic l str j Hstr Hocc). lia. }
      specialize (IH (j - 1) ltac:(lia)).
      destruct (scan_line_back n ic i l (j - 1) str) as [c|].
      * destruct IH as (Hc & Hocc & Hlast).
        split; [lia|]. split; [done|]. intros j' Hj'.
        destruct (decide (j' = j)) as [->|Hne]; [done|].
        apply Hlast. lia.
      * intros j' Hj'.
        destruct (decide (j' = j)) as [->|Hne]; [done|].
        apply IH. lia.
Qed.
End SearchBack.

Section FindMatchBackwards.
Context `{Host}.
Variables (e : buffer_t) (str : list Z).
Hypothesis Hlive : lines_live e.
Hypothesis Hstr : str ≠ [].

Let ic := smart_case str.

(** The lines from [i] up, the first of them from column [col] down. *)
Lemma find_match_backwards_lines_spec n : forall i col,
  Z.of_nat n = i -> i <= line_count e ->
  exists r, find_match_backwards_lines n e ic i col str = Some r /\
    match r with
    | Some p => last_match_upto e str (i, col) p
    | None => no_match_upto e str (i, col)
    end.
Proof.
  induction n as [|n IH]; intros i col Hn Hi.
  - exists None. split; [done|].
    intros q (lq & Hq & _) [Hlt|[Heq _]]; simpl in *; lia.
  - destruct (Hlive (i - 1) ltac:(lia)) as (l & Hl & _).
    cbn [find_match_backwards_lines]. rewrite Hl. cbn [mbind option_bind].
    cbv zeta.
    assert (Hscan :
      match scan_line_back (Z.to_nat (col - 1 + 1)) ic i l (col - 1) str with
      | Some c => 1 <= c <= col /\ occurs_in_line ic str l (c - 1) /\
                  forall j', c - 1 < j' <= col - 1 ->
                             ~ occurs_in_line ic str l j'
      | None => forall j', j' <= col - 1 -> ~ occurs_in_line ic str l j'
      end).
    { destruct (decide (0 <= col)) as [Hcol|Hcol].
      - pose proof (scan_line_back_spec ic i l str Hstr
                      (Z.to_nat (col - 1 + 1)) (col - 1) ltac:(lia)) as Hs.
        destruct (scan_line_back _ ic i l (col - 1) str) as [c|]; [|done].
        destruct Hs as (? & ? & ?). split; [lia|done].
      - replace (Z.to_nat (col - 1 + 1)) with 0%nat by lia.
        cbn [scan_line_back]. intros j' Hj' [Hnn _]. lia. }
    destruct (scan_line_back _ ic i l (col - 1) str) as [c|].
    + eexists. split; [done|]. destruct Hscan as (Hc & Hocc & Hlast).
      split; [|split].
      * exists l. simpl. split; [lia|]. done.
      * right. simpl. lia.
      * intros q (lq & Hq1 & Hlq & Hoccq) [Hlt|[Heq Hle]]; simpl in *.
        -- left. simpl. lia.
        -- right. simpl. split; [done|]. rewrite Heq, Hl in Hlq.
           simplify_eq.
           destruct (decide (q.2 <= c)); [done|].
           exfalso. apply (Hlast (q.2 - 1)); [lia|done].
    + assert (Hcol' : exists col',
                (if bool_decide (i > 1)
                 then prev ← line_at e (i - 2); Some (actual prev)
                 else Some (-1)) = Some col' /\
                forall lp, line_at e (i - 2) = Some lp -> col' = actual lp).
      { case_bool_decide as Hi1.
        - destruct (Hlive (i - 2) ltac:(lia)) as (lp & Hlp & _).
          rewrite Hlp. cbn [mbind option_bind]. eexists. split; [done|].
          by intros ? [= <-].
        - eexists. split; [done|]. intros lp Hlp.
          assert (i = 1) as -> by lia. unfold line_at, load in Hlp.
          by rewrite bool_decide_false in Hlp by lia. }
      destruct Hcol' as (col' & -> & Hprev). cbn [mbind option_bind].
      destruct (IH (i - 1) col' ltac:(lia) ltac:(lia)) as (r & Hrun & Hspec).
      rewrite Hrun. exists r. split; [done|].
      assert (Hskip : forall q, match_pos e str q ->
                pos_le q (i, col) -> pos_le q (i - 1, col')).
      { intros q (lq & Hq1 & Hlq & Hoccq) [Hlt|[Heq Hle]]; simpl in *.
        - destruct (decide (q.1 = i - 1)) as [Heq|Hne].
          + right. simpl. split; [done|].
            rewrite Heq in Hlq. replace (i - 1 - 1) with (i - 2) in Hlq by lia.
            rewrite (Hprev lq Hlq).
            pose proof (occurs_in_line_bound _ _ _ _ Hstr Hoccq).
            assert (0 < length str)%nat by (destruct str; simpl; [done|lia]).
            lia.
          + left. simpl. lia.
        - rewrite Heq, Hl in Hlq. simplify_eq.
          exfalso. apply (Hscan (q.2 - 1)); [lia|done]. }
      destruct r as [p|].
      * destruct Hspec as (Hp & Hupto & Hmax). split; [done|]. split.
        -- left. simpl. destruct Hupto as [?|[? ?]]; simpl in *; lia.
        -- intros q Hq Hle. apply Hmax; [done|]. by apply Hskip.
      * intros q Hq Hle. apply (Hspec q Hq). by apply Hskip.
Qed.

Lemma find_match_backwards_spec from_line from_col :
  0 <= from_line <= line_count e ->
  exists r, find_match_backwards e from_line from_col str = Some r /\
    match r with
    | Some p => last_match_upto e str (from_line, from_col) p
    | None => no_match_upto e str (from_line, from_col)
    end.
Proof.
  intros Hl. unfold find_match_backwards.
  apply find_match_backwards_lines_spec; lia.
Qed.
End FindMatchBackwards.

(** X16.  [search_prev] with a search term moves the cursor to the last
    match at or before the column left of the cursor, in reading order;
    when there is none, to the last match of the buffer; when there is
    none at all it leaves the buffer as it is. *)
Theorem search_prev_last_match `{Host} (e : buffer_t) (str : list Z) :
  lines_live e ->
  search e = Some str -> str ≠ [] ->
  1 <= line_no e <= line_count e ->
  exists e', search_prev e = Some e' /\
    ((exists p, last_match_upto e str (line_no e, col_no e - 1) p /\
                (line_no e', col_no e') = p) \/
     (no_match_upto e str (line_no e, col_no e - 1) /\
      exists p last, buffer_end e last /\ last_match_upto e str last p /\
                     (line_no e', col_no e') = p) \/
     (no_match_upto e str (line_no e, col_no e - 1) /\
      (exists last, buffer_end e last /\ no_match_upto e str last) /\
      e' = e)).
Proof.
  intros Hlive Hsearch Hne Hline.
  unfold search_prev. rewrite Hsearch.
  destruct (find_match_backwards_spec e str Hlive Hne (line_no e)
              (col_no e - 1) ltac:(lia)) as (r & Hrun & Hspec).
  rewrite Hrun. cbn [mbind option_bind].
  assert (Hmove : forall upto p, last_match_upto e str upto p ->
            exists e', (e'' ← set_preferred_column
                               (set_line_no (set_col_no e p.2) p.1);
                        Some (place_cursor_actual e'')) = Some e' /\
                       (line_no e', col_no e') = p).
  { intros upto p ((l & Hp1 & Hl & Hocc) & _ & _).
    apply search_next_moves; [by exists l|lia|].
    destruct Hocc as [? _]. lia. }
  destruct r as [p|].
  - cbn [mbind option_bind]. destruct (Hmove _ _ Hspec) as (e' & He' & Hcur).
    destruct p as [pl pc]. simpl in *. exists e'. split; [done|].
    left. by exists (pl, pc).
  - destruct (Hlive (line_count e - 1) ltac:(lia)) as (last & Hlast & _).
    rewrite Hlast. cbn [mbind option_bind].
    destruct (find_match_backwards_spec e str Hlive Hne (line_count e)
                (actual last) ltac:(lia)) as (r' & Hrun' & Hspec').
    rewrite Hrun'. cbn [mbind option_bind].
    assert (Hend : buffer_end e (line_count e, actual last))
      by (by exists last).
    destruct r' as [p|].
    + destruct (Hmove _ _ Hspec') as (e' & He' & Hcur).
      destruct p as [pl pc]. simpl in *. exists e'. split; [done|].
      right. left. split; [done|].
      by exists (pl, pc), (line_count e, actual last).
    + exists e. split; [done|]. right. right. split; [done|].
      split; [|done]. by exists (line_count e, actual last).
Qed.

(** In the one-line buffer [foo bar foo], searching [foo] backwards
    from column 1 wraps to column 9. *)
Lemma search_prev_last_match_witness :
  (lines_live buffer_foo_bar_foo_1 /\
   search buffer_foo_bar_foo_1 = Some [102; 111; 111] /\
   1 <= line_no buffer_foo_bar_foo_1 <= line_count buffer_foo_bar_foo_1) /\
  (exists e', search_prev (H:=example_host) buffer_foo_bar_foo_1 = Some e' /\
     ((exists p, last_match_upto (H:=example_host) buffer_foo_bar_foo_1
                   [102; 111; 111] (1, 1 - 1) p /\
                 (line_no e', col_no e') = p) \/
      (no_match_upto (H:=example_host) buffer_foo_bar_foo_1 [102; 111; 111]
         (1, 1 - 1) /\
       exists p last, buffer_end buffer_foo_bar_foo_1 last /\
         last_match_upto (H:=example_host) buffer_foo_bar_foo_1
           [102; 111; 111] last p /\
         (line_no e', col_no e') = p) \/
      (no_match_upto (H:=example_host) buffer_foo_bar_foo_1 [102; 111; 111]
         (1, 1 - 1) /\
       (exists last, buffer_end buffer_foo_bar_foo_1 last /\
          no_match_upto (H:=example_host) buffer_foo_bar_foo_1
            [102; 111; 111] last) /\
       e' = buffer_foo_bar_foo_1))) /\
  (exists e', search_prev (H:=example_host) buffer_foo_bar_foo_1 = Some e' /\
              line_no e' = 1 /\ col_no e' = 9).
Proof.
  assert (Hlive : lines_live buffer_foo_bar_foo_1).
  { intros i Hi. change (line_count buffer_foo_bar_foo_1) with 1 in Hi.
    assert (i = 0) as -> by lia. eexists. split; [reflexivity|]. simpl. lia. }
  split; [|split].
  - repeat split; try done; simpl; lia.
  - apply (search_prev_last_match (H:=example_host) buffer_foo_bar_foo_1
             [102; 111; 111] Hlive eq_refl).
    + done.
    + simpl. lia.
  - eexists. split; [reflexivity|]. done.
Defined.

(** ** Editing primitives, one after the other *)

Lemma buffer_text_upd `{Host} e r ls k :
  buffer_text (upd e r ls k) = Some <$> doc_of ls.
Proof. apply (rep_buffer_text _ ls k), upd_rep. Qed.

Lemma upd_good `{Host} e r ls k :
  good_lexer e -> (loading e = false -> tabstop e ≠ 0) ->
  good_lexer (upd e r ls k) /\
  (loading (upd e r ls k) = false -> tabstop (upd e r ls k) ≠ 0).
Proof.
  intros Hgood Hts.
  destruct (hist_record_frame e r) as (_ & Hl & Ht & Hs & _).
  split.
  - apply (good_lexer_syntax e); [|done]. unfold upd. fields. done.
  - unfold upd. fields. rewrite Hl, Ht. done.
Qed.

(** X17.  [line_insert] puts the cell in front of the cell at [offset]
    of the line, and [line_delete] at [offset + 1] takes it out again:
    the text of the buffer is then what it was. *)
Theorem line_delete_undoes_line_insert `{Host} (e : buffer_t)
  (ls : list line_t) (k : nat) (c : char_t) (offset lineno : Z)
  (l : line_t) :
  good_lexer e -> (loading e = false -> tabstop e ≠ 0) -> rep e ls k ->
  0 <= lineno -> ls !! Z.to_nat lineno = Some l -> 0 <= offset <= actual l ->
  exists e1 e2,
    line_insert e c offset lineno = Some e1 /\
    buffer_text e1
    = <[Z.to_nat lineno :=
         Some (take (Z.to_nat offset) (line_content l)
               ++ codepoint c :: drop (Z.to_nat offset) (line_content l))]>
        (buffer_text e) /\
    line_delete e1 (offset + 1) lineno = Some e2 /\
    buffer_text e2 = buffer_text e.
Proof.
  intros Hgood Hts Hrep Hln Hl Hoff.
  destruct (line_insert_spec e ls k c offset lineno l Hgood Hts Hrep Hln Hl
              Hoff) as (ls1 & Hrun1 & Hdoc1 & _).
  set (r1 := HISTORY_INSERT lineno offset (codepoint c)) in *.
  set (n := Z.to_nat offset) in *. set (i := Z.to_nat lineno) in *.
  set (cs := line_content l) in *.
  assert (Hn : (n <= length cs)%nat).
  { unfold cs, line_content, actual in *. rewrite length_fmap. lia. }
  assert (Hi : (i < length (doc_of ls))%nat).
  { rewrite doc_of_length. by eapply lookup_lt_Some. }
  destruct (doc_of_lookup_inv ls1 i (take n cs ++ codepoint c :: drop n cs))
    as (l1 & Hl1 & Hc1).
  { rewrite Hdoc1. by apply list_lookup_insert_eq. }
  destruct (upd_good e r1 ls1 k Hgood Hts) as [Hgood1 Hts1].
  destruct (line_delete_spec (upd e r1 ls1 k) ls1 k (offset + 1) lineno l1
              (codepoint c) Hgood1 Hts1 (upd_rep e r1 ls1 k) Hln Hl1)
    as (ls2 & Hrun2 & Hdoc2 & _).
  { rewrite actual_content, Hc1, length_app, length_take. cbn [length].
    rewrite length_drop. lia. }
  { rewrite Hc1. replace (Z.to_nat (offset + 1 - 1)) with n by lia.
    apply list_lookup_middle. rewrite length_take_le; lia. }
  eexists _, _. split; [exact Hrun1|].
  rewrite (rep_buffer_text _ _ _ Hrep).
  split; [|split; [exact Hrun2|]].
  - rewrite buffer_text_upd, Hdoc1. by rewrite list_fmap_insert.
  - rewrite buffer_text_upd, Hdoc2, Hc1, Hdoc1. f_equal. fold i.
    replace (Z.to_nat (offset + 1 - 1)) with n by lia.
    replace (Z.to_nat (offset + 1)) with (n + 1)%nat by lia.
    rewrite <- drop_drop, take_take_app, drop_take_app by lia.
    cbn [drop]. rewrite drop_0, take_drop, list_insert_insert_eq.
    apply list_insert_id. unfold cs, doc_of. rewrite list_lookup_fmap.
    by rewrite Hl.
Qed.

Lemma line_delete_undoes_line_insert_witness :
  exists e1 e2,
    line_insert (H:=example_host) buffer_ab (Char 1 0 120) 1 0 = Some e1 /\
    buffer_text e1
    = <[Z.to_nat 0 :=
         Some (take (Z.to_nat 1) (line_content (line_of [97; 98]))
               ++ codepoint (Char 1 0 120)
                  :: drop (Z.to_nat 1) (line_content (line_of [97; 98])))]>
        (buffer_text buffer_ab) /\
    line_delete (H:=example_host) e1 (1 + 1) 0 = Some e2 /\
    buffer_text e2 = buffer_text buffer_ab.
Proof.
  apply (line_delete_undoes_line_insert (H:=example_host) buffer_ab
           [line_of [97; 98]] 7 (Char 1 0 120) 1 0 (line_of [97; 98])).
  - by intros sd.
  - done.
  - done.
  - lia.
  - done.
  - by vm_compute.
Defined.

(** X18.  [split_line] cuts a line in two at [split], and [merge_lines]
    on the second half joins them again: with three free slots in the
    line vector, and lines whose capacity is not negative, the text of
    the buffer is then what it was. *)
Theorem merge_lines_undoes_split_line `{Host} (e : buffer_t)
  (ls : list line_t) (k : nat) (line split : Z) (l : line_t) :
  good_lexer e -> (loading e = false -> tabstop e ≠ 0) ->
  rep e ls (S (S (S k))) -> Forall avail_ok ls ->
  0 <= line -> ls !! Z.to_nat line = Some l -> 1 <= split <= actual l ->
  exists e1 e2,
    split_line e line split = Some e1 /\
    buffer_text e1
    = take (Z.to_nat line) (buffer_text e)
      ++ Some (take (Z.to_nat split) (line_content l))
      :: Some (drop (Z.to_nat split) (line_content l))
      :: drop (S (Z.to_nat line)) (buffer_text e) /\
    merge_lines e1 (line + 1) = Some e2 /\
    buffer_text e2 = buffer_text e.
Proof.
  intros Hgood Hts Hrep Hav Hln Hl Hsp.
  destruct (split_line_spec e ls (S (S (S k))) (S k) line split l Hgood Hts
              Hrep) as (ls1 & Hrun1 & Hdoc1 & Hav1); try done.
  set (r1 := HISTORY_SPLIT_LINE line split) in *.
  set (i := Z.to_nat line) in *. set (n := Z.to_nat split) in *.
  set (cs := line_content l) in *.
  assert (Hi : (i < length (doc_of ls))%nat).
  { rewrite doc_of_length. by eapply lookup_lt_Some. }
  assert (Htake : length (take i (doc_of ls)) = i)
    by (rewrite length_take_le; lia).
  destruct (doc_of_lookup_inv ls1 i (take n cs)) as (la & Hla & Hca).
  { rewrite Hdoc1. by apply list_lookup_middle. }
  destruct (doc_of_lookup_inv ls1 (S i) (drop n cs)) as (lb & Hlb & Hcb).
  { rewrite Hdoc1.
    change (take i (doc_of ls) ++ take n cs :: drop n cs
              :: drop (S i) (doc_of ls))
      with (take i (doc_of ls) ++ [take n cs] ++ drop n cs
              :: drop (S i) (doc_of ls)).
    rewrite app_assoc. apply list_lookup_middle.
    rewrite length_app, Htake. cbn [length]. lia. }
  destruct (upd_good e r1 ls1 (S (S k)) Hgood Hts) as [Hgood1 Hts1].
  specialize (Hav1 Hav).
  assert (Hava : avail_ok la) by (by eapply Forall_lookup_1).
  destruct (grow_available_total (Z.to_nat (actual la + actual lb))
              (available la) (actual la + actual lb) Hava)
    as (av & Hgrow & _).
  { unfold avail_ok, actual in *. lia. }
  destruct (merge_lines_spec (upd e r1 ls1 (S (S k))) ls1 k (line + 1) la lb
              av Hgood1 Hts1 (upd_rep e r1 ls1 (S (S k))))
    as (ls2 & Hrun2 & Hdoc2 & _).
  { lia. }
  { by replace (Z.to_nat (line + 1 - 1)) with i by lia. }
  { by replace (Z.to_nat (line + 1)) with (S i) by lia. }
  { done. }
  eexists _, _. split; [exact Hrun1|].
  rewrite (rep_buffer_text _ _ _ Hrep).
  split; [|split; [exact Hrun2|]].
  - rewrite buffer_text_upd, Hdoc1.
    by rewrite fmap_app, !fmap_cons, fmap_take, fmap_drop.
  - rewrite buffer_text_upd, Hdoc2, Hca, Hcb, take_drop. f_equal.
    replace (Z.to_nat (line + 1 - 1)) with i by lia.
    replace (Z.to_nat (line + 1)) with (S i) by lia.
    assert (Hcs : doc_of ls !! i = Some cs).
    { unfold doc_of. rewrite list_lookup_fmap. by rewrite Hl. }
    set (d1 := take i (doc_of ls) ++ take n cs :: drop n cs
                 :: drop (S i) (doc_of ls)) in *.
    assert (H1 : d1 !! i = Some (take n cs))
      by (by apply list_lookup_middle).
    assert (H2 : d1 !! S i = Some (drop n cs)).
    { unfold d1.
      change (take i (doc_of ls) ++ take n cs :: drop n cs
                :: drop (S i) (doc_of ls))
        with (take i (doc_of ls) ++ [take n cs] ++ drop n cs
                :: drop (S i) (doc_of ls)).
      rewrite app_assoc. apply list_lookup_middle.
      rewrite length_app, Htake. cbn [length]. lia. }
    rewrite Hdoc1.
    destruct (merged_shape d1 i _ _ cs H1 H2) as [-> _].
    assert (Ht : take i d1 = take i (doc_of ls))
      by (unfold d1; by rewrite take_app_length').
    assert (Hd : drop (S (S i)) d1 = drop (S i) (doc_of ls)).
    { unfold d1.
      change (take i (doc_of ls) ++ take n cs :: drop n cs
                :: drop (S i) (doc_of ls))
        with (take i (doc_of ls) ++ [take n cs; drop n cs]
                ++ drop (S i) (doc_of ls)).
      rewrite app_assoc. apply drop_app_length'.
      rewrite length_app, Htake. cbn [length]. lia. }
    rewrite Ht, Hd. by apply take_drop_middle.
Qed.

Lemma merge_lines_undoes_split_line_witness :
  exists e1 e2,
    split_line (H:=example_host) buffer_ab 0 1 = Some e1 /\
    buffer_text e1
    = take (Z.to_nat 0) (buffer_text buffer_ab)
      ++ Some (take (Z.to_nat 1) (line_content (line_of [97; 98])))
      :: Some (drop (Z.to_nat 1) (line_content (line_of [97; 98])))
      :: drop (S (Z.to_nat 0)) (buffer_text buffer_ab) /\
    merge_lines (H:=example_host) e1 (0 + 1) = Some e2 /\
    buffer_text e2 = buffer_text buffer_ab.
Proof.
  apply (merge_lines_undoes_split_line (H:=example_host) buffer_ab
           [line_of [97; 98]] 4 0 1 (line_of [97; 98])).
  - by intros sd.
  - done.
  - done.
  - repeat constructor. by vm_compute.
  - lia.
  - done.
  - by vm_compute.
Defined.

(** ** Motions *)

Lemma cursor_only_refl e : cursor_only e e.
Proof. unfold cursor_only. by destruct e. Qed.

Lemma cursor_only_trans e1 e2 e3 :
  cursor_only e1 e2 -> cursor_only e2 e3 -> cursor_only e1 e3.
Proof. unfold cursor_only. intros -> ->. by destruct e1. Qed.

Lemma cursor_only_fields e ln cn pc :
  cursor_only e (set_preferred_column_field (set_col_no (set_line_no e ln) cn)
                   pc).
Proof. unfold cursor_only. by destruct e. Qed.

Lemma cursor_only_line e ln : cursor_only e (set_line_no e ln).
Proof. unfold cursor_only. by destruct e. Qed.

Lemma cursor_only_col e cn : cursor_only e (set_col_no e cn).
Proof. unfold cursor_only. by destruct e. Qed.

Lemma cursor_only_placed e : cursor_only e (place_cursor_actual e).
Proof.
  rewrite place_cursor_actual_eq. unfold cursor_only. by destruct e.
Qed.

Lemma cursor_only_preferred e e' :
  set_preferred_column e = Some e' -> cursor_only e e'.
Proof.
  unfold set_preferred_column. intros Hrun. bind_steps Hrun.
  unfold cursor_only. by destruct e.
Qed.

Lemma cursor_only_settle e e' : settle_column e = Some e' -> cursor_only e e'.
Proof.
  unfold settle_column. intros Hrun. bind_step Hrun.
  destruct (seek_column _ _ _ _ _) as [sx col]. cbv zeta in Hrun.
  injection Hrun as <-. clear E.
  rewrite place_cursor_actual_eq. unfold cursor_only, insert_bonus.
  destruct e. fields.
  repeat match goal with
         | |- context [if ?b then _ else _] => destruct b; fields
         end; reflexivity.
Qed.

Lemma move_cursor_only m e e' : move m e = Some e' -> cursor_only e e'.
Proof.
  destruct m; cbn [move].
  - unfold cursor_left. intros Hrun.
    apply cursor_only_preferred in Hrun.
    eapply cursor_only_trans; [|exact Hrun].
    case_bool_decide; [|apply cursor_only_refl].
    eapply cursor_only_trans; [apply cursor_only_col|apply cursor_only_placed].
  - unfold cursor_right. intros Hrun. bind_step Hrun.
    apply cursor_only_preferred in Hrun.
    eapply cursor_only_trans; [|exact Hrun].
    case_bool_decide; [|apply cursor_only_refl].
    eapply cursor_only_trans; [apply cursor_only_col|apply cursor_only_placed].
  - unfold cursor_up. intros Hrun.
    bind_step Hrun; [|bind_steps Hrun; apply cursor_only_refl].
    apply cursor_only_settle in Hrun.
    eapply cursor_only_trans; [apply cursor_only_line|exact Hrun].
  - unfold cursor_down. intros Hrun.
    bind_step Hrun; [|bind_steps Hrun; apply cursor_only_refl].
    apply cursor_only_settle in Hrun.
    eapply cursor_only_trans; [apply cursor_only_line|exact Hrun].
  - unfold cursor_home. intros Hrun. bind_steps Hrun.
    apply cursor_only_preferred in E.
    eapply cursor_only_trans; [apply cursor_only_col|].
    eapply cursor_only_trans; [exact E|apply cursor_only_placed].
  - unfold cursor_end. intros Hrun. bind_steps Hrun.
    apply cursor_only_preferred in E0.
    eapply cursor_only_trans; [apply cursor_only_col|].
    eapply cursor_only_trans; [exact E0|apply cursor_only_placed].
Qed.



(** ** Tab stops *)

(** X20.  With a tab stop from 1 to 15, on a line whose cells have no
    negative width, [recalculate_tabs] gives every tab the width that
    takes it to the next tab stop, [tabstop - column mod tabstop] for
    the display column it starts in, and leaves every other cell, the
    codepoints and the flags as they are; run again on its result it
    changes nothing. *)
Theorem recalculate_tabs_widths (e : buffer_t) (l : line_t) :
  loading e = false -> 0 < tabstop e < 16 ->
  Forall (λ c, 0 <= display_width c) (text l) ->
  exists l',
    recalculate_tabs e l = Some l' /\
    Forall2 (λ c c', codepoint c' = codepoint c /\ flags c' = flags c /\
                     (codepoint c ≠ 9 -> c' = c)) (text l) (text l') /\
    (forall idx c, text l' !! idx = Some c -> codepoint c = 9 ->
       display_width c
       = tabstop e - column_of (text l') idx `mod` tabstop e) /\
    recalculate_tabs e l' = Some l'.
Proof.
  intros Hload Hts Hw.
  destruct (recalculate_tabs_loop_total (tabstop e) 0 (text l)
              ltac:(lia)) as [cells Hcells].
  assert (Hrun : recalculate_tabs e l = Some (set_text l cells)).
  { unfold recalculate_tabs. by rewrite Hload, Hcells. }
  exists (set_text l cells). split; [done|].
  split; [by apply (recalculate_tabs_loop_frame _ _ _ _ Hcells)|].
  split; [|by apply (recalculate_tabs_idempotent _ l)].
  intros idx c Hc Htab.
  exact (recalculate_tabs_loop_width (tabstop e) 0 (text l) cells Hts
           (Z.le_refl 0) Hw Hcells idx c Hc Htab).
Qed.

Lemma recalculate_tabs_widths_witness :
  exists l',
    recalculate_tabs buffer_ab (line_of [97; 9; 98]) = Some l' /\
    text l' = [Char 1 0 97; Char 3 0 9; Char 1 0 98].
Proof.
  destruct (recalculate_tabs_widths buffer_ab (line_of [97; 9; 98]))
    as (l' & Hrun & _); [done|by vm_compute|by repeat constructor|].
  exists l'. split; [done|].
  vm_compute in Hrun. by injection Hrun as <-.
Defined.

(** ** Redo *)

Lemma rep_unique e ls k ls' k' : rep e ls k -> rep e ls' k' -> ls' = ls.
Proof.
  intros (Hv & Hc & _) (Hv' & Hc' & _). rewrite Hv in Hv'. rewrite Hc in Hc'.
  unfold vec in Hv'. apply app_inj_1 in Hv' as [Hv' _].
  - symmetry. by apply (inj (fmap Some)) in Hv'.
  - rewrite !length_fmap. lia.
Qed.

Lemma rep_cursor e ls k ln cn :
  rep e ls k -> rep (set_col_no (set_line_no e ln) cn) ls k.
Proof. done. Qed.

(** Undoing a record that typing made keeps the capacities of the
    lines in range. *)
Lemma undo_record_lines `{Host} e r e' ls k :
  good_lexer e -> loading e = true -> rep e ls k ->
  typing_record r = true -> undo_record e r = Some e' ->
  exists ls' k', rep e' ls' k' /\ (Forall avail_ok ls -> Forall avail_ok ls').
Proof.
  intros Hgood Hload Hrep Hty Hrun.
  assert (Hts : loading e = false -> tabstop e ≠ 0) by (by rewrite Hload).
  destruct r as [|lineno offset cp|lineno offset old|lineno offset cp old| | |
                 |lineno split| |]; try done; cbn [undo_record] in Hrun.
  - injection Hrun as <-. by exists ls, k.
  - bind_step Hrun. injection Hrun as <-.
    destruct (decide (offset + 1 = 0)) as [Hz|Hnz].
    + rewrite Hz in E. unfold line_delete in E. simpl in E.
      injection E as <-. by exists ls, k.
    + destruct (line_delete_run e ls k Hgood Hts Hrep _ _ _ Hnz E)
        as (l & old & ls' & _ & _ & _ & _ & -> & _ & Hav).
      exists ls', k. split; [apply rep_cursor, upd_rep|done].
  - bind_step Hrun. injection Hrun as <-.
    destruct (line_insert_run e ls k Hgood Hts Hrep _ _ _ _ E)
      as (l & ls' & _ & _ & _ & -> & _ & Hav).
    exists ls', k. split; [apply rep_cursor, upd_rep|done].
  - bind_step Hrun. injection Hrun as <-.
    destruct (line_replace_run e ls k Hgood Hts Hrep _ _ _ _ E)
      as (l & old' & ls' & _ & _ & _ & _ & -> & _ & Hav).
    exists ls', k. split; [apply rep_cursor, upd_rep|done].
  - bind_step Hrun. injection Hrun as <-.
    destruct (decide (split = 0)) as [->|Hsp].
    + change (split_line e (lineno - 1) 0) with (add_line e (lineno - 1)) in E.
      destruct (add_line_run e ls k Hgood Hrep _ _ E)
        as [[_ ->]|(k1 & ls' & _ & _ & -> & _ & Hav)].
      * by exists ls, k.
      * exists ls', k1. split; [apply rep_cursor, upd_rep|done].
    + destruct (split_line_run e ls k Hgood Hts Hrep _ _ _ Hsp E)
        as (l & k1 & ls' & _ & _ & _ & _ & -> & _ & Hav).
      exists ls', (S k1). split; [apply rep_cursor, upd_rep|done].
  - injection Hrun as <-. by exists ls, k.
Qed.

Lemma applied_typing slots r d d' :
  applied slots r d d' -> typing_record r = true /\ is_sentinel r = false.
Proof. by destruct r. Qed.

Section Group.
Context `{Host}.
Variables (a0 : Z) (h0 : history_t) (rest : list (Z * history_t)).
Variables (d0 : list (list Z)) (slots : nat).
Hypothesis Henabled : history_enabled global_config = true.
Hypothesis Hboundary : is_break h0 = true \/ is_sentinel h0 = true.
Hypothesis Hd0 : d0 ≠ [].

(** The loop of [undo_history] takes back a whole group: the record on
    top of the journal and the records under it down to the next break
    or the sentinel. *)
Lemma undo_loop_group tl : forall a r e ls k,
  good_lexer e -> loading e = true -> rep e ls k -> Forall avail_ok ls ->
  (length ls + k)%nat = slots -> 1 <= line_no e -> unbroken tl ->
  replayable slots ((a, r) :: tl) (doc_of ls) d0 ->
  exists e' ls' k',
    undo_loop (((a, r) :: tl) ++ (a0, h0) :: rest) e = Some e' /\
    hist_past e' = (a0, h0) :: rest /\
    hist_next e' = reverse ((a, r) :: tl) ++ hist_next e /\
    rep e' ls' k' /\ doc_of ls' = d0 /\ (length ls' + k')%nat = slots /\
    Forall avail_ok ls' /\ 1 <= line_no e' /\
    (loading e', syntax e', tabstop e') = (loading e, syntax e, tabstop e).
Proof.
  induction tl as [|[a' r'] tl IH];
    intros a r e ls k Hgood Hload Hrep Hav Hlen Hln Hun Hre;
    cbn [replayable] in Hre; destruct Hre as (d1 & Happ & Hre);
    destruct (applied_typing _ _ _ _ Happ) as [Hty Hsent];
    rewrite <- app_comm_cons, undo_loop_cons, Hsent; subst slots;
    destruct (undo_record_text e ls k r d1 Hgood Hload Hrep Happ Hln)
      as (e1 & ls1 & k1 & Hrun & Hrep1 & Hdoc1 & Hlen1 & Hln1 & Hcfg1);
    rewrite Hrun; cbn [mbind option_bind];
    destruct (undo_record_lines e r e1 ls k Hgood Hload Hrep Hty Hrun)
      as (ls1' & k1' & Hrep1' & Hav1);
    rewrite (rep_unique _ _ _ _ _ Hrep1 Hrep1') in Hav1;
    specialize (Hav1 Hav);
    pose proof (undo_record_journal e r e1 Hload Hrun) as Hj;
    unfold journal in Hj; injection Hj as _ _ Hp1 Hn1 _ _;
    injection Hcfg1 as Hl1 Hs1 Ht1.
  - cbn [replayable] in Hre. subst d1. cbn [app].
    exists (set_history e1 ((a0, h0) :: rest) ((a, r) :: hist_next e1)),
      ls1, k1.
    split.
    { destruct Hboundary as [Hb|Hb]; [by rewrite Hb|].
      destruct (is_break h0); [done|]. cbn [undo_loop]. by rewrite Hb. }
    fields. split; [done|]. split; [by rewrite Hn1|].
    split; [done|]. split; [done|]. split; [done|]. split; [done|].
    split; [done|]. by rewrite Hl1, Hs1, Ht1.
  - apply Forall_cons_1 in Hun as [Hb' Hun]. cbn [snd] in Hb'.
    rewrite <- app_comm_cons, Hb'.
    set (e2 := set_history e1 ((a', r') :: tl ++ (a0, h0) :: rest)
                 ((a, r) :: hist_next e1)).
    destruct (IH a' r' e2 ls1 k1) as (e' & ls' & k' & Hrun' & Hp' & Hn' & Hrep'
                                       & Hdoc' & Hlen' & Hav' & Hln' & Hcfg');
      try done.
    { apply (good_lexer_syntax e); done. }
    { unfold e2. fields. congruence. }
    { by rewrite Hdoc1. }
    exists e', ls', k'. rewrite app_comm_cons. split; [exact Hrun'|].
    split; [done|]. split.
    { rewrite Hn'. unfold e2. fields. rewrite Hn1.
      rewrite !reverse_cons, <- !app_assoc. done. }
    split; [done|]. split; [done|]. split; [lia|]. split; [done|].
    split; [done|]. rewrite Hcfg'. unfold e2. fields.
    by rewrite Hl1, Hs1, Ht1.
Qed.

(** What [undo_history] and [redo_history] do after their loop keeps
    the capacities of the lines in range. *)
Lemma after_replay_lines e e' ls k :
  good_lexer e -> rep e ls k -> after_replay e = Some e' ->
  exists ls', rep e' ls' k /\ Forall2 same_line ls ls'.
Proof.
  intros Hgood (Hv & Hc & Ha). unfold after_replay. cbv zeta. intros Hrun.
  set (eA := if bool_decide (line_no e > line_count e)
             then set_line_no e (line_count e) else e) in *.
  assert (HA : story eA = story e)
    by (unfold eA; by destruct (bool_decide (line_no e > line_count e))).
  unfold story in HA. injection HA as HvA HcA HaA HpA HnA HlA HtA HsA.
  bind_step Hrun.
  set (eB := if bool_decide (col_no eA > actual x)
             then set_col_no eA (actual x) else eA) in *.
  assert (HB : story eB = story eA)
    by (unfold eB; by destruct (bool_decide (col_no eA > actual x))).
  unfold story in HB. injection HB as HvB HcB HaB HpB HnB HlB HtB HsB.
  set (eC := set_loading _ false) in *.
  bind_step Hrun.
  assert (HvC : lines eC = vec ls k) by (unfold eC; fields; congruence).
  destruct (reset_istate_tabs_frame _ _ _ _ _ _ HvC E0) as (ls1 & -> & Hs1).
  bind_step Hrun.
  pose proof (same_lines_length _ _ Hs1) as Hlen1.
  assert (HgC : good_lexer (set_lines eC (vec ls1 k)))
    by (apply (good_lexer_syntax e); [unfold eC; fields; congruence|done]).
  assert (HcC : line_count eC = Z.of_nat (length ls))
    by (unfold eC; fields; congruence).
  destruct (λ H1 H2 H3, recalculate_all_frame _ _ 0 ls1 k _ HgC eq_refl
                          H1 H2 H3 E1)
    as (ls2 & -> & Hs2); fields; try lia.
  injection Hrun as <-. rewrite place_cursor_actual_eq.
  pose proof (same_lines_length _ _ Hs2) as Hlen2.
  exists ls2. split; [|by eapply same_lines_trans].
  unfold rep, eC. fields. split_and!; [done|lia|lia].
Qed.

Lemma undo_history_group a r tl e ls k :
  good_lexer e -> tabstop e ≠ 0 -> rep e ls k -> Forall avail_ok ls ->
  (length ls + k)%nat = slots -> 1 <= line_no e ->
  hist_past e = ((a, r) :: tl) ++ (a0, h0) :: rest -> unbroken tl ->
  replayable slots ((a, r) :: tl) (doc_of ls) d0 ->
  exists e' ls' k',
    undo_history e = Some e' /\
    hist_past e' = (a0, h0) :: rest /\
    hist_next e' = reverse ((a, r) :: tl) ++ hist_next e /\
    rep e' ls' k' /\ doc_of ls' = d0 /\ (length ls' + k')%nat = slots /\
    Forall avail_ok ls' /\ 1 <= line_no e' /\
    good_lexer e' /\ tabstop e' ≠ 0.
Proof.
  intros Hgood Hts Hrep Hav Hlen Hln Hpast Hun Hre.
  unfold undo_history. rewrite Henabled. cbn [negb]. cbv zeta.
  change (hist_past (set_loading e true)) with (hist_past e). rewrite Hpast.
  pose proof Hre as Hre'. cbn [replayable] in Hre'.
  destruct Hre' as (d1 & Happ & _).
  destruct (applied_typing _ _ _ _ Happ) as [_ Hsent].
  rewrite <- app_comm_cons. cbn [head mbind option_bind]. rewrite Hsent.
  rewrite app_comm_cons.
  destruct (undo_loop_group tl a r (set_loading e true) ls k)
    as (e1 & ls1 & k1 & -> & Hp1 & Hn1 & Hrep1 & Hdoc1 & Hlen1 & Hav1 & Hln1
        & Hcfg1); try done.
  cbn [mbind option_bind]. injection Hcfg1 as Hl1 Hs1 Ht1.
  assert (Hgood1 : good_lexer e1) by (apply (good_lexer_syntax e); done).
  destruct (after_replay_spec e1 ls1 k1)
    as (e2 & ls2 & Hrun2 & Hrep2 & Hdoc2 & Hcfg2 & Hl2 & Hln2); try done.
  { by rewrite Ht1. }
  { apply doc_of_nonempty. by rewrite Hdoc1. }
  rewrite Hrun2.
  pose proof (after_replay_journal e1 e2 Hrun2) as Hj.
  unfold journal in Hj. injection Hj as _ _ Hp2 Hn2 _ _.
  destruct (after_replay_lines e1 e2 ls1 k1 Hgood1 Hrep1 Hrun2)
    as (ls2' & Hrep2' & Hs2).
  rewrite (rep_unique _ _ _ _ _ Hrep2 Hrep2') in Hs2.
  injection Hcfg2 as Hsy2 Hts2 _ _.
  exists e2, ls2, k1. split; [done|]. split; [congruence|].
  split; [by rewrite Hn2, Hn1|]. split; [done|].
  split; [congruence|].
  apply (f_equal length) in Hdoc2 as Hlen2. rewrite !doc_of_length in Hlen2.
  split; [lia|]. split; [by apply (same_lines_available _ _ Hs2)|].
  split; [done|].
  split; [apply (good_lexer_syntax e); [congruence|done]|congruence].
Qed.
End Group.

(** Doing again what a record tells: the text after it, from the text
    before it. *)
Lemma redo_record_text `{Host} e ls k r d' :
  good_lexer e -> loading e = true -> rep e ls k -> Forall avail_ok ls ->
  1 <= line_no e -> applied (length ls + k) r (doc_of ls) d' ->
  exists e' ls' k',
    redo_record e r = Some e' /\ rep e' ls' k' /\ doc_of ls' = d' /\
    (length ls' + k')%nat = (length ls + k)%nat /\ Forall avail_ok ls' /\
    1 <= line_no e' /\ journal e' = journal e /\
    (syntax e', tabstop e') = (syntax e, tabstop e).
Proof.
  intros Hgood Hload Hrep Hav Hln Happ.
  assert (Hts : loading e = false -> tabstop e ≠ 0) by (by rewrite Hload).
  assert (Hdone : forall e1 r1 ls1 k1 ln cn,
            e1 = upd e r1 ls1 k1 -> doc_of ls1 = d' ->
            (length ls1 + k1)%nat = (length ls + k)%nat ->
            Forall avail_ok ls1 -> 1 <= ln ->
            exists e' ls' k',
              Some (set_col_no (set_line_no e1 ln) cn) = Some e' /\
              rep e' ls' k' /\ doc_of ls' = d' /\
              (length ls' + k')%nat = (length ls + k)%nat /\
              Forall avail_ok ls' /\ 1 <= line_no e' /\
              journal e' = journal e /\
              (syntax e', tabstop e') = (syntax e, tabstop e)).
  { intros e1 r1 ls1 k1 ln cn -> Hdoc1 Hlen1 Hav1 Hln1.
    eexists _, ls1, k1. split; [done|].
    split; [apply rep_cursor, upd_rep|]. split; [done|]. split; [done|].
    split; [done|]. split; [done|].
    unfold upd. rewrite (hist_record_loading e r1 Hload). done. }
  destruct r as [|lineno offset cp|lineno offset old|lineno offset cp old| | |
                 |lineno split| |]; simpl in Happ; try done;
    cbn [redo_record].
  - destruct Happ as (Hlineno & Hcp & cs & Hcs & Hoff & Hdoc).
    destruct (doc_of_lookup_inv ls _ cs Hcs) as (l & Hl & Hc).
    destruct (line_insert_spec e ls k (mk_char (codepoint_width cp) 0 cp)
                offset lineno l Hgood Hts Hrep Hlineno Hl)
      as (ls1 & -> & Hdoc1 & Hav1).
    { rewrite actual_content, Hc. done. }
    cbn [mbind option_bind]. eapply Hdone; [done| | |by apply Hav1|lia].
    + rewrite Hdoc1, Hc, Hdoc.
      change (codepoint (mk_char (codepoint_width cp) 0 cp))
        with (wrap21 cp).
      by rewrite Hcp.
    + apply (f_equal length) in Hdoc1.
      rewrite length_insert, !doc_of_length in Hdoc1. lia.
  - destruct Happ as (Hlineno & Hcp & cs & Hcs & Hoff & Hold & Hdoc).
    destruct (doc_of_lookup_inv ls _ cs Hcs) as (l & Hl & Hc).
    destruct (line_delete_spec e ls k offset lineno l old Hgood Hts Hrep
                Hlineno Hl) as (ls1 & -> & Hdoc1 & Hav1).
    { rewrite actual_content, Hc. done. }
    { by rewrite Hc. }
    cbn [mbind option_bind]. eapply Hdone; [done| | |by apply Hav1|lia].
    + by rewrite Hdoc1, Hc, Hdoc.
    + apply (f_equal length) in Hdoc1.
      rewrite length_insert, !doc_of_length in Hdoc1. lia.
  - destruct Happ as (Hlineno & Hcp & Hcp' & cs & Hcs & Hoff & Hold & Hdoc).
    destruct (doc_of_lookup_inv ls _ cs Hcs) as (l & Hl & Hc).
    destruct (line_replace_spec e ls k (mk_char (codepoint_width cp) 0 cp)
                offset lineno l old Hgood Hts Hrep Hlineno Hl)
      as (ls1 & -> & Hdoc1 & Hav1).
    { rewrite actual_content, Hc. done. }
    { by rewrite Hc. }
    cbn [mbind option_bind]. eapply Hdone; [done| | |by apply Hav1|lia].
    + rewrite Hdoc1, Hc, Hdoc.
      change (codepoint (mk_char (codepoint_width cp) 0 cp))
        with (wrap21 cp).
      by rewrite Hcp.
    + apply (f_equal length) in Hdoc1.
      rewrite length_insert, !doc_of_length in Hdoc1. lia.
  - destruct Happ as (Hlineno & Hslack & ca & cb & Hca & Hcb & -> & Hdoc).
    destruct (doc_of_lookup_inv ls _ ca Hca) as (la & Hla & Hcla).
    destruct (doc_of_lookup_inv ls _ cb Hcb) as (lb & Hlb & Hclb).
    rewrite doc_of_length in Hslack.
    assert (Hk : exists k1, k = S (S k1)) by (exists (k - 2)%nat; lia).
    destruct Hk as [k1 ->].
    assert (Hava : avail_ok la) by (by eapply Forall_lookup_1).
    destruct (grow_available_total (Z.to_nat (actual la + actual lb))
                (available la) (actual la + actual lb) Hava)
      as (av & Hgrow & _).
    { unfold avail_ok, actual in *. lia. }
    destruct (merge_lines_spec e ls k1 lineno la lb av Hgood Hts Hrep Hlineno
                Hla Hlb Hgrow) as (ls1 & -> & Hdoc1 & Hav1).
    cbn [mbind option_bind]. eapply Hdone; [done| | |by apply Hav1|lia].
    + by rewrite Hdoc1, Hcla, Hclb, Hdoc.
    + apply (f_equal length) in Hdoc1.
      apply lookup_lt_Some in Hlb.
      rewrite length_delete, length_insert, !doc_of_length in Hdoc1.
      * lia.
      * apply lookup_lt_is_Some_2. rewrite length_insert, doc_of_length. lia.
  - subst d'. exists e, ls, k. split; [done|]. split; [done|].
    split; [done|]. split; [done|]. split; [done|]. done.
Qed.

Lemma replayable_snoc slots rs a r d d0 :
  replayable slots (rs ++ [(a, r)]) d d0 <->
  exists dm, applied slots r d0 dm /\ replayable slots rs d dm.
Proof.
  revert d. induction rs as [|[a' r'] rs IH]; intros d;
    cbn [app replayable].
  - split.
    + intros (d1 & Happ & ->). by exists d.
    + intros (dm & Happ & ->). by exists d0.
  - split.
    + intros (d1 & Happ & Hre). apply IH in Hre as (dm & Happ0 & Hre).
      exists dm. split; [done|]. by exists d1.
    + intros (dm & Happ0 & d1 & Happ & Hre). exists d1. split; [done|].
      apply IH. by exists dm.
Qed.

(** The loop of [redo_history] over records that are no breaks, oldest
    first. *)
Lemma redo_loop_run `{Host} fw : forall e ls k tail past d,
  good_lexer e -> loading e = true -> rep e ls k -> Forall avail_ok ls ->
  1 <= line_no e -> unbroken fw ->
  hist_past e = past -> hist_next e = fw ++ tail ->
  replayable (length ls + k) (reverse fw) d (doc_of ls) ->
  exists e' ls' k',
    redo_loop (fw ++ tail) e = redo_loop tail e' /\
    hist_past e' = reverse fw ++ past /\ hist_next e' = tail /\
    rep e' ls' k' /\ doc_of ls' = d /\
    (length ls' + k')%nat = (length ls + k)%nat /\
    Forall avail_ok ls' /\ 1 <= line_no e' /\ loading e' = true /\
    (syntax e', tabstop e') = (syntax e, tabstop e).
Proof.
  induction fw as [|[a r] fw IH];
    intros e ls k tail past d Hgood Hload Hrep Hav Hln Hun Hp Hn Hre.
  - rewrite reverse_nil in Hre. cbn [app replayable] in *. subst d.
    by exists e, ls, k.
  - apply Forall_cons_1 in Hun as [Hb Hun]. cbn [snd] in Hb.
    rewrite reverse_cons in Hre.
    apply replayable_snoc in Hre as (dm & Happ & Hre).
    destruct (redo_record_text e ls k r dm Hgood Hload Hrep Hav Hln Happ)
      as (e1 & ls1 & k1 & Hrun & Hrep1 & Hdoc1 & Hlen1 & Hav1 & Hln1 & Hj
          & Hcfg).
    unfold journal in Hj. injection Hj as Hl1 _ Hp1 Hn1 _ _.
    injection Hcfg as Hs1 Ht1.
    set (e2 := set_history e1 ((a, r) :: hist_past e1) (fw ++ tail)).
    destruct (IH e2 ls1 k1 tail ((a, r) :: past) d)
      as (e' & ls' & k' & Hrun' & Hp' & Hn' & Hrep' & Hdoc' & Hlen' & Hav'
          & Hln' & Hl' & Hcfg'); try done.
    { apply (good_lexer_syntax e); done. }
    { unfold e2. fields. congruence. }
    { unfold e2. fields. congruence. }
    { by rewrite Hlen1, Hdoc1. }
    exists e', ls', k'. split.
    { rewrite <- app_comm_cons. cbn [redo_loop]. rewrite Hb, Hrun.
      cbn [mbind option_bind]. exact Hrun'. }
    split; [by rewrite Hp', reverse_cons, <- app_assoc|].
    split; [done|]. split; [done|]. split; [done|]. split; [lia|].
    split; [done|]. split; [done|]. split; [done|].
    rewrite Hcfg'. unfold e2. fields. by rewrite Hs1, Ht1.
Qed.

Lemma redo_history_next `{Host} e a h past :
  history_enabled global_config = true ->
  hist_past e = (a, h) :: past -> hist_next e ≠ [] ->
  redo_history e
  = e' ← redo_loop (hist_next e) (set_loading e true); after_replay e'.
Proof.
  intros Hen Hp Hn. unfold redo_history. rewrite Hen. cbn [negb]. cbv zeta.
  change (hist_past (set_loading e true)) with (hist_past e).
  change (hist_next (set_loading e true)) with (hist_next e).
  rewrite Hp. cbn [head mbind option_bind].
  by destruct (hist_next e).
Qed.

Lemma unbroken_reverse rs : unbroken rs -> unbroken (reverse rs).
Proof. unfold unbroken. by rewrite Forall_reverse. Qed.

(** X21.  Redo takes back an undo.  Let the top of the journal be a
    group of records that typing made, down to a break or the sentinel,
    and let them tell how the text came about; let the group end in a
    break, or nothing be left to redo.  Then [undo_history] returns with
    the text as it was before the group and the journal at the record
    under it, and [redo_history] after it returns with the text, the
    journal position and the records left to redo as they were before
    the undo. *)
Theorem redo_restores_undone `{Host} (e : buffer_t) (ls : list line_t)
  (k : nat) (a : Z) (r : history_t) (tl : list (Z * history_t)) (a0 : Z)
  (h0 : history_t) (rest : list (Z * history_t)) (d0 : list (list Z)) :
  history_enabled global_config = true ->
  good_lexer e -> tabstop e ≠ 0 -> rep e ls k -> Forall avail_ok ls ->
  1 <= line_no e ->
  hist_past e = ((a, r) :: tl) ++ (a0, h0) :: rest -> unbroken tl ->
  is_break h0 = true \/ is_sentinel h0 = true ->
  replayable (length ls + k) ((a, r) :: tl) (doc_of ls) d0 -> d0 ≠ [] ->
  is_break r = true \/ hist_next e = [] ->
  exists e1 e2,
    undo_history e = Some e1 /\
    buffer_text e1 = Some <$> d0 /\ hist_past e1 = (a0, h0) :: rest /\
    redo_history e1 = Some e2 /\
    buffer_text e2 = buffer_text e /\ hist_past e2 = hist_past e /\
    hist_next e2 = hist_next e.
Proof.
  intros Hen Hgood Hts Hrep Hav Hln Hpast Hun Hb0 Hre Hd0 Hlast.
  destruct (undo_history_group a0 h0 rest d0 (length ls + k) Hen Hb0 Hd0
              a r tl e ls k)
    as (e1 & ls1 & k1 & Hundo & Hp1 & Hn1 & Hrep1 & Hdoc1 & Hlen1 & Hav1
        & Hln1 & Hgood1 & Hts1); try done.
  exists e1.
  assert (Hnext : hist_next e1 ≠ []).
  { rewrite Hn1, reverse_cons, <- app_assoc. by destruct (reverse tl). }
  rewrite (redo_history_next e1 a0 h0 rest Hen Hp1 Hnext).
  set (eL := set_loading e1 true).
  assert (Hloop : exists e' ls' k',
            redo_loop (hist_next e1) eL = Some e' /\
            hist_past e' = hist_past e /\ hist_next e' = hist_next e /\
            rep e' ls' k' /\ doc_of ls' = doc_of ls /\
            1 <= line_no e' /\
            (syntax e', tabstop e') = (syntax e1, tabstop e1)).
  { pose proof Hre as Hre'. cbn [replayable] in Hre'.
    destruct Hre' as (d1 & Happ & Hre1).
    destruct (decide (is_break r = true)) as [Hbr|Hbr].
    - assert (r = HISTORY_BREAK) as -> by (by destruct r).
      cbn [applied] in Happ. subst d1.
      destruct (redo_loop_run (reverse tl) eL ls1 k1
                  ((a, HISTORY_BREAK) :: hist_next e) ((a0, h0) :: rest)
                  (doc_of ls))
        as (e' & ls' & k' & Hrun' & Hp' & Hn' & Hrep' & Hdoc' & _ & _ & Hln'
            & _ & Hcfg'); try done.
      { by apply unbroken_reverse. }
      { unfold eL. fields. rewrite Hn1, reverse_cons, <- app_assoc. done. }
      { rewrite reverse_involutive, Hlen1, Hdoc1. done. }
      eexists _, ls', k'. split.
      { rewrite Hn1, reverse_cons, <- app_assoc. cbn [app].
        rewrite Hrun'. cbn [redo_loop is_break]. done. }
      fields. rewrite Hp', Hpast, reverse_involutive.
      split; [done|]. split; [done|]. split; [done|]. split; [done|].
      split; [done|]. by rewrite Hcfg'.
    - destruct Hlast as [Hbr'|Hnil]; [done|].
      destruct (redo_loop_run (reverse ((a, r) :: tl)) eL ls1 k1 []
                  ((a0, h0) :: rest) (doc_of ls))
        as (e' & ls' & k' & Hrun' & Hp' & Hn' & Hrep' & Hdoc' & _ & _ & Hln'
            & _ & Hcfg'); try done.
      { apply unbroken_reverse. constructor; [|done].
        cbn [snd]. by destruct (is_break r). }
      { unfold eL. fields. by rewrite Hn1, Hnil. }
      { rewrite reverse_involutive, Hlen1, Hdoc1. done. }
      eexists e', ls', k'. split.
      { rewrite Hn1, Hnil. rewrite Hrun'. done. }
      rewrite Hp', Hn', Hpast, Hnil, reverse_involutive.
      split; [done|]. split; [done|]. split; [done|]. split; [done|].
      split; [done|]. by rewrite Hcfg'. }
  destruct Hloop as (e' & ls' & k' & -> & Hp' & Hn' & Hrep' & Hdoc' & Hln'
                     & Hcfg').
  cbn [mbind option_bind]. injection Hcfg' as Hs' Ht'.
  destruct (after_replay_spec e' ls' k')
    as (e2 & ls2 & Hrun2 & Hrep2 & Hdoc2 & _ & _ & _); try done.
  { apply (good_lexer_syntax e1); done. }
  { by rewrite Ht'. }
  { apply doc_of_nonempty. rewrite Hdoc'.
    by apply (replayable_nonempty _ _ _ _ Hre). }
  pose proof (after_replay_journal e' e2 Hrun2) as Hj.
  unfold journal in Hj. injection Hj as _ _ Hp2 Hn2 _ _.
  exists e2. split; [done|].
  split; [by rewrite (rep_buffer_text _ _ _ Hrep1), Hdoc1|].
  split; [done|]. split; [done|].
  split; [|split; congruence].
  by rewrite (rep_buffer_text _ _ _ Hrep2), (rep_buffer_text _ _ _ Hrep),
    Hdoc2, Hdoc'.
Qed.

(** Undoing the [x] typed in front of [ab] gives [ab]; redoing gives
    [xab] again. *)
Lemma redo_restores_undone_witness :
  exists e1 e2,
    undo_history (H:=example_host) buffer_xab = Some e1 /\
    buffer_text e1 = Some <$> [[97; 98]] /\
    hist_past e1 = [(1, HISTORY_SENTINEL)] /\
    redo_history (H:=example_host) e1 = Some e2 /\
    buffer_text e2 = buffer_text buffer_xab /\
    hist_past e2 = hist_past buffer_xab /\
    hist_next e2 = hist_next buffer_xab.
Proof.
  apply (redo_restores_undone (H:=example_host) buffer_xab
           [line_of [120; 97; 98]] 7 3 HISTORY_BREAK
           [(2, HISTORY_INSERT 0 0 120)] 1 HISTORY_SENTINEL [] [[97; 98]]).
  - done.
  - by intros sd.
  - done.
  - done.
  - repeat constructor. by vm_compute.
  - by vm_compute.
  - done.
  - by repeat constructor.
  - by right.
  - cbn [replayable applied]. exists [[120; 97; 98]]. split; [done|].
    exists [[97; 98]]. split; [|done].
    split; [lia|]. split; [done|]. exists [97; 98].
    split; [done|]. split; [by vm_compute|done].
  - done.
  - by left.
Defined.

(** ** Removing a line *)

Lemma vec_remove_last ls k x :
  ls !! (length ls - 1)%nat = Some x ->
  free_slot (vec ls k) (Z.of_nat (length ls - 1))
  = Some (vec (delete (length ls - 1)%nat ls) (S k)).
Proof.
  intros Hx. pose proof (lookup_lt_Some _ _ _ Hx) as Hlt.
  rewrite (vec_split _ _ _ _ Hx). unfold free_slot.
  assert (Hpre : length (Some <$> take (length ls - 1) ls)
                 = (length ls - 1)%nat)
    by (rewrite length_fmap, length_take; lia).
  rewrite store_middle_at by lia. f_equal.
  rewrite drop_ge by lia. cbn [fmap list_fmap app].
  unfold vec. rewrite delete_take_drop, drop_ge by lia.
  by rewrite app_nil_r.
Qed.

(** X22.  In a buffer of two lines or more [remove_line] takes the line
    out of the vector and moves the lines after it up, when the line is
    the last one or the vector has two free slots: the text loses that
    line, the line count goes down by one and the vector keeps its
    size. *)
Theorem remove_line_removes `{Host} (e : buffer_t) (ls : list line_t)
  (k : nat) (offset : Z) (x : line_t) :
  rep e ls k -> (2 <= length ls)%nat ->
  0 <= offset -> ls !! Z.to_nat offset = Some x ->
  offset = Z.of_nat (length ls) - 1 \/ (2 <= k)%nat ->
  exists e',
    remove_line e offset = Some e' /\
    rep e' (delete (Z.to_nat offset) ls) (S k) /\
    buffer_text e' = delete (Z.to_nat offset) (buffer_text e) /\
    line_count e' = line_count e - 1 /\
    hist_past e' = hist_past (hist_record e (HISTORY_REMOVE_LINE offset x)).
Proof.
  intros Hrep Hlen Hoff Hx Hroom. pose proof Hrep as (Hv & Hc & Ha).
  pose proof (lookup_lt_Some _ _ _ Hx) as Hlt.
  set (i := Z.to_nat offset) in *.
  assert (Hoffi : offset = Z.of_nat i) by lia.
  unfold remove_line. rewrite bool_decide_false by lia.
  set (r := HISTORY_REMOVE_LINE offset x).
  assert (Hrec : (if negb (loading e) && history_enabled global_config
                  then line ← line_at e offset;
                       Some (HIST_APPEND e (HISTORY_REMOVE_LINE offset line))
                  else Some e) = Some (hist_record e r)).
  { unfold hist_record. destruct (negb _ && _); [|done].
    rewrite (line_at_vec _ _ _ _ Hv), bool_decide_true by done.
    fold i. by rewrite Hx. }
  rewrite Hrec. cbn [mbind option_bind].
  destruct (hist_record_frame e r) as (Hr1 & Hr2 & Hr3 & Hr4 & Hr5 & Hr6).
  rewrite Hr1, Hr5, Hv, Hc.
  assert (Hlendel : length (delete i ls) = (length ls - 1)%nat)
    by (rewrite length_delete; [done|by eexists]).
  assert (Hvec : exists v,
            (ls0 ← free_slot (vec ls k) offset;
             ls1 ← (if bool_decide (offset < Z.of_nat (length ls) - 1)
                    then ls2 ← memmove ls0 offset (offset + 1)
                                 (Z.of_nat (length ls) - (offset - 1));
                         store ls2 (Z.of_nat (length ls) - 1) None
                    else Some ls0);
             Some (set_line_count (set_lines (hist_record e r) ls1)
                     (Z.of_nat (length ls) - 1)))
            = Some v /\
            v = set_line_count
                  (set_lines (hist_record e r) (vec (delete i ls) (S k)))
                  (Z.of_nat (length ls) - 1)).
  { case_bool_decide as Hmid.
    - destruct Hroom as [?|Hk]; [lia|].
      destruct k as [|[|k']]; [lia|lia|].
      pose proof (vec_remove ls k' i x Hx) as Hvr.
      rewrite <- Hoffi in Hvr.
      destruct (free_slot (vec ls (S (S k'))) offset) as [ls0|];
        [|done].
      cbn [mbind option_bind] in *.
      destruct (memmove ls0 offset (offset + 1) _) as [ls2|]; [|done].
      cbn [mbind option_bind] in *. rewrite Hvr.
      cbn [mbind option_bind]. by eexists.
    - assert (Hi : i = (length ls - 1)%nat) by lia.
      assert (Hx' : ls !! (length ls - 1)%nat = Some x) by (by rewrite <- Hi).
      replace offset with (Z.of_nat (length ls - 1)) by lia.
      rewrite (vec_remove_last ls k x Hx').
      cbn [mbind option_bind]. eexists. split; [done|]. by rewrite Hi. }
  destruct Hvec as (e' & -> & ->). eexists. split; [done|].
  assert (Hrep' : rep (set_line_count
                         (set_lines (hist_record e r)
                            (vec (delete i ls) (S k)))
                         (Z.of_nat (length ls) - 1))
                    (delete i ls) (S k)).
  { unfold rep. fields. rewrite Hlendel, Hr6, Ha. split_and!; [done|lia|lia]. }
  split; [done|].
  split; [|split; [fields; lia|done]].
  rewrite (rep_buffer_text _ _ _ Hrep'), (rep_buffer_text _ _ _ Hrep).
  unfold doc_of. by rewrite !list_fmap_delete.
Qed.

Lemma remove_line_removes_witness :
  exists e',
    remove_line (H:=example_host) buffer_ab_cd 0 = Some e' /\
    rep e' (delete (Z.to_nat 0) [line_of [97; 98]; line_of [99; 100]]) 7 /\
    buffer_text e' = delete (Z.to_nat 0) (buffer_text buffer_ab_cd) /\
    line_count e' = line_count buffer_ab_cd - 1 /\
    hist_past e'
    = hist_past (hist_record (H:=example_host) buffer_ab_cd
                   (HISTORY_REMOVE_LINE 0 (line_of [97; 98]))).
Proof.
  apply (remove_line_removes (H:=example_host) buffer_ab_cd
           [line_of [97; 98]; line_of [99; 100]] 6 0 (line_of [97; 98])).
  - done.
  - simpl. lia.
  - lia.
  - done.
  - right. lia.
Defined.

(** [clear_line] deletes the cells of the line from the last to the
    first. *)
Lemma clear_line_spec `{Host} n : forall e ls k lineno l,
  good_lexer e -> (loading e = false -> tabstop e ≠ 0) -> rep e ls k ->
  0 <= lineno -> ls !! Z.to_nat lineno = Some l ->
  length (text l) = n ->
  exists e' ls',
    clear_line n e lineno = Some e' /\ rep e' ls' k /\
    doc_of ls' = <[Z.to_nat lineno := []]> (doc_of ls) /\
    (syntax e', tabstop e', loading e') = (syntax e, tabstop e, loading e).
Proof.
  induction n as [|n IH]; intros e ls k lineno l Hgood Hts Hrep Hln Hl Hn;
    pose proof Hrep as (Hv & _).
  - exists e, ls. split.
    + destruct l as [? ? ? [|]]; [|done]. cbn [clear_line].
      rewrite (line_at_vec _ _ _ _ Hv), bool_decide_true, Hl by done.
      cbn [mbind option_bind].
      by rewrite bool_decide_false by (unfold actual; simpl; lia).
    + split; [done|]. split; [|done]. symmetry. apply list_insert_id.
      unfold doc_of. rewrite list_lookup_fmap, Hl. cbn.
      unfold line_content. by destruct (text l).
  - cbn [clear_line].
    rewrite (line_at_vec _ _ _ _ Hv), bool_decide_true, Hl by done.
    cbn [mbind option_bind].
    rewrite bool_decide_true by (unfold actual; lia).
    assert (Hold : exists old,
              line_content l !! Z.to_nat (actual l - 1) = Some old).
    { apply lookup_lt_is_Some_2. unfold line_content, actual.
      rewrite length_fmap. lia. }
    destruct Hold as [old Hold].
    destruct (line_delete_spec e ls k (actual l) lineno l old Hgood Hts Hrep
                Hln Hl) as (ls1 & -> & Hdoc1 & _);
      [unfold actual; lia|done|].
    cbn [mbind option_bind].
    set (r := HISTORY_DELETE lineno (actual l) old).
    destruct (upd_good e r ls1 k Hgood Hts) as [Hgood1 Hts1].
    assert (Hlast : take (Z.to_nat (actual l - 1)) (line_content l)
                    ++ drop (Z.to_nat (actual l)) (line_content l)
                    = take n (line_content l)).
    { rewrite drop_ge by (unfold line_content, actual;
                          rewrite length_fmap; lia).
      rewrite app_nil_r. f_equal. unfold actual. lia. }
    rewrite Hlast in Hdoc1.
    assert (Hi : (Z.to_nat lineno < length (doc_of ls))%nat).
    { rewrite doc_of_length. by eapply lookup_lt_Some. }
    destruct (doc_of_lookup_inv ls1 (Z.to_nat lineno)
                (take n (line_content l))) as (l1 & Hl1 & Hc1).
    { rewrite Hdoc1. by apply list_lookup_insert_eq. }
    destruct (IH (upd e r ls1 k) ls1 k lineno l1 Hgood1 Hts1
                (upd_rep e r ls1 k) Hln Hl1)
      as (e' & ls' & Hrun & Hrep' & Hdoc' & Hcfg').
    { apply (f_equal length) in Hc1. unfold line_content in Hc1.
      rewrite length_take, !length_fmap in Hc1. lia. }
    exists e', ls'. split; [done|]. split; [done|].
    split; [by rewrite Hdoc', Hdoc1, list_insert_insert_eq|].
    rewrite Hcfg'. unfold upd. fields.
    destruct (hist_record_frame e r) as (_ & -> & -> & -> & _). done.
Qed.

(** X23.  The only line of a buffer is not removed: [remove_line]
    deletes its cells one by one from the end and leaves one empty
    line. *)
Theorem remove_line_keeps_last_line `{Host} (e : buffer_t) (l : line_t)
  (k : nat) :
  good_lexer e -> (loading e = false -> tabstop e ≠ 0) -> rep e [l] k ->
  exists e',
    remove_line e 0 = Some e' /\ buffer_text e' = [Some []] /\
    line_count e' = 1.
Proof.
  intros Hgood Hts Hrep. pose proof Hrep as (Hv & Hc & _).
  unfold remove_line. rewrite bool_decide_true by done.
  rewrite (line_at_vec _ _ _ _ Hv). cbn [bool_decide decide_rel].
  rewrite bool_decide_true by done.
  change ([l] !! Z.to_nat 0) with (Some l). cbn [mbind option_bind].
  destruct (clear_line_spec (length (text l)) e [l] k 0 l Hgood Hts Hrep)
    as (e' & ls' & Hrun & Hrep' & Hdoc' & _); [done|done|done|].
  exists e'. split; [done|].
  rewrite (rep_buffer_text _ _ _ Hrep'), Hdoc'. split; [done|].
  destruct Hrep' as (_ & -> & _).
  apply (f_equal length) in Hdoc'.
  rewrite length_insert, !doc_of_length in Hdoc'. cbn [length] in Hdoc'.
  lia.
Qed.

Lemma remove_line_keeps_last_line_witness :
  exists e',
    remove_line (H:=example_host) buffer_ab 0 = Some e' /\
    buffer_text e' = [Some []] /\ line_count e' = 1.
Proof.
  apply (remove_line_keeps_last_line (H:=example_host) buffer_ab
           (line_of [97; 98]) 7); [by intros sd|done|done].
Defined.

(** ** Typing and taking back *)

Lemma rep_ext e e' ls k :
  lines e' = lines e -> line_count e' = line_count e ->
  line_avail e' = line_avail e -> rep e ls k -> rep e' ls k.
Proof. unfold rep. by intros -> -> ->. Qed.

Lemma typed_state (b : buffer_t) :
  lines (set_modified (set_col_no b (col_no b + 1))) = lines b /\
  line_count (set_modified (set_col_no b (col_no b + 1))) = line_count b /\
  line_avail (set_modified (set_col_no b (col_no b + 1))) = line_avail b /\
  syntax (set_modified (set_col_no b (col_no b + 1))) = syntax b /\
  loading (set_modified (set_col_no b (col_no b + 1))) = loading b /\
  tabstop (set_modified (set_col_no b (col_no b + 1))) = tabstop b /\
  line_no (set_modified (set_col_no b (col_no b + 1))) = line_no b /\
  col_no (set_modified (set_col_no b (col_no b + 1))) = col_no b + 1.
Proof. by rewrite set_modified_eq. Qed.

Lemma erased_state (b : buffer_t) :
  lines (place_cursor_actual (set_modified (set_col_no b (col_no b - 1))))
  = lines b /\
  line_count
    (place_cursor_actual (set_modified (set_col_no b (col_no b - 1))))
  = line_count b /\
  line_avail
    (place_cursor_actual (set_modified (set_col_no b (col_no b - 1))))
  = line_avail b /\
  modified (place_cursor_actual (set_modified (set_col_no b (col_no b - 1))))
  = true /\
  line_no (place_cursor_actual (set_modified (set_col_no b (col_no b - 1))))
  = Z.max 1 (line_no b) /\
  col_no (place_cursor_actual (set_modified (set_col_no b (col_no b - 1))))
  = Z.max 1 (col_no b - 1).
Proof. by rewrite place_cursor_actual_eq, set_modified_eq. Qed.

(** X24.  Backspace takes back a typed character: [insert_char] with a
    codepoint that is not 0, then [delete_at_cursor], leave the text
    and the cursor where they were; the buffer counts as modified. *)
Theorem backspace_undoes_insert_char `{Host} (e : buffer_t)
  (ls : list line_t) (k : nat) (l : line_t) (c : Z) :
  good_lexer e -> (loading e = false -> tabstop e ≠ 0) -> rep e ls k ->
  1 <= line_no e -> ls !! Z.to_nat (line_no e - 1) = Some l ->
  1 <= col_no e <= actual l + 1 -> c ≠ 0 ->
  exists e1 e2,
    insert_char e c = Some e1 /\
    buffer_text e1
    = <[Z.to_nat (line_no e - 1) :=
         Some (take (Z.to_nat (col_no e - 1)) (line_content l)
               ++ wrap21 c :: drop (Z.to_nat (col_no e - 1))
                                (line_content l))]>
        (buffer_text e) /\
    (line_no e1, col_no e1) = (line_no e, col_no e + 1) /\
    delete_at_cursor e1 = Some e2 /\
    buffer_text e2 = buffer_text e /\
    (line_no e2, col_no e2) = (line_no e, col_no e) /\
    modified e2 = true.
Proof.
  intros Hgood Hts Hrep Hln Hl Hcol Hc.
  destruct (line_insert_spec e ls k (mk_char (codepoint_width c) 0 c)
              (col_no e - 1) (line_no e - 1) l Hgood Hts Hrep)
    as (ls1 & Hrun1 & Hdoc1 & _); [lia|done|lia|].
  change (codepoint (mk_char (codepoint_width c) 0 c)) with (wrap21 c) in *.
  set (cp := wrap21 c) in *.
  set (lineno := line_no e - 1) in *. set (offset := col_no e - 1) in *.
  set (r1 := HISTORY_INSERT lineno offset cp) in *.
  set (n := Z.to_nat offset) in *. set (i := Z.to_nat lineno) in *.
  set (cs := line_content l) in *.
  assert (Hn : (n <= length cs)%nat).
  { unfold cs, line_content, actual, offset in *. rewrite length_fmap. lia. }
  assert (Hi : (i < length (doc_of ls))%nat).
  { rewrite doc_of_length. by eapply lookup_lt_Some. }
  destruct (doc_of_lookup_inv ls1 i (take n cs ++ cp :: drop n cs))
    as (l1 & Hl1 & Hc1).
  { rewrite Hdoc1. by apply list_lookup_insert_eq. }
  destruct (upd_good e r1 ls1 k Hgood Hts) as [Hgood1 Hts1].
  destruct (upd_unmoved e r1 ls1 k) as (_ & _ & Hln1 & Hcn1).
  pose proof (upd_rep e r1 ls1 k) as Hrep1.
  assert (He1 : insert_char e c
                = Some (set_modified
                          (set_col_no (upd e r1 ls1 k)
                             (col_no (upd e r1 ls1 k) + 1)))).
  { unfold insert_char. rewrite bool_decide_false by done.
    fold lineno offset. by rewrite Hrun1. }
  destruct (typed_state (upd e r1 ls1 k))
    as (Hv1 & Hc1' & Ha1 & Hs1 & Hlo1 & Ht1 & Hl1' & Hcn1').
  revert He1 Hv1 Hc1' Ha1 Hs1 Hlo1 Ht1 Hl1' Hcn1'.
  generalize (set_modified
                (set_col_no (upd e r1 ls1 k) (col_no (upd e r1 ls1 k) + 1))).
  revert Hgood1 Hts1 Hln1 Hcn1 Hrep1. generalize (upd e r1 ls1 k).
  intros b Hgood1 Hts1 Hln1 Hcn1 Hrep1 e1 He1 Hv1 Hc1' Ha1 Hs1 Hlo1 Ht1 Hl1'
    Hcn1'.
  assert (Hrepe1 : rep e1 ls1 k) by (by apply (rep_ext b)).
  assert (Hge1 : good_lexer e1) by (by apply (good_lexer_syntax b)).
  assert (Hte1 : loading e1 = false -> tabstop e1 ≠ 0)
    by (rewrite Hlo1, Ht1; exact Hts1).
  rewrite Hln1 in Hl1'. rewrite Hcn1 in Hcn1'.
  destruct (line_delete_spec e1 ls1 k (col_no e1 - 1) (line_no e1 - 1) l1
              cp Hge1 Hte1 Hrepe1)
    as (ls2 & Hrun2 & Hdoc2 & _).
  { lia. }
  { rewrite Hl1'. done. }
  { rewrite Hcn1', actual_content, Hc1, length_app, length_take.
    cbn [length]. rewrite length_drop. unfold offset in *. lia. }
  { rewrite Hc1, Hcn1'.
    replace (Z.to_nat (col_no e + 1 - 1 - 1)) with n by (unfold n, offset; lia).
    apply list_lookup_middle. rewrite length_take_le; lia. }
  set (r2 := HISTORY_DELETE (line_no e1 - 1) (col_no e1 - 1) cp) in *.
  destruct (upd_unmoved e1 r2 ls2 k) as (_ & _ & Hln2 & Hcn2).
  pose proof (upd_rep e1 r2 ls2 k) as Hrep2.
  assert (He2 : delete_at_cursor e1
                = Some (place_cursor_actual
                          (set_modified
                             (set_col_no (upd e1 r2 ls2 k)
                                (col_no (upd e1 r2 ls2 k) - 1))))).
  { unfold delete_at_cursor. rewrite bool_decide_true by lia.
    by rewrite Hrun2. }
  destruct (erased_state (upd e1 r2 ls2 k))
    as (Hv2 & Hc2 & Ha2 & Hm2 & Hl2 & Hcn2').
  revert He2 Hv2 Hc2 Ha2 Hm2 Hl2 Hcn2'.
  generalize (place_cursor_actual
                (set_modified
                   (set_col_no (upd e1 r2 ls2 k)
                      (col_no (upd e1 r2 ls2 k) - 1)))).
  revert Hln2 Hcn2 Hrep2. generalize (upd e1 r2 ls2 k).
  intros b2 Hln2 Hcn2 Hrep2 e2 He2 Hv2 Hc2 Ha2 Hm2 Hl2 Hcn2'.
  assert (Hrepe2 : rep e2 ls2 k) by (by apply (rep_ext b2)).
  exists e1, e2. split; [done|].
  rewrite (rep_buffer_text _ _ _ Hrep), (rep_buffer_text _ _ _ Hrepe1),
    (rep_buffer_text _ _ _ Hrepe2).
  split; [by rewrite Hdoc1, list_fmap_insert|].
  split; [by rewrite Hl1', Hcn1'|]. split; [done|].
  split; [|split; [|done]].
  - rewrite Hdoc2, Hc1, Hdoc1. f_equal. rewrite Hl1', Hcn1'. fold lineno i.
    replace (Z.to_nat (col_no e + 1 - 1 - 1)) with n
      by (unfold n, offset; lia).
    replace (Z.to_nat (col_no e + 1 - 1)) with (n + 1)%nat
      by (unfold n, offset; lia).
    rewrite <- drop_drop, take_take_app, drop_take_app by lia.
    cbn [drop]. rewrite drop_0, take_drop, list_insert_insert_eq.
    apply list_insert_id. unfold cs, doc_of. rewrite list_lookup_fmap.
    by rewrite Hl.
  - rewrite Hl2, Hcn2', Hln2, Hcn2, Hl1', Hcn1'. f_equal; lia.
Qed.

Lemma backspace_undoes_insert_char_witness :
  exists e1 e2,
    insert_char (H:=example_host) buffer_ab 120 = Some e1 /\
    buffer_text e1
    = <[Z.to_nat (line_no buffer_ab - 1) :=
         Some (take (Z.to_nat (col_no buffer_ab - 1))
                 (line_content (line_of [97; 98]))
               ++ wrap21 120 :: drop (Z.to_nat (col_no buffer_ab - 1))
                                  (line_content (line_of [97; 98])))]>
        (buffer_text buffer_ab) /\
    (line_no e1, col_no e1) = (line_no buffer_ab, col_no buffer_ab + 1) /\
    delete_at_cursor (H:=example_host) e1 = Some e2 /\
    buffer_text e2 = buffer_text buffer_ab /\
    (line_no e2, col_no e2) = (line_no buffer_ab, col_no buffer_ab) /\
    modified e2 = true.
Proof.
  apply (backspace_undoes_insert_char (H:=example_host) buffer_ab
           [line_of [97; 98]] 7 (line_of [97; 98]) 120).
  - by intros sd.
  - done.
  - done.
  - by vm_compute.
  - done.
  - by vm_compute.
  - done.
Defined.

(** ** Saving *)

Lemma clear_rev_status_spec n : forall e i ls k,
  lines e = vec ls k -> 0 <= i -> (Z.to_nat i + n <= length ls)%nat ->
  clear_rev_status n e i
  = Some (set_lines e
            (vec (take (Z.to_nat i) ls
                  ++ ((λ l, set_rev_status l 0)
                        <$> take n (drop (Z.to_nat i) ls))
                  ++ drop (Z.to_nat i + n) ls) k)).
Proof.
  induction n as [|n IH]; intros e i ls k Hv Hi Hn; cbn [clear_rev_status].
  - rewrite Nat.add_0_r, take_0. cbn [fmap list_fmap app].
    rewrite take_drop. by rewrite set_lines_same.
  - destruct (lookup_lt_is_Some_2 ls (Z.to_nat i)) as [l Hl]; [lia|].
    rewrite (line_at_vec _ _ _ _ Hv), bool_decide_true, Hl by done.
    cbn [mbind option_bind].
    rewrite (put_line_vec _ _ _ _ _ Hv) by lia. cbn [mbind option_bind].
    rewrite (IH _ (i + 1) (<[Z.to_nat i := set_rev_status l 0]> ls) k);
      [|done|lia|rewrite length_insert; lia].
    f_equal. unfold set_lines. cbn. f_equal. f_equal.
    replace (Z.to_nat (i + 1)) with (S (Z.to_nat i)) by lia.
    set (j := Z.to_nat i) in *.
    assert (Hj : (j < length ls)%nat) by (by eapply lookup_lt_Some).
    rewrite (take_S_r _ _ (set_rev_status l 0))
      by (by apply list_lookup_insert_eq).
    rewrite take_insert_ge by lia.
    rewrite drop_insert_lt by lia.
    rewrite (drop_S ls l j Hl). cbn [take fmap list_fmap].
    rewrite <- app_assoc. cbn [app].
    rewrite drop_insert_lt by lia.
    by replace (S j + n)%nat with (j + S n)%nat by lia.
Qed.


